(** * FOEDUS storage core: Masstree and array storages

    A shallow embedding of
      - foedus/storage/array/array_storage_pimpl.cpp
      - foedus/storage/masstree/masstree_storage_pimpl.cpp
    Unsigned C++ integers are [Z] with the wrap-around written out, structs
    are records, pages live in finite maps keyed by their volatile address,
    and the code that reads memory another thread may be writing reads a
    memory that is a function of a logical clock. *)

From Stdlib Require Import ZArith List Bool Lia.
From Stdlib.Strings Require Import Byte.
From Stdlib Require PrimFloat SpecFloat FloatOps.
From stdpp Require Import base option list gmap.

Local Open Scope Z_scope.

(** * Error codes (the subset of [ErrorCode] the two files return) *)

Inductive ErrorCode : Type :=
  | kErrorCodeOk
  | kErrorCodeStrKeyNotFound
  | kErrorCodeStrAlreadyExists
  | kErrorCodeStrMasstreeRetry
  | kErrorCodeStrTooSmallPayloadBuffer
  | kErrorCodeStrTooShortPayload
  | kErrorCodeStrTooLongPayload
  | kErrorCodeMemoryNoFreePages
  | kErrorCodeNotimplemented
  | kErrorCodeXctReadSetOverflow
  | kErrorCodeXctWriteSetOverflow
  | kErrorCodeXctPointerSetOverflow.

#[global] Instance ErrorCode_eq_dec : EqDecision ErrorCode.
Proof. solve_decision. Defined.

(** Fixed-width unsigned integers: the value kept in a [uintN_t] variable. *)
Definition to_uint8 (v : Z) : Z := v mod 2 ^ 8.
Definition to_uint16 (v : Z) : Z := v mod 2 ^ 16.
Definition to_uint64 (v : Z) : Z := v mod 2 ^ 64.

(** * Array storage: pages per level and number of levels *)

Module Array.

(** Modelled from the spec: [assorted::align8] and [assorted::int_div_ceil]
    live in assorted_func.hpp, which is not among the sources.  [align8]
    rounds up to a multiple of 8; [int_div_ceil] is the quotient rounded up
    ("repeatedly divide page counts by the interior fanout (rounding up)").
    An integer division by zero has no result. *)
Definition align8 (v : Z) : Z := (v + 7) / 8 * 8.

Definition int_div_ceil (left right : Z) : option Z :=
  if right =? 0 then None
  else Some (if left mod right =? 0 then left / right else left / right + 1).

Record ArrayMetadata : Type := mkArrayMetadata {
  payload_size_ : Z;   (* uint16_t *)
  array_size_ : Z      (* ArrayOffset, uint64_t *)
}.

Section Levels.

(** The page-layout constants come from array_id.hpp and array_page_impl.hpp,
    neither of which is among the sources. *)
Variable kDataSize : Z.
Variable kRecordOverhead : Z.
Variable kInteriorFanout : Z.

(** [kDataSize / (payload + kRecordOverhead)], both functions' first step.
    [payload] is a [uint16_t] variable assigned from [align8]. *)
Definition records_per_page (payload_size : Z) : option Z :=
  let payload := to_uint16 (align8 payload_size) in
  if payload + kRecordOverhead =? 0 then None
  else Some (kDataSize / (payload + kRecordOverhead)).

(** [while (pages.back() != 1) { pages.push_back(int_div_ceil(pages.back(),
    kInteriorFanout)); }].  The vector is a list, [push_back] appends at the
    end.  [total_pages] is only logged and is left out. *)
Fixpoint push_interior_levels (fuel : nat) (pages : list Z) : option (list Z) :=
  match fuel with
  | O => None
  | S fuel' =>
      if List.last pages 0 =? 1 then Some pages
      else
        match int_div_ceil (List.last pages 0) kInteriorFanout with
        | None => None
        | Some next_level_pages =>
            push_interior_levels fuel' (pages ++ [next_level_pages])
        end
  end.

Definition calculate_required_pages (fuel : nat) (array_size payload : Z)
  : option (list Z) :=
  match records_per_page payload with
  | None => None
  | Some records_per_page =>
      match int_div_ceil array_size records_per_page with
      | None => None
      | Some leaf_pages => push_interior_levels fuel [leaf_pages]
      end
  end.

(** [for (pages = ...; pages != 1; pages = int_div_ceil(pages, kInteriorFanout))
    ++levels;] with [levels] a [uint8_t]. *)
Fixpoint count_levels (fuel : nat) (levels pages : Z) : option Z :=
  match fuel with
  | O => None
  | S fuel' =>
      if pages =? 1 then Some levels
      else
        match int_div_ceil pages kInteriorFanout with
        | None => None
        | Some pages' => count_levels fuel' (to_uint8 (levels + 1)) pages'
        end
  end.

Definition calculate_levels (fuel : nat) (metadata : ArrayMetadata) : option Z :=
  match records_per_page (payload_size_ metadata) with
  | None => None
  | Some records_per_page =>
      match int_div_ceil (array_size_ metadata) records_per_page with
      | None => None
      | Some pages => count_levels fuel 1 pages
      end
  end.

End Levels.

End Array.

(** * Masstree page version word *)

Module PageVersion.

(** Modelled from the spec: masstree_page_version.hpp is not among the
    sources.  The spec (4.2) packs into one 64-bit word, in this order from
    bit 0: lock bit, inserting bit, splitting bit, has-foster-child bit,
    is-root bit, is-border bit, is-high-fence-supremum bit, key count
    (7 bits), insert counter (8 bits), split counter (32 bits). *)
Definition kPageVersionLockedBit : Z := Z.shiftl 1 0.
Definition kPageVersionInsertingBit : Z := Z.shiftl 1 1.
Definition kPageVersionSplittingBit : Z := Z.shiftl 1 2.
Definition kPageVersionHasFosterChildBit : Z := Z.shiftl 1 3.
Definition kPageVersionIsRootBit : Z := Z.shiftl 1 4.
Definition kPageVersionIsBorderBit : Z := Z.shiftl 1 5.
Definition kPageVersionIsSupremumBit : Z := Z.shiftl 1 6.
Definition kPageVersionKeyCountShifts : Z := 7.
Definition kPageVersionKeyCountBits : Z := 7.
Definition kPageVersionInsertionCounterShifts : Z := 14.
Definition kPageVersionInsertionCounterBits : Z := 8.
Definition kPageVersionSplitCounterShifts : Z := 22.
Definition kPageVersionSplitCounterBits : Z := 32.

(** A field of [bits] bits at [shift]. *)
Definition get_field (shift bits data : Z) : Z :=
  Z.land (Z.shiftr data shift) (Z.ones bits).

Definition set_field (shift bits data value : Z) : Z :=
  Z.lor (Z.land data (Z.lnot (Z.shiftl (Z.ones bits) shift)))
        (Z.shiftl (Z.land value (Z.ones bits)) shift).

Definition has_bit (bit data : Z) : bool := negb (Z.land data bit =? 0).
Definition set_bit (bit data : Z) : Z := Z.lor data bit.
Definition clear_bit (bit data : Z) : Z := Z.land data (Z.lnot bit).

Definition is_locked := has_bit kPageVersionLockedBit.
Definition is_inserting := has_bit kPageVersionInsertingBit.
Definition is_splitting := has_bit kPageVersionSplittingBit.
Definition has_foster_child := has_bit kPageVersionHasFosterChildBit.
Definition is_root := has_bit kPageVersionIsRootBit.
Definition is_border := has_bit kPageVersionIsBorderBit.
Definition is_high_fence_supremum := has_bit kPageVersionIsSupremumBit.

Definition get_key_count : Z -> Z :=
  get_field kPageVersionKeyCountShifts kPageVersionKeyCountBits.
Definition get_insert_counter : Z -> Z :=
  get_field kPageVersionInsertionCounterShifts kPageVersionInsertionCounterBits.
Definition get_split_counter : Z -> Z :=
  get_field kPageVersionSplitCounterShifts kPageVersionSplitCounterBits.

Definition set_key_count (data count : Z) : Z :=
  set_field kPageVersionKeyCountShifts kPageVersionKeyCountBits data count.

Definition set_has_foster_child (data : Z) (b : bool) : Z :=
  if b then set_bit kPageVersionHasFosterChildBit data
  else clear_bit kPageVersionHasFosterChildBit data.

(** "incrementing [inserting] and then [key_count]" (spec 4.5). *)
Definition set_inserting_and_increment_key_count (data : Z) : Z :=
  let data := set_bit kPageVersionInsertingBit data in
  set_key_count data (get_key_count data + 1).

(** The lock bit is taken by a compare-and-swap on an unlocked word. *)
Definition lock_version (data : Z) : Z := set_bit kPageVersionLockedBit data.

(** "unlock() - clears flags, increments the appropriate counter (insert or
    split), and releases the lock" (spec 4.2). *)
Definition unlock_version (data : Z) : Z :=
  let data :=
    if is_inserting data then
      set_field kPageVersionInsertionCounterShifts kPageVersionInsertionCounterBits
        data (get_insert_counter data + 1)
    else data in
  let data :=
    if is_splitting data then
      set_field kPageVersionSplitCounterShifts kPageVersionSplitCounterBits
        data (get_split_counter data + 1)
    else data in
  clear_bit kPageVersionLockedBit
    (clear_bit kPageVersionInsertingBit
       (clear_bit kPageVersionSplittingBit data)).

(** The version word of a freshly initialised page. *)
Definition initial_version (root border supremum foster locked : bool) : Z :=
  let data := 0 in
  let data := if root then set_bit kPageVersionIsRootBit data else data in
  let data := if border then set_bit kPageVersionIsBorderBit data else data in
  let data := if supremum then set_bit kPageVersionIsSupremumBit data else data in
  let data := if foster then set_bit kPageVersionHasFosterChildBit data else data in
  if locked then set_bit kPageVersionLockedBit data else data.

End PageVersion.

(** * Record owner-id *)

Module XctId.

(** Modelled from the spec: xct_id.hpp and epoch.hpp are not among the
    sources.  An owner-id is a "64-bit word combining epoch, in-epoch
    ordinal, lock bit, deleted bit, moved bit" (spec 3); the spec gives no
    bit positions, so the word is kept as its fields.  The ordinal is the
    [uint16_t] that [get_ordinal] returns in create_next_layer. *)
Definition Epoch : Type := Z.

Record t : Type := mk {
  epoch_ : Epoch;
  ordinal_ : Z;          (* uint16_t *)
  thread_id_ : Z;
  keylock_bit : bool;
  deleted_bit : bool;
  moved_bit : bool
}.

#[global] Instance t_eq_dec : EqDecision t.
Proof. solve_decision. Defined.

Definition set_clean (epoch_int ordinal thread_id : Z) : t :=
  mk epoch_int (to_uint16 ordinal) thread_id false false false.

Definition get_epoch (x : t) : Epoch := epoch_ x.
Definition get_ordinal (x : t) : Z := ordinal_ x.
Definition is_keylocked (x : t) : bool := keylock_bit x.
Definition is_deleted (x : t) : bool := deleted_bit x.
Definition is_moved (x : t) : bool := moved_bit x.

Definition set_epoch (x : t) (e : Epoch) : t :=
  mk e (ordinal_ x) (thread_id_ x) (keylock_bit x) (deleted_bit x) (moved_bit x).
Definition set_ordinal (x : t) (ordinal : Z) : t :=
  mk (epoch_ x) (to_uint16 ordinal) (thread_id_ x) (keylock_bit x) (deleted_bit x)
     (moved_bit x).
Definition set_deleted (x : t) : t :=
  mk (epoch_ x) (ordinal_ x) (thread_id_ x) (keylock_bit x) true (moved_bit x).
Definition set_notdeleted (x : t) : t :=
  mk (epoch_ x) (ordinal_ x) (thread_id_ x) (keylock_bit x) false (moved_bit x).
Definition keylock (x : t) : t :=
  mk (epoch_ x) (ordinal_ x) (thread_id_ x) true (deleted_bit x) (moved_bit x).
Definition release_keylock (x : t) : t :=
  mk (epoch_ x) (ordinal_ x) (thread_id_ x) false (deleted_bit x) (moved_bit x).

End XctId.

(** * Page pointers *)

(** Modelled from the spec: storage_id.hpp is not among the sources.  A
    volatile pointer is a 64-bit union of [word] and the components NUMA node,
    flags, mod-count and pool offset ("the volatile reference carries flags
    (swappable-root, mod-count)", spec 3); assigning [word] assigns the four
    components.  The mod-count is 16 bits wide. *)
Record VolatilePagePointer : Type := mkVolatilePagePointer {
  numa_node : Z;
  flags : Z;
  mod_count : Z;
  offset : Z
}.

#[global] Instance VolatilePagePointer_eq_dec : EqDecision VolatilePagePointer.
Proof. solve_decision. Defined.

Definition kVolatilePointerFlagSwappable : Z := 1.

Definition combine_volatile_page_pointer (node flags mod_count offset : Z)
  : VolatilePagePointer :=
  mkVolatilePagePointer node flags (to_uint16 mod_count) offset.

Definition set_flags (p : VolatilePagePointer) (f : Z) : VolatilePagePointer :=
  mkVolatilePagePointer (numa_node p) f (mod_count p) (offset p).

Definition null_volatile_pointer : VolatilePagePointer :=
  mkVolatilePagePointer 0 0 0 0.

Record DualPagePointer : Type := mkDualPagePointer {
  snapshot_pointer_ : Z;
  volatile_pointer_ : VolatilePagePointer
}.

#[global] Instance DualPagePointer_eq_dec : EqDecision DualPagePointer.
Proof. solve_decision. Defined.

Definition null_dual_pointer : DualPagePointer :=
  mkDualPagePointer 0 null_volatile_pointer.

(** The address a volatile pointer resolves to: the page at [offset] in the
    pool of [numa_node].  Flags and mod-count play no part. *)
Definition PageAddr : Type := (Z * Z)%type.

Definition resolve_offset (p : VolatilePagePointer) : PageAddr :=
  (numa_node p, offset p).

(** The thread's context: the constants of [thread::Thread] the code reads. *)
Record Thread : Type := mkThread {
  get_numa_node : Z;
  get_thread_id : Z
}.

Definition local_resolve_offset (context : Thread) (offset : Z) : PageAddr :=
  (get_numa_node context, offset).

(** * Pages *)

Definition KeySlice : Type := Z.   (* uint64_t *)
Definition kInfimumSlice : KeySlice := 0.
Definition kSupremumSlice : KeySlice := 2 ^ 64 - 1.

(** Modelled from the spec: masstree_page_impl.hpp is not among the sources.
    A border slot holds "hash slice, key length, suffix offset, owner-id word,
    payload length" and its part of the record area, the key suffix followed
    by the payload; "a slot may be a next-layer pointer instead of a record"
    (spec 3). *)
Record BorderSlot : Type := mkBorderSlot {
  slice_ : KeySlice;
  remaining_key_length_ : Z;               (* uint8_t *)
  payload_length_ : Z;                     (* uint16_t *)
  owner_id_ : XctId.t;
  suffix_ : list byte;
  payload_ : list byte;
  next_layer_ : option DualPagePointer     (* [Some]: the slot points to a layer *)
}.

(** A minipage of an intermediate page: its own version word, separators and
    child pointers (spec 3). *)
Record MiniPage : Type := mkMiniPage {
  mini_version_ : Z;
  separators_ : list KeySlice;
  pointers_ : list DualPagePointer
}.

Inductive PageBody : Type :=
  | BorderBody (slots : list BorderSlot)
  | IntermediateBody (separators : list KeySlice) (mini_pages : list MiniPage).

Record MasstreePage : Type := mkMasstreePage {
  page_id_ : VolatilePagePointer;          (* header().page_id_ *)
  storage_id_ : Z;
  snapshot_ : bool;                        (* header().snapshot_ *)
  layer_ : Z;
  page_version_ : Z;                       (* the version word, [data_] *)
  low_fence_ : KeySlice;
  high_fence_ : KeySlice;
  foster_fence_ : KeySlice;
  foster_child_ : option PageAddr;         (* [None] is [nullptr] *)
  body_ : PageBody
}.

(** Array pages (array_page_impl.hpp is not among the sources): a leaf holds
    records "sequentially indexed by offset", an interior page "a fixed fanout
    of dual pointers" (spec 3).  A record is its owner-id and its payload. *)
Record Record_ : Type := mkRecord {
  record_owner_id_ : XctId.t;
  record_payload_ : list byte
}.

Inductive ArrayPage : Type :=
  | ArrayLeaf (records : list Record_)
  | ArrayInterior (interior : list DualPagePointer).

(** * Transaction context and log *)

(** Where an owner-id lives: a slot of a Masstree border page, or a record
    of an array leaf page. *)
Inductive OwnerAddr : Type :=
  | BorderOwner (page : PageAddr) (index : Z)
  | ArrayOwner (page : PageAddr) (index : Z).

(** Where a [DualPagePointer] lives: the storage's first-root pointer, the
    next-layer pointer of a border slot, or a child pointer of a minipage. *)
Inductive PointerAddr : Type :=
  | FirstRootPointer
  | NextLayerPointer (page : PageAddr) (index : Z)
  | MiniPagePointer (page : PageAddr) (minipage_index pointer_index : Z).

#[global] Instance PointerAddr_eq_dec : EqDecision PointerAddr.
Proof. solve_decision. Defined.

(** The redo records the two files populate. *)
Inductive LogRecord : Type :=
  | ArrayOverwriteLog (storage_id offset : Z) (payload : list byte)
      (payload_offset payload_count : Z)
  | MasstreeOverwriteLog (storage_id : Z) (be_key : list byte) (key_length : Z)
      (payload : list byte) (payload_offset payload_count : Z) (layer : Z).

(** Modelled from the spec: xct.hpp is not among the sources.  "Read-set:
    (storage, owner-id address, observed XctId).  Write-set: (storage, owner-id
    address, record address, log-record pointer).  Pointer-set:
    (volatile-pointer address, observed value). ... All entries are append-only
    within a transaction" (spec 3).  The sets are bounded; an append to a full
    set is the error the source propagates from [add_to_*]. *)
Record Xct : Type := mkXct {
  pointer_set_ : list (PointerAddr * VolatilePagePointer);
  read_set_ : list (OwnerAddr * XctId.t);
  write_set_ : list (OwnerAddr * LogRecord);
  max_pointer_set_size_ : nat;
  max_read_set_size_ : nat;
  max_write_set_size_ : nat
}.

(** * Machine state *)

(** The memory all threads share. *)
Record Shared : Type := mkShared {
  masstree_pages : gmap PageAddr MasstreePage;
  array_pages : gmap PageAddr ArrayPage;
  first_root_pointer_ : DualPagePointer
}.

(** What one thread runs on: the shared memory, the thread's free-page pool,
    its transaction, its log buffer, and a logical clock that counts the
    thread's reads of shared memory. *)
Record State : Type := mkState {
  shared : Shared;
  free_pages : list Z;
  current_xct : Xct;
  thread_log_buffer : list LogRecord;
  clock : nat
}.

Definition set_shared (s : State) (sh : Shared) : State :=
  mkState sh (free_pages s) (current_xct s) (thread_log_buffer s) (clock s).
Definition set_free_pages (s : State) (l : list Z) : State :=
  mkState (shared s) l (current_xct s) (thread_log_buffer s) (clock s).
Definition set_current_xct (s : State) (x : Xct) : State :=
  mkState (shared s) (free_pages s) x (thread_log_buffer s) (clock s).
Definition set_thread_log_buffer (s : State) (l : list LogRecord) : State :=
  mkState (shared s) (free_pages s) (current_xct s) l (clock s).

Definition set_masstree_pages (sh : Shared) (m : gmap PageAddr MasstreePage) : Shared :=
  mkShared m (array_pages sh) (first_root_pointer_ sh).
Definition set_first_root_pointer (sh : Shared) (p : DualPagePointer) : Shared :=
  mkShared (masstree_pages sh) (array_pages sh) p.

(** A computation: [None] when a spin or retry loop ran out of fuel, or the
    code dereferenced an address that holds no page. *)
Definition M (A : Type) : Type := State -> option (A * State).

Definition ret {A : Type} (a : A) : M A := fun s => Some (a, s).
Definition bind {A B : Type} (m : M A) (f : A -> M B) : M B :=
  fun s => match m s with
           | Some (a, s') => f a s'
           | None => None
           end.
Definition fault {A : Type} : M A := fun _ => None.
Definition get_state : M State := fun s => Some (s, s).
Definition put_state (s : State) : M unit := fun _ => Some (tt, s).

(** The state a computation leaves behind ([s] itself if it has no result). *)
Definition exec {A : Type} (m : M A) (s : State) : State :=
  match m s with
  | Some (_, s') => s'
  | None => s
  end.

Declare Scope m_scope.
Delimit Scope m_scope with M.
Notation "'let*' x ':=' m 'in' k" := (bind m (fun x => k))
  (at level 10, x binder, m at level 200, k at level 200) : m_scope.
Notation "'let*' ' pat ':=' m 'in' k" :=
  (bind m (fun x => match x with pat => k end))
  (at level 10, pat pattern, m at level 200, k at level 200) : m_scope.
Local Open Scope m_scope.

(** The result of a function that returns an [ErrorCode] and, when that is
    [kErrorCodeOk], has written its out-parameters. *)
Inductive Res (A : Type) : Type :=
  | Ok (a : A)
  | Err (e : ErrorCode).
Arguments Ok {A} a.
Arguments Err {A} e.

Definition code_of {A : Type} (r : Res A) : ErrorCode :=
  match r with
  | Ok _ => kErrorCodeOk
  | Err e => e
  end.

Definition check {A : Type} (e : ErrorCode) (k : M (Res A)) : M (Res A) :=
  if decide (e = kErrorCodeOk) then k else ret (Err e).

(** [while (true) { ... }]: the body either [continue]s with the loop
    variables updated or [return]s. *)
Inductive Loop (V R : Type) : Type :=
  | Continue (v : V)
  | Return (r : R).
Arguments Continue {V R} v.
Arguments Return {V R} r.

Fixpoint while_true {V R : Type} (fuel : nat) (body : V -> M (Loop V R)) (s : V)
  : M R :=
  match fuel with
  | O => fault
  | S fuel' =>
      let* c := body s in
      match c with
      | Continue s' => while_true fuel' body s'
      | Return r => ret r
      end
  end.

(** * Masstree pages *)

Module MasstreePageImpl.

Import PageVersion.

(** Sizes of an intermediate page (spec 3: "an outer minipage selector (up to
    16) each containing up to 16 child separators and pointers"). *)
Definition kMaxIntermediateMiniPages : nat := 16.
Definition kMaxIntermediateMiniPointers : nat := 16.

Definition empty_slot : BorderSlot :=
  mkBorderSlot 0 0 0 (XctId.mk 0 0 0 false false false) [] [] None.

Definition empty_minipage : MiniPage :=
  mkMiniPage 0 (replicate kMaxIntermediateMiniPointers 0)
    (replicate kMaxIntermediateMiniPointers null_dual_pointer).

Definition set_page_version (pg : MasstreePage) (v : Z) : MasstreePage :=
  mkMasstreePage (page_id_ pg) (storage_id_ pg) (snapshot_ pg) (layer_ pg) v
    (low_fence_ pg) (high_fence_ pg) (foster_fence_ pg) (foster_child_ pg) (body_ pg).
Definition set_foster_child (pg : MasstreePage) (c : option PageAddr) : MasstreePage :=
  mkMasstreePage (page_id_ pg) (storage_id_ pg) (snapshot_ pg) (layer_ pg)
    (page_version_ pg) (low_fence_ pg) (high_fence_ pg) (foster_fence_ pg) c (body_ pg).
Definition set_body (pg : MasstreePage) (b : PageBody) : MasstreePage :=
  mkMasstreePage (page_id_ pg) (storage_id_ pg) (snapshot_ pg) (layer_ pg)
    (page_version_ pg) (low_fence_ pg) (high_fence_ pg) (foster_fence_ pg)
    (foster_child_ pg) b.

(** Page accessors, modelled from the spec: fences are "low inclusive, high
    exclusive; a supremum bit marks the upper sentinel"; "while a foster child
    exists, the parent's key range is split at [foster_fence]". *)
Definition within_fences (pg : MasstreePage) (slice : KeySlice) : bool :=
  (low_fence_ pg <=? slice)
  && (is_high_fence_supremum (page_version_ pg) || (slice <? high_fence_ pg)).

Definition within_foster_child (pg : MasstreePage) (slice : KeySlice) : bool :=
  foster_fence_ pg <=? slice.

Definition clear_foster (pg : MasstreePage) : MasstreePage :=
  set_page_version (set_foster_child pg None)
    (set_has_foster_child (page_version_ pg) false).

Definition get_slot (pg : MasstreePage) (index : Z) : option BorderSlot :=
  match body_ pg with
  | BorderBody slots => slots !! Z.to_nat index
  | IntermediateBody _ _ => None
  end.

Definition set_slot (pg : MasstreePage) (index : Z) (slot : BorderSlot) : MasstreePage :=
  match body_ pg with
  | BorderBody slots => set_body pg (BorderBody (<[Z.to_nat index := slot]> slots))
  | IntermediateBody _ _ => pg
  end.

Definition get_minipage (pg : MasstreePage) (index : Z) : option MiniPage :=
  match body_ pg with
  | IntermediateBody _ mini_pages => mini_pages !! Z.to_nat index
  | BorderBody _ => None
  end.

Definition set_minipage (pg : MasstreePage) (index : Z) (mp : MiniPage) : MasstreePage :=
  match body_ pg with
  | IntermediateBody seps mini_pages =>
      set_body pg (IntermediateBody seps (<[Z.to_nat index := mp]> mini_pages))
  | BorderBody _ => pg
  end.

Definition does_point_to_layer (slot : BorderSlot) : bool :=
  match next_layer_ slot with
  | Some _ => true
  | None => false
  end.

Definition get_suffix_length (slot : BorderSlot) : Z := Z.of_nat (length (suffix_ slot)).
Definition get_record (slot : BorderSlot) : list byte := suffix_ slot ++ payload_ slot.

Definition set_owner_id (slot : BorderSlot) (x : XctId.t) : BorderSlot :=
  mkBorderSlot (slice_ slot) (remaining_key_length_ slot) (payload_length_ slot) x
    (suffix_ slot) (payload_ slot) (next_layer_ slot).

Definition set_next_layer (slot : BorderSlot) (pointer : DualPagePointer) : BorderSlot :=
  mkBorderSlot (slice_ slot) (remaining_key_length_ slot) (payload_length_ slot)
    (owner_id_ slot) (suffix_ slot) (payload_ slot) (Some pointer).

(** The first separator the slice is below, among the first [count]; [count]
    itself when there is none ("separator scan", spec 4.5). *)
Fixpoint scan_separators (count : nat) (separators : list KeySlice)
    (slice : KeySlice) (i : Z) : Z :=
  match count, separators with
  | S n, sep :: rest =>
      if slice <? sep then i else scan_separators n rest slice (i + 1)
  | _, _ => i
  end.

Definition find_minipage (pg : MasstreePage) (stable_separator_count : Z)
    (slice : KeySlice) : Z :=
  match body_ pg with
  | IntermediateBody separators _ =>
      scan_separators (Z.to_nat stable_separator_count) separators slice 0
  | BorderBody _ => 0
  end.

Definition find_pointer (mp : MiniPage) (stable_separator_count : Z)
    (slice : KeySlice) : Z :=
  scan_separators (Z.to_nat stable_separator_count) (separators_ mp) slice 0.

(** Modelled from the spec: [slice_layer] is declared in masstree_id.hpp, not
    among the sources.  "Keys longer than 8 bytes are split into 8-byte
    slices.  Layer k is indexed by the k-th slice" (spec 4.5); a slice compares
    as the big-endian number of its bytes, a short last slice padded with
    zero bytes. *)
Fixpoint be_value (bytes : list byte) (acc : Z) : Z :=
  match bytes with
  | [] => acc
  | b :: rest => be_value rest (acc * 256 + Z.of_N (Byte.to_N b))
  end.

Definition slice_layer (key : list byte) (key_length : Z) (current_layer : Z)
  : KeySlice :=
  let bytes := take 8 (drop (Z.to_nat (current_layer * 8))
                         (take (Z.to_nat key_length) key)) in
  be_value (bytes ++ replicate (8 - length bytes) x00) 0.

Fixpoint bytes_eqb (a b : list byte) : bool :=
  match a, b with
  | [], [] => true
  | x :: a', y :: b' => Byte.eqb x y && bytes_eqb a' b'
  | _, _ => false
  end.

(** Modelled from the spec: "Linear scan of slots up to [stable_key_count],
    matching on hash first, then key length, then suffix.  If the slot is a
    next-layer pointer whose slice matches and the query has more bytes,
    recurse into the next layer" (spec 4.5).  The scan returns the index of
    the first such slot and [kMaxKeys] when there is none. *)
Definition slot_matches (slot : BorderSlot) (slice : KeySlice) (suffix : list byte)
    (remaining : Z) : bool :=
  (slice_ slot =? slice)
  && (((remaining_key_length_ slot =? remaining)
       && negb (does_point_to_layer slot)
       && ((remaining <=? 8)
           || bytes_eqb (take (Z.to_nat (remaining - 8)) suffix) (suffix_ slot)))
      || ((8 <? remaining) && does_point_to_layer slot)).

Fixpoint scan_slots (kMaxKeys : Z) (count : nat) (slots : list BorderSlot)
    (slice : KeySlice) (suffix : list byte) (remaining : Z) (i : Z) : Z :=
  match count, slots with
  | S n, slot :: rest =>
      if slot_matches slot slice suffix remaining then i
      else scan_slots kMaxKeys n rest slice suffix remaining (i + 1)
  | _, _ => kMaxKeys
  end.

Definition find_key (kMaxKeys : Z) (pg : MasstreePage) (stable_key_count : Z)
    (slice : KeySlice) (suffix : list byte) (remaining : Z) : Z :=
  match body_ pg with
  | BorderBody slots =>
      scan_slots kMaxKeys (Z.to_nat stable_key_count) slots slice suffix remaining 0
  | IntermediateBody _ _ => kMaxKeys
  end.

(** Modelled from the spec: [initialize_volatile_page] sets the header, the
    fences, the foster link and the flags of the version word, and leaves an
    empty body; a border page has room for [kMaxKeys] slots. *)
Definition initialize_volatile_page (kMaxKeys : Z) (border : bool)
    (storage_id : Z) (page_id : VolatilePagePointer) (layer : Z) (root : bool)
    (low_fence high_fence : KeySlice) (is_high_fence_supremum : bool)
    (foster_fence : KeySlice) (foster_child : option PageAddr)
    (initially_locked : bool) : MasstreePage :=
  mkMasstreePage page_id storage_id false layer
    (initial_version root border is_high_fence_supremum
       (match foster_child with Some _ => true | None => false end)
       initially_locked)
    low_fence high_fence foster_fence foster_child
    (if border then BorderBody (replicate (Z.to_nat kMaxKeys) empty_slot)
     else IntermediateBody (replicate kMaxIntermediateMiniPages 0)
            (replicate kMaxIntermediateMiniPages empty_minipage)).

End MasstreePageImpl.

(** * Payload types *)

(** The numeric types the [increment] templates are instantiated at
    ([INSTANTIATE_ALL_NUMERIC_TYPES]): the size of a value, how the bytes of
    the record area are read as a value and a value is written as bytes, and
    [+=]. *)
Class PayloadType (T : Type) : Type := {
  sizeof : Z;
  of_bytes : list byte -> T;
  to_bytes : T -> list byte;
  plus : T -> T -> T
}.

(** The unsigned integer of [n] bytes, little-endian, with wrap-around. *)
Fixpoint le_value (bytes : list byte) : Z :=
  match bytes with
  | [] => 0
  | b :: rest => Z.of_N (Byte.to_N b) + 256 * le_value rest
  end.

Fixpoint le_bytes (n : nat) (v : Z) : list byte :=
  match n with
  | O => []
  | S n' =>
      match Byte.of_N (Z.to_N (v mod 256)) with
      | Some b => b :: le_bytes n' (v / 256)
      | None => x00 :: le_bytes n' (v / 256)
      end
  end.

Definition uint_payload (n : nat) : PayloadType Z := {|
  sizeof := Z.of_nat n;
  of_bytes := fun bytes => le_value (take n bytes);
  to_bytes := le_bytes n;
  plus := fun a b => (a + b) mod 2 ^ (8 * Z.of_nat n)
|}.







(** [std::memcpy(dst, src, n)] for [n] within both. *)
Definition memcpy (dst src : list byte) (n : Z) : list byte :=
  take (Z.to_nat n) src ++ drop (Z.to_nat n) dst.

(** * Access to memory *)

Module Memory.

Import PageVersion MasstreePageImpl.

Section Memory.

(** What the other threads do to the shared memory between two of this
    thread's reads: at the thread's [n]-th read of shared memory, the memory
    has become [env n] of what it was. *)
Variable env : nat -> Shared -> Shared.

Definition tick : M unit :=
  fun s =>
    Some (tt, mkState (env (clock s) (shared s)) (free_pages s) (current_xct s)
                (thread_log_buffer s) (S (clock s))).

(** Access by the holder of the lock that protects the object: no other thread
    writes it meanwhile. *)
Definition get_page (p : PageAddr) : M MasstreePage :=
  fun s => match masstree_pages (shared s) !! p with
           | Some pg => Some (pg, s)
           | None => None
           end.

Definition put_page (p : PageAddr) (pg : MasstreePage) : M unit :=
  fun s =>
    Some (tt, set_shared s (set_masstree_pages (shared s)
                              (<[p := pg]> (masstree_pages (shared s))))).

(** An unprotected read of a page: the page as it is at that instant. *)
Definition load_page (p : PageAddr) : M MasstreePage :=
  let* _ := tick in get_page p.

Definition load_slot (p : PageAddr) (index : Z) : M BorderSlot :=
  let* pg := load_page p in
  match get_slot pg index with
  | Some slot => ret slot
  | None => fault
  end.

Definition load_minipage (p : PageAddr) (index : Z) : M MiniPage :=
  let* pg := load_page p in
  match get_minipage pg index with
  | Some mp => ret mp
  | None => fault
  end.

Definition load_array_page (p : PageAddr) : M ArrayPage :=
  let* _ := tick in
  fun s => match array_pages (shared s) !! p with
           | Some pg => Some (pg, s)
           | None => None
           end.

Definition load_record (p : PageAddr) (index : Z) : M Record_ :=
  let* pg := load_array_page p in
  match pg with
  | ArrayLeaf records =>
      match records !! Z.to_nat index with
      | Some r => ret r
      | None => fault
      end
  | ArrayInterior _ => fault
  end.

Definition load_owner_id (a : OwnerAddr) : M XctId.t :=
  match a with
  | BorderOwner p index => let* slot := load_slot p index in ret (owner_id_ slot)
  | ArrayOwner p index => let* r := load_record p index in ret (record_owner_id_ r)
  end.

(** The [DualPagePointer] at an address, read by a thread that holds the lock
    protecting it. *)
Definition get_pointer (a : PointerAddr) : M DualPagePointer :=
  match a with
  | FirstRootPointer => fun s => Some (first_root_pointer_ (shared s), s)
  | NextLayerPointer p index =>
      let* pg := get_page p in
      match get_slot pg index with
      | Some (mkBorderSlot _ _ _ _ _ _ (Some pointer)) => ret pointer
      | _ => fault
      end
  | MiniPagePointer p minipage_index pointer_index =>
      let* pg := get_page p in
      match get_minipage pg minipage_index with
      | Some mp =>
          match pointers_ mp !! Z.to_nat pointer_index with
          | Some pointer => ret pointer
          | None => fault
          end
      | None => fault
      end
  end.

Definition put_pointer (a : PointerAddr) (pointer : DualPagePointer) : M unit :=
  match a with
  | FirstRootPointer =>
      fun s => Some (tt, set_shared s (set_first_root_pointer (shared s) pointer))
  | NextLayerPointer p index =>
      let* pg := get_page p in
      match get_slot pg index with
      | Some slot => put_page p (set_slot pg index (set_next_layer slot pointer))
      | None => fault
      end
  | MiniPagePointer p minipage_index pointer_index =>
      let* pg := get_page p in
      match get_minipage pg minipage_index with
      | Some mp =>
          put_page p
            (set_minipage pg minipage_index
               (mkMiniPage (mini_version_ mp) (separators_ mp)
                  (<[Z.to_nat pointer_index := pointer]> (pointers_ mp))))
      | None => fault
      end
  end.


(** An unprotected read of the pointer. *)
Definition load_pointer (a : PointerAddr) : M DualPagePointer :=
  let* _ := tick in get_pointer a.

(** "[stable_version()] - spin-read until the lock bit is clear; returns the
    observed word by value" (spec 4.2). *)
Fixpoint get_stable_version (fuel : nat) (p : PageAddr) : M Z :=
  match fuel with
  | O => fault
  | S fuel' =>
      let* pg := load_page p in
      if is_locked (page_version_ pg) then get_stable_version fuel' p
      else ret (page_version_ pg)
  end.

Fixpoint mini_get_stable_version (fuel : nat) (p : PageAddr) (index : Z) : M Z :=
  match fuel with
  | O => fault
  | S fuel' =>
      let* mp := load_minipage p index in
      if is_locked (mini_version_ mp) then mini_get_stable_version fuel' p index
      else ret (mini_version_ mp)
  end.

(** "[lock()] - atomic compare-and-swap that sets the lock bit; contended
    waiters spin" (spec 4.2). *)
Fixpoint lock (fuel : nat) (p : PageAddr) : M unit :=
  match fuel with
  | O => fault
  | S fuel' =>
      let* pg := load_page p in
      if is_locked (page_version_ pg) then lock fuel' p
      else put_page p (set_page_version pg (lock_version (page_version_ pg)))
  end.

(** [unlock()], also what the destructor of an [UnlockScope] does. *)
Definition unlock (p : PageAddr) : M unit :=
  let* pg := get_page p in
  put_page p (set_page_version pg (unlock_version (page_version_ pg))).

(** "[grab()] - returns a fresh volatile offset from the caller's node pool";
    offset zero is "no page" (spec 4.1). *)
Definition grab_free_volatile_page : M Z :=
  fun s => match free_pages s with
           | [] => Some (0, s)
           | offset :: rest => Some (offset, set_free_pages s rest)
           end.

Definition release_free_volatile_page (offset : Z) : M unit :=
  fun s => Some (tt, set_free_pages s (offset :: free_pages s)).

End Memory.

End Memory.

(** * Transaction sets and the optimistic read protocol *)

Module XctImpl.

Section Xct.

Variable env : nat -> Shared -> Shared.

Definition set_pointer_set (x : Xct) (l : list (PointerAddr * VolatilePagePointer)) : Xct :=
  mkXct l (read_set_ x) (write_set_ x) (max_pointer_set_size_ x)
    (max_read_set_size_ x) (max_write_set_size_ x).
Definition set_read_set (x : Xct) (l : list (OwnerAddr * XctId.t)) : Xct :=
  mkXct (pointer_set_ x) l (write_set_ x) (max_pointer_set_size_ x)
    (max_read_set_size_ x) (max_write_set_size_ x).
Definition set_write_set (x : Xct) (l : list (OwnerAddr * LogRecord)) : Xct :=
  mkXct (pointer_set_ x) (read_set_ x) l (max_pointer_set_size_ x)
    (max_read_set_size_ x) (max_write_set_size_ x).

Definition add_to_pointer_set (pointer_address : PointerAddr)
    (observed : VolatilePagePointer) : M ErrorCode :=
  fun s =>
    let x := current_xct s in
    if (max_pointer_set_size_ x <=? length (pointer_set_ x))%nat
    then Some (kErrorCodeXctPointerSetOverflow, s)
    else Some (kErrorCodeOk,
               set_current_xct s
                 (set_pointer_set x (pointer_set_ x ++ [(pointer_address, observed)]))).

(** The grower "updates its own pointer-set entry" (spec 4.5): every entry
    taken at that address now holds the new value. *)
Definition overwrite_to_pointer_set (pointer_address : PointerAddr)
    (observed : VolatilePagePointer) : M unit :=
  fun s =>
    let x := current_xct s in
    Some (tt,
          set_current_xct s
            (set_pointer_set x
               (map (fun entry : PointerAddr * VolatilePagePointer =>
                       if decide (fst entry = pointer_address)
                       then (fst entry, observed) else entry)
                    (pointer_set_ x)))).

Definition add_to_read_set (owner_id_address : OwnerAddr) (observed : XctId.t)
  : M ErrorCode :=
  fun s =>
    let x := current_xct s in
    if (max_read_set_size_ x <=? length (read_set_ x))%nat
    then Some (kErrorCodeXctReadSetOverflow, s)
    else Some (kErrorCodeOk,
               set_current_xct s
                 (set_read_set x (read_set_ x ++ [(owner_id_address, observed)]))).

Definition add_to_write_set (owner_id_address : OwnerAddr) (log_entry : LogRecord)
  : M ErrorCode :=
  fun s =>
    let x := current_xct s in
    if (max_write_set_size_ x <=? length (write_set_ x))%nat
    then Some (kErrorCodeXctWriteSetOverflow, s)
    else Some (kErrorCodeOk,
               set_current_xct s
                 (set_write_set x (write_set_ x ++ [(owner_id_address, log_entry)]))).

(** [reserve_new_log] followed by [populate]: the record is the new tail of
    the thread's log buffer. *)
Definition reserve_new_log (log_entry : LogRecord) : M unit :=
  fun s => Some (tt, set_thread_log_buffer s (thread_log_buffer s ++ [log_entry])).

(** Modelled from the spec: xct_optimistic_read_impl.hpp is not among the
    sources.  "1. Read the owner-id word with acquire; if lock bit is set, spin
    with bounded pause; if the record is marked moved, return a retry code so
    the caller re-navigates.  2. Copy payload bytes.  3. Re-read the owner-id;
    if changed or now locked, repeat.  4. On success, append (address, observed
    XctId) to the read-set and return." (spec 4.3).  Step 2 is the handler the
    caller passes; it works on the caller's local variables [locals], which
    keep what an earlier run of the handler wrote.  The spec's protocol makes
    no case of [in_snapshot]. *)
Fixpoint optimistic_read_protocol {L : Type} (fuel : nat)
    (owner_id_address : OwnerAddr) (in_snapshot : bool)
    (handler : XctId.t -> L -> M (ErrorCode * L)) (locals : L)
  : M (ErrorCode * L) :=
  match fuel with
  | O => fault
  | S fuel' =>
      let* observed := Memory.load_owner_id env owner_id_address in
      if XctId.is_keylocked observed then
        optimistic_read_protocol fuel' owner_id_address in_snapshot handler locals
      else if XctId.is_moved observed then
        ret (kErrorCodeStrMasstreeRetry, locals)
      else
        let* '(e, locals') := handler observed locals in
        if decide (e = kErrorCodeOk) then
          let* observed_again := Memory.load_owner_id env owner_id_address in
          if decide (observed_again = observed) then
            let* e := add_to_read_set owner_id_address observed in
            ret (e, locals')
          else
            optimistic_read_protocol fuel' owner_id_address in_snapshot handler locals'
        else ret (e, locals')
  end.

End Xct.

End XctImpl.

(** * masstree_storage_pimpl.cpp *)

Module MasstreeStoragePimpl.

Import PageVersion MasstreePageImpl Memory XctImpl.

Section Pimpl.

Variable env : nat -> Shared -> Shared.

(** Members and constants defined outside the sources: [metadata_.id_],
    [MasstreeBorderPage::kMaxKeys], [Epoch::kEpochInitialCurrent] and
    [Epoch::one_more]. *)
Variable metadata_id_ : Z.
Variable kMaxKeys : Z.
Variable kEpochInitialCurrent : Z.
Variable one_more : XctId.Epoch -> XctId.Epoch.

(** [thread::Thread::follow_page_pointer] (page initializer, tolerate null,
    will modify, pointer-set for snapshot, pointer-set for volatile, pointer)
    and [MasstreeIntermediatePage::adopt_from_child] are defined outside the
    sources. *)
Variable follow_page_pointer :
  Thread -> bool -> bool -> bool -> bool -> PointerAddr -> M (Res PageAddr).
Variable adopt_from_child :
  Thread -> PageAddr -> KeySlice -> Z -> Z -> Z -> Z -> PageAddr -> M ErrorCode.

Definition grow_root (fuel : nat) (context : Thread) (root_pointer : PointerAddr)
    (root : PageAddr) : M ErrorCode :=
  let* _ := lock env fuel root in
  (* UnlockScope scope(root) *)
  let* root_page := get_page root in
  let locked_version := page_version_ root_page in
  if negb (has_foster_child locked_version) then
    let* _ := unlock root in
    ret kErrorCodeStrMasstreeRetry
  else
    let* offset := grab_free_volatile_page in
    if offset =? 0 then
      let* _ := unlock root in
      ret kErrorCodeMemoryNoFreePages
    else
      let new_root := local_resolve_offset context offset in
      let* old_pointer := get_pointer root_pointer in
      let new_pointer :=
        combine_volatile_page_pointer (get_numa_node context)
          kVolatilePointerFlagSwappable
          (mod_count (volatile_pointer_ old_pointer) + 1) offset in
      let new_root_page :=
        initialize_volatile_page kMaxKeys false metadata_id_ new_pointer
          (layer_ root_page) true kInfimumSlice kSupremumSlice true
          kInfimumSlice None true in
      (* UnlockScope new_scope(new_root) *)
      let new_root_page :=
        set_page_version new_root_page
          (set_key_count (page_version_ new_root_page) 0) in
      match get_minipage new_root_page 0, foster_child_ root_page with
      | Some mini_page, Some foster_child =>
          let* foster_child_page := get_page foster_child in
          let mini_version := lock_version (mini_version_ mini_page) in
          let mini_version := set_key_count mini_version 1 in
          let pointers :=
            <[0%nat := mkDualPagePointer 0
                         (set_flags (volatile_pointer_ old_pointer) 0)]>
              (pointers_ mini_page) in
          let pointers :=
            <[1%nat := mkDualPagePointer 0
                         (set_flags (page_id_ foster_child_page) 0)]> pointers in
          let separators :=
            <[0%nat := foster_fence_ root_page]> (separators_ mini_page) in
          let mini_version := unlock_version mini_version in
          let* _ :=
            put_page new_root
              (set_minipage new_root_page 0
                 (mkMiniPage mini_version separators pointers)) in
          let* _ := put_page root (clear_foster root_page) in
          let* _ := put_pointer root_pointer (mkDualPagePointer 0 new_pointer) in
          let* _ := overwrite_to_pointer_set root_pointer new_pointer in
          let* _ := unlock new_root in
          let* _ := unlock root in
          ret kErrorCodeOk
      | _, _ => fault
      end.

Fixpoint get_first_root (fuel : nat) (context : Thread) : M (Res (PageAddr * Z)) :=
  match fuel with
  | O => fault
  | S fuel' =>
      let* pointer := load_pointer env FirstRootPointer in
      let pointer := volatile_pointer_ pointer in
      let page := resolve_offset pointer in
      let* version := get_stable_version env fuel' page in
      if has_foster_child version then
        let* e := grow_root fuel' context FirstRootPointer page in
        if decide (e = kErrorCodeOk) then get_first_root fuel' context
        else ret (Err e)
      else
        let* e := add_to_pointer_set FirstRootPointer pointer in
        check e (ret (Ok (page, version)))
  end.

(** [create]: "just allocate an empty root page for the first layer". *)
Definition create (context : Thread) (exist_ : bool) : M ErrorCode :=
  if exist_ then ret kErrorCodeStrAlreadyExists
  else
    let* root_offset := grab_free_volatile_page in
    let root_page := local_resolve_offset context root_offset in
    let pointer :=
      combine_volatile_page_pointer (get_numa_node context)
        kVolatilePointerFlagSwappable 0 root_offset in
    let* _ := put_pointer FirstRootPointer (mkDualPagePointer 0 pointer) in
    let* _ :=
      put_page root_page
        (initialize_volatile_page kMaxKeys true metadata_id_ pointer 0 true
           kInfimumSlice kSupremumSlice true kInfimumSlice None false) in
    ret kErrorCodeOk.

(** [cur_stable.has_foster_child() && cur->within_foster_child(slice)]: the
    page is read only when the first operand holds. *)
Definition follows_foster (cur : PageAddr) (cur_stable : Z) (slice : KeySlice)
  : M bool :=
  if has_foster_child cur_stable then
    let* pg := load_page env cur in ret (within_foster_child pg slice)
  else ret false.

(** [cur->get_foster_child()]. *)
Definition get_foster_child (cur : PageAddr) : M PageAddr :=
  let* pg := load_page env cur in
  match foster_child_ pg with
  | Some next => ret next
  | None => fault
  end.

(** [cur->get_version().data_]. *)
Definition get_version (cur : PageAddr) : M Z :=
  let* pg := load_page env cur in ret (page_version_ pg).

Definition find_border_leaf_body (fuel : nat) (current_layer : Z) (slice : KeySlice)
    (st : PageAddr * Z) : M (Loop (PageAddr * Z) (Res (PageAddr * Z))) :=
  let '(cur, cur_stable) := st in
  let* foster := follows_foster cur cur_stable slice in
  if negb foster then ret (Return (Ok (cur, cur_stable)))
  else
    (* follow foster child *)
    let* next := get_foster_child cur in
    let* next_stable := get_stable_version env fuel next in
    (* check cur's version again for hand-over-hand verification *)
    let* version := get_version cur in
    let diff := Z.lxor version cur_stable in
    if diff <=? kPageVersionLockedBit then
      ret (Continue (next, next_stable))
    else
      let* cur_new_stable := get_stable_version env fuel cur in
      if negb (get_split_counter cur_new_stable =? get_split_counter cur_stable)
      then ret (Return (Err kErrorCodeStrMasstreeRetry))
      else ret (Continue (cur, cur_new_stable)).

Definition find_border_leaf (fuel : nat) (cur : PageAddr) (cur_stable : Z)
    (current_layer : Z) (slice : KeySlice) : M (Res (PageAddr * Z)) :=
  while_true fuel (find_border_leaf_body fuel current_layer slice) (cur, cur_stable).

Definition follow_page (context : Thread) (for_writes root_in_layer : bool)
    (pointer : PointerAddr) : M (Res PageAddr) :=
  follow_page_pointer context false for_writes true root_in_layer pointer.

Definition find_border_descend_body (fuel : nat)
    (find_border_descend : PageAddr -> Z -> M (Res (PageAddr * Z)))
    (context : Thread) (current_layer : Z) (for_writes : bool) (slice : KeySlice)
    (st : PageAddr * Z) : M (Loop (PageAddr * Z) (Res (PageAddr * Z))) :=
  let '(cur, cur_stable) := st in
  let* foster := follows_foster cur cur_stable slice in
  if foster then
    (* then we have to follow foster chain *)
    let* next := get_foster_child cur in
    let* next_stable := get_stable_version env fuel next in
    let* version := get_version cur in
    let diff := Z.lxor version cur_stable in
    if diff <=? kPageVersionLockedBit then
      ret (Continue (next, next_stable))
    else
      let* cur_new_stable := get_stable_version env fuel cur in
      if negb (get_split_counter cur_new_stable =? get_split_counter cur_stable)
      then ret (Return (Err kErrorCodeStrMasstreeRetry))
      else ret (Continue (cur, cur_new_stable))
  else
    let cur_stable_key_count := get_key_count cur_stable in
    let* cur_page := load_page env cur in
    let minipage_index := find_minipage cur_page cur_stable_key_count slice in
    let* mini_stable := mini_get_stable_version env fuel cur minipage_index in
    let mini_stable_key_count := get_key_count mini_stable in
    let* minipage := load_minipage env cur minipage_index in
    let pointer_index := find_pointer minipage mini_stable_key_count slice in
    let pointer := MiniPagePointer cur minipage_index pointer_index in
    let* followed := follow_page context for_writes false pointer in
    match followed with
    | Err e => ret (Return (Err e))
    | Ok next =>
        let* next_page := load_page env next in
        let next_is_border := is_border (page_version_ next_page) in
        let* next_page := load_page env next in
        if has_foster_child (page_version_ next_page) then
          (* oh, the page has foster child, so we should adopt it. *)
          let* e :=
            adopt_from_child context cur slice cur_stable minipage_index
              mini_stable pointer_index next in
          if decide (e = kErrorCodeOk) then
            let* cur_stable := get_stable_version env fuel cur in
            ret (Continue (cur, cur_stable))
          else ret (Return (Err e))
        else
          let* next_stable := get_stable_version env fuel next in
          (* check cur's version again for hand-over-hand verification *)
          let* version := get_version cur in
          let* minipage := load_minipage env cur minipage_index in
          let diff := Z.lxor version cur_stable in
          let diff_mini := Z.lxor (mini_version_ minipage) mini_stable in
          if (diff <=? kPageVersionLockedBit) && (diff_mini <=? kPageVersionLockedBit)
          then
            (* this means nothing important has changed. *)
            if next_is_border then
              let* r := find_border_leaf fuel next next_stable current_layer slice in
              ret (Return r)
            else
              let* r := find_border_descend next next_stable in
              ret (Return r)
          else
            let* cur_new_stable := get_stable_version env fuel cur in
            if negb (get_split_counter cur_new_stable =? get_split_counter cur_stable)
            then ret (Return (Err kErrorCodeStrMasstreeRetry))
            else ret (Continue (cur, cur_new_stable))
    end.

Fixpoint find_border_descend (fuel : nat) (context : Thread) (cur : PageAddr)
    (cur_stable : Z) (current_layer : Z) (for_writes : bool) (slice : KeySlice)
  : M (Res (PageAddr * Z)) :=
  match fuel with
  | O => fault
  | S fuel' =>
      while_true fuel
        (find_border_descend_body fuel
           (fun next next_stable =>
              find_border_descend fuel' context next next_stable current_layer
                for_writes slice)
           context current_layer for_writes slice)
        (cur, cur_stable)
  end.

Definition find_border_body (fuel : nat) (context : Thread) (layer_root : PageAddr)
    (is_border : bool) (current_layer : Z) (for_writes : bool) (slice : KeySlice)
    (_ : unit) : M (Loop unit (Res (PageAddr * Z))) :=
  let* stable := get_stable_version env fuel layer_root in
  let* subroutine_result :=
    if is_border then find_border_leaf fuel layer_root stable current_layer slice
    else find_border_descend fuel context layer_root stable current_layer
           for_writes slice in
  if decide (code_of subroutine_result = kErrorCodeStrMasstreeRetry)
  then ret (Continue tt)
  else ret (Return subroutine_result).

Definition find_border (fuel : nat) (context : Thread) (layer_root : PageAddr)
    (current_layer : Z) (for_writes : bool) (slice : KeySlice)
  : M (Res (PageAddr * Z)) :=
  let* root_page := load_page env layer_root in
  let is_border := is_border (page_version_ root_page) in
  while_true fuel
    (find_border_body fuel context layer_root is_border current_layer for_writes slice)
    tt.

Definition follow_layer (fuel : nat) (context : Thread) (for_writes : bool)
    (parent : PageAddr) (record_index : Z) : M (Res PageAddr) :=
  let pointer := NextLayerPointer parent record_index in
  let* followed := follow_page context for_writes true pointer in
  match followed with
  | Err e => ret (Err e)
  | Ok next_root =>
      let* next_root_page := load_page env next_root in
      (* root page has a foster child... time for tree growth! *)
      if has_foster_child (page_version_ next_root_page) then
        let* e := grow_root fuel context pointer next_root in
        check e (follow_page context for_writes true pointer)
      else ret (Ok next_root)
  end.

Definition locate_record_body (fuel : nat) (context : Thread) (key : list byte)
    (key_length : Z) (for_writes : bool) (st : Z * PageAddr)
  : M (Loop (Z * PageAddr) (Res (PageAddr * Z))) :=
  let '(current_layer, layer_root) := st in
  let remaining_length := to_uint8 (key_length - current_layer * 8) in
  let slice := slice_layer key key_length current_layer in
  let suffix := drop (Z.to_nat ((current_layer + 1) * 8)) key in
  let* found := find_border fuel context layer_root current_layer for_writes slice in
  match found with
  | Err e => ret (Return (Err e))
  | Ok (border, border_version) =>
      let stable_key_count := get_key_count border_version in
      let* border_page := load_page env border in
      let index :=
        find_key kMaxKeys border_page stable_key_count slice suffix remaining_length in
      if index =? kMaxKeys then
        (* this means not found *)
        ret (Return (Err kErrorCodeStrKeyNotFound))
      else
        let* slot := load_slot env border index in
        if does_point_to_layer slot then
          let* followed := follow_layer fuel context for_writes border index in
          match followed with
          | Err e => ret (Return (Err e))
          | Ok next_root => ret (Continue (to_uint16 (current_layer + 1), next_root))
          end
        else ret (Return (Ok (border, index)))
  end.

Definition locate_record (fuel : nat) (context : Thread) (key : list byte)
    (key_length : Z) (for_writes : bool) : M (Res (PageAddr * Z)) :=
  let* first := get_first_root fuel context in
  match first with
  | Err e => ret (Err e)
  | Ok (layer_root, root_version) =>
      while_true fuel (locate_record_body fuel context key key_length for_writes)
        (0, layer_root)
  end.

(** [parent_lock->keylock_unconditional()]: spin until the compare-and-swap
    that sets the lock bit succeeds. *)
Fixpoint keylock_unconditional (fuel : nat) (page : PageAddr) (index : Z) : M unit :=
  match fuel with
  | O => fault
  | S fuel' =>
      let* pg := load_page env page in
      match get_slot pg index with
      | None => fault
      | Some slot =>
          if XctId.is_keylocked (owner_id_ slot) then
            keylock_unconditional fuel' page index
          else
            put_page page
              (set_slot pg index (set_owner_id slot (XctId.keylock (owner_id_ slot))))
      end
  end.

(** Modelled from the spec: [MasstreeBorderPage::copy_initial_record] is
    defined outside the sources.  The new layer root takes "the existing
    record as its sole initial entry" (spec 4.5): the next eight bytes of the
    key suffix become the slice, the payload and the owner-id are copied (the
    source asserts that a deleted owner-id is deleted in the copy too), the
    copy is not locked, and the page then has one key. *)
Definition copy_initial_record (root_page : MasstreePage) (copy_from : BorderSlot)
  : MasstreePage :=
  let slot :=
    mkBorderSlot
      (slice_layer (suffix_ copy_from) (remaining_key_length_ copy_from - 8) 0)
      (remaining_key_length_ copy_from - 8)
      (payload_length_ copy_from)
      (XctId.release_keylock (owner_id_ copy_from))
      (drop 8 (suffix_ copy_from))
      (payload_ copy_from)
      None in
  set_page_version (set_slot root_page 0 slot)
    (set_key_count (page_version_ root_page) 1).

Definition create_next_layer (fuel : nat) (context : Thread) (parent : PageAddr)
    (parent_index : Z) : M ErrorCode :=
  let* offset := grab_free_volatile_page in
  if offset =? 0 then ret kErrorCodeMemoryNoFreePages
  else
    let root := local_resolve_offset context offset in
    let pointer :=
      mkDualPagePointer 0
        (combine_volatile_page_pointer (get_numa_node context) 0 0 offset) in
    (* as an independent system transaction, here we do an optimistic version check. *)
    let* _ := keylock_unconditional fuel parent parent_index in
    let* parent_page := get_page parent in
    match get_slot parent_page parent_index with
    | None => fault
    | Some slot =>
        if does_point_to_layer slot then
          (* someone else has also made this to a next layer! *)
          let* _ := release_free_volatile_page offset in
          let* _ :=
            put_page parent
              (set_slot parent_page parent_index
                 (set_owner_id slot (XctId.release_keylock (owner_id_ slot)))) in
          ret kErrorCodeOk
        else
          (* initialize the root page by copying the record *)
          let root_page :=
            initialize_volatile_page kMaxKeys true metadata_id_
              (volatile_pointer_ pointer) (to_uint8 (layer_ parent_page + 1)) true
              kInfimumSlice kSupremumSlice true kInfimumSlice None true in
          (* UnlockScope scope(root) *)
          let root_page := copy_initial_record root_page slot in
          let* _ := put_page root root_page in
          (* point to the new page *)
          let slot := set_next_layer slot pointer in
          let unlocked_id := XctId.release_keylock (owner_id_ slot) in
          let ordinal := XctId.get_ordinal unlocked_id in
          let '(unlocked_id, ordinal) :=
            if negb (ordinal =? 65535) then (unlocked_id, to_uint16 (ordinal + 1))
            else
              (XctId.set_epoch unlocked_id (one_more (XctId.get_epoch unlocked_id)), 0)
          in
          let unlocked_id := XctId.set_ordinal unlocked_id ordinal in
          let unlocked_id :=
            if XctId.is_deleted unlocked_id then
              (* as a pointer, now it should be an active pointer. *)
              XctId.set_notdeleted unlocked_id
            else unlocked_id in
          (* now unlock and set the new version *)
          let* _ :=
            put_page parent
              (set_slot parent_page parent_index (set_owner_id slot unlocked_id)) in
          let* _ := unlock root in
          ret kErrorCodeOk
    end.

(** Modelled from the spec: [MasstreeBorderPage::reserve_record_space] is
    defined outside the sources.  It appends the slot: "hash slice, key
    length, suffix offset, owner-id word, payload length", the key suffix
    and room for the payload (spec 3). *)
Definition reserve_record_space (pg : MasstreePage) (index : Z)
    (initial_owner_id : XctId.t) (slice : KeySlice) (suffix : list byte)
    (remaining_length payload_count : Z) : MasstreePage :=
  set_slot pg index
    (mkBorderSlot slice remaining_length payload_count initial_owner_id
       (take (Z.to_nat (remaining_length - 8)) suffix)
       (replicate (Z.to_nat payload_count) x00)
       None).

Definition reserve_record_new_record_apply (context : Thread) (target : PageAddr)
    (target_index : Z) (slice : KeySlice) (remaining_key_length : Z)
    (suffix : list byte) (payload_count : Z) : M unit :=
  let* target_page := get_page target in
  let target_page :=
    set_page_version target_page
      (set_inserting_and_increment_key_count (page_version_ target_page)) in
  let initial_id := XctId.set_clean kEpochInitialCurrent 0 (get_thread_id context) in
  let initial_id := XctId.set_deleted initial_id in
  put_page target
    (reserve_record_space target_page target_index initial_id slice suffix
       remaining_key_length payload_count).

(** The lambda of [retrieve_general]; [locals] are the caller's [payload]
    buffer and [*payload_capacity]. *)
Definition retrieve_general_handler (border : PageAddr) (index : Z)
    (observed : XctId.t) (locals : list byte * Z)
  : M (ErrorCode * (list byte * Z)) :=
  let '(payload, payload_capacity) := locals in
  let* slot := load_slot env border index in
  if does_point_to_layer slot then ret (kErrorCodeStrMasstreeRetry, locals)
  else if XctId.is_deleted observed then ret (kErrorCodeStrKeyNotFound, locals)
  else
    let* slot := load_slot env border index in
    let payload_length := payload_length_ slot in
    if payload_capacity <? payload_length then
      (* buffer too small *)
      ret (kErrorCodeStrTooSmallPayloadBuffer, (payload, payload_length))
    else
      let* slot := load_slot env border index in
      let suffix_length := get_suffix_length slot in
      let* slot := load_slot env border index in
      ret (kErrorCodeOk,
           (memcpy payload (drop (Z.to_nat suffix_length) (get_record slot))
              payload_length,
            payload_length)).

(** Returns the error code with the final contents of [payload] and
    [*payload_capacity]. *)
Definition retrieve_general (fuel : nat) (context : Thread) (border : PageAddr)
    (index : Z) (payload : list byte) (payload_capacity : Z)
  : M (ErrorCode * (list byte * Z)) :=
  let* border_page := load_page env border in
  optimistic_read_protocol env fuel (BorderOwner border index) (snapshot_ border_page)
    (retrieve_general_handler border index) (payload, payload_capacity).

(** The lambda of [increment_general]; its local is [tmp], which holds
    nothing until the handler assigns it. *)
Definition increment_general_handler {T : Type} `{PayloadType T} (border : PageAddr)
    (index : Z) (payload_offset : Z) (observed : XctId.t) (tmp : option T)
  : M (ErrorCode * option T) :=
  let* slot := load_slot env border index in
  if does_point_to_layer slot then ret (kErrorCodeStrMasstreeRetry, tmp)
  else if XctId.is_deleted observed then ret (kErrorCodeStrKeyNotFound, tmp)
  else
    let* slot := load_slot env border index in
    if payload_length_ slot <? payload_offset + sizeof then
      ret (kErrorCodeStrTooShortPayload, tmp)
    else
      let* slot := load_slot env border index in
      let suffix_length := get_suffix_length slot in
      let* slot := load_slot env border index in
      let ptr := drop (Z.to_nat (suffix_length + payload_offset)) (get_record slot) in
      ret (kErrorCodeOk, Some (of_bytes (take (Z.to_nat sizeof) ptr))).

(** Returns the error code with the final contents of [*value]. *)
Definition increment_general {T : Type} `{PayloadType T} (fuel : nat)
    (context : Thread) (border : PageAddr) (index : Z) (be_key : list byte)
    (key_length : Z) (value : T) (payload_offset : Z) : M (ErrorCode * T) :=
  let* '(e, tmp) :=
    optimistic_read_protocol env fuel (BorderOwner border index) false
      (increment_general_handler border index payload_offset) None in
  if decide (e = kErrorCodeOk) then
    match tmp with
    | None => fault
    | Some tmp =>
        let value := plus value tmp in
        let* border_page := load_page env border in
        let log_entry :=
          MasstreeOverwriteLog metadata_id_ be_key key_length (to_bytes value)
            payload_offset sizeof (layer_ border_page) in
        let* _ := reserve_new_log log_entry in
        let* e := add_to_write_set (BorderOwner border index) log_entry in
        ret (e, value)
    end
  else ret (e, value).

(** Modelled from the spec: [MasstreeStorage::get_record] is defined in
    masstree_storage.cpp, not among the sources.  "All go through
    [locate_record] or [reserve_record]" (spec 4.5): the record is located for
    reading and then retrieved. *)
Definition get_record (fuel : nat) (context : Thread) (key : list byte)
    (key_length : Z) (payload : list byte) (payload_capacity : Z)
  : M (ErrorCode * (list byte * Z)) :=
  let* located := locate_record fuel context key key_length false in
  match located with
  | Err e => ret (e, (payload, payload_capacity))
  | Ok (border, index) =>
      retrieve_general fuel context border index payload payload_capacity
  end.

(** The lambda of [retrieve_part_general]; its local is the caller's
    [payload] buffer. *)
Definition retrieve_part_general_handler (border : PageAddr) (index : Z)
    (payload_offset payload_count : Z) (observed : XctId.t) (payload : list byte)
  : M (ErrorCode * list byte) :=
  let* slot := load_slot env border index in
  if does_point_to_layer slot then ret (kErrorCodeStrMasstreeRetry, payload)
  else if XctId.is_deleted observed then ret (kErrorCodeStrKeyNotFound, payload)
  else
    let* slot := load_slot env border index in
    if payload_length_ slot <? payload_offset + payload_count then
      ret (kErrorCodeStrTooShortPayload, payload)
    else
      let* slot := load_slot env border index in
      let suffix_len := get_suffix_length slot in
      let* slot := load_slot env border index in
      ret (kErrorCodeOk,
           memcpy payload
             (drop (Z.to_nat (suffix_len + payload_offset))
                (MasstreePageImpl.get_record slot))
             payload_count).

(** Returns the error code with the final contents of [payload]. *)
Definition retrieve_part_general (fuel : nat) (context : Thread) (border : PageAddr)
    (index : Z) (payload : list byte) (payload_offset payload_count : Z)
  : M (ErrorCode * list byte) :=
  let* border_page := load_page env border in
  optimistic_read_protocol env fuel (BorderOwner border index) (snapshot_ border_page)
    (retrieve_part_general_handler border index payload_offset payload_count)
    payload.

(** The lambda of [overwrite_general]; it has no locals. *)
Definition overwrite_general_handler (border : PageAddr) (index : Z)
    (payload_offset payload_count : Z) (observed : XctId.t) (_ : unit)
  : M (ErrorCode * unit) :=
  let* slot := load_slot env border index in
  if does_point_to_layer slot then ret (kErrorCodeStrMasstreeRetry, tt)
  else if XctId.is_deleted observed then ret (kErrorCodeStrKeyNotFound, tt)
  else
    let* slot := load_slot env border index in
    if payload_length_ slot <? payload_offset + payload_count then
      ret (kErrorCodeStrTooShortPayload, tt)
    else ret (kErrorCodeOk, tt).

Definition overwrite_general (fuel : nat) (context : Thread) (border : PageAddr)
    (index : Z) (be_key : list byte) (key_length : Z) (payload : list byte)
    (payload_offset payload_count : Z) : M ErrorCode :=
  let* '(e, _) :=
    optimistic_read_protocol env fuel (BorderOwner border index) false
      (overwrite_general_handler border index payload_offset payload_count) tt in
  if decide (e = kErrorCodeOk) then
    let* border_page := load_page env border in
    let log_entry :=
      MasstreeOverwriteLog metadata_id_ be_key key_length
        (take (Z.to_nat payload_count) payload) payload_offset payload_count
        (layer_ border_page) in
    let* _ := reserve_new_log log_entry in
    add_to_write_set (BorderOwner border index) log_entry
  else ret e.

(** [MasstreeInsertLogType::populate] and [MasstreeDeleteLogType::populate]
    (storage id, key, key length, [payload, payload count,] layer) are
    defined in masstree_log_types.hpp, not among the sources. *)
Variable MasstreeInsertLog : Z -> list byte -> Z -> list byte -> Z -> Z -> LogRecord.
Variable MasstreeDeleteLog : Z -> list byte -> Z -> Z -> LogRecord.

Definition insert_general (context : Thread) (border : PageAddr) (index : Z)
    (be_key : list byte) (key_length : Z) (payload : list byte) (payload_count : Z)
  : M ErrorCode :=
  let* border_page := load_page env border in
  let log_entry :=
    MasstreeInsertLog metadata_id_ be_key key_length payload payload_count
      (layer_ border_page) in
  let* _ := reserve_new_log log_entry in
  add_to_write_set (BorderOwner border index) log_entry.

(** The lambda of [delete_general]; it has no locals. *)
Definition delete_general_handler (border : PageAddr) (index : Z)
    (observed : XctId.t) (_ : unit) : M (ErrorCode * unit) :=
  let* slot := load_slot env border index in
  if does_point_to_layer slot then ret (kErrorCodeStrMasstreeRetry, tt)
  else if XctId.is_deleted observed then ret (kErrorCodeStrKeyNotFound, tt)
  else ret (kErrorCodeOk, tt).

Definition delete_general (fuel : nat) (context : Thread) (border : PageAddr)
    (index : Z) (be_key : list byte) (key_length : Z) : M ErrorCode :=
  let* '(e, _) :=
    optimistic_read_protocol env fuel (BorderOwner border index) false
      (delete_general_handler border index) tt in
  if decide (e = kErrorCodeOk) then
    let* border_page := load_page env border in
    let log_entry :=
      MasstreeDeleteLog metadata_id_ be_key key_length (layer_ border_page) in
    let* _ := reserve_new_log log_entry in
    add_to_write_set (BorderOwner border index) log_entry
  else ret e.

(** [MasstreeBorderPage::can_accomodate] (new index, remaining key length,
    payload count), [MasstreeBorderPage::split_foster] and
    [MasstreeBorderPage::find_key_normalized] (from, to, slice) are defined in
    masstree_page_impl.hpp and .cpp, not among the sources. *)
Variable can_accomodate : MasstreePage -> Z -> Z -> Z -> bool.
Variable split_foster : Thread -> PageAddr -> KeySlice -> M ErrorCode.
Variable find_key_normalized : MasstreePage -> Z -> Z -> KeySlice -> Z.

(** The caller holds the lock of [border].  Returns [*out_page] and
    [*record_index]. *)
Definition reserve_record_new_record (context : Thread) (border : PageAddr)
    (key : KeySlice) (remaining : Z) (suffix : list byte) (payload_count : Z)
  : M (Res (PageAddr * Z)) :=
  let* border_page := get_page border in
  let count := get_key_count (page_version_ border_page) in
  if can_accomodate border_page count remaining payload_count then
    let* _ :=
      reserve_record_new_record_apply context border count key remaining suffix
        payload_count in
    ret (Ok (border, count))
  else
    (* have to split to make room *)
    let* e := split_foster context border key in
    if decide (e = kErrorCodeOk) then
      let* border_page := get_page border in
      match foster_child_ border_page with
      | None => fault
      | Some foster_child =>
          (* UnlockScope foster_scope(border->get_foster_child()) *)
          let target :=
            if within_foster_child border_page key then
              (* new key should be in the foster child. *)
              foster_child
            else border (* new key should be still in this page *) in
          let* target_page := get_page target in
          let count := get_key_count (page_version_ target_page) in
          if negb (can_accomodate target_page count remaining payload_count) then
            (* this might happen if payload_count is huge. so far just error out. *)
            let* _ := unlock foster_child in
            ret (Err kErrorCodeStrTooLongPayload)
          else
            let* _ :=
              reserve_record_new_record_apply context target count key remaining
                suffix payload_count in
            let* _ := unlock foster_child in
            ret (Ok (target, count))
      end
    else ret (Err e).

(** The body of the retry loop of [reserve_record_normalized]; the loop
    variables are [border] and [version]. *)
Definition reserve_record_normalized_body (fuel : nat) (context : Thread)
    (key : KeySlice) (payload_count : Z) (st : PageAddr * Z)
  : M (Loop (PageAddr * Z) (Res (PageAddr * Z))) :=
  let '(border, version) := st in
  let* _ := lock env fuel border in
  (* UnlockScope scope(border) *)
  let* border_page := get_page border in
  if negb (get_split_counter (page_version_ border_page)
           =? get_split_counter version) then
    let* _ := unlock border in
    ret (Return (Err kErrorCodeStrMasstreeRetry))
  else if has_foster_child (page_version_ border_page)
          && within_foster_child border_page key then
    (* if, after locking, we found out that the page was split and we should
       follow foster child, do it. *)
    let* found :=
      find_border_leaf fuel border (page_version_ border_page) 0 key in
    let* _ := unlock border in
    match found with
    | Err e => ret (Return (Err e))
    | Ok next => ret (Continue next)
    end
  else
    (* because we never go on to second layer in this case, it's either a full
       match or not-found *)
    let count := get_key_count (page_version_ border_page) in
    let index := find_key_normalized border_page 0 count key in
    if negb (index =? kMaxKeys) then
      let* _ := unlock border in
      ret (Return (Ok (border, index)))
    else
      let* reserved :=
        reserve_record_new_record context border key 8 [] payload_count in
      let* _ := unlock border in
      ret (Return reserved).

Definition locate_record_normalized (fuel : nat) (context : Thread) (key : KeySlice)
    (for_writes : bool) : M (Res (PageAddr * Z)) :=
  let* first := get_first_root fuel context in
  match first with
  | Err e => ret (Err e)
  | Ok (layer_root, root_version) =>
      let* found := find_border fuel context layer_root 0 for_writes key in
      match found with
      | Err e => ret (Err e)
      | Ok (border, border_version) =>
          let* border_page := load_page env border in
          let index :=
            find_key_normalized border_page 0 (get_key_count border_version) key in
          if index =? kMaxKeys then
            (* this means not found *)
            ret (Err kErrorCodeStrKeyNotFound)
          else
            (* because this is just one slice, we never go to second layer *)
            ret (Ok (border, index))
      end
  end.

Definition reserve_record_normalized (fuel : nat) (context : Thread) (key : KeySlice)
    (payload_count : Z) : M (Res (PageAddr * Z)) :=
  let* first := get_first_root fuel context in
  match first with
  | Err e => ret (Err e)
  | Ok (layer_root, root_version) =>
      let* found := find_border fuel context layer_root 0 true key in
      match found with
      | Err e => ret (Err e)
      | Ok (border, version) =>
          while_true fuel
            (reserve_record_normalized_body fuel context key payload_count)
            (border, version)
      end
  end.

(** [MasstreeBorderPage::MatchType] and [FindKeyForReserveResult]; the search
    [find_key_for_reserve(from_index, to_index, slice, suffix, remaining)] of
    a border page is defined outside the sources. *)
Inductive MatchType : Type :=
  | kNotFound
  | kExactMatchLocalRecord
  | kExactMatchLayerPointer
  | kConflictingLocalRecord.

Record FindKeyForReserveResult : Type := mkFindKeyForReserveResult {
  index_ : Z;
  match_type_ : MatchType
}.

Variable find_key_for_reserve :
  MasstreePage -> Z -> Z -> KeySlice -> list byte -> Z -> FindKeyForReserveResult.

(** One round of the [while (true)] of [reserve_record], on [border] with the
    stable version [version].  It ends the function ([inl]), or the layer
    with the root of the next one ([inr], the [break]). *)
Definition reserve_record_border_body (fuel : nat) (context : Thread) (layer : Z)
    (slice : KeySlice) (suffix : list byte) (remaining : Z) (payload_count : Z)
    (st : PageAddr * Z)
  : M (Loop (PageAddr * Z) (Res (PageAddr * Z) + PageAddr)) :=
  let '(border, version) := st in
  (* if, after locking, we found out that the page was split and we should
     follow foster child, do it. *)
  let* foster := follows_foster border version slice in
  if foster then
    let* found := find_border_leaf fuel border version layer slice in
    match found with
    | Err e => ret (Return (inl (Err e)))
    | Ok next => ret (Continue next)
    end
  else
    let count := get_key_count version in
    let* border_page := load_page env border in
    let match_ := find_key_for_reserve border_page 0 count slice suffix remaining in
    match match_type_ match_ with
    | kExactMatchLayerPointer =>
        let* followed := follow_layer fuel context true border (index_ match_) in
        match followed with
        | Err e => ret (Return (inl (Err e)))
        | Ok layer_root => ret (Return (inr layer_root))   (* next layer *)
        end
    | kExactMatchLocalRecord => ret (Return (inl (Ok (border, index_ match_))))
    | _ =>
        (* no matching or conflicting keys. so we will create a brand new record. *)
        let* _ := lock env fuel border in
        (* UnlockScope scope(border) *)
        let* border_page := get_page border in
        (* now finally we took a lock, finalizing the version.  The key is in
           the foster child only if the page has one: the source asserts
           [!border->within_foster_child(slice)] where the version has none. *)
        if negb (get_split_counter (page_version_ border_page)
                 =? get_split_counter version)
           || negb (within_fences border_page slice)
           || (has_foster_child (page_version_ border_page)
               && within_foster_child border_page slice) then
          let* _ := unlock border in
          ret (Return (inl (Err kErrorCodeStrMasstreeRetry)))
        else
          (* even resume the searches if new record was installed *)
          let '(match_, count) :=
            if negb (count =? get_key_count version) then
              let new_count := get_key_count version in
              (find_key_for_reserve border_page count new_count slice suffix
                 remaining, new_count)
            else (match_, count) in
          match match_type_ match_ with
          | kExactMatchLayerPointer =>
              let* followed := follow_layer fuel context true border (index_ match_) in
              let* _ := unlock border in
              match followed with
              | Err e => ret (Return (inl (Err e)))
              | Ok layer_root => ret (Return (inr layer_root))
              end
          | kExactMatchLocalRecord =>
              let* _ := unlock border in
              ret (Return (inl (Ok (border, index_ match_))))
          | kNotFound =>
              (* okay, surely new record *)
              let* reserved :=
                reserve_record_new_record context border slice remaining suffix
                  payload_count in
              let* _ := unlock border in
              ret (Return (inl reserved))
          | kConflictingLocalRecord =>
              (* this means now we have to create a next layer. *)
              let* e := create_next_layer fuel context border (index_ match_) in
              if decide (e = kErrorCodeOk) then
                let* followed :=
                  follow_layer fuel context true border (index_ match_) in
                let* _ := unlock border in
                match followed with
                | Err e => ret (Return (inl (Err e)))
                | Ok layer_root => ret (Return (inr layer_root))
                end
              else
                let* _ := unlock border in
                ret (Return (inl (Err e)))
          end
    end.

(** One round of [for (uint16_t layer = 0;; ++layer)]. *)
Definition reserve_record_body (fuel : nat) (context : Thread) (key : list byte)
    (key_length : Z) (payload_count : Z) (st : Z * PageAddr)
  : M (Loop (Z * PageAddr) (Res (PageAddr * Z))) :=
  let '(layer, layer_root) := st in
  let remaining := to_uint8 (key_length - layer * 8) in
  let slice := slice_layer key key_length layer in
  let suffix := drop (Z.to_nat ((layer + 1) * 8)) key in
  let* found := find_border fuel context layer_root layer true slice in
  match found with
  | Err e => ret (Return (Err e))
  | Ok (border, version) =>
      let* ended :=
        while_true fuel
          (reserve_record_border_body fuel context layer slice suffix remaining
             payload_count)
          (border, version) in
      match ended with
      | inl r => ret (Return r)
      | inr next_root => ret (Continue (to_uint16 (layer + 1), next_root))
      end
  end.

Definition reserve_record (fuel : nat) (context : Thread) (key : list byte)
    (key_length : Z) (payload_count : Z) : M (Res (PageAddr * Z)) :=
  let* first := get_first_root fuel context in
  match first with
  | Err e => ret (Err e)
  | Ok (layer_root, root_version) =>
      while_true fuel (reserve_record_body fuel context key key_length payload_count)
        (0, layer_root)
  end.

End Pimpl.

End MasstreeStoragePimpl.

(** * array_storage_pimpl.cpp: records *)

Module ArrayStoragePimpl.

Import Memory XctImpl.

Section Pimpl.

Variable env : nat -> Shared -> Shared.

(** Members of the pimpl object: [metadata_.id_], [levels_], [root_page_];
    and [route_finder_.find_route(offset).route[level]], defined outside the
    sources. *)
Variable metadata_id_ : Z.
Variable levels_ : Z.
Variable root_page_ : PageAddr.
Variable find_route : Z -> Z -> Z.

(** [for (uint8_t level = levels_ - 1; level > 0; --level)]. *)
Fixpoint lookup_levels (level : nat) (array_offset : Z) (current_page : PageAddr)
  : M (Res PageAddr) :=
  match level with
  | O => ret (Ok current_page)
  | S level' =>
      let* page := load_array_page env current_page in
      match page with
      | ArrayInterior interior =>
          match interior !! Z.to_nat (find_route array_offset (Z.of_nat level)) with
          | Some pointer =>
              if offset (volatile_pointer_ pointer) =? 0 then
                ret (Err kErrorCodeNotimplemented)
              else lookup_levels level' array_offset (resolve_offset (volatile_pointer_ pointer))
          | None => fault
          end
      | ArrayLeaf _ => fault
      end
  end.

Definition lookup (context : Thread) (offset : Z) : M (Res (PageAddr * Z)) :=
  let* found := lookup_levels (Z.to_nat (to_uint8 (levels_ - 1))) offset root_page_ in
  match found with
  | Err e => ret (Err e)
  | Ok current_page => ret (Ok (current_page, find_route offset 0))
  end.

(** The [Record*] is the leaf page with the index of the record in it. *)
Definition locate_record (context : Thread) (offset : Z) : M (Res (PageAddr * Z)) :=
  lookup context offset.

(** Modelled from the spec: [Xct::read_record_primitive] is defined in
    xct_inl.hpp, not among the sources.  "[get_record_primitive] uses the read
    protocol" (spec 4.4): the handler copies the value at [payload_offset]. *)
Definition read_record_primitive {T : Type} `{PayloadType T} (fuel : nat)
    (record : PageAddr * Z) (payload_offset : Z) : M (ErrorCode * option T) :=
  optimistic_read_protocol env fuel (ArrayOwner (fst record) (snd record)) false
    (fun (observed : XctId.t) (payload : option T) =>
       let* r := load_record env (fst record) (snd record) in
       ret (kErrorCodeOk,
            Some (of_bytes
                    (take (Z.to_nat sizeof)
                       (drop (Z.to_nat payload_offset) (record_payload_ r))))))
    None.

(** Returns the error code with the final contents of [*value]. *)
Definition increment_record {T : Type} `{PayloadType T} (fuel : nat)
    (context : Thread) (offset : Z) (value : T) (payload_offset : Z)
  : M (ErrorCode * T) :=
  let* located := locate_record context offset in
  match located with
  | Err e => ret (e, value)
  | Ok record =>
      (* this is get_record + overwrite_record *)
      let* '(e, old_value) := read_record_primitive fuel record payload_offset in
      if decide (e = kErrorCodeOk) then
        match old_value with
        | None => fault
        | Some old_value =>
            let value := plus value old_value in
            let log_entry :=
              ArrayOverwriteLog metadata_id_ offset (to_bytes value) payload_offset
                sizeof in
            let* _ := reserve_new_log log_entry in
            let* e := add_to_write_set (ArrayOwner (fst record) (snd record)) log_entry in
            ret (e, value)
        end
      else ret (e, value)
  end.

(** Modelled from the spec: [Xct::read_record] is defined in xct_inl.hpp, not
    among the sources.  Like [read_record_primitive] it "uses the read
    protocol" (spec 4.4); the handler copies [payload_count] bytes at
    [payload_offset] into the caller's buffer. *)
Definition read_record (fuel : nat) (record : PageAddr * Z) (payload : list byte)
    (payload_offset payload_count : Z) : M (ErrorCode * list byte) :=
  optimistic_read_protocol env fuel (ArrayOwner (fst record) (snd record)) false
    (fun (observed : XctId.t) (payload : list byte) =>
       let* r := load_record env (fst record) (snd record) in
       ret (kErrorCodeOk,
            memcpy payload (drop (Z.to_nat payload_offset) (record_payload_ r))
              payload_count))
    payload.

(** Returns the error code with the final contents of [payload]. *)
Definition get_record (fuel : nat) (context : Thread) (offset : Z)
    (payload : list byte) (payload_offset payload_count : Z)
  : M (ErrorCode * list byte) :=
  let* located := locate_record context offset in
  match located with
  | Err e => ret (e, payload)
  | Ok record => read_record fuel record payload payload_offset payload_count
  end.

(** Returns the error code with what [*payload] was assigned, if it was. *)
Definition get_record_primitive {T : Type} `{PayloadType T} (fuel : nat)
    (context : Thread) (offset : Z) (payload_offset : Z) : M (ErrorCode * option T) :=
  let* located := locate_record context offset in
  match located with
  | Err e => ret (e, None)
  | Ok record => read_record_primitive fuel record payload_offset
  end.

Definition overwrite_record (context : Thread) (offset : Z) (payload : list byte)
    (payload_offset payload_count : Z) : M ErrorCode :=
  let* located := locate_record context offset in
  match located with
  | Err e => ret e
  | Ok record =>
      (* write out log *)
      let log_entry :=
        ArrayOverwriteLog metadata_id_ offset (take (Z.to_nat payload_count) payload)
          payload_offset payload_count in
      let* _ := reserve_new_log log_entry in
      add_to_write_set (ArrayOwner (fst record) (snd record)) log_entry
  end.

Definition overwrite_record_primitive {T : Type} `{PayloadType T} (context : Thread)
    (offset : Z) (payload : T) (payload_offset : Z) : M ErrorCode :=
  let* located := locate_record context offset in
  match located with
  | Err e => ret e
  | Ok record =>
      (* write out log *)
      let log_entry :=
        ArrayOverwriteLog metadata_id_ offset (to_bytes payload) payload_offset
          sizeof in
      let* _ := reserve_new_log log_entry in
      add_to_write_set (ArrayOwner (fst record) (snd record)) log_entry
  end.

End Pimpl.

(** ** Releasing the pages of the storage *)

(** Modelled from the spec: a [memory::PageReleaseBatch] collects the ids of
    the pages to return to their pools; [release] adds one. *)
Definition PageReleaseBatch : Type := list VolatilePagePointer.
Definition release (batch : PageReleaseBatch) (page_id : VolatilePagePointer)
  : PageReleaseBatch := batch ++ [page_id].

Section Release.

Variable kInteriorFanout : Z.

(** [for (uint16_t i = 0; i < kInteriorFanout; ++i)] of
    [release_pages_recursive]: [n] rounds from [i] on, [recurse] being the
    recursive call.  [child_pointer] is a reference into the page, so both
    its read and its write are of the page as it is at that moment. *)
Fixpoint release_children
    (recurse : PageReleaseBatch -> PageAddr -> VolatilePagePointer ->
               gmap PageAddr ArrayPage ->
               option (PageReleaseBatch * gmap PageAddr ArrayPage))
    (page : PageAddr) (n : nat) (i : Z) (batch : PageReleaseBatch)
    (pages : gmap PageAddr ArrayPage)
  : option (PageReleaseBatch * gmap PageAddr ArrayPage) :=
  match n with
  | O => Some (batch, pages)
  | S n' =>
      match pages !! page with
      | Some (ArrayInterior interior) =>
          match interior !! Z.to_nat i with
          | Some child_pointer =>
              let child_page_id := volatile_pointer_ child_pointer in
              if negb (offset child_page_id =? 0) then
                (* then recurse *)
                let child_page := resolve_offset child_page_id in
                match recurse batch child_page child_page_id pages with
                | Some (batch, pages) =>
                    (* child_pointer.volatile_pointer_.word = 0 *)
                    match pages !! page with
                    | Some (ArrayInterior interior) =>
                        match interior !! Z.to_nat i with
                        | Some child_pointer =>
                            release_children recurse page n' (i + 1) batch
                              (<[page :=
                                   ArrayInterior
                                     (<[Z.to_nat i :=
                                          mkDualPagePointer
                                            (snapshot_pointer_ child_pointer)
                                            null_volatile_pointer]> interior)]>
                                 pages)
                        | None => None
                        end
                    | _ => None
                    end
                | None => None
                end
              else release_children recurse page n' (i + 1) batch pages
          | None => None
          end
      | _ => None
      end
  end.

(** The recursion is as deep as the tree below [page]; [fuel] bounds it. *)
Fixpoint release_pages_recursive (fuel : nat) (batch : PageReleaseBatch)
    (page : PageAddr) (volatile_page_id : VolatilePagePointer)
    (pages : gmap PageAddr ArrayPage)
  : option (PageReleaseBatch * gmap PageAddr ArrayPage) :=
  match fuel with
  | O => None
  | S fuel' =>
      match pages !! page with
      | Some (ArrayLeaf _) => Some (release batch volatile_page_id, pages)
      | Some (ArrayInterior _) =>
          match release_children (release_pages_recursive fuel') page
                  (Z.to_nat kInteriorFanout) 0 batch pages with
          | Some (batch, pages) => Some (release batch volatile_page_id, pages)
          | None => None
          end
      | None => None
      end
  end.

(** An array tree of [depth] levels below its top page: leaves at depth 0,
    and an interior page has [kInteriorFanout] pointers, each null or to a
    tree one level lower. *)
Fixpoint well_formed (depth : nat) (page : PageAddr)
    (pages : gmap PageAddr ArrayPage) : Prop :=
  match depth with
  | O => exists records, pages !! page = Some (ArrayLeaf records)
  | S depth' =>
      exists interior,
        pages !! page = Some (ArrayInterior interior)
        /\ (Z.to_nat kInteriorFanout <= length interior)%nat
        /\ forall (j : nat) (pointer : DualPagePointer),
             (j < Z.to_nat kInteriorFanout)%nat ->
             interior !! j = Some pointer ->
             offset (volatile_pointer_ pointer) <> 0 ->
             well_formed depth' (resolve_offset (volatile_pointer_ pointer)) pages
  end.

End Release.

(** [pointer'] is [pointer], or [pointer] with its volatile part zeroed. *)
Definition zeroed (pointer pointer' : DualPagePointer) : Prop :=
  pointer' = pointer
  \/ pointer' = mkDualPagePointer (snapshot_pointer_ pointer) null_volatile_pointer.

Definition cleared_page (pg pg' : ArrayPage) : Prop :=
  match pg, pg' with
  | ArrayLeaf records, ArrayLeaf records' => records' = records
  | ArrayInterior interior, ArrayInterior interior' => Forall2 zeroed interior interior'
  | _, _ => False
  end.

(** [pages'] is [pages] but for volatile pointers of interior pages that
    have been zeroed: no page is gone or new there, no record and no snapshot
    pointer differs. *)
Definition cleared (pages pages' : gmap PageAddr ArrayPage) : Prop :=
  forall p : PageAddr,
    match pages !! p, pages' !! p with
    | Some pg, Some pg' => cleared_page pg pg'
    | None, None => True
    | _, _ => False
    end.

(** [page] is where the route of [array_offset] leads from [current] in
    [level] steps through the memory [pages]: at each level the pointer the
    route picks is there and is not null, and the next page is the one it
    resolves to. *)
Fixpoint reaches (pages : gmap PageAddr ArrayPage) (find_route : Z -> Z -> Z)
    (array_offset : Z) (level : nat) (current page : PageAddr) : Prop :=
  match level with
  | O => page = current
  | S level' =>
      exists (interior : list DualPagePointer) (pointer : DualPagePointer),
        pages !! current = Some (ArrayInterior interior)
        /\ interior !! Z.to_nat (find_route array_offset (Z.of_nat level))
           = Some pointer
        /\ offset (volatile_pointer_ pointer) <> 0
        /\ reaches pages find_route array_offset level'
             (resolve_offset (volatile_pointer_ pointer)) page
  end.

(** [id] is the id of a page below [page] in the memory [pages]: one of the
    first [kInteriorFanout] pointers of [page], not null, or the id of a page
    below the page such a pointer leads to. *)
Inductive below (kInteriorFanout : Z) (pages : gmap PageAddr ArrayPage)
  : PageAddr -> VolatilePagePointer -> Prop :=
  | below_child (page : PageAddr) (interior : list DualPagePointer) (j : nat)
      (pointer : DualPagePointer) :
      pages !! page = Some (ArrayInterior interior) ->
      (j < Z.to_nat kInteriorFanout)%nat ->
      interior !! j = Some pointer ->
      offset (volatile_pointer_ pointer) <> 0 ->
      below kInteriorFanout pages page (volatile_pointer_ pointer)
  | below_deeper (page : PageAddr) (interior : list DualPagePointer) (j : nat)
      (pointer : DualPagePointer) (id : VolatilePagePointer) :
      pages !! page = Some (ArrayInterior interior) ->
      (j < Z.to_nat kInteriorFanout)%nat ->
      interior !! j = Some pointer ->
      offset (volatile_pointer_ pointer) <> 0 ->
      below kInteriorFanout pages (resolve_offset (volatile_pointer_ pointer)) id ->
      below kInteriorFanout pages page id.

(** The page [pointer0] leads to and the pages below it, as they are in
    [pages0], have their ids in [acc]. *)
Definition released_all (kInteriorFanout : Z) (pages0 : gmap PageAddr ArrayPage)
    (acc : list VolatilePagePointer) (pointer0 : DualPagePointer) : Prop :=
  In (volatile_pointer_ pointer0) acc
  /\ forall id, below kInteriorFanout pages0
                  (resolve_offset (volatile_pointer_ pointer0)) id -> In id acc.

(** Every pointer that is null in [pages] and was not in [pages0] has had its
    pages released into [acc]. *)
Definition covered (kInteriorFanout : Z) (pages0 pages : gmap PageAddr ArrayPage)
    (acc : list VolatilePagePointer) : Prop :=
  forall (p : PageAddr) (interior0 interior : list DualPagePointer) (j : nat)
         (pointer0 pointer : DualPagePointer),
    pages0 !! p = Some (ArrayInterior interior0) ->
    pages !! p = Some (ArrayInterior interior) ->
    (j < Z.to_nat kInteriorFanout)%nat ->
    interior0 !! j = Some pointer0 ->
    interior !! j = Some pointer ->
    offset (volatile_pointer_ pointer0) <> 0 ->
    offset (volatile_pointer_ pointer) = 0 ->
    released_all kInteriorFanout pages0 acc pointer0.

End ArrayStoragePimpl.

(** * hash_page_impl.cpp: the key search of a hash data page *)

Module HashPageImpl.

(** [HashDataPage::Slot]: the fields [search_key] reads. *)
Record Slot : Type := mkSlot {
  offset_ : Z;
  hash_ : Z;            (* HashValue *)
  key_length_ : Z;      (* uint16_t *)
  tid_ : XctId.t
}.

Section SearchKey.

(** The bloom filter of the page with its [contains], the slots with
    [slot(i)], [record_from_offset] and [kSlotNotFound] are declared in
    hash_page_impl.hpp, not among the sources.  The slots are a list, a slot
    beyond it is a fault; the record at an offset is the bytes from there. *)
Variable BloomFilter Fingerprint : Type.
Variable contains : BloomFilter -> Fingerprint -> bool.
Variable record_from_offset : Z -> list byte.
Variable kSlotNotFound : Z.

(** [std::memcmp(data, key, key_length) == 0]. *)
Definition memcmp_eq (data key : list byte) (key_length : Z) : bool :=
  MasstreePageImpl.bytes_eqb (take (Z.to_nat key_length) data)
    (take (Z.to_nat key_length) key).

(** [for (uint16_t i = 0; i < record_count; ++i)], from [i] on with [n]
    iterations to go. *)
Fixpoint search_key_from (slots : list Slot) (hash : Z) (key : list byte)
    (key_length : Z) (n : nat) (i : Z) : option Z :=
  match n with
  | O => Some kSlotNotFound
  | S n' =>
      match slots !! Z.to_nat i with
      | None => None
      | Some s =>
          if negb (hash_ s =? hash) || negb (key_length_ s =? key_length)
             || XctId.is_moved (tid_ s)
          then search_key_from slots hash key key_length n' (i + 1)
          else if XctId.is_moved (tid_ s) then
            (* not so rare. this happens. *)
            search_key_from slots hash key key_length n' (i + 1)
          else
            let data := record_from_offset (offset_ s) in
            if (key_length_ s =? key_length) && memcmp_eq data key key_length
            then Some i
            else
              (* hash matched, but key didn't match? wow, that's rare *)
              search_key_from slots hash key key_length n' (i + 1)
      end
  end.

Definition search_key (bloom_filter_ : BloomFilter) (slots : list Slot) (hash : Z)
    (fingerprint : Fingerprint) (key : list byte) (key_length record_count : Z)
  : option Z :=
  (* check bloom filter first. *)
  if negb (contains bloom_filter_ fingerprint) then Some kSlotNotFound
  else
    (* then most likely this page contains it. let's check one by one. *)
    search_key_from slots hash key key_length (Z.to_nat record_count) 0.

(** The slot at index [j] is a slot of the key: it carries the hash and the
    key length, is not moved, and its record starts with the key's bytes. *)
Definition slot_holds_key (slots : list Slot) (hash : Z) (key : list byte)
    (key_length : Z) (j : Z) : Prop :=
  exists s : Slot,
    slots !! Z.to_nat j = Some s
    /\ hash_ s = hash /\ key_length_ s = key_length
    /\ XctId.is_moved (tid_ s) = false
    /\ take (Z.to_nat key_length) (record_from_offset (offset_ s))
       = take (Z.to_nat key_length) key.

End SearchKey.

End HashPageImpl.

(** * What a read leaves of a thread's state *)

(** [s'] differs from [s] at most in the shared memory and the clock: the
    free-page pool, the transaction's sets and the log buffer are the same. *)
Definition reads_only (s s' : State) : Prop :=
  free_pages s' = free_pages s
  /\ current_xct s' = current_xct s
  /\ thread_log_buffer s' = thread_log_buffer s.

(** * Concrete states *)

Module Scenario.

Import PageVersion MasstreePageImpl Memory XctImpl MasstreeStoragePimpl.

(** No other thread writes. *)
Definition quiet : nat -> Shared -> Shared := fun _ sh => sh.

Definition context : Thread := mkThread 0 3.
Definition kMaxKeys : Z := 64.
Definition metadata_id_ : Z := 1.
Definition kEpochInitialCurrent : Z := 2.
Definition one_more (e : XctId.Epoch) : XctId.Epoch := e + 1.

Definition empty_state (pool : list Z) : State :=
  mkState (mkShared ∅ ∅ null_dual_pointer) pool (mkXct [] [] [] 16 16 16) [] 0.

Definition page_at (s : State) (p : PageAddr) : MasstreePage :=
  match masstree_pages (shared s) !! p with
  | Some pg => pg
  | None =>
      initialize_volatile_page 0 true 0 null_volatile_pointer 0 false 0 0 false 0
        None false
  end.

(** A storage just created: an empty root border page at offset 5 of node 0. *)
Definition root : PageAddr := (0, 5).
Definition fresh_tree : State :=
  exec (create metadata_id_ kMaxKeys context false) (empty_state [5; 6; 7]).

(** The record of a 12-byte key (slice 7, suffix "abcd") with an 8-byte
    payload, owned by [owner]. *)
Definition a_record (owner : XctId.t) : BorderSlot :=
  mkBorderSlot 7 12 8 owner [x61; x62; x63; x64] (le_bytes 8 42) None.

(** The root page with that record as its only slot. *)
Definition with_record (owner : XctId.t) (s : State) : State :=
  exec (let* pg := get_page root in
       put_page root
         (set_page_version (set_slot pg 0 (a_record owner))
            (set_key_count (page_version_ pg) 1)))
      s.

Definition tree_with_record (owner : XctId.t) : State := with_record owner fresh_tree.

(** A deleted record whose ordinal has reached the last value. *)
Definition last_ordinal_owner : XctId.t := XctId.mk 5 65535 2 false true false.

(** A live record. *)
Definition live_owner : XctId.t := XctId.mk 5 3 2 false false false.

(** An array storage of one level: a leaf page at offset 9 of node 0 with
    three 8-byte records holding 0, 42 and 7. *)
Definition array_root : PageAddr := (0, 9).
Definition array_record (v : Z) : Record_ := mkRecord live_owner (le_bytes 8 v).
Definition array_state : State :=
  mkState
    (mkShared ∅
       {[ array_root := ArrayLeaf [array_record 0; array_record 42; array_record 7] ]}
       null_dual_pointer)
    [] (mkXct [] [] [] 16 16 16) [] 0.


(** An array storage of two levels: an interior root at offset 10 whose
    first pointer leads to that leaf page and whose second pointer is null.
    A leaf page holds three records. *)
Definition array_interior : PageAddr := (0, 10).
Definition array_tree_state : State :=
  mkState
    (mkShared ∅
       (<[ array_interior :=
             ArrayInterior
               [mkDualPagePointer 0 (combine_volatile_page_pointer 0 0 0 9);
                null_dual_pointer] ]>
          (array_pages (shared array_state)))
       null_dual_pointer)
    [] (mkXct [] [] [] 16 16 16) [] 0.
Definition array_tree_route (offset level : Z) : Z :=
  if level =? 0 then offset mod 3 else offset / 3.

(** The fresh tree with its root page locked. *)
Definition locked_fresh_tree : State := exec (lock quiet 1 root) fresh_tree.

(** The root of the fresh tree after a split: its upper half, from slice 100,
    is in a foster child at offset 6. *)
Definition foster : PageAddr := (0, 6).
Definition split_root_tree : State :=
  exec (let* pg := get_page root in
        let* offset := grab_free_volatile_page in
        let* _ :=
          put_page foster
            (initialize_volatile_page kMaxKeys true metadata_id_
               (combine_volatile_page_pointer 0 0 0 offset) 0 false 100
               kSupremumSlice true 100 None false) in
        put_page root
          (mkMasstreePage (page_id_ pg) (storage_id_ pg) (snapshot_ pg) (layer_ pg)
             (set_has_foster_child (page_version_ pg) true) (low_fence_ pg)
             (high_fence_ pg) 100 (Some foster) (body_ pg)))
       fresh_tree.

(** That tree after [grow_root]: an intermediate root at offset 7 whose first
    minipage points to the two border pages. *)
Definition new_root : PageAddr := (0, 7).
Definition grown_tree : State :=
  exec (grow_root quiet metadata_id_ kMaxKeys 1 context FirstRootPointer root)
    split_root_tree.

(** The split tree as a thread sees it whose pool holds the page at offset
    30, and what two other threads do to it just before that thread's read
    number [at_]: one grows the root, which leaves the intermediate root at
    offset 7 in the root pointer and the page at offset 5 without foster
    child; one then inserts in the page at offset 5 and splits it again, from
    slice 50, into a foster child at offset 8. *)
Definition racing_tree : State :=
  mkState (shared split_root_tree) [30] (current_xct split_root_tree) [] 0.
Definition second_foster : PageAddr := (0, 8).
Definition regrown_memory : Shared :=
  let sh := shared grown_tree in
  match masstree_pages sh !! root with
  | Some pg =>
      set_masstree_pages sh
        (<[second_foster :=
             initialize_volatile_page kMaxKeys true metadata_id_
               (combine_volatile_page_pointer 0 0 0 8) 0 false 50 kSupremumSlice
               true 50 None false]>
           (<[root :=
                mkMasstreePage (page_id_ pg) (storage_id_ pg) (snapshot_ pg)
                  (layer_ pg) (set_has_foster_child (page_version_ pg) true)
                  (low_fence_ pg) (high_fence_ pg) 50 (Some second_foster)
                  (body_ pg)]> (masstree_pages sh)))
  | None => sh
  end.
Definition racing_grower (at_ : nat) (n : nat) (sh : Shared) : Shared :=
  if (n =? at_)%nat then regrown_memory else sh.

(** Following a pointer whose volatile part is set: read it and resolve it. *)
Definition follow_volatile (env : nat -> Shared -> Shared) (context : Thread)
    (tolerate_null will_modify take_snapshot take_volatile : bool)
    (pointer : PointerAddr) : M (Res PageAddr) :=
  let* p := load_pointer env pointer in
  ret (Ok (resolve_offset (volatile_pointer_ p))).

Definition no_adopt (context : Thread) (cur : PageAddr) (slice : KeySlice)
    (cur_stable minipage_index mini_stable pointer_index : Z) (next : PageAddr)
  : M ErrorCode :=
  ret kErrorCodeOk.

(** Another thread that, just before this thread's read number [at], locks
    the first minipage of the new root and marks it inserting. *)
Definition mini_writer (at_ : nat) (n : nat) (sh : Shared) : Shared :=
  if (n =? at_)%nat then
    match masstree_pages sh !! new_root with
    | Some pg =>
        match get_minipage pg 0 with
        | Some mp =>
            set_masstree_pages sh
              (<[new_root :=
                   set_minipage pg 0
                     (mkMiniPage
                        (set_bit kPageVersionInsertingBit
                           (lock_version (mini_version_ mp)))
                        (separators_ mp) (pointers_ mp))]> (masstree_pages sh))
        | None => sh
        end
    | None => sh
    end
  else sh.

End Scenario.

(** * Facts about the version word *)

Module PageVersionFacts.

Import PageVersion.

Lemma testbit_get_field (shift bits data i : Z) :
  0 <= shift -> 0 <= bits -> 0 <= i ->
  Z.testbit (get_field shift bits data) i
  = (i <? bits) && Z.testbit data (i + shift).
Proof.
  intros Hs Hb Hi. unfold get_field.
  rewrite Z.land_spec, Z.shiftr_spec by lia.
  rewrite Z.testbit_ones by lia.
  destruct (Z.leb_spec 0 i); [|lia]. simpl.
  apply andb_comm.
Qed.

Lemma testbit_set_field (shift bits data value i : Z) :
  0 <= shift -> 0 <= bits -> 0 <= i ->
  Z.testbit (set_field shift bits data value) i
  = if (shift <=? i) && (i <? shift + bits)
    then Z.testbit value (i - shift)
    else Z.testbit data i.
Proof.
  intros Hs Hb Hi. unfold set_field.
  rewrite Z.lor_spec, Z.land_spec, Z.lnot_spec by lia.
  rewrite !Z.shiftl_spec by lia.
  rewrite Z.land_spec.
  destruct (Z.leb_spec shift i) as [Hle|Hlt]; simpl.
  - rewrite !Z.testbit_ones by lia.
    destruct (Z.leb_spec 0 (i - shift)); [|lia]. simpl.
    destruct (Z.ltb_spec i (shift + bits)), (Z.ltb_spec (i - shift) bits);
      try lia; simpl.
    + rewrite andb_false_r, andb_true_r. reflexivity.
    + rewrite andb_true_r, andb_false_r, orb_false_r. reflexivity.
  - rewrite (Z.testbit_neg_r _ (i - shift)) by lia.
    rewrite (Z.testbit_neg_r _ (i - shift)) by lia.
    simpl. rewrite andb_true_r, orb_false_r. reflexivity.
Qed.

Lemma has_bit_testbit (k data : Z) :
  0 <= k -> has_bit (Z.shiftl 1 k) data = Z.testbit data k.
Proof.
  intros Hk. unfold has_bit.
  destruct (Z.testbit data k) eqn:Hbit.
  - destruct (Z.eqb_spec (Z.land data (Z.shiftl 1 k)) 0) as [E|_]; [|reflexivity].
    assert (Hc : Z.testbit (Z.land data (Z.shiftl 1 k)) k = true).
    { rewrite Z.land_spec, Hbit, Z.shiftl_spec, Z.sub_diag by lia. reflexivity. }
    rewrite E, Z.bits_0 in Hc. discriminate.
  - destruct (Z.eqb_spec (Z.land data (Z.shiftl 1 k)) 0) as [_|E]; [reflexivity|].
    exfalso. apply E. apply Z.bits_inj'. intros i Hi.
    rewrite Z.land_spec, Z.bits_0, Z.shiftl_spec by lia.
    destruct (Z.eq_dec i k) as [->|Hne].
    + rewrite Hbit. reflexivity.
    + replace (Z.testbit 1 (i - k)) with false; [apply andb_false_r|].
      destruct (Z.ltb_spec i k).
      * rewrite Z.testbit_neg_r by lia. reflexivity.
      * symmetry. change 1 with (Z.ones 1). rewrite Z.testbit_ones by lia.
        destruct (Z.ltb_spec (i - k) 1); [lia|]. apply andb_false_r.
Qed.

Lemma testbit_shiftl_1 (k i : Z) :
  0 <= k -> 0 <= i -> Z.testbit (Z.shiftl 1 k) i = bool_decide (i = k).
Proof.
  intros Hk Hi. rewrite Z.shiftl_spec by lia.
  destruct (decide (i = k)) as [->|Hne].
  - rewrite Z.sub_diag, bool_decide_eq_true_2 by reflexivity. reflexivity.
  - rewrite bool_decide_eq_false_2 by assumption.
    destruct (Z.ltb_spec i k).
    + apply Z.testbit_neg_r. lia.
    + change 1 with (Z.ones 1). rewrite Z.testbit_ones by lia.
      destruct (Z.ltb_spec (i - k) 1); [lia|]. apply andb_false_r.
Qed.

Lemma testbit_set_bit (k data i : Z) :
  0 <= k -> 0 <= i ->
  Z.testbit (set_bit (Z.shiftl 1 k) data) i = Z.testbit data i || bool_decide (i = k).
Proof.
  intros Hk Hi. unfold set_bit. rewrite Z.lor_spec, testbit_shiftl_1 by lia.
  reflexivity.
Qed.

Lemma testbit_clear_bit (k data i : Z) :
  0 <= k -> 0 <= i ->
  Z.testbit (clear_bit (Z.shiftl 1 k) data) i
  = Z.testbit data i && negb (bool_decide (i = k)).
Proof.
  intros Hk Hi. unfold clear_bit.
  rewrite Z.land_spec, Z.lnot_spec, testbit_shiftl_1 by lia.
  reflexivity.
Qed.

(** Reading a field back, and reading another field or flag. *)
Lemma get_field_set_field (shift bits data value : Z) :
  0 <= shift -> 0 <= bits ->
  get_field shift bits (set_field shift bits data value) = value mod 2 ^ bits.
Proof.
  intros Hs Hb. apply Z.bits_inj'. intros i Hi.
  rewrite testbit_get_field, testbit_set_field by lia.
  rewrite <- Z.land_ones, Z.land_spec, Z.testbit_ones by lia.
  destruct (Z.leb_spec 0 i); [|lia].
  destruct (Z.ltb_spec i bits); simpl.
  - destruct (Z.leb_spec shift (i + shift)), (Z.ltb_spec (i + shift) (shift + bits));
      try lia; simpl.
    replace (i + shift - shift) with i by lia. rewrite andb_true_r. reflexivity.
  - rewrite andb_false_r. reflexivity.
Qed.

Lemma get_field_set_field_other (shift bits shift' bits' data value : Z) :
  0 <= shift -> 0 <= bits -> 0 <= shift' -> 0 <= bits' ->
  shift + bits <= shift' \/ shift' + bits' <= shift ->
  get_field shift bits (set_field shift' bits' data value) = get_field shift bits data.
Proof.
  intros Hs Hb Hs' Hb' Hdisj. apply Z.bits_inj'. intros i Hi.
  rewrite !testbit_get_field, testbit_set_field by lia.
  destruct (Z.ltb_spec i bits); simpl; [|reflexivity].
  destruct (Z.leb_spec shift' (i + shift)), (Z.ltb_spec (i + shift) (shift' + bits'));
    simpl; try reflexivity; lia.
Qed.

Lemma get_field_set_bit (shift bits k data : Z) :
  0 <= shift -> 0 <= bits -> 0 <= k -> k < shift \/ shift + bits <= k ->
  get_field shift bits (set_bit (Z.shiftl 1 k) data) = get_field shift bits data.
Proof.
  intros Hs Hb Hk Hout. apply Z.bits_inj'. intros i Hi.
  rewrite !testbit_get_field, testbit_set_bit by lia.
  destruct (Z.ltb_spec i bits); simpl; [|reflexivity].
  rewrite bool_decide_eq_false_2 by lia. apply orb_false_r.
Qed.

Lemma get_field_clear_bit (shift bits k data : Z) :
  0 <= shift -> 0 <= bits -> 0 <= k -> k < shift \/ shift + bits <= k ->
  get_field shift bits (clear_bit (Z.shiftl 1 k) data) = get_field shift bits data.
Proof.
  intros Hs Hb Hk Hout. apply Z.bits_inj'. intros i Hi.
  rewrite !testbit_get_field, testbit_clear_bit by lia.
  destruct (Z.ltb_spec i bits); simpl; [|reflexivity].
  rewrite bool_decide_eq_false_2 by lia. apply andb_true_r.
Qed.

Lemma has_bit_set_field (k shift bits data value : Z) :
  0 <= k -> 0 <= shift -> 0 <= bits -> k < shift \/ shift + bits <= k ->
  has_bit (Z.shiftl 1 k) (set_field shift bits data value)
  = has_bit (Z.shiftl 1 k) data.
Proof.
  intros Hk Hs Hb Hout. rewrite !has_bit_testbit, testbit_set_field by lia.
  destruct (Z.leb_spec shift k), (Z.ltb_spec k (shift + bits)); simpl;
    try reflexivity; lia.
Qed.

Lemma has_bit_set_bit (k k' data : Z) :
  0 <= k -> 0 <= k' ->
  has_bit (Z.shiftl 1 k) (set_bit (Z.shiftl 1 k') data)
  = has_bit (Z.shiftl 1 k) data || bool_decide (k = k').
Proof.
  intros Hk Hk'. rewrite !has_bit_testbit, testbit_set_bit by lia. reflexivity.
Qed.

Lemma has_bit_clear_bit (k k' data : Z) :
  0 <= k -> 0 <= k' ->
  has_bit (Z.shiftl 1 k) (clear_bit (Z.shiftl 1 k') data)
  = has_bit (Z.shiftl 1 k) data && negb (bool_decide (k = k')).
Proof.
  intros Hk Hk'. rewrite !has_bit_testbit, testbit_clear_bit by lia. reflexivity.
Qed.

Lemma get_field_range (shift bits data : Z) :
  0 <= shift -> 0 <= bits -> 0 <= get_field shift bits data < 2 ^ bits.
Proof.
  intros Hs Hb. unfold get_field. rewrite Z.land_ones by lia.
  apply Z.mod_pos_bound. apply Z.pow_pos_nonneg; lia.
Qed.

Ltac layout :=
  cbv [kPageVersionKeyCountShifts kPageVersionKeyCountBits
       kPageVersionInsertionCounterShifts kPageVersionInsertionCounterBits
       kPageVersionSplitCounterShifts kPageVersionSplitCounterBits]; lia.

Ltac unfold_flags :=
  unfold is_locked, is_inserting, is_splitting, has_foster_child, is_root,
    is_border, is_high_fence_supremum, kPageVersionLockedBit,
    kPageVersionInsertingBit, kPageVersionSplittingBit,
    kPageVersionHasFosterChildBit, kPageVersionIsRootBit, kPageVersionIsBorderBit,
    kPageVersionIsSupremumBit.

Lemma get_key_count_range (data : Z) : 0 <= get_key_count data < 2 ^ 7.
Proof. apply get_field_range; layout. Qed.

Lemma get_key_count_set_key_count (data count : Z) :
  get_key_count (set_key_count data count) = count mod 2 ^ 7.
Proof. apply get_field_set_field; layout. Qed.

Lemma get_key_count_set_bit (k data : Z) :
  0 <= k < 7 -> get_key_count (set_bit (Z.shiftl 1 k) data) = get_key_count data.
Proof. intros Hk. apply get_field_set_bit; layout. Qed.

Lemma get_key_count_clear_bit (k data : Z) :
  0 <= k < 7 -> get_key_count (clear_bit (Z.shiftl 1 k) data) = get_key_count data.
Proof. intros Hk. apply get_field_clear_bit; layout. Qed.

(** [set_inserting_and_increment_key_count]: the marker is set, the key count
    is one more while the counter has room, the other flags and counters stay. *)
Lemma set_inserting_and_increment_key_count_inserting (data : Z) :
  is_inserting (set_inserting_and_increment_key_count data) = true.
Proof.
  unfold set_inserting_and_increment_key_count, set_key_count. unfold_flags.
  rewrite has_bit_set_field by layout.
  rewrite has_bit_set_bit by lia. apply orb_true_r.
Qed.

Lemma set_inserting_and_increment_key_count_key_count (data : Z) :
  get_key_count data + 1 < 2 ^ kPageVersionKeyCountBits ->
  get_key_count (set_inserting_and_increment_key_count data)
  = get_key_count data + 1.
Proof.
  intros Hroom. unfold set_inserting_and_increment_key_count.
  rewrite get_key_count_set_key_count.
  unfold kPageVersionInsertingBit. rewrite get_key_count_set_bit by lia.
  pose proof (get_key_count_range data).
  apply Z.mod_small. change kPageVersionKeyCountBits with 7 in Hroom. lia.
Qed.

Lemma set_inserting_and_increment_key_count_locked (data : Z) :
  is_locked (set_inserting_and_increment_key_count data) = is_locked data.
Proof.
  unfold set_inserting_and_increment_key_count, set_key_count. unfold_flags.
  rewrite has_bit_set_field by layout.
  rewrite has_bit_set_bit by lia.
  rewrite bool_decide_eq_false_2 by lia. apply orb_false_r.
Qed.

Lemma set_inserting_and_increment_key_count_split_counter (data : Z) :
  get_split_counter (set_inserting_and_increment_key_count data)
  = get_split_counter data.
Proof.
  unfold set_inserting_and_increment_key_count, set_key_count, get_split_counter.
  rewrite get_field_set_field_other by layout.
  unfold kPageVersionInsertingBit. apply get_field_set_bit; layout.
Qed.

(** [unlock_version] releases the lock and keeps the key count and the
    foster-child flag. *)
Lemma unlock_version_key_count (data : Z) :
  get_key_count (unlock_version data) = get_key_count data.
Proof.
  unfold unlock_version. unfold_flags.
  rewrite !get_key_count_clear_bit by lia.
  destruct (has_bit (Z.shiftl 1 1) data), (has_bit (Z.shiftl 1 2) _);
    unfold get_key_count; rewrite ?get_field_set_field_other by layout;
    reflexivity.
Qed.

Lemma unlock_version_not_locked (data : Z) : is_locked (unlock_version data) = false.
Proof.
  unfold unlock_version. unfold_flags.
  rewrite has_bit_clear_bit by lia.
  rewrite bool_decide_eq_true_2 by reflexivity. apply andb_false_r.
Qed.

Lemma unlock_version_has_foster_child (data : Z) :
  has_foster_child (unlock_version data) = has_foster_child data.
Proof.
  unfold unlock_version. unfold_flags.
  rewrite !has_bit_clear_bit by lia.
  rewrite !bool_decide_eq_false_2 by lia. simpl. rewrite !andb_true_r.
  destruct (has_bit (Z.shiftl 1 1) data), (has_bit (Z.shiftl 1 2) _);
    rewrite ?has_bit_set_field by layout; reflexivity.
Qed.

Lemma lock_version_key_count (data : Z) :
  get_key_count (lock_version data) = get_key_count data.
Proof. unfold lock_version, kPageVersionLockedBit. apply get_key_count_set_bit. lia. Qed.


(** What [diff <= kPageVersionLockedBit] tests: the two words agree on every
    bit but the lock bit. *)
Lemma lxor_le_locked_bit (a b : Z) :
  0 <= a -> 0 <= b ->
  (Z.lxor a b <= kPageVersionLockedBit <-> Z.shiftr a 1 = Z.shiftr b 1).
Proof.
  intros Ha Hb. change kPageVersionLockedBit with 1.
  assert (Hx : 0 <= Z.lxor a b) by (apply Z.lxor_nonneg; lia).
  rewrite <- Z.lxor_eq_0_iff, <- Z.shiftr_lxor.
  rewrite Z.shiftr_div_pow2 by lia. change (2 ^ 1) with 2.
  split; intros H.
  - apply Z.div_small. lia.
  - pose proof (Z.div_mod (Z.lxor a b) 2 ltac:(lia)).
    pose proof (Z.mod_pos_bound (Z.lxor a b) 2 ltac:(lia)). lia.
Qed.

End PageVersionFacts.


Module ArrayLevelsProofs.

Import Array.

Section Levels.

Variable kDataSize : Z.
Variable kRecordOverhead : Z.
Variable kInteriorFanout : Z.

Hypothesis fanout_ge_2 : 2 <= kInteriorFanout.

Lemma int_div_ceil_fanout (pages : Z) :
  2 <= pages ->
  exists next, int_div_ceil pages kInteriorFanout = Some next
               /\ 1 <= next /\ 2 * next <= pages + 1.
Proof.
  intros Hp. unfold int_div_ceil.
  destruct (Z.eqb_spec kInteriorFanout 0) as [E|_]; [lia|].
  eexists; split; [reflexivity|].
  pose proof (Z.div_mod pages kInteriorFanout ltac:(lia)) as Hdm.
  pose proof (Z.mod_pos_bound pages kInteriorFanout ltac:(lia)) as Hmod.
  assert (0 <= pages / kInteriorFanout) by (apply Z.div_pos; lia).
  destruct (Z.eqb_spec (pages mod kInteriorFanout) 0) as [E|E]; nia.
Qed.

Lemma int_div_ceil_upper (left right : Z) (r : Z) :
  0 <= left -> 1 <= right -> int_div_ceil left right = Some r ->
  0 <= r <= left /\ (1 <= left -> 1 <= r).
Proof.
  intros Hl Hr. unfold int_div_ceil.
  destruct (Z.eqb_spec right 0) as [E|_]; [lia|].
  intros [= <-].
  pose proof (Z.div_mod left right ltac:(lia)) as Hdm.
  pose proof (Z.mod_pos_bound left right ltac:(lia)) as Hmod.
  assert (0 <= left / right) by (apply Z.div_pos; lia).
  destruct (Z.eqb_spec (left mod right) 0) as [E|E]; nia.
Qed.

Lemma last_snoc (l : list Z) (x d : Z) : List.last (l ++ [x]) d = x.
Proof. apply List.last_last. Qed.

(** The two loops walk the same sequence of page counts: whatever the fuel,
    the level counter is the length of the vector, as a [uint8_t]. *)
Lemma count_levels_push_interior_levels (fuel : nat) :
  forall pages : list Z,
    count_levels kInteriorFanout fuel (to_uint8 (Z.of_nat (length pages)))
      (List.last pages 0)
    = option_map (fun pages' => to_uint8 (Z.of_nat (length pages')))
        (push_interior_levels kInteriorFanout fuel pages).
Proof.
  induction fuel as [|fuel IH]; intros pages; simpl; [reflexivity|].
  destruct (List.last pages 0 =? 1); [reflexivity|].
  destruct (int_div_ceil (List.last pages 0) kInteriorFanout) as [next|];
    [|reflexivity].
  rewrite <- IH, last_snoc, length_app. simpl.
  f_equal. unfold to_uint8.
  rewrite Nat2Z.inj_add. simpl (Z.of_nat 1).
  rewrite Zplus_mod_idemp_l. reflexivity.
Qed.

(** With a fanout of two or more the vector is complete after at most [n]
    more levels when the last level has at most [2 ^ n] pages. *)
Lemma push_interior_levels_returns (n : nat) :
  forall (fuel : nat) (pages : list Z),
    (n < fuel)%nat ->
    1 <= List.last pages 0 <= 2 ^ Z.of_nat n ->
    exists pages',
      push_interior_levels kInteriorFanout fuel pages = Some pages'
      /\ (length pages' <= length pages + n)%nat.
Proof.
  induction n as [|n IH]; intros fuel pages Hfuel Hlast.
  - destruct fuel as [|fuel]; [lia|]. simpl.
    change (2 ^ Z.of_nat 0) with 1 in Hlast.
    destruct (Z.eqb_spec (List.last pages 0) 1) as [_|E]; [|lia].
    exists pages. split; [reflexivity|lia].
  - destruct fuel as [|fuel]; [lia|]. simpl.
    destruct (Z.eqb_spec (List.last pages 0) 1) as [_|E].
    + exists pages. split; [reflexivity|lia].
    + destruct (int_div_ceil_fanout (List.last pages 0) ltac:(lia))
        as (next & -> & Hge & Hle).
      destruct (IH fuel (pages ++ [next]) ltac:(lia)) as (pages' & Hp & Hlen).
      * rewrite last_snoc.
        rewrite Nat2Z.inj_succ, Z.pow_succ_r in Hlast by lia. lia.
      * exists pages'. split; [exact Hp|].
        rewrite length_app in Hlen. simpl in Hlen. lia.
Qed.

(** C6: with [array_size >= 1], the level count of [calculate_levels] is the
    number of entries of the vector [calculate_required_pages] returns for the
    same array size and payload size.  Both return when at least one record
    fits in a page; when none fits, both divide by zero. *)
Theorem calculate_levels_is_length_of_required_pages
    (array_size payload_size : Z) (fuel : nat) :
  0 < kRecordOverhead ->
  1 <= array_size < 2 ^ 64 ->
  (64 < fuel)%nat ->
  let records := kDataSize / (to_uint16 (align8 payload_size) + kRecordOverhead) in
  (1 <= records ->
   exists pages : list Z,
     calculate_required_pages kDataSize kRecordOverhead kInteriorFanout fuel
       array_size payload_size = Some pages
     /\ calculate_levels kDataSize kRecordOverhead kInteriorFanout fuel
          (mkArrayMetadata payload_size array_size)
        = Some (Z.of_nat (length pages)))
  /\ (records = 0 ->
      calculate_required_pages kDataSize kRecordOverhead kInteriorFanout fuel
        array_size payload_size = None
      /\ calculate_levels kDataSize kRecordOverhead kInteriorFanout fuel
           (mkArrayMetadata payload_size array_size) = None).
Proof.
  intros Hov Hsize Hfuel records.
  assert (Hden : 0 < to_uint16 (align8 payload_size) + kRecordOverhead).
  { unfold to_uint16.
    pose proof (Z.mod_pos_bound (align8 payload_size) (2 ^ 16) ltac:(lia)). lia. }
  unfold calculate_required_pages, calculate_levels, records_per_page. simpl.
  destruct (Z.eqb_spec (to_uint16 (align8 payload_size) + kRecordOverhead) 0)
    as [E|_]; [lia|].
  fold records. split.
  - intros Hrec.
    destruct (int_div_ceil array_size records) as [leaf_pages|] eqn:Hleaf.
    2:{ unfold int_div_ceil in Hleaf.
        destruct (Z.eqb_spec records 0); [lia|discriminate]. }
    destruct (int_div_ceil_upper array_size records leaf_pages ltac:(lia) Hrec Hleaf)
      as [Hb Hpos].
    destruct (push_interior_levels_returns 64 fuel [leaf_pages] Hfuel)
      as (pages & Hpages & Hlen).
    { simpl. change (2 ^ Z.of_nat 64) with (2 ^ 64). lia. }
    exists pages. split; [exact Hpages|].
    pose proof (count_levels_push_interior_levels fuel [leaf_pages]) as Hagree.
    change (count_levels kInteriorFanout fuel 1 leaf_pages
            = option_map (fun pages' => to_uint8 (Z.of_nat (length pages')))
                (push_interior_levels kInteriorFanout fuel [leaf_pages]))
      in Hagree.
    rewrite Hagree, Hpages. simpl. f_equal.
    simpl in Hlen. unfold to_uint8. apply Z.mod_small. lia.
  - intros Hrec. rewrite Hrec. split; reflexivity.
Qed.

End Levels.

(** A billion 8-byte records in 4 KiB pages. *)
Lemma calculate_levels_is_length_of_required_pages_witness :
  exists pages : list Z,
    calculate_required_pages 4064 8 254 65 1000000000 8 = Some pages
    /\ calculate_levels 4064 8 254 65 (mkArrayMetadata 8 1000000000)
       = Some (Z.of_nat (length pages)).
Proof.
  apply (proj1 (calculate_levels_is_length_of_required_pages 4064 8 254
                  ltac:(lia) 1000000000 8 65 ltac:(lia) ltac:(lia) ltac:(lia))).
  vm_compute. discriminate.
Defined.

End ArrayLevelsProofs.

(** * Facts about pages and memory *)

Module MemoryFacts.

Import PageVersion MasstreePageImpl Memory.

Lemma get_slot_set_slot (pg : MasstreePage) (slots : list BorderSlot) (index : Z)
    (slot : BorderSlot) :
  body_ pg = BorderBody slots ->
  (Z.to_nat index < length slots)%nat ->
  get_slot (set_slot pg index slot) index = Some slot.
Proof.
  intros Hbody Hlen. unfold get_slot, set_slot. rewrite Hbody. simpl.
  apply list_lookup_insert_eq. exact Hlen.
Qed.

Lemma get_slot_in_range (pg : MasstreePage) (index : Z) (slot : BorderSlot) :
  get_slot pg index = Some slot ->
  exists slots, body_ pg = BorderBody slots /\ (Z.to_nat index < length slots)%nat.
Proof.
  unfold get_slot. destruct (body_ pg) as [slots|]; [|discriminate].
  intros H. exists slots. split; [reflexivity|]. eapply lookup_lt_Some, H.
Qed.

Lemma get_slot_set_page_version (pg : MasstreePage) (v index : Z) :
  get_slot (set_page_version pg v) index = get_slot pg index.
Proof. reflexivity. Qed.

Lemma page_version_set_slot (pg : MasstreePage) (index : Z) (slot : BorderSlot) :
  page_version_ (set_slot pg index slot) = page_version_ pg.
Proof. unfold set_slot. destruct (body_ pg); reflexivity. Qed.

Lemma body_set_page_version (pg : MasstreePage) (v : Z) :
  body_ (set_page_version pg v) = body_ pg.
Proof. reflexivity. Qed.

Lemma get_page_lookup (p : PageAddr) (pg : MasstreePage) (s : State) :
  masstree_pages (shared s) !! p = Some pg -> get_page p s = Some (pg, s).
Proof. intros H. unfold get_page. rewrite H. reflexivity. Qed.

Lemma unlock_lookup (p : PageAddr) (pg : MasstreePage) (s : State) :
  masstree_pages (shared s) !! p = Some pg ->
  unlock p s
  = Some (tt, set_shared s
                (set_masstree_pages (shared s)
                   (<[p := set_page_version pg (unlock_version (page_version_ pg))]>
                      (masstree_pages (shared s))))).
Proof.
  intros H. unfold unlock, bind. rewrite (get_page_lookup _ _ _ H). reflexivity.
Qed.



End MemoryFacts.

(** * Reserving a record *)

Module ReserveProofs.

Import PageVersion MasstreePageImpl Memory XctImpl MasstreeStoragePimpl.
Import PageVersionFacts MemoryFacts.

Section Reserve.

Variable kEpochInitialCurrent : Z.

(** C4: a slot made by [reserve_record_new_record_apply] in a locked border
    page is born deleted, and the page's inserting marker is set and its key
    count is one more. *)
Theorem reserve_record_new_record_apply_born_deleted
    (context : Thread) (target : PageAddr) (target_index : Z) (slice : KeySlice)
    (remaining_key_length : Z) (suffix : list byte) (payload_count : Z)
    (s : State) (target_page : MasstreePage) (slots : list BorderSlot) :
  masstree_pages (shared s) !! target = Some target_page ->
  body_ target_page = BorderBody slots ->
  is_locked (page_version_ target_page) = true ->
  (Z.to_nat target_index < length slots)%nat ->
  get_key_count (page_version_ target_page) + 1 < 2 ^ kPageVersionKeyCountBits ->
  exists (s' : State) (page' : MasstreePage) (slot : BorderSlot),
    reserve_record_new_record_apply kEpochInitialCurrent context target
      target_index slice remaining_key_length suffix payload_count s
    = Some (tt, s')
    /\ masstree_pages (shared s') !! target = Some page'
    /\ get_slot page' target_index = Some slot
    /\ XctId.is_deleted (owner_id_ slot) = true
    /\ does_point_to_layer slot = false
    /\ is_inserting (page_version_ page') = true
    /\ is_locked (page_version_ page') = true
    /\ get_key_count (page_version_ page')
       = get_key_count (page_version_ target_page) + 1.
Proof.
  intros Hpage Hbody Hlocked Hindex Hroom.
  unfold reserve_record_new_record_apply, bind.
  rewrite (get_page_lookup _ _ _ Hpage).
  unfold put_page, reserve_record_space.
  eexists _, _, _. split; [reflexivity|]. simpl.
  split; [apply lookup_insert_eq|].
  split; [apply (get_slot_set_slot _ slots); [exact Hbody|exact Hindex]|].
  rewrite page_version_set_slot. simpl.
  split; [reflexivity|]. split; [reflexivity|].
  split; [apply set_inserting_and_increment_key_count_inserting|].
  split; [rewrite set_inserting_and_increment_key_count_locked; exact Hlocked|].
  apply set_inserting_and_increment_key_count_key_count. exact Hroom.
Qed.

End Reserve.

(** The first record reserved in the locked root of a fresh tree. *)
Lemma reserve_record_new_record_apply_born_deleted_witness :
  is_locked (page_version_ (Scenario.page_at Scenario.locked_fresh_tree Scenario.root))
  = true
  /\ exists (s' : State) (page' : MasstreePage) (slot : BorderSlot),
      reserve_record_new_record_apply Scenario.kEpochInitialCurrent Scenario.context
        Scenario.root 0 7 12 [x61; x62; x63; x64] 8 Scenario.locked_fresh_tree
      = Some (tt, s')
      /\ masstree_pages (shared s') !! Scenario.root = Some page'
      /\ get_slot page' 0 = Some slot
      /\ XctId.is_deleted (owner_id_ slot) = true
      /\ does_point_to_layer slot = false
      /\ is_inserting (page_version_ page') = true
      /\ is_locked (page_version_ page') = true
      /\ get_key_count (page_version_ page')
         = get_key_count
             (page_version_
                (Scenario.page_at Scenario.locked_fresh_tree Scenario.root)) + 1.
Proof.
  split; [vm_compute; reflexivity|].
  apply (reserve_record_new_record_apply_born_deleted Scenario.kEpochInitialCurrent
           Scenario.context Scenario.root 0 7 12 [x61; x62; x63; x64] 8
           Scenario.locked_fresh_tree
           (Scenario.page_at Scenario.locked_fresh_tree Scenario.root)
           (replicate 64 empty_slot)).
  - vm_compute. reflexivity.
  - vm_compute. reflexivity.
  - vm_compute. reflexivity.
  - vm_compute. lia.
  - vm_compute. reflexivity.
Defined.

End ReserveProofs.

(** * Creating the next layer *)

Module NextLayerProofs.

Import PageVersion MasstreePageImpl Memory XctImpl MasstreeStoragePimpl.
Import PageVersionFacts MemoryFacts.

Section NextLayer.

Variable env : nat -> Shared -> Shared.
Variable metadata_id_ : Z.
Variable kMaxKeys : Z.
Variable one_more : XctId.Epoch -> XctId.Epoch.

(** The run of [create_next_layer] from the instant the key lock is taken, in
    the case the function installs the layer itself. *)
Lemma create_next_layer_installs
    (fuel : nat) (context : Thread) (parent : PageAddr) (parent_index : Z)
    (s s0 s1 : State) (offset : Z) (parent_page : MasstreePage) (slot : BorderSlot) :
  grab_free_volatile_page s = Some (offset, s0) ->
  offset <> 0 ->
  keylock_unconditional env fuel parent parent_index s0 = Some (tt, s1) ->
  masstree_pages (shared s1) !! parent = Some parent_page ->
  get_slot parent_page parent_index = Some slot ->
  does_point_to_layer slot = false ->
  local_resolve_offset context offset <> parent ->
  exists (s' : State) (root_page : MasstreePage) (released : XctId.t),
    create_next_layer env metadata_id_ kMaxKeys one_more fuel context parent
      parent_index s = Some (kErrorCodeOk, s')
    /\ masstree_pages (shared s') !! parent
       = Some (set_slot parent_page parent_index
                 (set_owner_id
                    (set_next_layer slot
                       (mkDualPagePointer 0
                          (combine_volatile_page_pointer (get_numa_node context)
                             0 0 offset)))
                    released))
    /\ XctId.is_keylocked released = false
    /\ XctId.is_deleted released = false
    /\ (if XctId.get_ordinal (owner_id_ slot) =? 65535
        then XctId.get_ordinal released = 0
             /\ XctId.get_epoch released
                = one_more (XctId.get_epoch (owner_id_ slot))
        else XctId.get_ordinal released
             = to_uint16 (XctId.get_ordinal (owner_id_ slot) + 1)
             /\ XctId.get_epoch released = XctId.get_epoch (owner_id_ slot))
    /\ masstree_pages (shared s') !! local_resolve_offset context offset
       = Some root_page
    /\ is_locked (page_version_ root_page) = false
    /\ get_key_count (page_version_ root_page) = 1
    /\ (0 < kMaxKeys ->
        exists copied,
          get_slot root_page 0 = Some copied
          /\ owner_id_ copied = XctId.release_keylock (owner_id_ slot)
          /\ payload_ copied = payload_ slot)
    /\ free_pages s' = free_pages s1.
Proof.
  intros Hgrab Hoffset Hlock Hpage Hslot Hlayer Hroot.
  unfold create_next_layer, bind. rewrite Hgrab.
  destruct (Z.eqb_spec offset 0) as [E|_]; [contradiction|].
  rewrite Hlock, (get_page_lookup _ _ _ Hpage), Hslot, Hlayer.
  unfold put_page at 1. simpl. unfold XctId.get_ordinal.
  destruct (Z.eqb_spec (XctId.ordinal_ (owner_id_ slot)) 65535) as [Hord|Hord];
    simpl;
    destruct (XctId.deleted_bit (owner_id_ slot)) eqn:Hdel; simpl.
  all: unfold unlock, bind, get_page, put_page; simpl.
  all: rewrite lookup_insert_ne by (intros E; apply Hroot; symmetry; exact E).
  all: rewrite lookup_insert_eq; simpl.
  all: eexists _, _, _; split; [reflexivity|]; simpl.
  all: rewrite lookup_insert_ne by exact Hroot.
  all: rewrite lookup_insert_eq, lookup_insert_eq.
  all: split; [reflexivity|]; simpl.
  all: split; [reflexivity|].
  all: split; [simpl; rewrite ?Hdel; reflexivity|].
  all: split;
         [split; [|reflexivity]; unfold to_uint16; rewrite ?Zmod_mod; reflexivity|].
  all: split; [reflexivity|]; simpl.
  all: split; [apply unlock_version_not_locked|].
  all: split; [rewrite unlock_version_key_count;
               unfold copy_initial_record; simpl;
               rewrite get_key_count_set_key_count; reflexivity|].
  all: split; [|reflexivity].
  all: intros Hmax; eexists; split;
         [unfold copy_initial_record; simpl;
          apply (get_slot_set_slot _ (replicate (Z.to_nat kMaxKeys) empty_slot));
          [reflexivity|rewrite length_replicate; lia]|].
  all: split; reflexivity.
Qed.

(** What [keylock_unconditional] leaves when it returns: the slot as it was at
    the instant of the successful compare-and-swap, with the lock bit set. *)
Lemma keylock_unconditional_returns (fuel : nat) (page : PageAddr) (index : Z) :
  forall s s1 : State,
    keylock_unconditional env fuel page index s = Some (tt, s1) ->
    exists (pg : MasstreePage) (slot : BorderSlot),
      get_slot pg index = Some slot
      /\ XctId.is_keylocked (owner_id_ slot) = false
      /\ masstree_pages (shared s1) !! page
         = Some (set_slot pg index (set_owner_id slot (XctId.keylock (owner_id_ slot))))
      /\ free_pages s1 = free_pages s
      /\ current_xct s1 = current_xct s.
Proof.
  induction fuel as [|fuel IH]; intros s s1; simpl; [discriminate|].
  unfold bind, load_page, bind, tick, get_page. simpl.
  destruct (masstree_pages (env (clock s) (shared s)) !! page) as [pg|] eqn:Hpg;
    [|discriminate].
  destruct (get_slot pg index) as [slot|] eqn:Hslot; [|discriminate].
  destruct (XctId.is_keylocked (owner_id_ slot)) eqn:Hlocked.
  - intros H. apply IH in H. destruct H as (pg' & slot' & H1 & H2 & H3 & H4 & H5).
    exists pg', slot'. repeat split; assumption.
  - unfold put_page. simpl. intros [= <-]. simpl.
    exists pg, slot. rewrite lookup_insert_eq. repeat split; assumption.
Qed.

(** The run of [create_next_layer] when another thread has made the slot a
    next-layer pointer before the key lock was taken. *)
Lemma create_next_layer_already_made
    (fuel : nat) (context : Thread) (parent : PageAddr) (parent_index : Z)
    (s s0 s1 : State) (offset : Z) (parent_page : MasstreePage) (slot : BorderSlot) :
  grab_free_volatile_page s = Some (offset, s0) ->
  offset <> 0 ->
  keylock_unconditional env fuel parent parent_index s0 = Some (tt, s1) ->
  masstree_pages (shared s1) !! parent = Some parent_page ->
  get_slot parent_page parent_index = Some slot ->
  does_point_to_layer slot = true ->
  exists s' : State,
    create_next_layer env metadata_id_ kMaxKeys one_more fuel context parent
      parent_index s = Some (kErrorCodeOk, s')
    /\ free_pages s' = free_pages s
    /\ masstree_pages (shared s')
       = <[parent := set_slot parent_page parent_index
                       (set_owner_id slot (XctId.release_keylock (owner_id_ slot)))]>
           (masstree_pages (shared s1)).
Proof.
  intros Hgrab Hoffset Hlock Hpage Hslot Hlayer.
  unfold create_next_layer, bind. rewrite Hgrab.
  destruct (Z.eqb_spec offset 0) as [E|_]; [contradiction|].
  rewrite Hlock, (get_page_lookup _ _ _ Hpage), Hslot, Hlayer.
  unfold release_free_volatile_page, put_page. simpl.
  eexists. split; [reflexivity|]. simpl. split; [|reflexivity].
  destruct (keylock_unconditional_returns _ _ _ _ _ Hlock)
    as (_ & _ & _ & _ & _ & Hfree & _).
  rewrite Hfree. unfold grab_free_volatile_page in Hgrab.
  destruct (free_pages s) as [|o rest]; [congruence|].
  injection Hgrab as <- <-. reflexivity.
Qed.

(** C5: when [create_next_layer] installs the new layer, the parent slot's
    owner-id is released with the ordinal one more when the ordinal was below
    0xFFFF, and with ordinal 0 and the next epoch when it was 0xFFFF. *)
Theorem create_next_layer_releases_next_ordinal
    (fuel : nat) (context : Thread) (parent : PageAddr) (parent_index : Z)
    (s s0 s1 : State) (offset : Z) (parent_page : MasstreePage) (slot : BorderSlot) :
  grab_free_volatile_page s = Some (offset, s0) ->
  offset <> 0 ->
  keylock_unconditional env fuel parent parent_index s0 = Some (tt, s1) ->
  masstree_pages (shared s1) !! parent = Some parent_page ->
  get_slot parent_page parent_index = Some slot ->
  does_point_to_layer slot = false ->
  local_resolve_offset context offset <> parent ->
  0 <= XctId.get_ordinal (owner_id_ slot) <= 65535 ->
  exists (s' : State) (parent_page' : MasstreePage) (slot' : BorderSlot),
    create_next_layer env metadata_id_ kMaxKeys one_more fuel context parent
      parent_index s = Some (kErrorCodeOk, s')
    /\ masstree_pages (shared s') !! parent = Some parent_page'
    /\ get_slot parent_page' parent_index = Some slot'
    /\ next_layer_ slot'
       = Some (mkDualPagePointer 0
                 (combine_volatile_page_pointer (get_numa_node context) 0 0 offset))
    /\ XctId.is_keylocked (owner_id_ slot') = false
    /\ (XctId.get_ordinal (owner_id_ slot) < 65535 ->
        XctId.get_ordinal (owner_id_ slot') = XctId.get_ordinal (owner_id_ slot) + 1
        /\ XctId.get_epoch (owner_id_ slot') = XctId.get_epoch (owner_id_ slot))
    /\ (XctId.get_ordinal (owner_id_ slot) = 65535 ->
        XctId.get_ordinal (owner_id_ slot') = 0
        /\ XctId.get_epoch (owner_id_ slot')
           = one_more (XctId.get_epoch (owner_id_ slot))).
Proof.
  intros Hgrab Hoffset Hlock Hpage Hslot Hlayer Hroot Hrange.
  destruct (create_next_layer_installs fuel context parent parent_index s s0 s1
              offset parent_page slot Hgrab Hoffset Hlock Hpage Hslot Hlayer Hroot)
    as (s' & root_page & released & Hrun & Hparent & Hkey & _ & Hord & _).
  destruct (get_slot_in_range _ _ _ Hslot) as (slots & Hbody & Hlen).
  eexists s', _, _. split; [exact Hrun|]. split; [exact Hparent|].
  split; [apply (get_slot_set_slot _ slots); assumption|].
  simpl. split; [reflexivity|]. split; [exact Hkey|].
  destruct (Z.eqb_spec (XctId.get_ordinal (owner_id_ slot)) 65535) as [E|E].
  - split; [lia|]. intros _. exact Hord.
  - split; [|contradiction]. intros Hlt. destruct Hord as [Ho He].
    split; [|exact He]. rewrite Ho. unfold to_uint16. apply Z.mod_small. lia.
Qed.

(** C10: after [create_next_layer] has installed the layer the parent slot is
    a next-layer pointer whose owner-id is not deleted, and the copy in the
    new root keeps the deleted flag of the record; when the slot already was a
    next-layer pointer, the page goes back to the pool and the slot only loses
    the key lock. *)
Theorem create_next_layer_pointer_not_deleted
    (fuel : nat) (context : Thread) (parent : PageAddr) (parent_index : Z)
    (s s0 s1 : State) (offset : Z) (parent_page : MasstreePage) (slot : BorderSlot) :
  grab_free_volatile_page s = Some (offset, s0) ->
  offset <> 0 ->
  keylock_unconditional env fuel parent parent_index s0 = Some (tt, s1) ->
  masstree_pages (shared s1) !! parent = Some parent_page ->
  get_slot parent_page parent_index = Some slot ->
  0 < kMaxKeys ->
  local_resolve_offset context offset <> parent ->
  (does_point_to_layer slot = false ->
   exists (s' : State) (parent_page' root_page : MasstreePage)
          (slot' copied : BorderSlot),
     create_next_layer env metadata_id_ kMaxKeys one_more fuel context parent
       parent_index s = Some (kErrorCodeOk, s')
     /\ masstree_pages (shared s') !! parent = Some parent_page'
     /\ get_slot parent_page' parent_index = Some slot'
     /\ does_point_to_layer slot' = true
     /\ XctId.is_deleted (owner_id_ slot') = false
     /\ masstree_pages (shared s') !! local_resolve_offset context offset
        = Some root_page
     /\ get_key_count (page_version_ root_page) = 1
     /\ get_slot root_page 0 = Some copied
     /\ XctId.is_deleted (owner_id_ copied) = XctId.is_deleted (owner_id_ slot))
  /\ (does_point_to_layer slot = true ->
      exists s' : State,
        create_next_layer env metadata_id_ kMaxKeys one_more fuel context parent
          parent_index s = Some (kErrorCodeOk, s')
        /\ free_pages s' = free_pages s
        /\ masstree_pages (shared s')
           = <[parent := set_slot parent_page parent_index
                           (set_owner_id slot
                              (XctId.release_keylock (owner_id_ slot)))]>
               (masstree_pages (shared s1))).
Proof.
  intros Hgrab Hoffset Hlock Hpage Hslot Hmax Hroot. split; intros Hlayer.
  - destruct (create_next_layer_installs fuel context parent parent_index s s0 s1
                offset parent_page slot Hgrab Hoffset Hlock Hpage Hslot Hlayer Hroot)
      as (s' & root_page & released & Hrun & Hparent & _ & Hdel & _ & Hrootp & _
          & Hcount & Hcopy & _).
    destruct (Hcopy Hmax) as (copied & Hcopied & Howner & _).
    destruct (get_slot_in_range _ _ _ Hslot) as (slots & Hbody & Hlen).
    eexists s', _, root_page, _, copied.
    split; [exact Hrun|]. split; [exact Hparent|].
    split; [apply (get_slot_set_slot _ slots); assumption|].
    split; [reflexivity|]. split; [exact Hdel|].
    split; [exact Hrootp|]. split; [exact Hcount|]. split; [exact Hcopied|].
    rewrite Howner. reflexivity.
  - exact (create_next_layer_already_made fuel context parent parent_index s s0 s1
             offset parent_page slot Hgrab Hoffset Hlock Hpage Hslot Hlayer).
Qed.

End NextLayer.

End NextLayerProofs.

Module NextLayerWitnesses.

Import PageVersion MasstreePageImpl Memory XctImpl MasstreeStoragePimpl.

(** A deleted record with ordinal 0xFFFF in the root of a quiet tree. *)
Lemma create_next_layer_releases_next_ordinal_witness :
  let s := Scenario.tree_with_record Scenario.last_ordinal_owner in
  let s0 := exec grab_free_volatile_page s in
  let s1 := exec (keylock_unconditional Scenario.quiet 1 Scenario.root 0) s0 in
  let slot := Scenario.a_record (XctId.keylock Scenario.last_ordinal_owner) in
  get_slot (Scenario.page_at s1 Scenario.root) 0 = Some slot
  /\ exists (s' : State) (parent_page' : MasstreePage) (slot' : BorderSlot),
      create_next_layer Scenario.quiet Scenario.metadata_id_ Scenario.kMaxKeys
        Scenario.one_more 1 Scenario.context Scenario.root 0 s
      = Some (kErrorCodeOk, s')
      /\ masstree_pages (shared s') !! Scenario.root = Some parent_page'
      /\ get_slot parent_page' 0 = Some slot'
      /\ next_layer_ slot'
         = Some (mkDualPagePointer 0 (combine_volatile_page_pointer 0 0 0 6))
      /\ XctId.is_keylocked (owner_id_ slot') = false
      /\ (XctId.get_ordinal (owner_id_ slot) < 65535 ->
          XctId.get_ordinal (owner_id_ slot') = XctId.get_ordinal (owner_id_ slot) + 1
          /\ XctId.get_epoch (owner_id_ slot') = XctId.get_epoch (owner_id_ slot))
      /\ (XctId.get_ordinal (owner_id_ slot) = 65535 ->
          XctId.get_ordinal (owner_id_ slot') = 0
          /\ XctId.get_epoch (owner_id_ slot')
             = Scenario.one_more (XctId.get_epoch (owner_id_ slot))).
Proof.
  intros s s0 s1 slot.
  split; [vm_compute; reflexivity|].
  apply (NextLayerProofs.create_next_layer_releases_next_ordinal Scenario.quiet
           Scenario.metadata_id_ Scenario.kMaxKeys Scenario.one_more 1
           Scenario.context Scenario.root 0 s s0 s1 6
           (Scenario.page_at s1 Scenario.root) slot).
  - vm_compute. reflexivity.
  - lia.
  - vm_compute. reflexivity.
  - vm_compute. reflexivity.
  - vm_compute. reflexivity.
  - reflexivity.
  - vm_compute. intros E. discriminate E.
  - vm_compute. split; intros E; discriminate E.
Defined.

Lemma create_next_layer_pointer_not_deleted_witness :
  let s := Scenario.tree_with_record Scenario.last_ordinal_owner in
  let s0 := exec grab_free_volatile_page s in
  let s1 := exec (keylock_unconditional Scenario.quiet 1 Scenario.root 0) s0 in
  let slot := Scenario.a_record (XctId.keylock Scenario.last_ordinal_owner) in
  XctId.is_deleted (owner_id_ slot) = true
  /\ exists (s' : State) (parent_page' root_page : MasstreePage)
            (slot' copied : BorderSlot),
      create_next_layer Scenario.quiet Scenario.metadata_id_ Scenario.kMaxKeys
        Scenario.one_more 1 Scenario.context Scenario.root 0 s
      = Some (kErrorCodeOk, s')
      /\ masstree_pages (shared s') !! Scenario.root = Some parent_page'
      /\ get_slot parent_page' 0 = Some slot'
      /\ does_point_to_layer slot' = true
      /\ XctId.is_deleted (owner_id_ slot') = false
      /\ masstree_pages (shared s') !! local_resolve_offset Scenario.context 6
         = Some root_page
      /\ get_key_count (page_version_ root_page) = 1
      /\ get_slot root_page 0 = Some copied
      /\ XctId.is_deleted (owner_id_ copied) = XctId.is_deleted (owner_id_ slot).
Proof.
  intros s s0 s1 slot.
  split; [reflexivity|].
  apply (NextLayerProofs.create_next_layer_pointer_not_deleted Scenario.quiet
           Scenario.metadata_id_ Scenario.kMaxKeys Scenario.one_more 1
           Scenario.context Scenario.root 0 s s0 s1 6
           (Scenario.page_at s1 Scenario.root) slot).
  - vm_compute. reflexivity.
  - lia.
  - vm_compute. reflexivity.
  - vm_compute. reflexivity.
  - vm_compute. reflexivity.
  - reflexivity.
  - vm_compute. intros E. discriminate E.
  - reflexivity.
Defined.

End NextLayerWitnesses.

(** * Growing the root *)

Module GrowRootProofs.

Import PageVersion MasstreePageImpl Memory XctImpl MasstreeStoragePimpl.
Import PageVersionFacts MemoryFacts.

Section GrowRoot.

Variable env : nat -> Shared -> Shared.
Variable metadata_id_ : Z.
Variable kMaxKeys : Z.



End GrowRoot.


(** C2, at the failing input.  A thread reads the root pointer and the stable
    version of the root at offset 5, which has a foster child.  Before it
    locks that page another thread grows the root, so that the root pointer
    leads to the page at offset 7, and a third splits the page at offset 5
    again.  [grow_root] finds a foster child once the page is locked, returns
    OK, and pointer 0 of the page it installs is the root pointer's value:
    it leads to the page at offset 7, not to the page [grow_root] was called
    on, against the assertion in the source. *)
Theorem grow_root_stale_root_pointer :
  let env := Scenario.racing_grower 2 in
  let s2 :=
    exec (get_stable_version env 3 Scenario.root)
      (exec (load_pointer env FirstRootPointer) Scenario.racing_tree) in
  exists (s' : State) (root_page new_root_page : MasstreePage) (mini_page : MiniPage)
         (pointer0 : DualPagePointer),
    load_pointer env FirstRootPointer Scenario.racing_tree
    = Some (mkDualPagePointer 0 (mkVolatilePagePointer 0 1 0 5),
            exec (load_pointer env FirstRootPointer) Scenario.racing_tree)
    /\ masstree_pages (shared (exec (lock env 3 Scenario.root) s2)) !! Scenario.root
       = Some root_page
    /\ has_foster_child (page_version_ root_page) = true
    /\ grow_root env Scenario.metadata_id_ Scenario.kMaxKeys 3 Scenario.context
         FirstRootPointer Scenario.root s2 = Some (kErrorCodeOk, s')
    /\ first_root_pointer_ (shared s')
       = mkDualPagePointer 0 (mkVolatilePagePointer 0 1 2 30)
    /\ masstree_pages (shared s') !! (0, 30) = Some new_root_page
    /\ get_minipage new_root_page 0 = Some mini_page
    /\ pointers_ mini_page !! 0%nat = Some pointer0
    /\ resolve_offset (volatile_pointer_ pointer0) = Scenario.new_root
    /\ resolve_offset (volatile_pointer_ pointer0) <> Scenario.root.
Proof.
  intros env s2. eexists _, _, _, _, _.
  split; [vm_compute; reflexivity|].
  split; [vm_compute; reflexivity|].
  split; [vm_compute; reflexivity|].
  split; [vm_compute; reflexivity|].
  split; [vm_compute; reflexivity|].
  split; [vm_compute; reflexivity|].
  split; [vm_compute; reflexivity|].
  split; [vm_compute; reflexivity|].
  split; [vm_compute; reflexivity|].
  vm_compute. discriminate.
Qed.

End GrowRootProofs.

(** * Descent: hand-over-hand verification *)

Module DescentProofs.

Import PageVersion MasstreePageImpl Memory XctImpl MasstreeStoragePimpl.
Import PageVersionFacts MemoryFacts.

Lemma while_true_continue {V R : Type} (fuel : nat) (body : V -> M (Loop V R))
    (v v' : V) (s s' : State) :
  body v s = Some (Continue v', s') ->
  while_true (S fuel) body v s = while_true fuel body v' s'.
Proof. intros H. simpl. unfold bind. rewrite H. reflexivity. Qed.

Lemma while_true_return {V R : Type} (fuel : nat) (body : V -> M (Loop V R))
    (v : V) (r : R) (s s' : State) :
  body v s = Some (Return r, s') ->
  while_true (S fuel) body v s = Some (r, s').
Proof. intros H. simpl. unfold bind. rewrite H. reflexivity. Qed.

Section Descent.

Variable env : nat -> Shared -> Shared.
Variable follow_page_pointer :
  Thread -> bool -> bool -> bool -> bool -> PointerAddr -> M (Res PageAddr).
Variable adopt_from_child :
  Thread -> PageAddr -> KeySlice -> Z -> Z -> Z -> Z -> PageAddr -> M ErrorCode.

(** The step of [find_border_leaf] from a page to its foster child. *)
Lemma find_border_leaf_foster_step
    (fuel : nat) (current_layer : Z) (slice : KeySlice) (cur next : PageAddr)
    (cur_stable next_stable version : Z) (s s_a s_b s_c s_d : State) :
  follows_foster env cur cur_stable slice s = Some (true, s_a) ->
  get_foster_child env cur s_a = Some (next, s_b) ->
  get_stable_version env fuel next s_b = Some (next_stable, s_c) ->
  get_version env cur s_c = Some (version, s_d) ->
  (Z.lxor version cur_stable <= kPageVersionLockedBit ->
   find_border_leaf_body env fuel current_layer slice (cur, cur_stable) s
   = Some (Continue (next, next_stable), s_d))
  /\ (kPageVersionLockedBit < Z.lxor version cur_stable ->
      forall (cur_new_stable : Z) (s_e : State),
        get_stable_version env fuel cur s_d = Some (cur_new_stable, s_e) ->
        (get_split_counter cur_new_stable <> get_split_counter cur_stable ->
         find_border_leaf_body env fuel current_layer slice (cur, cur_stable) s
         = Some (Return (Err kErrorCodeStrMasstreeRetry), s_e))
        /\ (get_split_counter cur_new_stable = get_split_counter cur_stable ->
            find_border_leaf_body env fuel current_layer slice (cur, cur_stable) s
            = Some (Continue (cur, cur_new_stable), s_e))).
Proof.
  intros Hfoster Hchild Hnext Hversion.
  unfold find_border_leaf_body, bind. rewrite Hfoster. cbn [negb]. cbv beta iota.
  rewrite Hchild, Hnext, Hversion.
  split.
  - intros Hdiff. destruct (Z.leb_spec (Z.lxor version cur_stable) kPageVersionLockedBit);
      [reflexivity|lia].
  - intros Hdiff cur_new_stable s_e Hstable.
    destruct (Z.leb_spec (Z.lxor version cur_stable) kPageVersionLockedBit); [lia|].
    rewrite Hstable.
    destruct (Z.eqb_spec (get_split_counter cur_new_stable)
                (get_split_counter cur_stable)); simpl;
      split; intros; try reflexivity; contradiction.
Qed.

(** The step of [find_border_descend] from an intermediate page to its foster
    child. *)
Lemma find_border_descend_foster_step
    (fuel : nat) (self : PageAddr -> Z -> M (Res (PageAddr * Z)))
    (context : Thread) (current_layer : Z) (for_writes : bool) (slice : KeySlice)
    (cur next : PageAddr) (cur_stable next_stable version : Z)
    (s s_a s_b s_c s_d : State) :
  follows_foster env cur cur_stable slice s = Some (true, s_a) ->
  get_foster_child env cur s_a = Some (next, s_b) ->
  get_stable_version env fuel next s_b = Some (next_stable, s_c) ->
  get_version env cur s_c = Some (version, s_d) ->
  let body :=
    find_border_descend_body env follow_page_pointer adopt_from_child fuel self
      context current_layer for_writes slice in
  (Z.lxor version cur_stable <= kPageVersionLockedBit ->
   body (cur, cur_stable) s = Some (Continue (next, next_stable), s_d))
  /\ (kPageVersionLockedBit < Z.lxor version cur_stable ->
      forall (cur_new_stable : Z) (s_e : State),
        get_stable_version env fuel cur s_d = Some (cur_new_stable, s_e) ->
        (get_split_counter cur_new_stable <> get_split_counter cur_stable ->
         body (cur, cur_stable) s = Some (Return (Err kErrorCodeStrMasstreeRetry), s_e))
        /\ (get_split_counter cur_new_stable = get_split_counter cur_stable ->
            body (cur, cur_stable) s = Some (Continue (cur, cur_new_stable), s_e))).
Proof.
  intros Hfoster Hchild Hnext Hversion body. subst body.
  unfold find_border_descend_body, bind. rewrite Hfoster. cbv beta iota.
  rewrite Hchild, Hnext, Hversion.
  split.
  - intros Hdiff. destruct (Z.leb_spec (Z.lxor version cur_stable) kPageVersionLockedBit);
      [reflexivity|lia].
  - intros Hdiff cur_new_stable s_e Hstable.
    destruct (Z.leb_spec (Z.lxor version cur_stable) kPageVersionLockedBit); [lia|].
    rewrite Hstable.
    destruct (Z.eqb_spec (get_split_counter cur_new_stable)
                (get_split_counter cur_stable)); simpl;
      split; intros; try reflexivity; contradiction.
Qed.

(** The step of [find_border_descend] from an intermediate page to the child
    that one of its minipages points to, when the child has no foster child
    to adopt. *)
Lemma find_border_descend_child_step
    (fuel : nat) (self : PageAddr -> Z -> M (Res (PageAddr * Z)))
    (context : Thread) (current_layer : Z) (for_writes : bool) (slice : KeySlice)
    (cur next : PageAddr) (cur_stable mini_stable next_stable version : Z)
    (cur_page next_page next_page' : MasstreePage) (minipage minipage' : MiniPage)
    (s s_a s_b s_c s_d s_e s_f s_g s_h s_i s_j : State) :
  let minipage_index := find_minipage cur_page (get_key_count cur_stable) slice in
  let pointer_index := find_pointer minipage (get_key_count mini_stable) slice in
  follows_foster env cur cur_stable slice s = Some (false, s_a) ->
  load_page env cur s_a = Some (cur_page, s_b) ->
  mini_get_stable_version env fuel cur minipage_index s_b = Some (mini_stable, s_c) ->
  load_minipage env cur minipage_index s_c = Some (minipage, s_d) ->
  follow_page follow_page_pointer context for_writes false
    (MiniPagePointer cur minipage_index pointer_index) s_d = Some (Ok next, s_e) ->
  load_page env next s_e = Some (next_page, s_f) ->
  load_page env next s_f = Some (next_page', s_g) ->
  has_foster_child (page_version_ next_page') = false ->
  get_stable_version env fuel next s_g = Some (next_stable, s_h) ->
  get_version env cur s_h = Some (version, s_i) ->
  load_minipage env cur minipage_index s_i = Some (minipage', s_j) ->
  let body :=
    find_border_descend_body env follow_page_pointer adopt_from_child fuel self
      context current_layer for_writes slice in
  let diff := Z.lxor version cur_stable in
  let diff_mini := Z.lxor (mini_version_ minipage') mini_stable in
  (diff <= kPageVersionLockedBit -> diff_mini <= kPageVersionLockedBit ->
   forall (r : Res (PageAddr * Z)) (s_k : State),
     (if is_border (page_version_ next_page)
      then find_border_leaf env fuel next next_stable current_layer slice s_j
      else self next next_stable s_j) = Some (r, s_k) ->
     body (cur, cur_stable) s = Some (Return r, s_k))
  /\ (kPageVersionLockedBit < diff \/ kPageVersionLockedBit < diff_mini ->
      forall (cur_new_stable : Z) (s_k : State),
        get_stable_version env fuel cur s_j = Some (cur_new_stable, s_k) ->
        (get_split_counter cur_new_stable <> get_split_counter cur_stable ->
         body (cur, cur_stable) s = Some (Return (Err kErrorCodeStrMasstreeRetry), s_k))
        /\ (get_split_counter cur_new_stable = get_split_counter cur_stable ->
            body (cur, cur_stable) s = Some (Continue (cur, cur_new_stable), s_k))).
Proof.
  intros minipage_index pointer_index Hfoster Hcur Hmini Hmp Hfollow Hnext Hnext'
    Hnofoster Hstable Hversion Hmp' body diff diff_mini.
  subst body diff diff_mini.
  unfold find_border_descend_body, bind. rewrite Hfoster. cbv beta iota.
  rewrite Hcur. fold minipage_index. rewrite Hmini, Hmp. fold pointer_index.
  rewrite Hfollow, Hnext, Hnext', Hnofoster, Hstable, Hversion, Hmp'.
  split.
  - intros Hdiff Hdiff_mini r s_k Hdescend.
    destruct (Z.leb_spec (Z.lxor version cur_stable) kPageVersionLockedBit); [|lia].
    destruct (Z.leb_spec (Z.lxor (mini_version_ minipage') mini_stable)
                kPageVersionLockedBit); [|lia].
    simpl. destruct (is_border (page_version_ next_page)); rewrite Hdescend;
      reflexivity.
  - intros Hdiff cur_new_stable s_k Hnew.
    assert (Hcond : (Z.lxor version cur_stable <=? kPageVersionLockedBit)
                    && (Z.lxor (mini_version_ minipage') mini_stable
                        <=? kPageVersionLockedBit) = false).
    { apply andb_false_iff. rewrite !Z.leb_gt. exact Hdiff. }
    rewrite Hcond, Hnew.
    destruct (Z.eqb_spec (get_split_counter cur_new_stable)
                (get_split_counter cur_stable)); simpl;
      split; intros; try reflexivity; contradiction.
Qed.

(** A retry code from the descent makes [find_border] start over from the
    layer root, with a fresh stable version of it. *)
Lemma find_border_body_retry
    (fuel : nat) (context : Thread) (layer_root : PageAddr) (is_border : bool)
    (current_layer : Z) (for_writes : bool) (slice : KeySlice)
    (stable : Z) (s s_a s_b : State) :
  get_stable_version env fuel layer_root s = Some (stable, s_a) ->
  (if is_border
   then find_border_leaf env fuel layer_root stable current_layer slice s_a
   else find_border_descend env follow_page_pointer adopt_from_child fuel context
          layer_root stable current_layer for_writes slice s_a)
  = Some (Err kErrorCodeStrMasstreeRetry, s_b) ->
  find_border_body env follow_page_pointer adopt_from_child fuel context layer_root
    is_border current_layer for_writes slice tt s
  = Some (Continue tt, s_b).
Proof.
  intros Hstable Hsub. unfold find_border_body, bind. rewrite Hstable.
  destruct is_border; rewrite Hsub; reflexivity.
Qed.

(** C1, amended: the hand-over-hand verification of every step of the descent.
    After the child's stable version is captured the parent's version word is
    read again.  On a step to a foster child the descent proceeds when the XOR
    of that word with the captured stable version is at most the lock bit; on
    a step to the child a minipage points to, it proceeds when in addition the
    XOR of the minipage's version word with its captured stable version is at
    most the lock bit.  Otherwise the parent's stable version is taken again:
    if its split counter differs from the captured one the function returns
    the retry code, on which [find_border] starts over from the layer root;
    if not, this step alone is retried with the new stable version. *)
Theorem hand_over_hand_verification :
  (* find_border_leaf: to the foster child *)
  (forall (fuel : nat) (current_layer : Z) (slice : KeySlice) (cur next : PageAddr)
          (cur_stable next_stable version : Z) (s s_a s_b s_c s_d : State),
     follows_foster env cur cur_stable slice s = Some (true, s_a) ->
     get_foster_child env cur s_a = Some (next, s_b) ->
     get_stable_version env fuel next s_b = Some (next_stable, s_c) ->
     get_version env cur s_c = Some (version, s_d) ->
     (Z.lxor version cur_stable <= kPageVersionLockedBit ->
      find_border_leaf_body env fuel current_layer slice (cur, cur_stable) s
      = Some (Continue (next, next_stable), s_d))
     /\ (kPageVersionLockedBit < Z.lxor version cur_stable ->
         forall (cur_new_stable : Z) (s_e : State),
           get_stable_version env fuel cur s_d = Some (cur_new_stable, s_e) ->
           (get_split_counter cur_new_stable <> get_split_counter cur_stable ->
            find_border_leaf_body env fuel current_layer slice (cur, cur_stable) s
            = Some (Return (Err kErrorCodeStrMasstreeRetry), s_e))
           /\ (get_split_counter cur_new_stable = get_split_counter cur_stable ->
               find_border_leaf_body env fuel current_layer slice (cur, cur_stable) s
               = Some (Continue (cur, cur_new_stable), s_e))))
  (* find_border_descend: to the foster child *)
  /\ (forall (fuel : nat) (self : PageAddr -> Z -> M (Res (PageAddr * Z)))
             (context : Thread) (current_layer : Z) (for_writes : bool)
             (slice : KeySlice) (cur next : PageAddr)
             (cur_stable next_stable version : Z) (s s_a s_b s_c s_d : State),
        follows_foster env cur cur_stable slice s = Some (true, s_a) ->
        get_foster_child env cur s_a = Some (next, s_b) ->
        get_stable_version env fuel next s_b = Some (next_stable, s_c) ->
        get_version env cur s_c = Some (version, s_d) ->
        (Z.lxor version cur_stable <= kPageVersionLockedBit ->
         find_border_descend_body env follow_page_pointer adopt_from_child fuel self
           context current_layer for_writes slice (cur, cur_stable) s
         = Some (Continue (next, next_stable), s_d))
        /\ (kPageVersionLockedBit < Z.lxor version cur_stable ->
            forall (cur_new_stable : Z) (s_e : State),
              get_stable_version env fuel cur s_d = Some (cur_new_stable, s_e) ->
              (get_split_counter cur_new_stable <> get_split_counter cur_stable ->
               find_border_descend_body env follow_page_pointer adopt_from_child
                 fuel self context current_layer for_writes slice (cur, cur_stable) s
               = Some (Return (Err kErrorCodeStrMasstreeRetry), s_e))
              /\ (get_split_counter cur_new_stable = get_split_counter cur_stable ->
                  find_border_descend_body env follow_page_pointer adopt_from_child
                    fuel self context current_layer for_writes slice
                    (cur, cur_stable) s
                  = Some (Continue (cur, cur_new_stable), s_e))))
  (* find_border_descend: to the child a minipage points to *)
  /\ (forall (fuel : nat) (self : PageAddr -> Z -> M (Res (PageAddr * Z)))
             (context : Thread) (current_layer : Z) (for_writes : bool)
             (slice : KeySlice) (cur next : PageAddr)
             (cur_stable mini_stable next_stable version : Z)
             (cur_page next_page next_page' : MasstreePage)
             (minipage minipage' : MiniPage)
             (s s_a s_b s_c s_d s_e s_f s_g s_h s_i s_j : State),
        follows_foster env cur cur_stable slice s = Some (false, s_a) ->
        load_page env cur s_a = Some (cur_page, s_b) ->
        mini_get_stable_version env fuel cur
          (find_minipage cur_page (get_key_count cur_stable) slice) s_b
        = Some (mini_stable, s_c) ->
        load_minipage env cur
          (find_minipage cur_page (get_key_count cur_stable) slice) s_c
        = Some (minipage, s_d) ->
        follow_page follow_page_pointer context for_writes false
          (MiniPagePointer cur
             (find_minipage cur_page (get_key_count cur_stable) slice)
             (find_pointer minipage (get_key_count mini_stable) slice)) s_d
        = Some (Ok next, s_e) ->
        load_page env next s_e = Some (next_page, s_f) ->
        load_page env next s_f = Some (next_page', s_g) ->
        has_foster_child (page_version_ next_page') = false ->
        get_stable_version env fuel next s_g = Some (next_stable, s_h) ->
        get_version env cur s_h = Some (version, s_i) ->
        load_minipage env cur
          (find_minipage cur_page (get_key_count cur_stable) slice) s_i
        = Some (minipage', s_j) ->
        (Z.lxor version cur_stable <= kPageVersionLockedBit ->
         Z.lxor (mini_version_ minipage') mini_stable <= kPageVersionLockedBit ->
         forall (r : Res (PageAddr * Z)) (s_k : State),
           (if is_border (page_version_ next_page)
            then find_border_leaf env fuel next next_stable current_layer slice s_j
            else self next next_stable s_j) = Some (r, s_k) ->
           find_border_descend_body env follow_page_pointer adopt_from_child fuel
             self context current_layer for_writes slice (cur, cur_stable) s
           = Some (Return r, s_k))
        /\ (kPageVersionLockedBit < Z.lxor version cur_stable
            \/ kPageVersionLockedBit < Z.lxor (mini_version_ minipage') mini_stable ->
            forall (cur_new_stable : Z) (s_k : State),
              get_stable_version env fuel cur s_j = Some (cur_new_stable, s_k) ->
              (get_split_counter cur_new_stable <> get_split_counter cur_stable ->
               find_border_descend_body env follow_page_pointer adopt_from_child
                 fuel self context current_layer for_writes slice (cur, cur_stable) s
               = Some (Return (Err kErrorCodeStrMasstreeRetry), s_k))
              /\ (get_split_counter cur_new_stable = get_split_counter cur_stable ->
                  find_border_descend_body env follow_page_pointer adopt_from_child
                    fuel self context current_layer for_writes slice
                    (cur, cur_stable) s
                  = Some (Continue (cur, cur_new_stable), s_k))))
  (* find_border: the retry code restarts from the layer root *)
  /\ (forall (fuel loop_fuel : nat) (context : Thread) (layer_root : PageAddr)
             (is_border : bool) (current_layer : Z) (for_writes : bool)
             (slice : KeySlice) (stable : Z) (s s_a s_b : State),
        get_stable_version env fuel layer_root s = Some (stable, s_a) ->
        (if is_border
         then find_border_leaf env fuel layer_root stable current_layer slice s_a
         else find_border_descend env follow_page_pointer adopt_from_child fuel
                context layer_root stable current_layer for_writes slice s_a)
        = Some (Err kErrorCodeStrMasstreeRetry, s_b) ->
        while_true (S loop_fuel)
          (find_border_body env follow_page_pointer adopt_from_child fuel
             context layer_root is_border current_layer for_writes slice) tt s
        = while_true loop_fuel
            (find_border_body env follow_page_pointer adopt_from_child fuel
               context layer_root is_border current_layer for_writes slice) tt s_b).
Proof.
  split; [|split; [|split]].
  - intros. apply (find_border_leaf_foster_step fuel current_layer slice cur next
                     cur_stable next_stable version s s_a s_b s_c s_d); assumption.
  - intros. apply (find_border_descend_foster_step fuel self context current_layer
                     for_writes slice cur next cur_stable next_stable version
                     s s_a s_b s_c s_d); assumption.
  - intros. apply (find_border_descend_child_step fuel self context current_layer
                     for_writes slice cur next cur_stable mini_stable next_stable
                     version cur_page next_page next_page' minipage minipage'
                     s s_a s_b s_c s_d s_e s_f s_g s_h s_i s_j); assumption.
  - intros fuel loop_fuel context layer_root is_border current_layer for_writes
      slice stable s s_a s_b Hstable Hsub.
    apply while_true_continue.
    apply (find_border_body_retry fuel context layer_root is_border current_layer
             for_writes slice stable s s_a s_b); assumption.
Qed.

End Descent.

(** C1 as stated, without the minipage: in the grown tree, while this thread
    descends from the new root another thread locks the root's minipage and
    marks it inserting.  The root's own version word has not changed, yet the
    step is retried and the child is not entered. *)
Lemma hand_over_hand_parent_only_counterexample :
  ~ (forall (env : nat -> Shared -> Shared)
            (follow_page_pointer :
               Thread -> bool -> bool -> bool -> bool -> PointerAddr -> M (Res PageAddr))
            (adopt_from_child :
               Thread -> PageAddr -> KeySlice -> Z -> Z -> Z -> Z -> PageAddr
               -> M ErrorCode)
            (fuel : nat) (self : PageAddr -> Z -> M (Res (PageAddr * Z)))
            (context : Thread) (current_layer : Z) (for_writes : bool)
            (slice : KeySlice) (cur next : PageAddr)
            (cur_stable mini_stable next_stable version : Z)
            (cur_page next_page next_page' : MasstreePage)
            (minipage : MiniPage)
            (s s_a s_b s_c s_d s_e s_f s_g s_h s_i : State),
       follows_foster env cur cur_stable slice s = Some (false, s_a) ->
       load_page env cur s_a = Some (cur_page, s_b) ->
       mini_get_stable_version env fuel cur
         (find_minipage cur_page (get_key_count cur_stable) slice) s_b
       = Some (mini_stable, s_c) ->
       load_minipage env cur
         (find_minipage cur_page (get_key_count cur_stable) slice) s_c
       = Some (minipage, s_d) ->
       follow_page follow_page_pointer context for_writes false
         (MiniPagePointer cur
            (find_minipage cur_page (get_key_count cur_stable) slice)
            (find_pointer minipage (get_key_count mini_stable) slice)) s_d
       = Some (Ok next, s_e) ->
       load_page env next s_e = Some (next_page, s_f) ->
       load_page env next s_f = Some (next_page', s_g) ->
       has_foster_child (page_version_ next_page') = false ->
       get_stable_version env fuel next s_g = Some (next_stable, s_h) ->
       get_version env cur s_h = Some (version, s_i) ->
       Z.lxor version cur_stable <= kPageVersionLockedBit ->
       exists (r : Res (PageAddr * Z)) (s_k : State),
         find_border_descend_body env follow_page_pointer adopt_from_child fuel
           self context current_layer for_writes slice (cur, cur_stable) s
         = Some (Return r, s_k)).
Proof.
  intros H.
  assert (Hbad :
    exists (r : Res (PageAddr * Z)) (s_k : State),
      find_border_descend_body (Scenario.mini_writer 9)
        (Scenario.follow_volatile (Scenario.mini_writer 9)) Scenario.no_adopt 2
        (fun _ _ => fault) Scenario.context 0 false 50
        (Scenario.new_root, 80) Scenario.grown_tree
      = Some (Return r, s_k)).
  { eapply H.
    - vm_compute. reflexivity.
    - vm_compute. reflexivity.
    - vm_compute. reflexivity.
    - vm_compute. reflexivity.
    - vm_compute. reflexivity.
    - vm_compute. reflexivity.
    - vm_compute. reflexivity.
    - vm_compute. reflexivity.
    - vm_compute. reflexivity.
    - vm_compute. reflexivity.
    - vm_compute. discriminate. }
  destruct Hbad as (r & s_k & Hbad). vm_compute in Hbad. discriminate Hbad.
Qed.

(** In the quiet grown tree the descent from the new root for slice 50 enters
    the old root, the child below the separator. *)
Lemma hand_over_hand_verification_witness :
  exists s_k : State,
    find_border_descend_body Scenario.quiet (Scenario.follow_volatile Scenario.quiet)
      Scenario.no_adopt 2 (fun _ _ => fault) Scenario.context 0 false 50
      (Scenario.new_root, 80) Scenario.grown_tree
    = Some (Return (Ok (Scenario.root, 112)), s_k).
Proof.
  destruct (hand_over_hand_verification Scenario.quiet
              (Scenario.follow_volatile Scenario.quiet) Scenario.no_adopt)
    as (_ & _ & Hchild & _).
  eexists.
  eapply Hchild.
  - vm_compute. reflexivity.
  - vm_compute. reflexivity.
  - vm_compute. reflexivity.
  - vm_compute. reflexivity.
  - vm_compute. reflexivity.
  - vm_compute. reflexivity.
  - vm_compute. reflexivity.
  - vm_compute. reflexivity.
  - vm_compute. reflexivity.
  - vm_compute. reflexivity.
  - vm_compute. reflexivity.
  - vm_compute. discriminate.
  - vm_compute. discriminate.
  - vm_compute. reflexivity.
Defined.

End DescentProofs.

(** * Facts about the optimistic read protocol *)

Module ReadProtocolFacts.

Import PageVersion MasstreePageImpl Memory XctImpl.

Section Protocol.

Variable env : nat -> Shared -> Shared.

Lemma add_to_read_set_code (a : OwnerAddr) (observed : XctId.t) (s s' : State)
    (e : ErrorCode) :
  add_to_read_set a observed s = Some (e, s') ->
  (e = kErrorCodeOk
   /\ s' = set_current_xct s
             (set_read_set (current_xct s)
                (read_set_ (current_xct s) ++ [(a, observed)])))
  \/ (e = kErrorCodeXctReadSetOverflow /\ s' = s).
Proof.
  unfold add_to_read_set.
  destruct (max_read_set_size_ (current_xct s) <=? length (read_set_ (current_xct s)))%nat;
    intros [= <- <-]; [right|left]; split; reflexivity.
Qed.

Lemma add_to_write_set_code (a : OwnerAddr) (log_entry : LogRecord) (s s' : State)
    (e : ErrorCode) :
  add_to_write_set a log_entry s = Some (e, s') ->
  (e = kErrorCodeOk
   /\ s' = set_current_xct s
             (set_write_set (current_xct s)
                (write_set_ (current_xct s) ++ [(a, log_entry)])))
  \/ (e = kErrorCodeXctWriteSetOverflow /\ s' = s).
Proof.
  unfold add_to_write_set.
  destruct (max_write_set_size_ (current_xct s) <=? length (write_set_ (current_xct s)))%nat;
    intros [= <- <-]; [right|left]; split; reflexivity.
Qed.

Lemma add_to_read_set_returns (a : OwnerAddr) (observed : XctId.t) (s : State) :
  exists e s', add_to_read_set a observed s = Some (e, s').
Proof.
  unfold add_to_read_set.
  destruct (max_read_set_size_ (current_xct s) <=? length (read_set_ (current_xct s)))%nat;
    eexists _, _; reflexivity.
Qed.

Lemma add_to_write_set_returns (a : OwnerAddr) (log_entry : LogRecord) (s : State) :
  exists e s', add_to_write_set a log_entry s = Some (e, s').
Proof.
  unfold add_to_write_set.
  destruct (max_write_set_size_ (current_xct s) <=? length (write_set_ (current_xct s)))%nat;
    eexists _, _; reflexivity.
Qed.

(** Each read of shared memory lets the other threads move once. *)
Lemma tick_shared (s : State) (s' : State) :
  tick env s = Some (tt, s') -> shared s' = env (clock s) (shared s).
Proof. unfold tick. intros [= <-]. reflexivity. Qed.

Lemma load_page_shared (p : PageAddr) (pg : MasstreePage) (s s' : State) :
  load_page env p s = Some (pg, s') ->
  shared s' = env (clock s) (shared s)
  /\ masstree_pages (shared s') !! p = Some pg
  /\ free_pages s' = free_pages s
  /\ current_xct s' = current_xct s
  /\ thread_log_buffer s' = thread_log_buffer s.
Proof.
  unfold load_page, bind, tick, get_page. simpl.
  destruct (masstree_pages (env (clock s) (shared s)) !! p) as [pg'|] eqn:E;
    [|discriminate].
  intros [= <- <-]. simpl. repeat split. exact E.
Qed.

Lemma load_slot_shared (p : PageAddr) (index : Z) (slot : BorderSlot) (s s' : State) :
  load_slot env p index s = Some (slot, s') ->
  shared s' = env (clock s) (shared s)
  /\ (exists pg, masstree_pages (shared s') !! p = Some pg
                 /\ get_slot pg index = Some slot)
  /\ free_pages s' = free_pages s
  /\ current_xct s' = current_xct s
  /\ thread_log_buffer s' = thread_log_buffer s.
Proof.
  unfold load_slot, bind.
  destruct (load_page env p s) as [[pg s1]|] eqn:Hload; [|discriminate].
  destruct (get_slot pg index) as [slot'|] eqn:Hslot; [|discriminate].
  intros [= <- <-].
  destruct (load_page_shared _ _ _ _ Hload) as (H1 & H2 & H3 & H4 & H5).
  repeat split; try assumption. exists pg. split; assumption.
Qed.

Lemma load_record_shared (p : PageAddr) (index : Z) (r : Record_) (s s' : State) :
  load_record env p index s = Some (r, s') ->
  shared s' = env (clock s) (shared s)
  /\ (exists records, array_pages (shared s') !! p = Some (ArrayLeaf records)
                      /\ records !! Z.to_nat index = Some r)
  /\ free_pages s' = free_pages s
  /\ current_xct s' = current_xct s
  /\ thread_log_buffer s' = thread_log_buffer s.
Proof.
  unfold load_record, load_array_page, bind, tick. simpl.
  destruct (array_pages (env (clock s) (shared s)) !! p) as [[records|?]|] eqn:E;
    try discriminate.
  destruct (records !! Z.to_nat index) as [r'|] eqn:Hr; [|discriminate].
  intros [= <- <-]. simpl. repeat split. exists records. split; assumption.
Qed.

Lemma load_owner_id_shared (a : OwnerAddr) (x : XctId.t) (s s' : State) :
  load_owner_id env a s = Some (x, s') ->
  shared s' = env (clock s) (shared s)
  /\ free_pages s' = free_pages s
  /\ current_xct s' = current_xct s
  /\ thread_log_buffer s' = thread_log_buffer s.
Proof.
  destruct a as [p index|p index]; simpl; unfold bind.
  - destruct (load_slot env p index s) as [[slot s1]|] eqn:H; [|discriminate].
    intros [= <- <-]. destruct (load_slot_shared _ _ _ _ _ H) as (? & _ & ? & ? & ?).
    repeat split; assumption.
  - destruct (load_record env p index s) as [[r s1]|] eqn:H; [|discriminate].
    intros [= <- <-]. destruct (load_record_shared _ _ _ _ _ H) as (? & _ & ? & ? & ?).
    repeat split; assumption.
Qed.

(** The protocol under an invariant [J] of the shared memory that the other
    threads keep, an invariant [P] of the caller's locals, and a property [Q]
    of the locals after a run of the handler that succeeded: [R] holds of what
    the protocol returns when it holds of what the handler returns with an
    error, of the locals with the retry code of a moved record, and of the
    locals with the code of the read-set after a successful run. *)
Lemma optimistic_read_protocol_invariant {L : Type}
    (J : Shared -> Prop) (P Q : L -> Prop) (R : ErrorCode -> L -> Prop)
    (owner : OwnerAddr) (in_snapshot : bool)
    (handler : XctId.t -> L -> M (ErrorCode * L)) :
  (forall n sh, J sh -> J (env n sh)) ->
  (forall observed l s e l' s',
      J (shared s) -> P l ->
      XctId.is_keylocked observed = false -> XctId.is_moved observed = false ->
      handler observed l s = Some ((e, l'), s') ->
      J (shared s') /\ (if decide (e = kErrorCodeOk) then Q l' else R e l')) ->
  (forall l, Q l -> P l) ->
  (forall l, P l -> R kErrorCodeStrMasstreeRetry l) ->
  (forall l, Q l -> R kErrorCodeOk l /\ R kErrorCodeXctReadSetOverflow l) ->
  forall (fuel : nat) (l : L) (s : State) (e : ErrorCode) (l' : L) (s' : State),
    J (shared s) -> P l ->
    optimistic_read_protocol env fuel owner in_snapshot handler l s
    = Some ((e, l'), s') ->
    R e l' /\ J (shared s').
Proof.
  intros Henv Hhandler HQP Hmoved Hreadset.
  induction fuel as [|fuel IH]; intros l s e l' s' HJ HP; simpl; [discriminate|].
  unfold bind.
  destruct (load_owner_id env owner s) as [[observed s1]|] eqn:Hload; [|discriminate].
  destruct (load_owner_id_shared _ _ _ _ Hload) as (Hsh1 & _).
  assert (HJ1 : J (shared s1)) by (rewrite Hsh1; apply Henv; exact HJ).
  destruct (XctId.is_keylocked observed) eqn:Hlocked.
  { intros H. exact (IH _ _ _ _ _ HJ1 HP H). }
  destruct (XctId.is_moved observed) eqn:Hmv.
  { unfold ret. intros [= <- <- <-]. split; [apply Hmoved; exact HP|exact HJ1]. }
  destruct (handler observed l s1) as [[[e1 l1] s2]|] eqn:Hh; [|discriminate].
  destruct (Hhandler _ _ _ _ _ _ HJ1 HP Hlocked Hmv Hh) as [HJ2 Hpost].
  destruct (decide (e1 = kErrorCodeOk)) as [->|Hne].
  - destruct (load_owner_id env owner s2) as [[again s3]|] eqn:Hload2; [|discriminate].
    destruct (load_owner_id_shared _ _ _ _ Hload2) as (Hsh3 & _).
    assert (HJ3 : J (shared s3)) by (rewrite Hsh3; apply Henv; exact HJ2).
    destruct (decide (again = observed)) as [_|_].
    + destruct (add_to_read_set owner observed s3) as [[e2 s4]|] eqn:Hadd;
        [|discriminate].
      unfold ret. intros [= <- <- <-].
      destruct (add_to_read_set_code _ _ _ _ _ Hadd) as [[-> ->]|[-> ->]].
      * split; [apply Hreadset; exact Hpost|exact HJ3].
      * split; [apply Hreadset; exact Hpost|exact HJ3].
    + intros H. exact (IH _ _ _ _ _ HJ3 (HQP _ Hpost) H).
  - unfold ret. intros [= <- <- <-]. split; [exact Hpost|exact HJ2].
Qed.

End Protocol.

End ReadProtocolFacts.

(** * Retrieving a record *)

Module RetrieveProofs.

Import PageVersion MasstreePageImpl Memory XctImpl MasstreeStoragePimpl.
Import MemoryFacts ReadProtocolFacts.

Section Retrieve.

Variable env : nat -> Shared -> Shared.

(** Reads of a page the other threads leave alone. *)
Section QuietPage.

Variable page : PageAddr.
Hypothesis quiet_page :
  forall n sh, masstree_pages (env n sh) !! page = masstree_pages sh !! page.

Lemma tick_quiet_page (pg : MasstreePage) (s : State) :
  masstree_pages (shared s) !! page = Some pg ->
  masstree_pages (shared (exec (tick env) s)) !! page = Some pg.
Proof. intros H. unfold exec, tick. simpl. rewrite quiet_page. exact H. Qed.

Lemma load_page_quiet_page (pg : MasstreePage) (s : State) :
  masstree_pages (shared s) !! page = Some pg ->
  load_page env page s = Some (pg, exec (tick env) s).
Proof.
  intros H. unfold load_page, bind, get_page.
  change (tick env s) with (Some (tt, exec (tick env) s)). cbv beta iota.
  rewrite (tick_quiet_page pg s H). reflexivity.
Qed.

Lemma load_slot_quiet_page (pg : MasstreePage) (index : Z) (slot : BorderSlot)
    (s : State) :
  masstree_pages (shared s) !! page = Some pg ->
  get_slot pg index = Some slot ->
  load_slot env page index s = Some (slot, exec (tick env) s).
Proof.
  intros H Hslot. unfold load_slot, bind.
  rewrite (load_page_quiet_page pg s H), Hslot. reflexivity.
Qed.

End QuietPage.

(** What one run of the handler of [retrieve_general] returns. *)
Lemma retrieve_general_handler_returns
    (border : PageAddr) (index : Z) (observed : XctId.t) (payload : list byte)
    (payload_capacity : Z) (s s' : State) (e : ErrorCode) (out : list byte * Z) :
  retrieve_general_handler env border index observed (payload, payload_capacity) s
  = Some ((e, out), s') ->
  exists (s1 : State) (slot1 : BorderSlot),
    load_slot env border index s = Some (slot1, s1)
    /\ ((does_point_to_layer slot1 = true
         /\ e = kErrorCodeStrMasstreeRetry /\ out = (payload, payload_capacity)
         /\ s' = s1)
        \/ (does_point_to_layer slot1 = false /\ XctId.is_deleted observed = true
            /\ e = kErrorCodeStrKeyNotFound /\ out = (payload, payload_capacity)
            /\ s' = s1)
        \/ (does_point_to_layer slot1 = false /\ XctId.is_deleted observed = false
            /\ exists (slot2 : BorderSlot),
                load_slot env border index s1 = Some (slot2, s')
                /\ payload_capacity < payload_length_ slot2
                /\ e = kErrorCodeStrTooSmallPayloadBuffer
                /\ out = (payload, payload_length_ slot2))
        \/ (does_point_to_layer slot1 = false /\ XctId.is_deleted observed = false
            /\ exists (s2 s3 : State) (slot2 slot3 slot4 : BorderSlot),
                load_slot env border index s1 = Some (slot2, s2)
                /\ load_slot env border index s2 = Some (slot3, s3)
                /\ load_slot env border index s3 = Some (slot4, s')
                /\ payload_length_ slot2 <= payload_capacity
                /\ e = kErrorCodeOk
                /\ out = (memcpy payload
                            (drop (Z.to_nat (get_suffix_length slot3))
                               (MasstreePageImpl.get_record slot4))
                            (payload_length_ slot2),
                          payload_length_ slot2))).
Proof.
  unfold retrieve_general_handler, bind.
  destruct (load_slot env border index s) as [[slot1 s1]|] eqn:H1; [|discriminate].
  intros H. exists s1, slot1. split; [reflexivity|].
  destruct (does_point_to_layer slot1).
  { injection H as <- <- <-. left. repeat split. }
  destruct (XctId.is_deleted observed).
  { injection H as <- <- <-. right. left. repeat split. }
  destruct (load_slot env border index s1) as [[slot2 s2]|] eqn:H2; [|discriminate].
  destruct (Z.ltb_spec payload_capacity (payload_length_ slot2)).
  { injection H as <- <- <-. right. right. left. repeat split.
    exists slot2. repeat split. assumption. }
  destruct (load_slot env border index s2) as [[slot3 s3]|] eqn:H3; [|discriminate].
  destruct (load_slot env border index s3) as [[slot4 s4]|] eqn:H4; [|discriminate].
  injection H as <- <- <-. right. right. right. repeat split.
  exists s2, s3, slot2, slot3, slot4. repeat split; assumption.
Qed.

(** C7: [retrieve_general] on a live record whose payload is [length] bytes
    long.  Whatever the other threads do, as long as the slot keeps its payload
    length: the code for a buffer that is too small comes with the capacity
    set to [length] and the buffer untouched, and success comes with the
    capacity set to [length].  When the other threads leave the page alone the
    call returns, and on success the buffer holds the [length] bytes of the
    payload. *)
Theorem retrieve_general_capacity_and_copy
    (fuel : nat) (context : Thread) (border : PageAddr) (index : Z)
    (payload : list byte) (payload_capacity : Z) (s : State) (length : Z) :
  ((forall n sh,
       (forall pg slot, masstree_pages sh !! border = Some pg ->
                        get_slot pg index = Some slot ->
                        payload_length_ slot = length) ->
       forall pg slot, masstree_pages (env n sh) !! border = Some pg ->
                       get_slot pg index = Some slot ->
                       payload_length_ slot = length) ->
   (forall pg slot, masstree_pages (shared s) !! border = Some pg ->
                    get_slot pg index = Some slot ->
                    payload_length_ slot = length) ->
   forall (e : ErrorCode) (payload' : list byte) (payload_capacity' : Z) (s' : State),
     retrieve_general env fuel context border index payload payload_capacity s
     = Some ((e, (payload', payload_capacity')), s') ->
     (e = kErrorCodeStrTooSmallPayloadBuffer ->
      payload_capacity < length /\ payload_capacity' = length /\ payload' = payload)
     /\ (e = kErrorCodeOk ->
         length <= payload_capacity /\ payload_capacity' = length))
  /\ (forall (pg : MasstreePage) (slot : BorderSlot),
        (forall n sh, masstree_pages (env n sh) !! border = masstree_pages sh !! border) ->
        masstree_pages (shared s) !! border = Some pg ->
        get_slot pg index = Some slot ->
        does_point_to_layer slot = false ->
        XctId.is_keylocked (owner_id_ slot) = false ->
        XctId.is_moved (owner_id_ slot) = false ->
        XctId.is_deleted (owner_id_ slot) = false ->
        payload_length_ slot = length ->
        (0 < fuel)%nat ->
        exists (e : ErrorCode) (out : list byte * Z) (s' : State),
          retrieve_general env fuel context border index payload payload_capacity s
          = Some ((e, out), s')
          /\ if payload_capacity <? length
             then e = kErrorCodeStrTooSmallPayloadBuffer /\ out = (payload, length)
             else out = (memcpy payload
                           (drop (Z.to_nat (get_suffix_length slot))
                              (MasstreePageImpl.get_record slot)) length,
                         length)
                  /\ (e = kErrorCodeOk \/ e = kErrorCodeXctReadSetOverflow)
                  /\ ((Datatypes.length (read_set_ (current_xct s))
                       < max_read_set_size_ (current_xct s))%nat ->
                      e = kErrorCodeOk)).
Proof.
  split.
  - intros Henv Hinit e payload' payload_capacity' s'.
    unfold retrieve_general, bind.
    destruct (load_page env border s) as [[border_page s0]|] eqn:Hload; [|discriminate].
    intros Hrun.
    pose (J := fun sh : Shared =>
                 forall pg slot, masstree_pages sh !! border = Some pg ->
                                 get_slot pg index = Some slot ->
                                 payload_length_ slot = length).
    pose (Q := fun l : list byte * Z => snd l = length /\ length <= payload_capacity).
    pose (P := fun l : list byte * Z => l = (payload, payload_capacity) \/ Q l).
    pose (R := fun (e : ErrorCode) (l : list byte * Z) =>
                 (e = kErrorCodeStrTooSmallPayloadBuffer ->
                  payload_capacity < length /\ l = (payload, length))
                 /\ (e = kErrorCodeOk -> length <= payload_capacity /\ snd l = length)).
    assert (HJ0 : J (shared s0)).
    { destruct (load_page_shared _ _ _ _ _ Hload) as (-> & _).
      exact (Henv _ _ Hinit). }
    destruct (optimistic_read_protocol_invariant env J P Q R (BorderOwner border index)
                (snapshot_ border_page) (retrieve_general_handler env border index)
                Henv) with (fuel := fuel) (l := (payload, payload_capacity)) (s := s0)
                           (e := e) (l' := (payload', payload_capacity')) (s' := s')
      as [[Hsmall Hok] _]; try assumption.
    + (* the handler *)
      intros observed [buf cap] st e1 l1 st' HJ HP _ _ Hh.
      destruct (retrieve_general_handler_returns _ _ _ _ _ _ _ _ _ Hh)
        as (s1 & slot1 & H1 & Hcases).
      destruct (load_slot_shared _ _ _ _ _ _ H1) as (Hsh1 & _).
      assert (HJ1 : J (shared s1)) by (rewrite Hsh1; exact (Henv _ _ HJ)).
      destruct Hcases as [(_ & -> & -> & ->)|[(_ & _ & -> & -> & ->)|
                          [(_ & _ & slot2 & H2 & Hlt & -> & ->)|
                           (_ & _ & s2 & s3 & slot2 & slot3 & slot4 & H2 & H3 & H4
                            & Hle & -> & ->)]]].
      * split; [exact HJ1|]. simpl. split; discriminate.
      * split; [exact HJ1|]. simpl. split; discriminate.
      * destruct (load_slot_shared _ _ _ _ _ _ H2) as (Hsh2 & (pg2 & Hpg2 & Hs2) & _).
        assert (HJ2 : J (shared st')) by (rewrite Hsh2; exact (Henv _ _ HJ1)).
        pose proof (HJ2 _ _ Hpg2 Hs2) as Hlen.
        split; [exact HJ2|]. simpl. split; [|discriminate].
        intros _. rewrite Hlen in *.
        destruct HP as [[= -> ->]|[Hcap Hle]]; simpl in *.
        -- split; [exact Hlt|reflexivity].
        -- lia.
      * destruct (load_slot_shared _ _ _ _ _ _ H2) as (Hsh2 & (pg2 & Hpg2 & Hs2) & _).
        assert (HJ2 : J (shared s2)) by (rewrite Hsh2; exact (Henv _ _ HJ1)).
        pose proof (HJ2 _ _ Hpg2 Hs2) as Hlen.
        destruct (load_slot_shared _ _ _ _ _ _ H3) as (Hsh3 & _).
        assert (HJ3 : J (shared s3)) by (rewrite Hsh3; exact (Henv _ _ HJ2)).
        destruct (load_slot_shared _ _ _ _ _ _ H4) as (Hsh4 & _).
        assert (HJ4 : J (shared st')) by (rewrite Hsh4; exact (Henv _ _ HJ3)).
        split; [exact HJ4|]. simpl. rewrite Hlen in *.
        split; [reflexivity|].
        destruct HP as [[= -> ->]|[Hcap Hle']]; simpl in *; lia.
    + (* after a successful run *)
      intros l HQ. right. exact HQ.
    + (* a moved record *)
      intros l HP. split; discriminate.
    + (* the read set *)
      intros l [Hcap Hle]. split; split; try discriminate.
      intros _. split; assumption.
    + left. reflexivity.
    + split.
      * intros E. destruct (Hsmall E) as [H1 [= -> ->]]. repeat split. exact H1.
      * intros E. destruct (Hok E) as [H1 H2]. simpl in H2. split; assumption.
  - intros pg slot Hquiet Hpg Hslot Hlayer Hlocked Hmoved Hdeleted Hlen Hfuel.
    destruct fuel as [|fuel]; [lia|].
    unfold retrieve_general, bind.
    rewrite (load_page_quiet_page border Hquiet pg s Hpg).
    set (s0 := exec (tick env) s).
    assert (Hpg0 : masstree_pages (shared s0) !! border = Some pg)
      by (apply tick_quiet_page; assumption).
    simpl optimistic_read_protocol. unfold bind.
    rewrite (load_slot_quiet_page border Hquiet pg index slot s0 Hpg0 Hslot).
    set (s1 := exec (tick env) s0).
    assert (Hpg1 : masstree_pages (shared s1) !! border = Some pg)
      by (apply tick_quiet_page; assumption).
    unfold ret at 1. rewrite Hlocked, Hmoved.
    unfold retrieve_general_handler, bind.
    rewrite (load_slot_quiet_page border Hquiet pg index slot s1 Hpg1 Hslot).
    set (s2 := exec (tick env) s1).
    assert (Hpg2 : masstree_pages (shared s2) !! border = Some pg)
      by (apply tick_quiet_page; assumption).
    rewrite Hlayer, Hdeleted.
    rewrite (load_slot_quiet_page border Hquiet pg index slot s2 Hpg2 Hslot).
    set (s3 := exec (tick env) s2).
    assert (Hpg3 : masstree_pages (shared s3) !! border = Some pg)
      by (apply tick_quiet_page; assumption).
    rewrite Hlen.
    destruct (payload_capacity <? length) eqn:Hcmp.
    { unfold ret. simpl. eexists _, _, _. split; [reflexivity|].
      split; reflexivity. }
    rewrite (load_slot_quiet_page border Hquiet pg index slot s3 Hpg3 Hslot).
    set (s4 := exec (tick env) s3).
    assert (Hpg4 : masstree_pages (shared s4) !! border = Some pg)
      by (apply tick_quiet_page; assumption).
    rewrite (load_slot_quiet_page border Hquiet pg index slot s4 Hpg4 Hslot).
    set (s5 := exec (tick env) s4).
    assert (Hpg5 : masstree_pages (shared s5) !! border = Some pg)
      by (apply tick_quiet_page; assumption).
    unfold ret at 1. cbv beta iota.
    destruct (decide (kErrorCodeOk = kErrorCodeOk)) as [_|Hne]; [|contradiction].
    simpl load_owner_id. unfold bind.
    rewrite (load_slot_quiet_page border Hquiet pg index slot s5 Hpg5 Hslot).
    set (s6 := exec (tick env) s5).
    unfold ret at 1. cbv beta iota.
    destruct (decide (owner_id_ slot = owner_id_ slot)) as [_|Hne]; [|contradiction].
    destruct (add_to_read_set_returns (BorderOwner border index) (owner_id_ slot) s6)
      as (e2 & s7 & Hadd).
    rewrite Hadd. unfold ret. eexists _, _, _. split; [reflexivity|].
    split; [reflexivity|].
    unfold add_to_read_set in Hadd.
    change (current_xct s6) with (current_xct s) in Hadd.
    destruct (Nat.leb_spec (max_read_set_size_ (current_xct s))
                (Datatypes.length (read_set_ (current_xct s)))) as [Hfull|Hroom];
      injection Hadd as <- <-.
    + split; [right; reflexivity|]. intros Hlt. lia.
    + split; [left; reflexivity|]. intros _. reflexivity.
Qed.

End Retrieve.

(** The 8-byte payload of a live record into a 16-byte buffer. *)
Lemma retrieve_general_capacity_and_copy_witness :
  exists (e : ErrorCode) (out : list byte * Z) (s' : State),
    retrieve_general Scenario.quiet 1 Scenario.context Scenario.root 0
      (replicate 16 x00) 16 (Scenario.tree_with_record Scenario.live_owner)
    = Some ((e, out), s')
    /\ out = (le_bytes 8 42 ++ replicate 8 x00, 8)
    /\ e = kErrorCodeOk.
Proof.
  destruct (proj2 (retrieve_general_capacity_and_copy Scenario.quiet 1
                     Scenario.context Scenario.root 0 (replicate 16 x00) 16
                     (Scenario.tree_with_record Scenario.live_owner) 8)
              (Scenario.page_at (Scenario.tree_with_record Scenario.live_owner)
                 Scenario.root)
              (Scenario.a_record Scenario.live_owner))
    as (e & out & s' & Hrun & Hout & _ & Hok).
  - intros n sh. reflexivity.
  - vm_compute. reflexivity.
  - vm_compute. reflexivity.
  - reflexivity.
  - reflexivity.
  - reflexivity.
  - reflexivity.
  - reflexivity.
  - lia.
  - exists e, out, s'. split; [exact Hrun|]. split; [exact Hout|].
    apply Hok. vm_compute. lia.
Defined.

End RetrieveProofs.

(** * Incrementing a Masstree record *)

Module IncrementProofs.

Import PageVersion MasstreePageImpl Memory XctImpl MasstreeStoragePimpl.
Import MemoryFacts ReadProtocolFacts.

Section Increment.

Variable env : nat -> Shared -> Shared.
Variable metadata_id_ : Z.

Context {T : Type} `{PayloadType T}.

(** What one run of the handler of [increment_general] returns: with an
    error, [tmp] is as it was. *)
Lemma increment_general_handler_returns
    (border : PageAddr) (index payload_offset : Z) (observed : XctId.t)
    (tmp tmp' : option T) (s s' : State) (e : ErrorCode) :
  increment_general_handler env border index payload_offset observed tmp s
  = Some ((e, tmp'), s') ->
  exists (s1 : State) (slot1 : BorderSlot),
    load_slot env border index s = Some (slot1, s1)
    /\ ((does_point_to_layer slot1 = true
         /\ e = kErrorCodeStrMasstreeRetry /\ tmp' = tmp /\ s' = s1)
        \/ (does_point_to_layer slot1 = false /\ XctId.is_deleted observed = true
            /\ e = kErrorCodeStrKeyNotFound /\ tmp' = tmp /\ s' = s1)
        \/ (does_point_to_layer slot1 = false /\ XctId.is_deleted observed = false
            /\ exists (slot2 : BorderSlot),
                load_slot env border index s1 = Some (slot2, s')
                /\ payload_length_ slot2 < payload_offset + sizeof
                /\ e = kErrorCodeStrTooShortPayload /\ tmp' = tmp)
        \/ (does_point_to_layer slot1 = false /\ XctId.is_deleted observed = false
            /\ exists (s2 s3 : State) (slot2 slot3 slot4 : BorderSlot),
                load_slot env border index s1 = Some (slot2, s2)
                /\ load_slot env border index s2 = Some (slot3, s3)
                /\ load_slot env border index s3 = Some (slot4, s')
                /\ payload_offset + sizeof <= payload_length_ slot2
                /\ e = kErrorCodeOk
                /\ tmp' = Some (of_bytes
                                  (take (Z.to_nat sizeof)
                                     (drop (Z.to_nat (get_suffix_length slot3
                                                      + payload_offset))
                                        (MasstreePageImpl.get_record slot4)))))).
Proof.
  unfold increment_general_handler, bind.
  destruct (load_slot env border index s) as [[slot1 s1]|] eqn:H1; [|discriminate].
  intros Hrun. exists s1, slot1. split; [reflexivity|].
  destruct (does_point_to_layer slot1).
  { injection Hrun as <- <- <-. left. repeat split. }
  destruct (XctId.is_deleted observed).
  { injection Hrun as <- <- <-. right. left. repeat split. }
  destruct (load_slot env border index s1) as [[slot2 s2]|] eqn:H2; [|discriminate].
  destruct (Z.ltb_spec (payload_length_ slot2) (payload_offset + sizeof)).
  { injection Hrun as <- <- <-. right. right. left. repeat split.
    exists slot2. repeat split. assumption. }
  destruct (load_slot env border index s2) as [[slot3 s3]|] eqn:H3; [|discriminate].
  destruct (load_slot env border index s3) as [[slot4 s4]|] eqn:H4; [|discriminate].
  injection Hrun as <- <- <-. right. right. right. repeat split.
  exists s2, s3, slot2, slot3, slot4. repeat split; assumption.
Qed.

(** C3: [increment_general] hands back an error of the optimistic read with
    [*value] as it was; after a read that succeeded, [*value] has grown once,
    by the payload the last run of the handler stored in [tmp], whatever the
    number of runs.  [G] is any property of the slot that the other threads
    keep. *)
Theorem increment_general_adds_after_read
    (G : BorderSlot -> Prop) (fuel : nat) (context : Thread) (border : PageAddr)
    (index : Z) (be_key : list byte) (key_length : Z) (value : T)
    (payload_offset : Z) (s s1 : State) (e1 : ErrorCode) (tmp : option T) :
  (forall n sh,
      (forall pg slot, masstree_pages sh !! border = Some pg ->
                       get_slot pg index = Some slot -> G slot) ->
      forall pg slot, masstree_pages (env n sh) !! border = Some pg ->
                      get_slot pg index = Some slot -> G slot) ->
  (forall pg slot, masstree_pages (shared s) !! border = Some pg ->
                   get_slot pg index = Some slot -> G slot) ->
  optimistic_read_protocol env fuel (BorderOwner border index) false
    (increment_general_handler env border index payload_offset) None s
  = Some ((e1, tmp), s1) ->
  (e1 <> kErrorCodeOk ->
   increment_general env metadata_id_ fuel context border index be_key key_length
     value payload_offset s = Some ((e1, value), s1))
  /\ (e1 = kErrorCodeOk ->
      exists (slot_a slot_b : BorderSlot) (stored : T),
        G slot_a /\ G slot_b
        /\ stored = of_bytes
                      (take (Z.to_nat sizeof)
                         (drop (Z.to_nat (get_suffix_length slot_a + payload_offset))
                            (MasstreePageImpl.get_record slot_b)))
        /\ tmp = Some stored
        /\ forall (border_page : MasstreePage) (s2 : State),
             load_page env border s1 = Some (border_page, s2) ->
             exists (e2 : ErrorCode) (s3 : State),
               increment_general env metadata_id_ fuel context border index be_key
                 key_length value payload_offset s
               = Some ((e2, plus value stored), s3)
               /\ thread_log_buffer s3
                  = thread_log_buffer s2
                    ++ [MasstreeOverwriteLog metadata_id_ be_key key_length
                          (to_bytes (plus value stored)) payload_offset sizeof
                          (layer_ border_page)]
               /\ (e2 = kErrorCodeOk \/ e2 = kErrorCodeXctWriteSetOverflow)).
Proof.
  intros Henv Hinit Hread. split.
  - intros Hne. unfold increment_general, bind. rewrite Hread.
    destruct (decide (e1 = kErrorCodeOk)); [contradiction|reflexivity].
  - intros ->.
    pose (J := fun sh : Shared =>
                 forall pg slot, masstree_pages sh !! border = Some pg ->
                                 get_slot pg index = Some slot -> G slot).
    pose (Q := fun l : option T =>
                 exists slot_a slot_b : BorderSlot,
                   G slot_a /\ G slot_b
                   /\ l = Some (of_bytes
                                  (take (Z.to_nat sizeof)
                                     (drop (Z.to_nat (get_suffix_length slot_a
                                                      + payload_offset))
                                        (MasstreePageImpl.get_record slot_b))))).
    destruct (optimistic_read_protocol_invariant env J (fun _ => True) Q
                (fun e l => e = kErrorCodeOk -> Q l) (BorderOwner border index) false
                (increment_general_handler env border index payload_offset) Henv)
      with (fuel := fuel) (l := @None T) (s := s) (e := kErrorCodeOk) (l' := tmp)
           (s' := s1) as [HQ _]; try assumption; try exact I.
    + intros observed l st e l' st' HJ _ _ _ Hh.
      destruct (increment_general_handler_returns _ _ _ _ _ _ _ _ _ Hh)
        as (st1 & slot1 & H1 & Hcases).
      destruct (load_slot_shared _ _ _ _ _ _ H1) as (Hsh1 & _).
      assert (HJ1 : J (shared st1)) by (rewrite Hsh1; exact (Henv _ _ HJ)).
      destruct Hcases as [(_ & -> & -> & ->)|[(_ & _ & -> & -> & ->)|
                          [(_ & _ & slot2 & H2 & Hlt & -> & ->)|
                           (_ & _ & st2 & st3 & slot2 & slot3 & slot4 & H2 & H3 & H4
                            & Hle & -> & ->)]]].
      * split; [exact HJ1|]. simpl. discriminate.
      * split; [exact HJ1|]. simpl. discriminate.
      * destruct (load_slot_shared _ _ _ _ _ _ H2) as (Hsh2 & _).
        split; [rewrite Hsh2; exact (Henv _ _ HJ1)|]. simpl. discriminate.
      * destruct (load_slot_shared _ _ _ _ _ _ H2) as (Hsh2 & _).
        assert (HJ2 : J (shared st2)) by (rewrite Hsh2; exact (Henv _ _ HJ1)).
        destruct (load_slot_shared _ _ _ _ _ _ H3) as (Hsh3 & (pg3 & Hpg3 & Hs3) & _).
        assert (HJ3 : J (shared st3)) by (rewrite Hsh3; exact (Henv _ _ HJ2)).
        destruct (load_slot_shared _ _ _ _ _ _ H4) as (Hsh4 & (pg4 & Hpg4 & Hs4) & _).
        assert (HJ4 : J (shared st')) by (rewrite Hsh4; exact (Henv _ _ HJ3)).
        split; [exact HJ4|]. simpl.
        exists slot3, slot4. split; [exact (HJ3 _ _ Hpg3 Hs3)|].
        split; [exact (HJ4 _ _ Hpg4 Hs4)|]. reflexivity.
    + intros l _. exact I.
    + intros l _. discriminate.
    + intros l HQ. split; [intros _; exact HQ|discriminate].
    + destruct (HQ eq_refl) as (slot_a & slot_b & Ga & Gb & ->).
      eexists slot_a, slot_b, _. split; [exact Ga|]. split; [exact Gb|].
      split; [reflexivity|]. split; [reflexivity|].
      intros border_page s2 Hload.
      unfold increment_general, bind. rewrite Hread.
      destruct (decide (kErrorCodeOk = kErrorCodeOk)) as [_|Hne]; [|contradiction].
      rewrite Hload. unfold reserve_new_log.
      match goal with
      | |- context [add_to_write_set ?a ?l ?st] =>
          destruct (add_to_write_set_returns a l st) as (e2 & s3 & Hadd);
          rewrite Hadd
      end.
      unfold ret. exists e2, s3. split; [reflexivity|].
      destruct (add_to_write_set_code _ _ _ _ _ Hadd) as [[-> ->]|[-> ->]].
      * split; [reflexivity|left; reflexivity].
      * split; [reflexivity|right; reflexivity].
Qed.

End Increment.

Lemma increment_general_adds_after_read_witness :
  exists (e2 : ErrorCode) (s3 : State),
    increment_general (H := uint_payload 8) Scenario.quiet Scenario.metadata_id_ 1
      Scenario.context Scenario.root 0 (replicate 12 x00) 12 100 0
      (Scenario.tree_with_record Scenario.live_owner)
    = Some ((e2, 142), s3).
Proof.
  pose (s := Scenario.tree_with_record Scenario.live_owner).
  pose (s1 := exec (optimistic_read_protocol Scenario.quiet 1
                      (BorderOwner Scenario.root 0) false
                      (increment_general_handler (H := uint_payload 8) Scenario.quiet
                         Scenario.root 0 0) None) s).
  assert (Hslot : forall pg slot,
             masstree_pages (shared s) !! Scenario.root = Some pg ->
             get_slot pg 0 = Some slot ->
             slot = Scenario.a_record Scenario.live_owner).
  { intros pg slot Hpg Hs.
    assert (Hp : masstree_pages (shared s) !! Scenario.root
                 = Some (Scenario.page_at s Scenario.root))
      by (vm_compute; reflexivity).
    assert (Hg : get_slot (Scenario.page_at s Scenario.root) 0
                 = Some (Scenario.a_record Scenario.live_owner))
      by (vm_compute; reflexivity).
    congruence. }
  destruct (proj2 (increment_general_adds_after_read (H := uint_payload 8)
                     Scenario.quiet Scenario.metadata_id_
                     (fun slot => slot = Scenario.a_record Scenario.live_owner)
                     1 Scenario.context Scenario.root 0 (replicate 12 x00) 12 100 0
                     s s1 kErrorCodeOk (Some 42)
                     (fun n sh Hsh => Hsh) Hslot
                     ltac:(vm_compute; reflexivity)) eq_refl)
    as (slot_a & slot_b & stored & -> & -> & -> & _ & Hrun).
  destruct (Hrun (Scenario.page_at s1 Scenario.root)
              (exec (load_page Scenario.quiet Scenario.root) s1)
              ltac:(vm_compute; reflexivity)) as (e2 & s3 & Hinc & _).
  exists e2, s3. exact Hinc.
Defined.

End IncrementProofs.

(** * Incrementing an array record *)

Module ArrayIncrementProofs.

Import Memory XctImpl ArrayStoragePimpl.
Import ReadProtocolFacts.











Section Increment.

Variable env : nat -> Shared -> Shared.
Variable metadata_id_ : Z.
Variable levels_ : Z.
Variable root_page_ : PageAddr.
Variable find_route : Z -> Z -> Z.

Context {T : Type} `{PayloadType T}.


End Increment.




End ArrayIncrementProofs.

(** * Looking a key up: where the not-found code comes from *)

Module LookupProofs.

Import PageVersion MasstreePageImpl Memory XctImpl MasstreeStoragePimpl.
Import MemoryFacts ReadProtocolFacts.

(** A loop that returns has run its body a last time. *)
Lemma while_true_last_run {V R : Type} (fuel : nat) (body : V -> M (Loop V R))
    (v : V) (s s' : State) (r : R) :
  while_true fuel body v s = Some (r, s') ->
  exists (v' : V) (s0 : State), body v' s0 = Some (Return r, s').
Proof.
  revert v s. induction fuel as [|fuel IH]; intros v s; simpl; [discriminate|].
  unfold bind. destruct (body v s) as [[[v1|r1] s1]|] eqn:Hbody; [| |discriminate].
  - apply IH.
  - unfold ret. intros [= <- <-]. exists v, s. exact Hbody.
Qed.

(** Splits a run of a computation, given as an equation, into the runs of
    its parts. *)
Ltac run H :=
  repeat first
    [ discriminate H
    | match type of H with
      | match ?m with Some _ => _ | None => _ end = Some _ =>
          let E := fresh "E" in
          first [ destruct m as [[? ?]|] eqn:E | destruct m eqn:E ]
      | (match ?m with Some _ => _ | None => _ end) _ = Some _ =>
          let E := fresh "E" in destruct m eqn:E
      | (if ?b then _ else _) _ = Some _ =>
          let E := fresh "E" in destruct b eqn:E
      | (if ?b then _ else _) = Some _ =>
          let E := fresh "E" in destruct b eqn:E
      | (match ?r with Ok _ => _ | Err _ => _ end) _ = Some _ =>
          let E := fresh "E" in destruct r eqn:E
      | (match ?r with Ok _ => _ | Err _ => _ end) = Some _ =>
          let E := fresh "E" in destruct r eqn:E
      | (let (_, _) := ?p in _) _ = Some _ => destruct p
      | (let (_, _) := ?p in _) = Some _ => destruct p
      | ret _ _ = Some _ => unfold ret in H
      end ].

Section Lookup.

Variable env : nat -> Shared -> Shared.
Variable metadata_id_ : Z.
Variable kMaxKeys : Z.
Variable follow_page_pointer :
  Thread -> bool -> bool -> bool -> bool -> PointerAddr -> M (Res PageAddr).
Variable adopt_from_child :
  Thread -> PageAddr -> KeySlice -> Z -> Z -> Z -> Z -> PageAddr -> M ErrorCode.

(** The functions defined outside the sources do not return the code of a
    key that is not found. *)
Hypothesis follow_page_pointer_code :
  forall context tolerate_null will_modify take_snapshot take_volatile pointer
         s r s',
    follow_page_pointer context tolerate_null will_modify take_snapshot
      take_volatile pointer s = Some (r, s') ->
    code_of r <> kErrorCodeStrKeyNotFound.
Hypothesis adopt_from_child_code :
  forall context cur slice cur_stable minipage_index mini_stable pointer_index
         next s e s',
    adopt_from_child context cur slice cur_stable minipage_index mini_stable
      pointer_index next s = Some (e, s') ->
    e <> kErrorCodeStrKeyNotFound.

Lemma grow_root_code (fuel : nat) (context : Thread) (root_pointer : PointerAddr)
    (root : PageAddr) (s s' : State) (e : ErrorCode) :
  grow_root env metadata_id_ kMaxKeys fuel context root_pointer root s
  = Some (e, s') ->
  e <> kErrorCodeStrKeyNotFound.
Proof.
  unfold grow_root, bind. intros H. run H.
  all: try (injection H as <- <-; discriminate).
Qed.

Lemma add_to_pointer_set_code (a : PointerAddr) (observed : VolatilePagePointer)
    (s s' : State) (e : ErrorCode) :
  add_to_pointer_set a observed s = Some (e, s') -> e <> kErrorCodeStrKeyNotFound.
Proof.
  unfold add_to_pointer_set. intros H. run H.
  all: injection H as <- <-; discriminate.
Qed.

Lemma get_first_root_code (fuel : nat) (context : Thread) (s s' : State)
    (r : Res (PageAddr * Z)) :
  get_first_root env metadata_id_ kMaxKeys fuel context s = Some (r, s') ->
  code_of r <> kErrorCodeStrKeyNotFound.
Proof.
  revert s. induction fuel as [|fuel IH]; intros s; simpl; [discriminate|].
  unfold bind, check. intros H. run H.
  all: try (injection H as <- <-; simpl).
  - exact (IH _ H).
  - eapply grow_root_code; eassumption.
  - discriminate.
  - eapply add_to_pointer_set_code; eassumption.
Qed.

Lemma find_border_leaf_code (fuel loop_fuel : nat) (current_layer : Z)
    (slice : KeySlice) (st : PageAddr * Z) (s s' : State) (r : Res (PageAddr * Z)) :
  while_true loop_fuel (find_border_leaf_body env fuel current_layer slice) st s
  = Some (r, s') ->
  code_of r <> kErrorCodeStrKeyNotFound.
Proof.
  intros H. destruct (while_true_last_run _ _ _ _ _ _ H) as ([cur cur_stable] & s0 & Hb).
  unfold find_border_leaf_body, bind in Hb. run Hb.
  all: injection Hb as <- <-; discriminate.
Qed.

Lemma find_border_descend_body_code (fuel : nat)
    (descend : PageAddr -> Z -> M (Res (PageAddr * Z))) (context : Thread)
    (current_layer : Z) (for_writes : bool) (slice : KeySlice) (st : PageAddr * Z)
    (s s' : State) (r : Res (PageAddr * Z)) :
  (forall next next_stable s1 r1 s2,
      descend next next_stable s1 = Some (r1, s2) ->
      code_of r1 <> kErrorCodeStrKeyNotFound) ->
  find_border_descend_body env follow_page_pointer adopt_from_child fuel descend
    context current_layer for_writes slice st s = Some (Return r, s') ->
  code_of r <> kErrorCodeStrKeyNotFound.
Proof.
  intros Hdescend Hb. destruct st as [cur cur_stable].
  unfold find_border_descend_body, bind, follow_page in Hb. run Hb.
  all: injection Hb as <- <-; simpl.
  all: first
         [ discriminate
         | eapply adopt_from_child_code; eassumption
         | eapply Hdescend; eassumption
         | eapply find_border_leaf_code; eassumption
         | match goal with
           | E : follow_page_pointer _ _ _ _ _ _ _ = Some (_, _) |- _ =>
               apply follow_page_pointer_code in E; subst; exact E
           end ].
Qed.

Lemma find_border_descend_code (fuel : nat) (context : Thread) (cur : PageAddr)
    (cur_stable current_layer : Z) (for_writes : bool) (slice : KeySlice)
    (s s' : State) (r : Res (PageAddr * Z)) :
  find_border_descend env follow_page_pointer adopt_from_child fuel context cur
    cur_stable current_layer for_writes slice s = Some (r, s') ->
  code_of r <> kErrorCodeStrKeyNotFound.
Proof.
  revert cur cur_stable s r s'.
  induction fuel as [|fuel IH]; intros cur cur_stable s r s'; [discriminate|].
  cbn [find_border_descend]. intros H.
  destruct (while_true_last_run _ _ _ _ _ _ H) as (st & s0 & Hb).
  eapply find_border_descend_body_code; [|exact Hb].
  intros next next_stable s1 r1 s2. apply IH.
Qed.

Lemma find_border_code (fuel : nat) (context : Thread) (layer_root : PageAddr)
    (current_layer : Z) (for_writes : bool) (slice : KeySlice) (s s' : State)
    (r : Res (PageAddr * Z)) :
  find_border env follow_page_pointer adopt_from_child fuel context layer_root
    current_layer for_writes slice s = Some (r, s') ->
  code_of r <> kErrorCodeStrKeyNotFound.
Proof.
  unfold find_border, bind. intros H.
  destruct (load_page env layer_root s) as [[root_page s0]|]; [|discriminate].
  destruct (while_true_last_run _ _ _ _ _ _ H) as ([] & s1 & Hb).
  unfold find_border_body, bind in Hb. run Hb.
  all: injection Hb as <- <-.
  all: match goal with
       | E : (if ?b then _ else _) _ = Some _ |- _ => destruct b
       end.
  all: first [ eapply find_border_leaf_code; eassumption
             | eapply find_border_descend_code; eassumption ].
Qed.

Lemma follow_layer_code (fuel : nat) (context : Thread) (for_writes : bool)
    (parent : PageAddr) (record_index : Z) (s s' : State) (r : Res PageAddr) :
  follow_layer env metadata_id_ kMaxKeys follow_page_pointer fuel context for_writes
    parent record_index s = Some (r, s') ->
  code_of r <> kErrorCodeStrKeyNotFound.
Proof.
  unfold follow_layer, bind, check, follow_page. intros H. run H.
  all: try (injection H as <- <-; simpl).
  all: first
         [ discriminate
         | eapply grow_root_code; eassumption
         | eapply follow_page_pointer_code; eassumption
         | match goal with
           | E : follow_page_pointer _ _ _ _ _ _ _ = Some (_, _) |- _ =>
               apply follow_page_pointer_code in E; subst; exact E
           end ].
Qed.

(** What the last run of the body of [locate_record] returns: the code of a
    key that is not found after a slot search that yields the sentinel, the
    slot that the search yields, or another code. *)
Lemma locate_record_body_returns (fuel : nat) (context : Thread) (key : list byte)
    (key_length : Z) (for_writes : bool) (current_layer : Z) (layer_root : PageAddr)
    (s s' : State) (r : Res (PageAddr * Z)) :
  locate_record_body env metadata_id_ kMaxKeys follow_page_pointer adopt_from_child
    fuel context key key_length for_writes (current_layer, layer_root) s
  = Some (Return r, s') ->
  (exists e, r = Err e /\ e <> kErrorCodeStrKeyNotFound)
  \/ exists (border : PageAddr) (border_version : Z) (s1 : State)
            (border_page : MasstreePage) (s2 : State),
      find_border env follow_page_pointer adopt_from_child fuel context layer_root
        current_layer for_writes (slice_layer key key_length current_layer) s
      = Some (Ok (border, border_version), s1)
      /\ load_page env border s1 = Some (border_page, s2)
      /\ ((find_key kMaxKeys border_page (get_key_count border_version)
             (slice_layer key key_length current_layer)
             (drop (Z.to_nat ((current_layer + 1) * 8)) key)
             (to_uint8 (key_length - current_layer * 8)) = kMaxKeys
           /\ r = Err kErrorCodeStrKeyNotFound /\ s' = s2)
          \/ (exists (index : Z) (slot : BorderSlot),
                find_key kMaxKeys border_page (get_key_count border_version)
                  (slice_layer key key_length current_layer)
                  (drop (Z.to_nat ((current_layer + 1) * 8)) key)
                  (to_uint8 (key_length - current_layer * 8)) = index
                /\ index <> kMaxKeys
                /\ load_slot env border index s2 = Some (slot, s')
                /\ does_point_to_layer slot = false
                /\ r = Ok (border, index))).
Proof.
  unfold locate_record_body, bind. intros H.
  destruct (find_border _ _ _ _ _ _ _ _ _ s) as [[[[border border_version]|e] s1]|]
    eqn:Hfind; [| |discriminate].
  2:{ unfold ret in H. injection H as <- <-. left. exists e. split; [reflexivity|].
      exact (find_border_code _ _ _ _ _ _ _ _ _ Hfind). }
  destruct (load_page env border s1) as [[border_page s2]|] eqn:Hpage; [|discriminate].
  destruct (Z.eqb_spec
              (find_key kMaxKeys border_page (get_key_count border_version)
                 (slice_layer key key_length current_layer)
                 (drop (Z.to_nat ((current_layer + 1) * 8)) key)
                 (to_uint8 (key_length - current_layer * 8))) kMaxKeys)
    as [Hkey|Hkey].
  { unfold ret in H. injection H as <- <-. right.
    exists border, border_version, s1, border_page, s2.
    split; [reflexivity|]. split; [exact Hpage|]. left. repeat split. exact Hkey. }
  match type of H with
  | match load_slot env border ?i s2 with _ => _ end = _ =>
      destruct (load_slot env border i s2) as [[slot s3]|] eqn:Hslot; [|discriminate]
  end.
  destruct (does_point_to_layer slot) eqn:Hlayer.
  - match type of H with
    | match ?m with _ => _ end = _ =>
        destruct m as [[[next_root|e] s4]|] eqn:Hfollow; [| |discriminate]
    end; unfold ret in H; [discriminate|].
    injection H as <- <-. left. exists e. split; [reflexivity|].
    exact (follow_layer_code _ _ _ _ _ _ _ _ Hfollow).
  - unfold ret in H. injection H as <- <-. right.
    exists border, border_version, s1, border_page, s2.
    split; [reflexivity|]. split; [exact Hpage|]. right.
    eexists _, slot. split; [reflexivity|]. split; [exact Hkey|].
    split; [exact Hslot|]. split; [exact Hlayer|reflexivity].
Qed.

(** A run of the read protocol with the handler of [retrieve_general]
    returns the code of a key that is not found only from a run of the handler
    that was given an owner-id with the deleted bit. *)
Lemma retrieve_general_key_not_found (fuel : nat) (border : PageAddr) (index : Z)
    (in_snapshot : bool) (locals out : list byte * Z) (s s' : State) :
  optimistic_read_protocol env fuel (BorderOwner border index) in_snapshot
    (retrieve_general_handler env border index) locals s
  = Some ((kErrorCodeStrKeyNotFound, out), s') ->
  exists (observed : XctId.t) (s_a s_b : State) (slot : BorderSlot),
    load_owner_id env (BorderOwner border index) s_a = Some (observed, s_b)
    /\ XctId.is_deleted observed = true
    /\ load_slot env border index s_b = Some (slot, s')
    /\ does_point_to_layer slot = false.
Proof.
  revert locals s. induction fuel as [|fuel IH]; intros [payload capacity] s;
    [discriminate|].
  cbn [optimistic_read_protocol]. unfold bind.
  destruct (load_owner_id env (BorderOwner border index) s) as [[observed s1]|]
    eqn:Hload; [|discriminate].
  destruct (XctId.is_keylocked observed); [apply IH|].
  destruct (XctId.is_moved observed); [unfold ret; discriminate|].
  destruct (retrieve_general_handler env border index observed (payload, capacity) s1)
    as [[[e locals'] s2]|] eqn:Hhandler; [|discriminate].
  destruct (decide (e = kErrorCodeOk)) as [->|Hne].
  - destruct (load_owner_id env (BorderOwner border index) s2) as [[again s3]|];
      [|discriminate].
    destruct (decide (again = observed)) as [_|_]; [|apply IH].
    destruct (add_to_read_set (BorderOwner border index) observed s3)
      as [[e2 s4]|] eqn:Hadd; [|discriminate].
    unfold ret. intros [= -> <- <-].
    destruct (add_to_read_set_code _ _ _ _ _ Hadd) as [[? _]|[? _]]; discriminate.
  - unfold ret. intros [= -> <- <-].
    unfold retrieve_general_handler, bind in Hhandler.
    destruct (load_slot env border index s1) as [[slot s1']|] eqn:Hslot;
      [|discriminate].
    destruct (does_point_to_layer slot) eqn:Hlayer; [discriminate|].
    destruct (XctId.is_deleted observed) eqn:Hdeleted.
    + unfold ret in Hhandler. injection Hhandler as <- <-.
      exists observed, s, s1, slot. repeat split; assumption.
    + run Hhandler. all: discriminate.
Qed.

(** C8: where [get_record] takes the code of a key that is not found from.
    When it returns that code, either the slot search of [locate_record] in
    some layer yielded the sentinel [kMaxKeys], or the search yielded a slot
    that is not a next-layer pointer and the handler of [retrieve_general] was
    given an owner-id of it with the deleted bit.  Conversely a slot search of
    the first layer that yields the sentinel, and an unlocked, unmoved owner-id
    with the deleted bit on a slot that is no next-layer pointer, both make
    [get_record] return the code; so does the lookup of a key of a hundred
    zero bytes in a tree just created.  This holds for every key length. *)
Theorem get_record_key_not_found_sources :
  (forall (fuel : nat) (context : Thread) (key : list byte) (key_length : Z)
          (payload : list byte) (payload_capacity : Z) (s s' : State)
          (out : list byte * Z),
      get_record env metadata_id_ kMaxKeys follow_page_pointer adopt_from_child fuel
        context key key_length payload payload_capacity s
      = Some ((kErrorCodeStrKeyNotFound, out), s') ->
      exists (current_layer : Z) (layer_root : PageAddr) (s0 : State)
             (border : PageAddr) (border_version : Z) (s1 : State)
             (border_page : MasstreePage) (s2 : State),
        find_border env follow_page_pointer adopt_from_child fuel context layer_root
          current_layer false (slice_layer key key_length current_layer) s0
        = Some (Ok (border, border_version), s1)
        /\ load_page env border s1 = Some (border_page, s2)
        /\ ((find_key kMaxKeys border_page (get_key_count border_version)
               (slice_layer key key_length current_layer)
               (drop (Z.to_nat ((current_layer + 1) * 8)) key)
               (to_uint8 (key_length - current_layer * 8)) = kMaxKeys
             /\ s' = s2 /\ out = (payload, payload_capacity))
            \/ (exists (index : Z) (slot slot' : BorderSlot) (s3 s4 s5 : State)
                       (observed : XctId.t),
                  find_key kMaxKeys border_page (get_key_count border_version)
                    (slice_layer key key_length current_layer)
                    (drop (Z.to_nat ((current_layer + 1) * 8)) key)
                    (to_uint8 (key_length - current_layer * 8)) = index
                  /\ index <> kMaxKeys
                  /\ load_slot env border index s2 = Some (slot, s3)
                  /\ does_point_to_layer slot = false
                  /\ load_owner_id env (BorderOwner border index) s4
                     = Some (observed, s5)
                  /\ XctId.is_deleted observed = true
                  /\ load_slot env border index s5 = Some (slot', s')
                  /\ does_point_to_layer slot' = false)))
  /\ (forall (fuel : nat) (context : Thread) (key : list byte) (key_length : Z)
             (payload : list byte) (payload_capacity : Z) (s s0 s1 s2 : State)
             (layer_root border : PageAddr) (root_version border_version : Z)
             (border_page : MasstreePage),
         get_first_root env metadata_id_ kMaxKeys (S fuel) context s
         = Some (Ok (layer_root, root_version), s0) ->
         find_border env follow_page_pointer adopt_from_child (S fuel) context
           layer_root 0 false (slice_layer key key_length 0) s0
         = Some (Ok (border, border_version), s1) ->
         load_page env border s1 = Some (border_page, s2) ->
         find_key kMaxKeys border_page (get_key_count border_version)
           (slice_layer key key_length 0) (drop (Z.to_nat ((0 + 1) * 8)) key)
           (to_uint8 (key_length - 0 * 8)) = kMaxKeys ->
         get_record env metadata_id_ kMaxKeys follow_page_pointer adopt_from_child
           (S fuel) context key key_length payload payload_capacity s
         = Some ((kErrorCodeStrKeyNotFound, (payload, payload_capacity)), s2))
  /\ (forall (fuel : nat) (context : Thread) (key : list byte) (key_length : Z)
             (payload : list byte) (payload_capacity : Z) (s s1 s2 s3 s4 : State)
             (border : PageAddr) (index : Z) (border_page : MasstreePage)
             (observed : XctId.t) (slot : BorderSlot),
         locate_record env metadata_id_ kMaxKeys follow_page_pointer adopt_from_child
           (S fuel) context key key_length false s
         = Some (Ok (border, index), s1) ->
         load_page env border s1 = Some (border_page, s2) ->
         load_owner_id env (BorderOwner border index) s2 = Some (observed, s3) ->
         XctId.is_keylocked observed = false ->
         XctId.is_moved observed = false ->
         XctId.is_deleted observed = true ->
         load_slot env border index s3 = Some (slot, s4) ->
         does_point_to_layer slot = false ->
         get_record env metadata_id_ kMaxKeys follow_page_pointer adopt_from_child
           (S fuel) context key key_length payload payload_capacity s
         = Some ((kErrorCodeStrKeyNotFound, (payload, payload_capacity)), s4))
  /\ (exists s' : State,
        get_record Scenario.quiet Scenario.metadata_id_ Scenario.kMaxKeys
          (Scenario.follow_volatile Scenario.quiet) Scenario.no_adopt 5
          Scenario.context (replicate 100 x00) 100 (replicate 16 x00) 16
          Scenario.fresh_tree
        = Some ((kErrorCodeStrKeyNotFound, (replicate 16 x00, 16)), s')).
Proof.
  split; [|split; [|split]].
  - intros fuel context key key_length payload payload_capacity s s' out.
    unfold get_record, bind.
    destruct (locate_record _ _ _ _ _ _ _ _ _ _ s) as [[located s1]|] eqn:Hlocate;
      [|discriminate].
    unfold locate_record, bind in Hlocate.
    destruct (get_first_root _ _ _ _ _ s) as [[[[layer_root root_version]|e] s0]|]
      eqn:Hroot; [| |discriminate].
    2:{ unfold ret in Hlocate. injection Hlocate as <- <-. unfold ret.
        intros [= -> _ _]. exfalso.
        exact (get_first_root_code _ _ _ _ _ Hroot eq_refl). }
    destruct (while_true_last_run _ _ _ _ _ _ Hlocate)
      as ([current_layer layer_root'] & s_body & Hbody).
    destruct (locate_record_body_returns _ _ _ _ _ _ _ _ _ _ Hbody)
      as [(e & -> & Hne)
         |(border & border_version & s_b & border_page & s_c & Hfind & Hpage
           & [(Hkey & -> & ->)|(index & slot & Hkey & Hne & Hslot & Hlayer & ->)])].
    + unfold ret. intros [= -> _ _]. contradiction.
    + unfold ret. intros [= <- <-].
      exists current_layer, layer_root', s_body, border, border_version, s_b,
        border_page, s_c.
      split; [exact Hfind|]. split; [exact Hpage|]. left. repeat split. exact Hkey.
    + unfold retrieve_general, bind.
      destruct (load_page env border s1) as [[page s_d]|]; [|discriminate].
      intros Hread.
      destruct (retrieve_general_key_not_found _ _ _ _ _ _ _ _ Hread)
        as (observed & s_a & s_e & slot' & Hload & Hdeleted & Hslot' & Hlayer').
      exists current_layer, layer_root', s_body, border, border_version, s_b,
        border_page, s_c.
      split; [exact Hfind|]. split; [exact Hpage|]. right.
      exists index, slot, slot', s1, s_a, s_e, observed. repeat split; assumption.
  - intros fuel context key key_length payload payload_capacity s s0 s1 s2 layer_root
      border root_version border_version border_page Hroot Hfind Hpage Hkey.
    unfold get_record, locate_record, bind. rewrite Hroot.
    cbn [while_true]. unfold locate_record_body, bind.
    rewrite Hfind, Hpage, Hkey, Z.eqb_refl. reflexivity.
  - intros fuel context key key_length payload payload_capacity s s1 s2 s3 s4 border
      index border_page observed slot Hlocate Hpage Hload Hlocked Hmoved Hdeleted
      Hslot Hlayer.
    unfold get_record, bind. rewrite Hlocate.
    unfold retrieve_general, bind. rewrite Hpage.
    cbn [optimistic_read_protocol]. unfold bind. rewrite Hload, Hlocked, Hmoved.
    unfold retrieve_general_handler, bind. rewrite Hslot, Hlayer, Hdeleted.
    reflexivity.
  - eexists. vm_compute. reflexivity.
Qed.

End Lookup.

(** Following a volatile pointer that is set, and an adoption that has
    nothing to do, do not return the code of a key that is not found. *)
Lemma follow_volatile_code (env : nat -> Shared -> Shared) (context : Thread)
    (tolerate_null will_modify take_snapshot take_volatile : bool)
    (pointer : PointerAddr) (s : State) (r : Res PageAddr) (s' : State) :
  Scenario.follow_volatile env context tolerate_null will_modify take_snapshot
    take_volatile pointer s = Some (r, s') ->
  code_of r <> kErrorCodeStrKeyNotFound.
Proof.
  unfold Scenario.follow_volatile, bind. intros H. run H.
  injection H as <- <-. discriminate.
Qed.

Lemma no_adopt_code (context : Thread) (cur : PageAddr) (slice : KeySlice)
    (cur_stable minipage_index mini_stable pointer_index : Z) (next : PageAddr)
    (s : State) (e : ErrorCode) (s' : State) :
  Scenario.no_adopt context cur slice cur_stable minipage_index mini_stable
    pointer_index next s = Some (e, s') ->
  e <> kErrorCodeStrKeyNotFound.
Proof. unfold Scenario.no_adopt, ret. intros [= <- <-]. discriminate. Qed.

Lemma get_record_key_not_found_sources_witness :
  exists (current_layer : Z) (layer_root : PageAddr) (s0 : State) (border : PageAddr)
         (border_version : Z) (s1 : State) (border_page : MasstreePage) (s2 : State),
    find_border Scenario.quiet (Scenario.follow_volatile Scenario.quiet)
      Scenario.no_adopt 5 Scenario.context layer_root current_layer false
      (slice_layer (replicate 100 x00) 100 current_layer) s0
    = Some (Ok (border, border_version), s1)
    /\ load_page Scenario.quiet border s1 = Some (border_page, s2).
Proof.
  destruct (proj1 (get_record_key_not_found_sources Scenario.quiet
                     Scenario.metadata_id_ Scenario.kMaxKeys
                     (Scenario.follow_volatile Scenario.quiet) Scenario.no_adopt
                     (follow_volatile_code Scenario.quiet) no_adopt_code)
              5%nat Scenario.context (replicate 100 x00) 100 (replicate 16 x00) 16
              Scenario.fresh_tree
              (exec (get_record Scenario.quiet Scenario.metadata_id_
                       Scenario.kMaxKeys (Scenario.follow_volatile Scenario.quiet)
                       Scenario.no_adopt 5 Scenario.context (replicate 100 x00) 100
                       (replicate 16 x00) 16) Scenario.fresh_tree)
              (replicate 16 x00, 16)
              ltac:(vm_compute; reflexivity))
    as (current_layer & layer_root & s0 & border & border_version & s1 & border_page
        & s2 & Hfind & Hpage & _).
  exists current_layer, layer_root, s0, border, border_version, s1, border_page, s2.
  split; [exact Hfind|exact Hpage].
Defined.

End LookupProofs.

(** * The page counts of an array storage *)

Module ArrayPagesProofs.

Import Array.

(** The quotient rounded up is the least number of parts of [right] that
    cover [left]. *)
Lemma int_div_ceil_covers (left right r : Z) :
  0 <= left -> 1 <= right -> int_div_ceil left right = Some r ->
  (r - 1) * right < left <= r * right \/ (left = 0 /\ r = 0).
Proof.
  intros Hl Hr. unfold int_div_ceil.
  destruct (Z.eqb_spec right 0) as [E|_]; [lia|].
  intros [= <-].
  pose proof (Z.div_mod left right ltac:(lia)) as Hdm.
  pose proof (Z.mod_pos_bound left right ltac:(lia)) as Hmod.
  assert (0 <= left / right) by (apply Z.div_pos; lia).
  destruct (Z.eqb_spec (left mod right) 0) as [E|E].
  - destruct (Z.eq_dec left 0) as [->|Hne]; [right; split; [reflexivity|]|left; nia].
    apply Z.div_0_l. lia.
  - left. nia.
Qed.

Lemma last_at_end (l : list Z) (d : Z) (i : nat) (x : Z) :
  l !! i = Some x -> S i = length l -> List.last l d = x.
Proof.
  destruct l as [|y l] using rev_ind; [discriminate|].
  intros Hx Hlen. rewrite length_app in Hlen. simpl in Hlen.
  rewrite lookup_app_r in Hx by lia.
  replace (i - length l)%nat with 0%nat in Hx by lia.
  injection Hx as ->. apply List.last_last.
Qed.

Section Pages.

Variable kDataSize : Z.
Variable kRecordOverhead : Z.
Variable kInteriorFanout : Z.

(** The loop of [calculate_required_pages] only appends, stops on a last
    entry of one, and appends the rounded-up quotient of an entry that is not
    one. *)
Lemma push_interior_levels_chain (fuel : nat) :
  forall pages pages' : list Z,
    push_interior_levels kInteriorFanout fuel pages = Some pages' ->
    (forall (i : nat) (p q : Z),
        pages !! i = Some p -> pages !! S i = Some q ->
        p <> 1 /\ int_div_ceil p kInteriorFanout = Some q) ->
    List.last pages' 0 = 1
    /\ (exists more, pages' = pages ++ more)
    /\ (forall (i : nat) (p q : Z),
           pages' !! i = Some p -> pages' !! S i = Some q ->
           p <> 1 /\ int_div_ceil p kInteriorFanout = Some q).
Proof.
  induction fuel as [|fuel IH]; intros pages pages'; simpl; [discriminate|].
  destruct (Z.eqb_spec (List.last pages 0) 1) as [Hlast|Hlast].
  - intros [= <-] Hchain. split; [exact Hlast|]. split; [|exact Hchain].
    exists []. rewrite app_nil_r. reflexivity.
  - destruct (int_div_ceil (List.last pages 0) kInteriorFanout) as [next|] eqn:Hnext;
      [|discriminate].
    intros Hrun Hchain.
    destruct (IH (pages ++ [next]) pages' Hrun) as (Hl & (more & ->) & Hc).
    + intros i p q Hp Hq.
      destruct (decide (S i < length pages)%nat) as [Hin|Hout].
      * rewrite lookup_app_l in Hp by lia. rewrite lookup_app_l in Hq by lia.
        exact (Hchain i p q Hp Hq).
      * assert (Hlen : S i = length pages).
        { apply lookup_lt_Some in Hq. rewrite length_app in Hq. simpl in Hq. lia. }
        rewrite lookup_app_l in Hp by lia.
        rewrite lookup_app_r in Hq by lia.
        replace (S i - length pages)%nat with 0%nat in Hq by lia.
        injection Hq as <-.
        assert (Hp' : List.last pages 0 = p) by exact (last_at_end _ _ _ _ Hp Hlen).
        rewrite <- Hp'. split; [exact Hlast|exact Hnext].
    + split; [exact Hl|]. split; [|exact Hc].
      exists ([next] ++ more). rewrite app_assoc. reflexivity.
Qed.

(** The first entry of the vector is the number of leaf pages. *)
Lemma calculate_required_pages_head
    (fuel : nat) (array_size payload : Z) (pages : list Z) :
  calculate_required_pages kDataSize kRecordOverhead kInteriorFanout fuel array_size
    payload = Some pages ->
  exists leaf_pages : Z,
    int_div_ceil array_size
      (kDataSize / (to_uint16 (align8 payload) + kRecordOverhead))
    = Some leaf_pages
    /\ pages !! 0%nat = Some leaf_pages.
Proof.
  unfold calculate_required_pages, records_per_page.
  destruct (to_uint16 (align8 payload) + kRecordOverhead =? 0); [discriminate|].
  destruct (int_div_ceil array_size _) as [leaf_pages|] eqn:Hleaf; [|discriminate].
  intros Hrun.
  destruct (push_interior_levels_chain fuel [leaf_pages] pages Hrun)
    as (_ & (more & ->) & _).
  { intros i p q _ Hq. destruct i; discriminate. }
  exists leaf_pages. split; reflexivity.
Qed.

(** X1: the vector [calculate_required_pages] returns starts with the number
    of leaf pages, each further entry is the one before divided by the
    interior fanout and rounded up, no entry but the last is one, and the
    last, the root level, is one page.  With a fanout of two or more and a
    non-empty array the entries decrease strictly. *)
Theorem calculate_required_pages_chain
    (fuel : nat) (array_size payload : Z) (pages : list Z) :
  calculate_required_pages kDataSize kRecordOverhead kInteriorFanout fuel array_size
    payload = Some pages ->
  (exists leaf_pages : Z,
      int_div_ceil array_size
        (kDataSize / (to_uint16 (align8 payload) + kRecordOverhead))
      = Some leaf_pages
      /\ pages !! 0%nat = Some leaf_pages)
  /\ List.last pages 0 = 1
  /\ (forall (i : nat) (p q : Z),
         pages !! i = Some p -> pages !! S i = Some q ->
         p <> 1 /\ int_div_ceil p kInteriorFanout = Some q)
  /\ (2 <= kInteriorFanout -> 1 <= array_size ->
      1 <= kDataSize / (to_uint16 (align8 payload) + kRecordOverhead) ->
      forall (i : nat) (p q : Z),
        pages !! i = Some p -> pages !! S i = Some q -> 1 <= q < p).
Proof.
  unfold calculate_required_pages, records_per_page.
  destruct (to_uint16 (align8 payload) + kRecordOverhead =? 0); [discriminate|].
  destruct (int_div_ceil array_size _) as [leaf_pages|] eqn:Hleaf; [|discriminate].
  intros Hrun.
  destruct (push_interior_levels_chain fuel [leaf_pages] pages Hrun)
    as (Hlast & (more & ->) & Hchain).
  { intros i p q _ Hq. destruct i; discriminate. }
  split; [exists leaf_pages; split; reflexivity|].
  split; [exact Hlast|]. split; [exact Hchain|].
  intros Hfanout Hsize Hrecords.
  assert (Hpos : forall (i : nat) (p : Z), ([leaf_pages] ++ more) !! i = Some p -> 1 <= p).
  { induction i as [|i IH]; intros p Hp.
    - injection Hp as <-.
      assert (H0 : 0 <= array_size) by lia.
      destruct (int_div_ceil_covers array_size _ leaf_pages H0 Hrecords Hleaf)
        as [Hc|[Hz _]]; nia.
    - destruct (([leaf_pages] ++ more) !! i) as [p0|] eqn:Hp0.
      + destruct (Hchain i p0 p Hp0 Hp) as [_ Hdiv].
        specialize (IH p0 eq_refl).
        assert (H0 : 0 <= p0) by lia.
        assert (H1 : 1 <= kInteriorFanout) by lia.
        destruct (int_div_ceil_covers p0 kInteriorFanout p H0 H1 Hdiv)
          as [Hc|[Hz _]]; nia.
      + apply lookup_lt_Some in Hp. apply lookup_ge_None in Hp0. lia. }
  intros i p q Hp Hq.
  destruct (Hchain i p q Hp Hq) as [Hne Hdiv].
  pose proof (Hpos i p Hp) as Hp1.
  assert (Hp2 : 2 <= p) by lia.
  destruct (ArrayLevelsProofs.int_div_ceil_fanout kInteriorFanout Hfanout p Hp2)
    as (next & Hnext & Hge & Hle).
  rewrite Hdiv in Hnext. injection Hnext as <-. lia.
Qed.

(** X2: the leaf pages [calculate_required_pages] counts hold the array and
    not one of them is spare: with [records] records in a page,
    [(leaf_pages - 1) * records < array_size <= leaf_pages * records]. *)
Theorem calculate_required_pages_leaves_cover
    (fuel : nat) (array_size payload : Z) (pages : list Z) :
  1 <= array_size ->
  0 <= kDataSize / (to_uint16 (align8 payload) + kRecordOverhead) ->
  calculate_required_pages kDataSize kRecordOverhead kInteriorFanout fuel array_size
    payload = Some pages ->
  exists leaf_pages : Z,
    pages !! 0%nat = Some leaf_pages
    /\ (leaf_pages - 1)
         * (kDataSize / (to_uint16 (align8 payload) + kRecordOverhead))
       < array_size
    /\ array_size
       <= leaf_pages * (kDataSize / (to_uint16 (align8 payload) + kRecordOverhead)).
Proof.
  intros Hsize Hrecords Hrun.
  destruct (calculate_required_pages_head fuel array_size payload pages Hrun)
    as (leaf_pages & Hleaf & Hhead).
  exists leaf_pages. split; [exact Hhead|].
  assert (Hr : 1 <= kDataSize / (to_uint16 (align8 payload) + kRecordOverhead)).
  { unfold int_div_ceil in Hleaf.
    destruct (Z.eqb_spec (kDataSize / (to_uint16 (align8 payload) + kRecordOverhead)) 0);
      [discriminate|lia]. }
  assert (H0 : 0 <= array_size) by lia.
  destruct (int_div_ceil_covers _ _ _ H0 Hr Hleaf) as [Hc|[Hz _]]; lia.
Qed.

(** X4: for an array of size zero neither function returns: the page count
    zero is never one and its quotient is zero again (or the division is by
    zero), whatever the number of iterations allowed. *)
Theorem calculate_levels_empty_array_never_returns (fuel : nat) (payload : Z) :
  calculate_required_pages kDataSize kRecordOverhead kInteriorFanout fuel 0 payload
  = None
  /\ calculate_levels kDataSize kRecordOverhead kInteriorFanout fuel
       (mkArrayMetadata payload 0) = None.
Proof.
  assert (Hpush : forall (n : nat) (pages : list Z),
             List.last pages 0 = 0 ->
             push_interior_levels kInteriorFanout n pages = None).
  { induction n as [|n IH]; intros pages Hlast; simpl; [reflexivity|].
    rewrite Hlast. simpl. unfold int_div_ceil.
    destruct (kInteriorFanout =? 0); [reflexivity|].
    rewrite Zmod_0_l, Zdiv_0_l. simpl. apply IH. apply List.last_last. }
  assert (Hcount : forall (n : nat) (levels : Z),
             count_levels kInteriorFanout n levels 0 = None).
  { induction n as [|n IH]; intros levels; simpl; [reflexivity|].
    unfold int_div_ceil.
    destruct (kInteriorFanout =? 0); [reflexivity|].
    rewrite Zmod_0_l, Zdiv_0_l. simpl. apply IH. }
  unfold calculate_required_pages, calculate_levels, records_per_page. simpl.
  destruct (to_uint16 (align8 payload) + kRecordOverhead =? 0); [split; reflexivity|].
  assert (Hleaf : forall r : Z,
             int_div_ceil 0 r = None \/ int_div_ceil 0 r = Some 0).
  { intros r. unfold int_div_ceil. destruct (r =? 0); [left; reflexivity|].
    rewrite Zmod_0_l, Zdiv_0_l. right. reflexivity. }
  destruct (Hleaf (kDataSize / (to_uint16 (align8 payload) + kRecordOverhead)))
    as [->| ->]; [split; reflexivity|].
  split; [apply Hpush; reflexivity|apply Hcount].
Qed.

(** The level counter of [calculate_levels] grows by the least number of
    divisions by the fanout that bring the page count to one. *)
Lemma count_levels_depth (n : nat) :
  forall (fuel : nat) (levels pages depth : Z),
    2 <= kInteriorFanout ->
    1 <= pages <= 2 ^ Z.of_nat n ->
    0 <= levels -> levels + Z.of_nat n < 256 ->
    count_levels kInteriorFanout fuel levels pages = Some depth ->
    levels <= depth <= levels + Z.of_nat n
    /\ pages <= kInteriorFanout ^ (depth - levels)
    /\ (levels < depth -> kInteriorFanout ^ (depth - levels - 1) < pages).
Proof.
  induction n as [|n IH]; intros fuel levels pages depth Hfanout Hpages Hlevels Hwrap;
    (destruct fuel as [|fuel]; [discriminate|]); simpl.
  - change (2 ^ Z.of_nat 0) with 1 in Hpages.
    destruct (Z.eqb_spec pages 1) as [_|E]; [|lia].
    intros [= <-]. rewrite Z.sub_diag. simpl. lia.
  - destruct (Z.eqb_spec pages 1) as [->|E].
    { intros [= <-]. rewrite Z.sub_diag. simpl. lia. }
    destruct (int_div_ceil pages kInteriorFanout) as [next|] eqn:Hnext; [|discriminate].
    assert (H0 : 0 <= pages) by lia.
    assert (H1 : 1 <= kInteriorFanout) by lia.
    destruct (int_div_ceil_covers pages kInteriorFanout next H0 H1 Hnext)
      as [Hc|[Hz _]]; [|lia].
    rewrite Nat2Z.inj_succ, Z.pow_succ_r in Hpages by lia.
    rewrite Nat2Z.inj_succ in Hwrap.
    replace (to_uint8 (levels + 1)) with (levels + 1)
      by (unfold to_uint8; rewrite Z.mod_small; lia).
    intros Hrun.
    destruct (IH fuel (levels + 1) next depth Hfanout ltac:(nia) ltac:(lia)
                ltac:(lia) Hrun) as (Hd & Hup & Hlow).
    rewrite Nat2Z.inj_succ.
    split; [lia|].
    replace (depth - levels) with (Z.succ (depth - (levels + 1))) by lia.
    rewrite Z.pow_succ_r by lia.
    split; [nia|]. intros _.
    replace (Z.succ (depth - (levels + 1)) - 1) with (depth - (levels + 1)) by lia.
    destruct (Z.eq_dec depth (levels + 1)) as [->|Hne].
    + rewrite Z.sub_diag. simpl. lia.
    + specialize (Hlow ltac:(lia)).
      replace (depth - (levels + 1)) with (Z.succ (depth - (levels + 1) - 1)) by lia.
      rewrite Z.pow_succ_r by lia. nia.
Qed.

(** X3: the depth [calculate_levels] returns is the least that reaches every
    record: with [records] records in a leaf page, [records] times the fanout
    to the power [levels - 1] is at least the array size, and one level less
    would not do. *)
Theorem calculate_levels_least_depth
    (fuel : nat) (array_size payload levels : Z) :
  2 <= kInteriorFanout ->
  1 <= array_size < 2 ^ 64 ->
  1 <= kDataSize / (to_uint16 (align8 payload) + kRecordOverhead) ->
  calculate_levels kDataSize kRecordOverhead kInteriorFanout fuel
    (mkArrayMetadata payload array_size) = Some levels ->
  1 <= levels <= 65
  /\ array_size
     <= kDataSize / (to_uint16 (align8 payload) + kRecordOverhead)
        * kInteriorFanout ^ (levels - 1)
  /\ (2 <= levels ->
      kDataSize / (to_uint16 (align8 payload) + kRecordOverhead)
      * kInteriorFanout ^ (levels - 2) < array_size).
Proof.
  intros Hfanout Hsize Hrecords.
  unfold calculate_levels, records_per_page. simpl.
  destruct (to_uint16 (align8 payload) + kRecordOverhead =? 0); [discriminate|].
  destruct (int_div_ceil array_size _) as [leaf_pages|] eqn:Hleaf; [|discriminate].
  intros Hrun.
  assert (H0 : 0 <= array_size) by lia.
  destruct (int_div_ceil_covers _ _ _ H0 Hrecords Hleaf) as [Hc|[Hz _]]; [|lia].
  assert (Hleaf_range : 1 <= leaf_pages <= 2 ^ Z.of_nat 64).
  { change (2 ^ Z.of_nat 64) with (2 ^ 64). nia. }
  destruct (count_levels_depth 64 fuel 1 leaf_pages levels Hfanout Hleaf_range
              ltac:(lia) ltac:(simpl; lia) Hrun) as (Hd & Hup & Hlow).
  simpl in Hd. split; [lia|]. split; [nia|].
  intros H2. specialize (Hlow ltac:(lia)).
  replace (levels - 1 - 1) with (levels - 2) in Hlow by lia.
  assert (0 <= kInteriorFanout ^ (levels - 2)) by (apply Z.pow_nonneg; lia).
  nia.
Qed.

End Pages.

Lemma calculate_required_pages_chain_witness :
  List.last [3937008; 15501; 62; 1] 0 = 1.
Proof.
  exact (proj1 (proj2 (calculate_required_pages_chain 4064 8 254 65 1000000000 8
                         [3937008; 15501; 62; 1] ltac:(vm_compute; reflexivity)))).
Defined.

Lemma calculate_required_pages_leaves_cover_witness :
  exists leaf_pages : Z,
    [3937008; 15501; 62; 1] !! 0%nat = Some leaf_pages
    /\ (leaf_pages - 1) * (4064 / (to_uint16 (align8 8) + 8)) < 1000000000
    /\ 1000000000 <= leaf_pages * (4064 / (to_uint16 (align8 8) + 8)).
Proof.
  apply (calculate_required_pages_leaves_cover 4064 8 254 65 1000000000 8).
  - lia.
  - vm_compute. discriminate.
  - vm_compute. reflexivity.
Defined.

Lemma calculate_levels_least_depth_witness :
  1 <= 4 <= 65
  /\ 1000000000 <= 4064 / (to_uint16 (align8 8) + 8) * 254 ^ (4 - 1)
  /\ (2 <= 4 -> 4064 / (to_uint16 (align8 8) + 8) * 254 ^ (4 - 2) < 1000000000).
Proof.
  apply (calculate_levels_least_depth 4064 8 254 65 1000000000 8 4).
  - lia.
  - lia.
  - vm_compute. discriminate.
  - vm_compute. reflexivity.
Defined.

End ArrayPagesProofs.

(** * Reads leave the transaction's staging alone *)

Module FrameFacts.

Import MasstreePageImpl Memory XctImpl.

Lemma reads_only_refl (s : State) : reads_only s s.
Proof. repeat split. Qed.

Lemma reads_only_trans (s1 s2 s3 : State) :
  reads_only s1 s2 -> reads_only s2 s3 -> reads_only s1 s3.
Proof.
  intros (H1 & H2 & H3) (H4 & H5 & H6). repeat split; congruence.
Qed.

Section Frame.

Variable env : nat -> Shared -> Shared.

Lemma tick_reads_only (s s' : State) (u : unit) :
  tick env s = Some (u, s') -> reads_only s s'.
Proof. unfold tick. intros [= <- <-]. repeat split. Qed.

Lemma load_page_reads_only (p : PageAddr) (pg : MasstreePage) (s s' : State) :
  load_page env p s = Some (pg, s') -> reads_only s s'.
Proof.
  unfold load_page, bind, get_page, tick. simpl.
  destruct (masstree_pages _ !! p); [|discriminate].
  intros [= <- <-]. repeat split.
Qed.

Lemma load_slot_reads_only (p : PageAddr) (index : Z) (slot : BorderSlot)
    (s s' : State) :
  load_slot env p index s = Some (slot, s') -> reads_only s s'.
Proof.
  unfold load_slot, bind.
  destruct (load_page env p s) as [[pg s1]|] eqn:Hpage; [|discriminate].
  destruct (get_slot pg index); [|discriminate].
  unfold ret. intros [= <- <-]. exact (load_page_reads_only _ _ _ _ Hpage).
Qed.

Lemma load_array_page_reads_only (p : PageAddr) (pg : ArrayPage) (s s' : State) :
  load_array_page env p s = Some (pg, s') -> reads_only s s'.
Proof.
  unfold load_array_page, bind, tick. simpl.
  destruct (array_pages _ !! p); [|discriminate].
  intros [= <- <-]. repeat split.
Qed.

Lemma load_record_reads_only (p : PageAddr) (index : Z) (r : Record_)
    (s s' : State) :
  load_record env p index s = Some (r, s') -> reads_only s s'.
Proof.
  unfold load_record, bind.
  destruct (load_array_page env p s) as [[[records|interior] s1]|] eqn:Hpage;
    [| discriminate | discriminate].
  destruct (records !! Z.to_nat index); [|discriminate].
  unfold ret. intros [= <- <-]. exact (load_array_page_reads_only _ _ _ _ Hpage).
Qed.

Lemma load_owner_id_reads_only (a : OwnerAddr) (x : XctId.t) (s s' : State) :
  load_owner_id env a s = Some (x, s') -> reads_only s s'.
Proof.
  destruct a as [p index|p index]; unfold load_owner_id, bind.
  - destruct (load_slot env p index s) as [[slot s1]|] eqn:Hslot; [|discriminate].
    unfold ret. intros [= <- <-]. exact (load_slot_reads_only _ _ _ _ _ Hslot).
  - destruct (load_record env p index s) as [[r s1]|] eqn:Hr; [|discriminate].
    unfold ret. intros [= <- <-]. exact (load_record_reads_only _ _ _ _ _ Hr).
Qed.

(** A run of the read protocol whose handler only reads: the pool and the
    log buffer are as before, and the transaction is as before but for one
    new read-set entry when the code is OK. *)
Lemma optimistic_read_protocol_frame {L : Type} (owner : OwnerAddr)
    (in_snapshot : bool) (handler : XctId.t -> L -> M (ErrorCode * L)) :
  (forall observed l s r s', handler observed l s = Some (r, s') -> reads_only s s') ->
  forall (fuel : nat) (l : L) (s : State) (e : ErrorCode) (l' : L) (s' : State),
    optimistic_read_protocol env fuel owner in_snapshot handler l s
    = Some ((e, l'), s') ->
    free_pages s' = free_pages s
    /\ thread_log_buffer s' = thread_log_buffer s
    /\ ((e = kErrorCodeOk
         /\ exists observed : XctId.t,
             XctId.is_keylocked observed = false
             /\ XctId.is_moved observed = false
             /\ current_xct s'
                = set_read_set (current_xct s)
                    (read_set_ (current_xct s) ++ [(owner, observed)]))
        \/ (e <> kErrorCodeOk /\ current_xct s' = current_xct s)).
Proof.
  intros Hhandler.
  induction fuel as [|fuel IH]; intros l s e l' s'; [discriminate|].
  cbn [optimistic_read_protocol]. unfold bind.
  destruct (load_owner_id env owner s) as [[observed s1]|] eqn:Hload; [|discriminate].
  destruct (load_owner_id_reads_only _ _ _ _ Hload) as (Hf1 & Hx1 & Hl1).
  destruct (XctId.is_keylocked observed) eqn:Hlocked.
  { intros Hrun. destruct (IH _ _ _ _ _ Hrun) as (Hf & Hl & Hx).
    rewrite Hx1, Hf1, Hl1 in *. auto. }
  destruct (XctId.is_moved observed) eqn:Hmoved.
  { unfold ret. intros [= <- <- <-]. split; [exact Hf1|]. split; [exact Hl1|].
    right. split; [discriminate|exact Hx1]. }
  destruct (handler observed l s1) as [[[e1 l1] s2]|] eqn:Hh; [|discriminate].
  destruct (Hhandler _ _ _ _ _ Hh) as (Hf2 & Hx2 & Hl2).
  destruct (decide (e1 = kErrorCodeOk)) as [->|Hne].
  - destruct (load_owner_id env owner s2) as [[again s3]|] eqn:Hload2; [|discriminate].
    destruct (load_owner_id_reads_only _ _ _ _ Hload2) as (Hf3 & Hx3 & Hl3).
    destruct (decide (again = observed)) as [_|_].
    + unfold add_to_read_set.
      destruct (max_read_set_size_ (current_xct s3) <=? length (read_set_ (current_xct s3)))%nat;
        unfold ret; intros [= <- <- <-]; simpl.
      * split; [congruence|]. split; [congruence|]. right.
        split; [discriminate|congruence].
      * split; [congruence|]. split; [congruence|]. left. split; [reflexivity|].
        exists observed. split; [exact Hlocked|]. split; [exact Hmoved|].
        rewrite Hx3, Hx2, Hx1. reflexivity.
    + intros Hrun. destruct (IH _ _ _ _ _ Hrun) as (Hf & Hl & Hx).
      rewrite Hx3, Hx2, Hx1, Hf3, Hf2, Hf1, Hl3, Hl2, Hl1 in *. auto.
  - unfold ret. intros [= <- <- <-].
    split; [congruence|]. split; [congruence|]. right. split; [exact Hne|congruence].
Qed.

(** The same, with what the handler's code says of the owner-id it was
    given: [C e observed] holds of every run of the handler, on an owner-id
    that is neither locked nor moved, that returns [e]. *)
Lemma optimistic_read_protocol_outcome {L : Type} (owner : OwnerAddr)
    (in_snapshot : bool) (handler : XctId.t -> L -> M (ErrorCode * L))
    (C : ErrorCode -> XctId.t -> Prop) :
  (forall observed l s e l' s',
      XctId.is_keylocked observed = false -> XctId.is_moved observed = false ->
      handler observed l s = Some ((e, l'), s') ->
      reads_only s s' /\ C e observed) ->
  forall (fuel : nat) (l : L) (s : State) (e : ErrorCode) (l' : L) (s' : State),
    optimistic_read_protocol env fuel owner in_snapshot handler l s
    = Some ((e, l'), s') ->
    free_pages s' = free_pages s
    /\ thread_log_buffer s' = thread_log_buffer s
    /\ ((e = kErrorCodeOk
         /\ exists observed : XctId.t,
             C kErrorCodeOk observed
             /\ current_xct s'
                = set_read_set (current_xct s)
                    (read_set_ (current_xct s) ++ [(owner, observed)]))
        \/ (e <> kErrorCodeOk
            /\ current_xct s' = current_xct s
            /\ (e = kErrorCodeStrMasstreeRetry
                \/ e = kErrorCodeXctReadSetOverflow
                \/ exists observed : XctId.t, C e observed))).
Proof.
  intros Hhandler.
  induction fuel as [|fuel IH]; intros l s e l' s'; [discriminate|].
  cbn [optimistic_read_protocol]. unfold bind.
  destruct (load_owner_id env owner s) as [[observed s1]|] eqn:Hload; [|discriminate].
  destruct (load_owner_id_reads_only _ _ _ _ Hload) as (Hf1 & Hx1 & Hl1).
  destruct (XctId.is_keylocked observed) eqn:Hlocked.
  { intros Hrun. destruct (IH _ _ _ _ _ Hrun) as (Hf & Hl & Hx).
    rewrite Hx1, Hf1, Hl1 in *. auto. }
  destruct (XctId.is_moved observed) eqn:Hmoved.
  { unfold ret. intros [= <- <- <-]. split; [exact Hf1|]. split; [exact Hl1|].
    right. split; [discriminate|]. split; [exact Hx1|]. left. reflexivity. }
  destruct (handler observed l s1) as [[[e1 l1] s2]|] eqn:Hh; [|discriminate].
  destruct (Hhandler _ _ _ _ _ _ Hlocked Hmoved Hh) as ((Hf2 & Hx2 & Hl2) & HC).
  destruct (decide (e1 = kErrorCodeOk)) as [->|Hne].
  - destruct (load_owner_id env owner s2) as [[again s3]|] eqn:Hload2; [|discriminate].
    destruct (load_owner_id_reads_only _ _ _ _ Hload2) as (Hf3 & Hx3 & Hl3).
    destruct (decide (again = observed)) as [_|_].
    + unfold add_to_read_set.
      destruct (max_read_set_size_ (current_xct s3) <=? length (read_set_ (current_xct s3)))%nat;
        unfold ret; intros [= <- <- <-]; simpl.
      * split; [congruence|]. split; [congruence|]. right.
        split; [discriminate|]. split; [congruence|]. right. left. reflexivity.
      * split; [congruence|]. split; [congruence|]. left. split; [reflexivity|].
        exists observed. split; [exact HC|].
        rewrite Hx3, Hx2, Hx1. reflexivity.
    + intros Hrun. destruct (IH _ _ _ _ _ Hrun) as (Hf & Hl & Hx).
      rewrite Hx3, Hx2, Hx1, Hf3, Hf2, Hf1, Hl3, Hl2, Hl1 in *. auto.
  - unfold ret. intros [= <- <- <-].
    split; [congruence|]. split; [congruence|]. right. split; [exact Hne|].
    split; [congruence|]. right. right. exists observed. exact HC.
Qed.

End Frame.

End FrameFacts.

(** * The record operations of an array storage *)

Module ArrayAccessProofs.

Import Memory XctImpl ArrayStoragePimpl.
Import ReadProtocolFacts FrameFacts.

Section Access.

Variable env : nat -> Shared -> Shared.
Variable metadata_id_ : Z.
Variable levels_ : Z.
Variable root_page_ : PageAddr.
Variable find_route : Z -> Z -> Z.

Lemma lookup_levels_returns (level : nat) (array_offset : Z) :
  forall (current_page : PageAddr) (s s' : State) (r : Res PageAddr),
    lookup_levels env find_route level array_offset current_page s = Some (r, s') ->
    reads_only s s'
    /\ (r = Err kErrorCodeNotimplemented \/ exists page, r = Ok page).
Proof.
  induction level as [|level IH]; intros current_page s s' r; simpl.
  - unfold ret. intros [= <- <-]. split; [apply reads_only_refl|].
    right. exists current_page. reflexivity.
  - unfold bind.
    destruct (load_array_page env current_page s) as [[[records|interior] s1]|]
      eqn:Hpage; [discriminate| |discriminate].
    pose proof (load_array_page_reads_only _ _ _ _ _ Hpage) as Hframe.
    destruct (interior !! _) as [pointer|]; [|discriminate].
    destruct (offset (volatile_pointer_ pointer) =? 0).
    + unfold ret. intros [= <- <-]. split; [exact Hframe|]. left. reflexivity.
    + intros Hrun. destruct (IH _ _ _ _ Hrun) as [Hframe' Hr].
      split; [exact (reads_only_trans _ _ _ Hframe Hframe')|exact Hr].
Qed.

(** [locate_record] adds nothing to the transaction and takes no page. *)
Lemma locate_record_frame
    (context : Thread) (offset : Z) (s s' : State) (r : Res (PageAddr * Z)) :
  locate_record env levels_ root_page_ find_route context offset s = Some (r, s') ->
  reads_only s s'
  /\ (r = Err kErrorCodeNotimplemented
      \/ exists page : PageAddr, r = Ok (page, find_route offset 0)).
Proof.
  unfold locate_record, lookup, bind.
  destruct (lookup_levels env find_route _ offset root_page_ s) as [[found s1]|]
    eqn:Hlevels; [|discriminate].
  destruct (lookup_levels_returns _ _ _ _ _ _ Hlevels) as [Hframe [->|[page ->]]];
    unfold ret; intros [= <- <-]; (split; [exact Hframe|]).
  - left. reflexivity.
  - right. exists page. reflexivity.
Qed.

(** With no other thread writing, [lookup_levels] follows the route. *)
Lemma lookup_levels_route (level : nat) (array_offset : Z) :
  (forall n sh, env n sh = sh) ->
  forall (current_page : PageAddr) (s s' : State) (r : Res PageAddr),
    lookup_levels env find_route level array_offset current_page s = Some (r, s') ->
    shared s' = shared s
    /\ match r with
       | Ok page =>
           reaches (array_pages (shared s)) find_route array_offset level
             current_page page
       | Err e =>
           e = kErrorCodeNotimplemented
           /\ forall page,
               ~ reaches (array_pages (shared s)) find_route array_offset level
                   current_page page
       end.
Proof.
  intros Hquiet.
  induction level as [|level IH]; intros current_page s s' r.
  - simpl. unfold ret. intros [= <- <-]. split; reflexivity.
  - cbn [lookup_levels]. unfold bind, load_array_page, bind, tick.
    cbn [shared]. rewrite Hquiet.
    destruct (array_pages (shared s) !! current_page) as [[records|interior]|]
      eqn:Hpage; [discriminate| |discriminate].
    destruct (interior !! Z.to_nat (find_route array_offset (Z.of_nat (S level))))
      as [pointer|] eqn:Hpointer; [|discriminate].
    destruct (offset (volatile_pointer_ pointer) =? 0) eqn:Hnull.
    + unfold ret. intros [= <- <-]. split; [reflexivity|].
      split; [reflexivity|].
      intros page (interior' & pointer' & Hpage' & Hpointer' & Hne & _).
      rewrite Hpage in Hpage'. injection Hpage' as <-.
      rewrite Hpointer in Hpointer'. injection Hpointer' as <-.
      apply Z.eqb_eq in Hnull. contradiction.
    + apply Z.eqb_neq in Hnull. intros Hrun.
      destruct (IH _ _ _ _ Hrun) as [Hshared Hr]. cbn [shared] in Hshared, Hr.
      split; [exact Hshared|].
      destruct r as [page|e].
      * exists interior, pointer. repeat split; assumption.
      * destruct Hr as [-> Hnone]. split; [reflexivity|].
        intros page (interior' & pointer' & Hpage' & Hpointer' & _ & Hreach).
        rewrite Hpage in Hpage'. injection Hpage' as <-.
        rewrite Hpointer in Hpointer'. injection Hpointer' as <-.
        exact (Hnone page Hreach).
Qed.

(** In a tree of [level] levels below [current_page] the route ends at a leaf
    page. *)
Lemma reaches_leaf (kInteriorFanout : Z) (pages : gmap PageAddr ArrayPage)
    (array_offset : Z) (level : nat) :
  forall (current_page page : PageAddr),
    well_formed kInteriorFanout level current_page pages ->
    (forall l : nat, (0 < l <= level)%nat ->
                     0 <= find_route array_offset (Z.of_nat l) < kInteriorFanout) ->
    reaches pages find_route array_offset level current_page page ->
    exists records, pages !! page = Some (ArrayLeaf records).
Proof.
  induction level as [|level IH]; intros current_page page Hwf Hroute Hreach.
  - simpl in Hreach. subst page. exact Hwf.
  - destruct Hwf as (interior & Hpage & _ & Hchildren).
    destruct Hreach as (interior' & pointer & Hpage' & Hpointer & Hne & Hreach).
    rewrite Hpage in Hpage'. injection Hpage' as <-.
    apply (IH (resolve_offset (volatile_pointer_ pointer)) page).
    + apply (Hchildren (Z.to_nat (find_route array_offset (Z.of_nat (S level))))
               pointer); [|exact Hpointer|exact Hne].
      specialize (Hroute (S level) ltac:(lia)). lia.
    + intros l Hl. apply Hroute. lia.
    + exact Hreach.
Qed.

(** X5: [locate_record] of an array only reads: whatever it returns, the
    transaction's sets, the log buffer and the page pool are as before.  It
    returns either the code for a page that is not in memory or a page with
    the index the route gives for level zero.  With no other thread writing,
    memory is unchanged and the page returned is the one the route leads to
    from the root, pointer by pointer; the error comes exactly when a pointer
    on the route is null; and in a tree of [levels_ - 1] levels below the root
    the page returned is a leaf page. *)
Theorem locate_record_only_reads
    (kInteriorFanout : Z) (context : Thread) (offset : Z) (s s' : State)
    (r : Res (PageAddr * Z)) :
  locate_record env levels_ root_page_ find_route context offset s = Some (r, s') ->
  reads_only s s'
  /\ (r = Err kErrorCodeNotimplemented
      \/ exists page : PageAddr, r = Ok (page, find_route offset 0))
  /\ ((forall n sh, env n sh = sh) ->
      let depth := Z.to_nat (to_uint8 (levels_ - 1)) in
      shared s' = shared s
      /\ (forall (page : PageAddr) (index : Z),
             r = Ok (page, index) ->
             index = find_route offset 0
             /\ reaches (array_pages (shared s)) find_route offset depth root_page_
                  page
             /\ (well_formed kInteriorFanout depth root_page_
                   (array_pages (shared s)) ->
                 (forall l : nat, (0 < l <= depth)%nat ->
                                  0 <= find_route offset (Z.of_nat l)
                                  < kInteriorFanout) ->
                 exists records,
                   array_pages (shared s) !! page = Some (ArrayLeaf records)))
      /\ (forall e : ErrorCode,
             r = Err e ->
             forall page,
               ~ reaches (array_pages (shared s)) find_route offset depth
                   root_page_ page)).
Proof.
  intros Hrun.
  destruct (locate_record_frame _ _ _ _ _ Hrun) as [Hframe Hr].
  split; [exact Hframe|]. split; [exact Hr|].
  intros Hquiet depth.
  unfold locate_record, lookup, bind in Hrun.
  destruct (lookup_levels env find_route _ offset root_page_ s) as [[found s1]|]
    eqn:Hlevels; [|discriminate].
  destruct (lookup_levels_route _ _ Hquiet _ _ _ _ Hlevels) as [Hshared Hfound].
  fold depth in Hfound.
  destruct found as [page|e]; unfold ret in Hrun; injection Hrun as <- <-.
  - split; [exact Hshared|]. split; [|discriminate].
    intros page' index [= <- <-]. split; [reflexivity|]. split; [exact Hfound|].
    intros Hwf Hroute.
    exact (reaches_leaf kInteriorFanout _ offset depth _ _ Hwf Hroute Hfound).
  - split; [exact Hshared|]. split; [discriminate|].
    intros e' _. exact (proj2 Hfound).
Qed.

(** X6: [overwrite_record] is a blind write.  It reads no record: the read
    set, the pointer set and the page pool are as before.  When
    [locate_record] returns a record, the log buffer grows by one overwrite
    record with the first [payload_count] bytes of the payload, and the write
    set by one entry, for the record [locate_record] returned; when the write
    set is full the code is the overflow code and the log record stays in the
    buffer; when [locate_record] returns an error, that is the code and
    nothing is staged. *)
Theorem overwrite_record_stages_one
    (context : Thread) (offset : Z) (payload : list byte)
    (payload_offset payload_count : Z) (s s' : State) (e : ErrorCode) :
  overwrite_record env metadata_id_ levels_ root_page_ find_route context offset
    payload payload_offset payload_count s = Some (e, s') ->
  exists (located : Res (PageAddr * Z)) (s0 : State),
    locate_record env levels_ root_page_ find_route context offset s
    = Some (located, s0)
    /\ free_pages s' = free_pages s
    /\ read_set_ (current_xct s') = read_set_ (current_xct s)
    /\ pointer_set_ (current_xct s') = pointer_set_ (current_xct s)
    /\ match located with
       | Err e0 =>
           e = e0
           /\ thread_log_buffer s' = thread_log_buffer s
           /\ write_set_ (current_xct s') = write_set_ (current_xct s)
       | Ok (page, index) =>
           thread_log_buffer s'
           = thread_log_buffer s
             ++ [ArrayOverwriteLog metadata_id_ offset
                   (take (Z.to_nat payload_count) payload) payload_offset
                   payload_count]
           /\ ((e = kErrorCodeOk
                /\ write_set_ (current_xct s')
                   = write_set_ (current_xct s)
                     ++ [(ArrayOwner page index,
                          ArrayOverwriteLog metadata_id_ offset
                            (take (Z.to_nat payload_count) payload) payload_offset
                            payload_count)])
               \/ (e = kErrorCodeXctWriteSetOverflow
                   /\ write_set_ (current_xct s') = write_set_ (current_xct s)
                   /\ (max_write_set_size_ (current_xct s)
                       <= length (write_set_ (current_xct s)))%nat))
       end.
Proof.
  unfold overwrite_record, bind.
  destruct (locate_record env levels_ root_page_ find_route context offset s)
    as [[located s0]|] eqn:Hlocate; [|discriminate].
  destruct (locate_record_frame _ _ _ _ _ Hlocate) as [(Hf & Hx & Hl) _].
  destruct located as [[page index]|e0].
  - unfold reserve_new_log, add_to_write_set. simpl.
    destruct (Nat.leb_spec (max_write_set_size_ (current_xct s0))
                (length (write_set_ (current_xct s0)))) as [Hfull|Hroom];
      intros [= <- <-]; exists (Ok (page, index)), s0; (split; [reflexivity|]);
      simpl; rewrite Hx, Hl.
    + split; [exact Hf|]. split; [reflexivity|]. split; [reflexivity|].
      split; [reflexivity|]. right.
      split; [reflexivity|]. split; [reflexivity|]. rewrite <- Hx. exact Hfull.
    + split; [exact Hf|]. split; [reflexivity|]. split; [reflexivity|].
      split; [reflexivity|]. left. split; reflexivity.
  - unfold ret. intros [= <- <-]. eexists _, _. split; [reflexivity|].
    rewrite Hx. split; [exact Hf|]. split; [reflexivity|]. split; [reflexivity|].
    split; [reflexivity|]. split; [exact Hl|reflexivity].
Qed.

Context {T : Type} `{PayloadType T}.

(** X7: [increment_record] is [get_record_primitive] followed by
    [overwrite_record_primitive] of the sum, as its comment says: when the
    read returns [old] and the record is located again at the same place, the
    increment returns the code of that overwrite, leaves the sum in [*value],
    and leaves the transaction, the log buffer and the pool as the two calls
    leave them. *)
Theorem increment_record_is_get_then_overwrite
    (fuel : nat) (context : Thread) (offset : Z) (value old : T) (payload_offset : Z)
    (s s0 s1 s1' : State) (record : PageAddr * Z) :
  locate_record env levels_ root_page_ find_route context offset s
  = Some (Ok record, s0) ->
  read_record_primitive env fuel record payload_offset s0
  = Some ((kErrorCodeOk, Some old), s1) ->
  locate_record env levels_ root_page_ find_route context offset s1
  = Some (Ok record, s1') ->
  get_record_primitive env levels_ root_page_ find_route fuel context offset
    payload_offset s = Some ((kErrorCodeOk, Some old), s1)
  /\ exists (e : ErrorCode) (s2 s2' : State),
      increment_record env metadata_id_ levels_ root_page_ find_route fuel context
        offset value payload_offset s = Some ((e, plus value old), s2)
      /\ overwrite_record_primitive env metadata_id_ levels_ root_page_ find_route
           context offset (plus value old) payload_offset s1 = Some (e, s2')
      /\ current_xct s2' = current_xct s2
      /\ thread_log_buffer s2' = thread_log_buffer s2
      /\ free_pages s2' = free_pages s2.
Proof.
  intros Hlocate Hread Hagain.
  destruct (locate_record_frame _ _ _ _ _ Hagain) as [(Hf & Hx & Hl) _].
  split.
  { unfold get_record_primitive, bind. rewrite Hlocate. exact Hread. }
  unfold increment_record, overwrite_record_primitive, bind.
  rewrite Hlocate, Hread, Hagain.
  destruct (decide (kErrorCodeOk = kErrorCodeOk)) as [_|Hne]; [|contradiction].
  unfold reserve_new_log, add_to_write_set. simpl. rewrite Hx.
  destruct (max_write_set_size_ (current_xct s1)
            <=? length (write_set_ (current_xct s1)))%nat;
    eexists _, _, _; (split; [reflexivity|]); (split; [reflexivity|]);
    simpl; rewrite ?Hx, ?Hl, ?Hf; repeat split.
Qed.

End Access.

Section Reads.

Variable env : nat -> Shared -> Shared.
Variable levels_ : Z.
Variable root_page_ : PageAddr.
Variable find_route : Z -> Z -> Z.

(** X8: [get_record] of an array stages nothing: the log buffer, the write
    set, the pointer set and the pool are as before.  With the code OK the
    read set has one more entry, for the record [locate_record] returned, with
    an owner-id that is neither locked nor moved; with another code the read
    set is as before; and an error of [locate_record] is the code returned. *)
Theorem get_record_stages_nothing
    (fuel : nat) (context : Thread) (offset : Z) (payload : list byte)
    (payload_offset payload_count : Z) (s s' : State) (e : ErrorCode)
    (out : list byte) :
  get_record env levels_ root_page_ find_route fuel context offset payload
    payload_offset payload_count s = Some ((e, out), s') ->
  exists (located : Res (PageAddr * Z)) (s0 : State),
    locate_record env levels_ root_page_ find_route context offset s
    = Some (located, s0)
    /\ free_pages s' = free_pages s
    /\ thread_log_buffer s' = thread_log_buffer s
    /\ write_set_ (current_xct s') = write_set_ (current_xct s)
    /\ pointer_set_ (current_xct s') = pointer_set_ (current_xct s)
    /\ match located with
       | Err e0 => e = e0 /\ read_set_ (current_xct s') = read_set_ (current_xct s)
       | Ok (page, index) =>
           (e = kErrorCodeOk
            /\ exists observed : XctId.t,
                XctId.is_keylocked observed = false
                /\ XctId.is_moved observed = false
                /\ read_set_ (current_xct s')
                   = read_set_ (current_xct s) ++ [(ArrayOwner page index, observed)])
           \/ (e <> kErrorCodeOk
               /\ read_set_ (current_xct s') = read_set_ (current_xct s))
       end.
Proof.
  unfold get_record, bind.
  destruct (locate_record env levels_ root_page_ find_route context offset s)
    as [[located s0]|] eqn:Hlocate; [|discriminate].
  destruct (locate_record_frame _ _ _ _ _ _ _ _ _ Hlocate) as [(Hf & Hx & Hl) _].
  destruct located as [[page index]|e0].
  - unfold read_record. intros Hrun.
    simpl in Hrun.
    pose proof (fun Hhandler =>
                  optimistic_read_protocol_frame env _ _ _ Hhandler
                    _ _ _ _ _ _ Hrun) as Hframe.
    destruct Hframe
      as (Hf' & Hl' & [(-> & observed & Hlocked & Hmoved & Hx')|(Hne & Hx')]).
    { intros observed l st r st'. unfold bind.
      destruct (load_record env page index st) as [[rec st1]|] eqn:Hr;
        [|discriminate].
      unfold ret. intros [= <- <-]. exact (load_record_reads_only _ _ _ _ _ _ Hr). }
    all: exists (Ok (page, index)), s0; (split; [reflexivity|]);
      rewrite Hx'; simpl; rewrite Hx.
    + split; [congruence|]. split; [congruence|]. split; [reflexivity|].
      split; [reflexivity|]. left. split; [reflexivity|].
      exists observed. repeat split; assumption.
    + split; [congruence|]. split; [congruence|]. split; [reflexivity|].
      split; [reflexivity|]. right. split; [exact Hne|reflexivity].
  - unfold ret. intros [= <- <- <-]. eexists _, _. split; [reflexivity|].
    rewrite Hx. split; [exact Hf|]. split; [exact Hl|]. split; [reflexivity|].
    split; [reflexivity|]. split; reflexivity.
Qed.

End Reads.

(** The record at offset 1 of the two-level array: the route leads from the
    interior root to the leaf page. *)
Lemma locate_record_only_reads_witness :
  reaches (array_pages (shared Scenario.array_tree_state)) Scenario.array_tree_route
    1 1 Scenario.array_interior Scenario.array_root
  /\ exists records,
      array_pages (shared Scenario.array_tree_state) !! Scenario.array_root
      = Some (ArrayLeaf records).
Proof.
  pose proof (proj2 (proj2 (locate_record_only_reads Scenario.quiet 2
                              Scenario.array_interior Scenario.array_tree_route 2
                              Scenario.context 1 Scenario.array_tree_state
                              (exec (locate_record Scenario.quiet 2
                                       Scenario.array_interior
                                       Scenario.array_tree_route Scenario.context 1)
                                 Scenario.array_tree_state)
                              (Ok (Scenario.array_root, 1))
                              ltac:(vm_compute; reflexivity)))
                (fun n sh => eq_refl)) as Hroute.
  cbv zeta in Hroute. destruct Hroute as (_ & Hok & _).
  destruct (Hok Scenario.array_root 1 eq_refl) as (_ & Hreach & Hleaf).
  split; [exact Hreach|]. apply Hleaf.
  - eexists. split; [vm_compute; reflexivity|]. split; [simpl; lia|].
    intros j pointer Hj Hpointer Hoff.
    destruct j as [|[|j]]; [| |simpl in Hj; lia].
    + injection Hpointer as <-. eexists. vm_compute. reflexivity.
    + injection Hpointer as <-. now destruct Hoff.
  - intros l Hl. change (Z.to_nat (to_uint8 (2 - 1))) with 1%nat in Hl.
    assert (l = 1%nat) as -> by lia.
    vm_compute. split; [discriminate|reflexivity].
Defined.

(** An overwrite of the record at offset 1 of the two-level array: the
    write-set entry is for index 1 of the leaf page. *)
Lemma overwrite_record_stages_one_witness :
  write_set_ (current_xct
                (exec (overwrite_record Scenario.quiet Scenario.metadata_id_ 2
                         Scenario.array_interior Scenario.array_tree_route
                         Scenario.context 1 (le_bytes 8 5) 0 8)
                   Scenario.array_tree_state))
  = [(ArrayOwner Scenario.array_root 1,
      ArrayOverwriteLog Scenario.metadata_id_ 1 (le_bytes 8 5) 0 8)].
Proof.
  destruct (overwrite_record_stages_one Scenario.quiet Scenario.metadata_id_ 2
              Scenario.array_interior Scenario.array_tree_route Scenario.context 1
              (le_bytes 8 5) 0 8 Scenario.array_tree_state _ kErrorCodeOk
              ltac:(vm_compute; reflexivity))
    as (located & s0 & Hlocate & _ & _ & _ & Hstaged).
  assert (Hrecord : locate_record Scenario.quiet 2 Scenario.array_interior
                      Scenario.array_tree_route Scenario.context 1
                      Scenario.array_tree_state
                    = Some (Ok (Scenario.array_root, 1),
                            exec (locate_record Scenario.quiet 2
                                    Scenario.array_interior
                                    Scenario.array_tree_route Scenario.context 1)
                              Scenario.array_tree_state))
    by (vm_compute; reflexivity).
  rewrite Hrecord in Hlocate. injection Hlocate as <- <-.
  destruct Hstaged as [_ [[_ Hset]|[Hcode _]]]; [exact Hset|discriminate].
Defined.

Lemma increment_record_is_get_then_overwrite_witness :
  get_record_primitive (H := uint_payload 8) Scenario.quiet 2
    Scenario.array_interior Scenario.array_tree_route 1 Scenario.context 1 0
    Scenario.array_tree_state
  = Some ((kErrorCodeOk, Some 42),
          exec (get_record_primitive (H := uint_payload 8) Scenario.quiet 2
                  Scenario.array_interior Scenario.array_tree_route 1
                  Scenario.context 1 0) Scenario.array_tree_state).
Proof.
  pose (s := Scenario.array_tree_state).
  pose (locate := locate_record Scenario.quiet 2 Scenario.array_interior
                    Scenario.array_tree_route Scenario.context 1).
  pose (s0 := exec locate s).
  pose (s1 := exec (read_record_primitive (H := uint_payload 8) Scenario.quiet 1
                      (Scenario.array_root, 1) 0) s0).
  exact (proj1 (increment_record_is_get_then_overwrite (H := uint_payload 8)
                  Scenario.quiet Scenario.metadata_id_ 2 Scenario.array_interior
                  Scenario.array_tree_route 1 Scenario.context 1 100 42 0
                  s s0 s1 (exec locate s1) (Scenario.array_root, 1)
                  ltac:(vm_compute; reflexivity) ltac:(vm_compute; reflexivity)
                  ltac:(vm_compute; reflexivity))).
Defined.

(** A read of the record at offset 1 of the two-level array: the read-set
    entry is for index 1 of the leaf page. *)
Lemma get_record_stages_nothing_witness :
  exists observed : XctId.t,
    read_set_ (current_xct
                 (exec (get_record Scenario.quiet 2 Scenario.array_interior
                          Scenario.array_tree_route 1 Scenario.context 1
                          (replicate 8 x00) 0 8)
                    Scenario.array_tree_state))
    = [(ArrayOwner Scenario.array_root 1, observed)].
Proof.
  destruct (get_record_stages_nothing Scenario.quiet 2
              Scenario.array_interior Scenario.array_tree_route 1
              Scenario.context 1 (replicate 8 x00) 0 8
              Scenario.array_tree_state _ kErrorCodeOk (le_bytes 8 42)
              ltac:(vm_compute; reflexivity))
    as (located & s0 & Hlocate & _ & _ & _ & _ & Hread).
  assert (Hrecord : locate_record Scenario.quiet 2 Scenario.array_interior
                      Scenario.array_tree_route Scenario.context 1
                      Scenario.array_tree_state
                    = Some (Ok (Scenario.array_root, 1),
                            exec (locate_record Scenario.quiet 2
                                    Scenario.array_interior
                                    Scenario.array_tree_route Scenario.context 1)
                              Scenario.array_tree_state))
    by (vm_compute; reflexivity).
  rewrite Hrecord in Hlocate. injection Hlocate as <- <-.
  destruct Hread as [(_ & observed & _ & _ & Hset)|[Hcode _]];
    [exists observed; exact Hset|now destruct Hcode].
Defined.

End ArrayAccessProofs.

(** * Overwriting, deleting and reading part of a Masstree record *)

Module MasstreeAccessProofs.

Import PageVersion MasstreePageImpl Memory XctImpl MasstreeStoragePimpl.
Import MemoryFacts ReadProtocolFacts FrameFacts.

Section Access.

Variable env : nat -> Shared -> Shared.
Variable metadata_id_ : Z.

(** What a run of the handler of [overwrite_general] says of the owner-id it
    was given. *)
Lemma overwrite_general_handler_code (border : PageAddr) (index : Z)
    (payload_offset payload_count : Z) (observed : XctId.t) (u u' : unit)
    (s s' : State) (e : ErrorCode) :
  overwrite_general_handler env border index payload_offset payload_count observed u s
  = Some ((e, u'), s') ->
  reads_only s s'
  /\ ((e = kErrorCodeOk /\ XctId.is_deleted observed = false)
      \/ e = kErrorCodeStrMasstreeRetry
      \/ (e = kErrorCodeStrKeyNotFound /\ XctId.is_deleted observed = true)
      \/ (e = kErrorCodeStrTooShortPayload /\ XctId.is_deleted observed = false)).
Proof.
  unfold overwrite_general_handler, bind.
  destruct (load_slot env border index s) as [[slot1 s1]|] eqn:H1; [|discriminate].
  pose proof (load_slot_reads_only _ _ _ _ _ _ H1) as Hf1.
  destruct (does_point_to_layer slot1).
  { unfold ret. intros [= <- <- <-]. split; [exact Hf1|]. right. left. reflexivity. }
  destruct (XctId.is_deleted observed).
  { unfold ret. intros [= <- <- <-]. split; [exact Hf1|]. right. right. left.
    split; reflexivity. }
  destruct (load_slot env border index s1) as [[slot2 s2]|] eqn:H2; [|discriminate].
  pose proof (load_slot_reads_only _ _ _ _ _ _ H2) as Hf2.
  destruct (payload_length_ slot2 <? payload_offset + payload_count);
    unfold ret; intros [= <- <- <-];
    (split; [exact (reads_only_trans _ _ _ Hf1 Hf2)|]).
  - right. right. right. split; reflexivity.
  - left. split; reflexivity.
Qed.

(** X9: [overwrite_general] stages only after the read succeeded on a record
    that is not deleted.  With the code OK or the code of a full write set the
    read set has the owner-id observed, not deleted, and the log buffer one
    overwrite record with the first [payload_count] bytes of the payload; the
    write set has its entry with the code OK only.  With the retry, not-found,
    too-short-payload or read-set-overflow code the log buffer and the
    transaction are as before.  The pool is never touched. *)
Theorem overwrite_general_stages_live_record
    (fuel : nat) (context : Thread) (border : PageAddr) (index : Z)
    (be_key : list byte) (key_length : Z) (payload : list byte)
    (payload_offset payload_count : Z) (s s' : State) (e : ErrorCode) :
  overwrite_general env metadata_id_ fuel context border index be_key key_length
    payload payload_offset payload_count s = Some (e, s') ->
  free_pages s' = free_pages s
  /\ pointer_set_ (current_xct s') = pointer_set_ (current_xct s)
  /\ (((e = kErrorCodeOk \/ e = kErrorCodeXctWriteSetOverflow)
       /\ exists (observed : XctId.t) (layer : Z),
           XctId.is_deleted observed = false
           /\ read_set_ (current_xct s')
              = read_set_ (current_xct s) ++ [(BorderOwner border index, observed)]
           /\ thread_log_buffer s'
              = thread_log_buffer s
                ++ [MasstreeOverwriteLog metadata_id_ be_key key_length
                      (take (Z.to_nat payload_count) payload) payload_offset
                      payload_count layer]
           /\ (e = kErrorCodeOk ->
               write_set_ (current_xct s')
               = write_set_ (current_xct s)
                 ++ [(BorderOwner border index,
                      MasstreeOverwriteLog metadata_id_ be_key key_length
                        (take (Z.to_nat payload_count) payload) payload_offset
                        payload_count layer)])
           /\ (e = kErrorCodeXctWriteSetOverflow ->
               write_set_ (current_xct s') = write_set_ (current_xct s)))
      \/ ((e = kErrorCodeStrMasstreeRetry \/ e = kErrorCodeStrKeyNotFound
           \/ e = kErrorCodeStrTooShortPayload \/ e = kErrorCodeXctReadSetOverflow)
          /\ thread_log_buffer s' = thread_log_buffer s
          /\ current_xct s' = current_xct s)).
Proof.
  unfold overwrite_general, bind.
  destruct (optimistic_read_protocol env fuel (BorderOwner border index) false _ tt s)
    as [[[e1 u] s1]|] eqn:Hread; [|discriminate].
  pose proof (fun Hhandler =>
                optimistic_read_protocol_outcome env _ _ _
                  (fun e observed =>
                     (e = kErrorCodeOk /\ XctId.is_deleted observed = false)
                     \/ e = kErrorCodeStrMasstreeRetry
                     \/ (e = kErrorCodeStrKeyNotFound
                         /\ XctId.is_deleted observed = true)
                     \/ (e = kErrorCodeStrTooShortPayload
                         /\ XctId.is_deleted observed = false))
                  Hhandler _ _ _ _ _ _ Hread) as Hout.
  destruct Hout as (Hf & Hl & Hx).
  { intros observed l st e0 l' st' _ _ Hh.
    exact (overwrite_general_handler_code _ _ _ _ _ _ _ _ _ _ Hh). }
  destruct Hx as [(-> & observed & HC & Hx)|(Hne & Hx & Hcode)].
  - destruct (decide (kErrorCodeOk = kErrorCodeOk)) as [_|Hne]; [|contradiction].
    destruct (load_page env border s1) as [[border_page s2]|] eqn:Hpage; [|discriminate].
    destruct (load_page_reads_only _ _ _ _ _ Hpage) as (Hf2 & Hx2 & Hl2).
    assert (Hlive : XctId.is_deleted observed = false).
    { destruct HC as [[_ H]|[H|[[H _]|[H _]]]]; [exact H|discriminate..]. }
    unfold reserve_new_log, add_to_write_set. simpl. rewrite Hx2, Hx. simpl.
    destruct (max_write_set_size_ (current_xct s)
              <=? length (write_set_ (current_xct s)))%nat;
      intros [= <- <-]; simpl; rewrite ?Hx2, ?Hx, ?Hl2, ?Hl, ?Hf2, ?Hf; simpl.
    + split; [reflexivity|]. split; [reflexivity|]. left.
      split; [right; reflexivity|]. exists observed, (layer_ border_page).
      split; [exact Hlive|]. split; [reflexivity|]. split; [reflexivity|].
      split; [discriminate|reflexivity].
    + split; [reflexivity|]. split; [reflexivity|]. left.
      split; [left; reflexivity|]. exists observed, (layer_ border_page).
      split; [exact Hlive|]. split; [reflexivity|]. split; [reflexivity|].
      split; [reflexivity|discriminate].
  - destruct (decide (e1 = kErrorCodeOk)) as [E|_]; [contradiction|].
    unfold ret. intros [= <- <-]. rewrite Hx.
    split; [exact Hf|]. split; [reflexivity|]. right.
    split; [|split; [exact Hl|reflexivity]].
    destruct Hcode as [->|[->|(observed & [[E _]|[->|[[-> _]|[-> _]]]])]]; auto.
    contradiction.
Qed.

Variable MasstreeDeleteLog : Z -> list byte -> Z -> Z -> LogRecord.

(** X10: [delete_general] stages a delete only of a record it observed not
    deleted: with the code OK or the code of a full write set the read set
    has the owner-id observed, not deleted, and the log buffer one delete
    record; with the retry code, the not-found code of a record that is
    already deleted, or the read-set-overflow code, the log buffer and the
    transaction are as before. *)
Theorem delete_general_stages_live_record
    (fuel : nat) (context : Thread) (border : PageAddr) (index : Z)
    (be_key : list byte) (key_length : Z) (s s' : State) (e : ErrorCode) :
  delete_general env metadata_id_ MasstreeDeleteLog fuel context border index be_key
    key_length s = Some (e, s') ->
  free_pages s' = free_pages s
  /\ pointer_set_ (current_xct s') = pointer_set_ (current_xct s)
  /\ (((e = kErrorCodeOk \/ e = kErrorCodeXctWriteSetOverflow)
       /\ exists (observed : XctId.t) (layer : Z),
           XctId.is_deleted observed = false
           /\ read_set_ (current_xct s')
              = read_set_ (current_xct s) ++ [(BorderOwner border index, observed)]
           /\ thread_log_buffer s'
              = thread_log_buffer s
                ++ [MasstreeDeleteLog metadata_id_ be_key key_length layer]
           /\ (e = kErrorCodeOk ->
               write_set_ (current_xct s')
               = write_set_ (current_xct s)
                 ++ [(BorderOwner border index,
                      MasstreeDeleteLog metadata_id_ be_key key_length layer)])
           /\ (e = kErrorCodeXctWriteSetOverflow ->
               write_set_ (current_xct s') = write_set_ (current_xct s)))
      \/ ((e = kErrorCodeStrMasstreeRetry \/ e = kErrorCodeStrKeyNotFound
           \/ e = kErrorCodeXctReadSetOverflow)
          /\ thread_log_buffer s' = thread_log_buffer s
          /\ current_xct s' = current_xct s)).
Proof.
  unfold delete_general, bind.
  destruct (optimistic_read_protocol env fuel (BorderOwner border index) false _ tt s)
    as [[[e1 u] s1]|] eqn:Hread; [|discriminate].
  pose proof (fun Hhandler =>
                optimistic_read_protocol_outcome env _ _ _
                  (fun e observed =>
                     (e = kErrorCodeOk /\ XctId.is_deleted observed = false)
                     \/ e = kErrorCodeStrMasstreeRetry
                     \/ e = kErrorCodeStrKeyNotFound)
                  Hhandler _ _ _ _ _ _ Hread) as Hout.
  destruct Hout as (Hf & Hl & Hx).
  { intros observed l st e0 l' st' _ _. unfold delete_general_handler, bind.
    destruct (load_slot env border index st) as [[slot1 st1]|] eqn:H1; [|discriminate].
    pose proof (load_slot_reads_only _ _ _ _ _ _ H1) as Hf1.
    destruct (does_point_to_layer slot1);
      [unfold ret; intros [= <- <- <-]; split; [exact Hf1|right; left; reflexivity]|].
    destruct (XctId.is_deleted observed); unfold ret; intros [= <- <- <-];
      (split; [exact Hf1|]).
    - right. right. reflexivity.
    - left. split; reflexivity. }
  destruct Hx as [(-> & observed & HC & Hx)|(Hne & Hx & Hcode)].
  - destruct (decide (kErrorCodeOk = kErrorCodeOk)) as [_|Hne]; [|contradiction].
    destruct (load_page env border s1) as [[border_page s2]|] eqn:Hpage; [|discriminate].
    destruct (load_page_reads_only _ _ _ _ _ Hpage) as (Hf2 & Hx2 & Hl2).
    assert (Hlive : XctId.is_deleted observed = false).
    { destruct HC as [[_ H]|[H|H]]; [exact H|discriminate..]. }
    unfold reserve_new_log, add_to_write_set. simpl. rewrite Hx2, Hx. simpl.
    destruct (max_write_set_size_ (current_xct s)
              <=? length (write_set_ (current_xct s)))%nat;
      intros [= <- <-]; simpl; rewrite ?Hx2, ?Hx, ?Hl2, ?Hl, ?Hf2, ?Hf; simpl.
    + split; [reflexivity|]. split; [reflexivity|]. left.
      split; [right; reflexivity|]. exists observed, (layer_ border_page).
      split; [exact Hlive|]. split; [reflexivity|]. split; [reflexivity|].
      split; [discriminate|reflexivity].
    + split; [reflexivity|]. split; [reflexivity|]. left.
      split; [left; reflexivity|]. exists observed, (layer_ border_page).
      split; [exact Hlive|]. split; [reflexivity|]. split; [reflexivity|].
      split; [reflexivity|discriminate].
  - destruct (decide (e1 = kErrorCodeOk)) as [E|_]; [contradiction|].
    unfold ret. intros [= <- <-]. rewrite Hx.
    split; [exact Hf|]. split; [reflexivity|]. right.
    split; [|split; [exact Hl|reflexivity]].
    destruct Hcode as [->|[->|(observed & [[E _]|[->| ->]])]]; auto.
    contradiction.
Qed.

(** X11: [retrieve_part_general] on a live record of a page the other
    threads leave alone.  When the slot's payload length is less than
    [payload_offset + payload_count] the code is the too-short code and the
    buffer is untouched; otherwise the first
    [payload_count] bytes of the buffer become the payload's bytes from
    [payload_offset] on, and the code is OK unless the read set is full. *)
Theorem retrieve_part_general_copies_range
    (fuel : nat) (context : Thread) (border : PageAddr) (index : Z)
    (payload : list byte) (payload_offset payload_count : Z) (s : State)
    (pg : MasstreePage) (slot : BorderSlot) :
  (forall n sh, masstree_pages (env n sh) !! border = masstree_pages sh !! border) ->
  masstree_pages (shared s) !! border = Some pg ->
  get_slot pg index = Some slot ->
  does_point_to_layer slot = false ->
  XctId.is_keylocked (owner_id_ slot) = false ->
  XctId.is_moved (owner_id_ slot) = false ->
  XctId.is_deleted (owner_id_ slot) = false ->
  0 <= payload_offset ->
  (0 < fuel)%nat ->
  exists (e : ErrorCode) (out : list byte) (s' : State),
    retrieve_part_general env fuel context border index payload payload_offset
      payload_count s = Some ((e, out), s')
    /\ if payload_length_ slot <? payload_offset + payload_count
       then e = kErrorCodeStrTooShortPayload /\ out = payload
       else out = take (Z.to_nat payload_count)
                    (drop (Z.to_nat payload_offset) (payload_ slot))
                  ++ drop (Z.to_nat payload_count) payload
            /\ (e = kErrorCodeOk \/ e = kErrorCodeXctReadSetOverflow)
            /\ ((length (read_set_ (current_xct s))
                 < max_read_set_size_ (current_xct s))%nat ->
                e = kErrorCodeOk).
Proof.
  intros Hquiet Hpg Hslot Hlayer Hlocked Hmoved Hdeleted Hoffset Hfuel.
  destruct fuel as [|fuel]; [lia|].
  unfold retrieve_part_general, bind.
  rewrite (RetrieveProofs.load_page_quiet_page env border Hquiet pg s Hpg).
  set (s0 := exec (tick env) s).
  assert (Hpg0 : masstree_pages (shared s0) !! border = Some pg)
    by (apply RetrieveProofs.tick_quiet_page; assumption).
  simpl optimistic_read_protocol. unfold bind.
  rewrite (RetrieveProofs.load_slot_quiet_page env border Hquiet pg index slot s0
             Hpg0 Hslot).
  set (s1 := exec (tick env) s0).
  assert (Hpg1 : masstree_pages (shared s1) !! border = Some pg)
    by (apply RetrieveProofs.tick_quiet_page; assumption).
  unfold ret at 1. rewrite Hlocked, Hmoved.
  unfold retrieve_part_general_handler, bind.
  rewrite (RetrieveProofs.load_slot_quiet_page env border Hquiet pg index slot s1
             Hpg1 Hslot).
  set (s2 := exec (tick env) s1).
  assert (Hpg2 : masstree_pages (shared s2) !! border = Some pg)
    by (apply RetrieveProofs.tick_quiet_page; assumption).
  rewrite Hlayer, Hdeleted.
  rewrite (RetrieveProofs.load_slot_quiet_page env border Hquiet pg index slot s2
             Hpg2 Hslot).
  set (s3 := exec (tick env) s2).
  assert (Hpg3 : masstree_pages (shared s3) !! border = Some pg)
    by (apply RetrieveProofs.tick_quiet_page; assumption).
  destruct (payload_length_ slot <? payload_offset + payload_count) eqn:Hcmp.
  { unfold ret. simpl. eexists _, _, _. split; [reflexivity|]. split; reflexivity. }
  rewrite (RetrieveProofs.load_slot_quiet_page env border Hquiet pg index slot s3
             Hpg3 Hslot).
  set (s4 := exec (tick env) s3).
  assert (Hpg4 : masstree_pages (shared s4) !! border = Some pg)
    by (apply RetrieveProofs.tick_quiet_page; assumption).
  rewrite (RetrieveProofs.load_slot_quiet_page env border Hquiet pg index slot s4
             Hpg4 Hslot).
  set (s5 := exec (tick env) s4).
  assert (Hpg5 : masstree_pages (shared s5) !! border = Some pg)
    by (apply RetrieveProofs.tick_quiet_page; assumption).
  unfold ret at 1. cbv beta iota.
  destruct (decide (kErrorCodeOk = kErrorCodeOk)) as [_|Hne]; [|contradiction].
  simpl load_owner_id. unfold bind.
  rewrite (RetrieveProofs.load_slot_quiet_page env border Hquiet pg index slot s5
             Hpg5 Hslot).
  set (s6 := exec (tick env) s5).
  unfold ret at 1. cbv beta iota.
  destruct (decide (owner_id_ slot = owner_id_ slot)) as [_|Hne]; [|contradiction].
  destruct (add_to_read_set_returns (BorderOwner border index) (owner_id_ slot) s6)
    as (e2 & s7 & Hadd).
  rewrite Hadd. unfold ret. eexists _, _, _. split; [reflexivity|].
  split.
  { unfold memcpy, MasstreePageImpl.get_record, get_suffix_length.
    rewrite Z2Nat.inj_add, Nat2Z.id by lia.
    rewrite drop_app_add. reflexivity. }
  unfold add_to_read_set in Hadd.
  change (current_xct s6) with (current_xct s) in Hadd.
  destruct (Nat.leb_spec (max_read_set_size_ (current_xct s))
              (length (read_set_ (current_xct s)))) as [Hfull|Hroom];
    injection Hadd as <- <-.
  - split; [right; reflexivity|]. intros Hlt. lia.
  - split; [left; reflexivity|]. intros _. reflexivity.
Qed.

End Access.

(** An overwrite of the whole payload of the live record, a delete of the
    deleted record, and a read of its last four bytes. *)
Lemma overwrite_general_stages_live_record_witness :
  free_pages
    (exec (overwrite_general Scenario.quiet Scenario.metadata_id_ 1 Scenario.context
             Scenario.root 0 (replicate 12 x00) 12 (le_bytes 8 7) 0 8)
       (Scenario.tree_with_record Scenario.live_owner))
  = free_pages (Scenario.tree_with_record Scenario.live_owner).
Proof.
  exact (proj1 (overwrite_general_stages_live_record Scenario.quiet
                  Scenario.metadata_id_ 1 Scenario.context Scenario.root 0
                  (replicate 12 x00) 12 (le_bytes 8 7) 0 8
                  (Scenario.tree_with_record Scenario.live_owner) _ kErrorCodeOk
                  ltac:(vm_compute; reflexivity))).
Defined.

Lemma delete_general_stages_live_record_witness :
  free_pages
    (exec (delete_general Scenario.quiet Scenario.metadata_id_
             (fun id key len layer => MasstreeOverwriteLog id key len [] 0 0 layer)
             1 Scenario.context Scenario.root 0 (replicate 12 x00) 12)
       (Scenario.tree_with_record Scenario.last_ordinal_owner))
  = free_pages (Scenario.tree_with_record Scenario.last_ordinal_owner).
Proof.
  exact (proj1 (delete_general_stages_live_record Scenario.quiet
                  Scenario.metadata_id_
                  (fun id key len layer => MasstreeOverwriteLog id key len [] 0 0 layer)
                  1 Scenario.context Scenario.root 0 (replicate 12 x00) 12
                  (Scenario.tree_with_record Scenario.last_ordinal_owner) _
                  kErrorCodeStrKeyNotFound ltac:(vm_compute; reflexivity))).
Defined.

Lemma retrieve_part_general_copies_range_witness :
  exists (e : ErrorCode) (out : list byte) (s' : State),
    retrieve_part_general Scenario.quiet 1 Scenario.context Scenario.root 0
      (replicate 6 xff) 4 4 (Scenario.tree_with_record Scenario.live_owner)
    = Some ((e, out), s')
    /\ out = [x00; x00; x00; x00; xff; xff].
Proof.
  destruct (retrieve_part_general_copies_range Scenario.quiet 1 Scenario.context
              Scenario.root 0 (replicate 6 xff) 4 4
              (Scenario.tree_with_record Scenario.live_owner)
              (Scenario.page_at (Scenario.tree_with_record Scenario.live_owner)
                 Scenario.root)
              (Scenario.a_record Scenario.live_owner))
    as (e & out & s' & Hrun & Hout).
  - intros n sh. reflexivity.
  - vm_compute. reflexivity.
  - vm_compute. reflexivity.
  - reflexivity.
  - reflexivity.
  - reflexivity.
  - reflexivity.
  - lia.
  - lia.
  - exists e, out, s'. split; [exact Hrun|].
    change (payload_length_ (Scenario.a_record Scenario.live_owner) <? 4 + 4)
      with false in Hout.
    destruct Hout as [-> _]. vm_compute. reflexivity.
Defined.

End MasstreeAccessProofs.

(** * The root of a Masstree: finding it, growing it, creating it *)

Module RootProofs.

Import PageVersion MasstreePageImpl Memory XctImpl MasstreeStoragePimpl.
Import PageVersionFacts MemoryFacts ReadProtocolFacts FrameFacts.

(** Splits the equation of a run into the runs of its parts. *)
Ltac split_run H :=
  repeat first
    [ discriminate H
    | match type of H with
      | match ?m with Some _ => _ | None => _ end = Some _ =>
          let E := fresh "E" in
          first [ destruct m as [[? ?]|] eqn:E | destruct m eqn:E ]
      | (match ?m with Some _ => _ | None => _ end) _ = Some _ =>
          let E := fresh "E" in destruct m eqn:E
      | (if ?b then _ else _) _ = Some _ =>
          let E := fresh "E" in destruct b eqn:E
      | (if ?b then _ else _) = Some _ =>
          let E := fresh "E" in destruct b eqn:E
      | ret _ _ = Some _ => unfold ret in H
      end ].

Section Root.

Variable env : nat -> Shared -> Shared.
Variable metadata_id_ : Z.
Variable kMaxKeys : Z.

Lemma get_stable_version_unlocked (fuel : nat) (p : PageAddr) :
  forall (s s' : State) (v : Z),
    get_stable_version env fuel p s = Some (v, s') ->
    is_locked v = false /\ reads_only s s'.
Proof.
  induction fuel as [|fuel IH]; intros s s' v; simpl; [discriminate|].
  unfold bind.
  destruct (load_page env p s) as [[pg s1]|] eqn:Hpage; [|discriminate].
  pose proof (load_page_reads_only _ _ _ _ _ Hpage) as Hf.
  destruct (is_locked (page_version_ pg)) eqn:Hlocked.
  - intros Hrun. destruct (IH _ _ _ Hrun) as [Hv Hf'].
    split; [exact Hv|exact (reads_only_trans _ _ _ Hf Hf')].
  - unfold ret. intros [= <- <-]. split; [exact Hlocked|exact Hf].
Qed.

(** The word [get_stable_version] returns is the version word the page has
    in the memory the call ends with, that of its last read. *)
Lemma get_stable_version_observed (fuel : nat) (p : PageAddr) :
  forall (s s' : State) (v : Z),
    get_stable_version env fuel p s = Some (v, s') ->
    exists pg : MasstreePage,
      masstree_pages (shared s') !! p = Some pg /\ page_version_ pg = v.
Proof.
  induction fuel as [|fuel IH]; intros s s' v; simpl; [discriminate|].
  unfold bind.
  destruct (load_page env p s) as [[pg s1]|] eqn:Hpage; [|discriminate].
  destruct (is_locked (page_version_ pg)).
  - apply IH.
  - unfold ret. intros [= <- <-]. exists pg. split; [|reflexivity].
    unfold load_page, bind, get_page in Hpage.
    destruct (tick env s) as [[[] t]|]; [|discriminate].
    destruct (masstree_pages (shared t) !! p) as [pg'|] eqn:Hp; [|discriminate].
    injection Hpage as <- <-. exact Hp.
Qed.

(** Taking the lock of a page leaves it in memory, locked, with nothing else
    of it changed, and leaves the thread's own state alone. *)
Lemma lock_returns (fuel : nat) (p : PageAddr) :
  forall (s s' : State),
    lock env fuel p s = Some (tt, s') ->
    reads_only s s'
    /\ exists pg : MasstreePage,
        is_locked (page_version_ pg) = false
        /\ masstree_pages (shared s') !! p
           = Some (set_page_version pg (lock_version (page_version_ pg))).
Proof.
  induction fuel as [|fuel IH]; intros s s'; simpl; [discriminate|].
  unfold bind.
  destruct (load_page env p s) as [[pg s1]|] eqn:Hpage; [|discriminate].
  pose proof (load_page_reads_only _ _ _ _ _ Hpage) as Hf.
  destruct (is_locked (page_version_ pg)) eqn:Hlocked.
  - intros Hrun. destruct (IH _ _ Hrun) as [Hf' Hpg].
    split; [exact (reads_only_trans _ _ _ Hf Hf')|exact Hpg].
  - unfold put_page. intros [= <-]. split.
    + destruct Hf as (H1 & H2 & H3). repeat split; assumption.
    + exists pg. split; [exact Hlocked|]. simpl. apply lookup_insert_eq.
Qed.

(** X12: a [grow_root] that does not return OK has changed nothing but the
    version word of the root, which went through a lock and an unlock: the
    root is unlocked again with its body and foster link as they were, the
    other pages, the root pointer, the transaction and the log buffer are as
    before.  The code is the retry code when the root has no foster child once
    locked (another thread has grown the tree) and the no-free-pages code when
    it has one and the pool gives no page.  [s1] is the state at the instant
    the lock is taken. *)
Theorem grow_root_failure_unlocks
    (fuel : nat) (context : Thread) (root_pointer : PointerAddr) (root : PageAddr)
    (s s' : State) (e : ErrorCode) :
  grow_root env metadata_id_ kMaxKeys fuel context root_pointer root s
  = Some (e, s') ->
  e <> kErrorCodeOk ->
  exists (s1 : State) (root_page : MasstreePage),
    lock env fuel root s = Some (tt, s1)
    /\ masstree_pages (shared s1) !! root = Some root_page
    /\ ((e = kErrorCodeStrMasstreeRetry
         /\ has_foster_child (page_version_ root_page) = false
         /\ free_pages s' = free_pages s)
        \/ (e = kErrorCodeMemoryNoFreePages
            /\ has_foster_child (page_version_ root_page) = true))
    /\ masstree_pages (shared s')
       = <[root := set_page_version root_page
                     (unlock_version (page_version_ root_page))]>
           (masstree_pages (shared s1))
    /\ is_locked (unlock_version (page_version_ root_page)) = false
    /\ first_root_pointer_ (shared s') = first_root_pointer_ (shared s1)
    /\ array_pages (shared s') = array_pages (shared s1)
    /\ current_xct s' = current_xct s
    /\ thread_log_buffer s' = thread_log_buffer s.
Proof.
  unfold grow_root, bind. intros Hrun Hne.
  destruct (lock env fuel root s) as [[[] s1]|] eqn:Hlock; [|discriminate].
  destruct (lock_returns _ _ _ _ Hlock) as [(Hf & Hx & Hl) _].
  unfold get_page in Hrun at 1.
  destruct (masstree_pages (shared s1) !! root) as [root_page|] eqn:Hroot;
    [|discriminate].
  exists s1, root_page. split; [reflexivity|]. split; [exact Hroot|].
  destruct (has_foster_child (page_version_ root_page)) eqn:Hfoster;
    cbn [negb] in Hrun; cbv beta iota in Hrun.
  - unfold grab_free_volatile_page in Hrun.
    destruct (free_pages s1) as [|offset rest] eqn:Hpool.
    + simpl in Hrun. rewrite (unlock_lookup _ _ _ Hroot) in Hrun.
      unfold ret in Hrun. injection Hrun as <- <-. simpl.
      split; [right; split; reflexivity|]. split; [reflexivity|].
      split; [apply unlock_version_not_locked|]. repeat split; assumption.
    + destruct (Z.eqb_spec offset 0) as [->|Hoffset].
      * simpl in Hrun.
        rewrite (unlock_lookup root root_page (set_free_pages s1 rest) Hroot) in Hrun.
        unfold ret in Hrun. injection Hrun as <- <-. simpl.
        split; [right; split; reflexivity|]. split; [reflexivity|].
        split; [apply unlock_version_not_locked|]. repeat split; assumption.
      * exfalso. split_run Hrun. injection Hrun as <- _. contradiction.
  - rewrite (unlock_lookup _ _ _ Hroot) in Hrun.
    unfold ret in Hrun. injection Hrun as <- <-. simpl.
    split; [left; repeat split; exact Hf|]. split; [reflexivity|].
    split; [apply unlock_version_not_locked|]. repeat split; assumption.
Qed.

Lemma grow_root_codes (fuel : nat) (context : Thread) (root_pointer : PointerAddr)
    (root : PageAddr) (s s' : State) (e : ErrorCode) :
  grow_root env metadata_id_ kMaxKeys fuel context root_pointer root s
  = Some (e, s') ->
  e = kErrorCodeOk \/ e = kErrorCodeStrMasstreeRetry
  \/ e = kErrorCodeMemoryNoFreePages.
Proof.
  unfold grow_root, bind. intros H. split_run H.
  all: injection H as <- <-; auto.
Qed.

(** X13: what [get_first_root] returns.  With OK, the version returned is
    the version word that the page returned has in memory when the call
    returns (the memory of the call's last read): a stable one, not locked and
    without foster child; and the last entry of the pointer set is the root
    pointer with the value that leads to the page returned.  Otherwise the
    code is one of [grow_root], retry or no free pages, or the code of a full
    pointer set. *)
Theorem get_first_root_returns (fuel : nat) (context : Thread) :
  forall (s s' : State) (r : Res (PageAddr * Z)),
    get_first_root env metadata_id_ kMaxKeys fuel context s = Some (r, s') ->
    (forall (page : PageAddr) (version : Z),
        r = Ok (page, version) ->
        (exists root_page : MasstreePage,
            masstree_pages (shared s') !! page = Some root_page
            /\ page_version_ root_page = version)
        /\ has_foster_child version = false
        /\ is_locked version = false
        /\ exists (pointer : VolatilePagePointer)
                  (front : list (PointerAddr * VolatilePagePointer)),
            resolve_offset pointer = page
            /\ pointer_set_ (current_xct s') = front ++ [(FirstRootPointer, pointer)])
    /\ (forall e : ErrorCode,
           r = Err e ->
           e = kErrorCodeStrMasstreeRetry \/ e = kErrorCodeMemoryNoFreePages
           \/ e = kErrorCodeXctPointerSetOverflow).
Proof.
  induction fuel as [|fuel IH]; intros s s' r; [discriminate|].
  cbn [get_first_root]. unfold bind.
  destruct (load_pointer env FirstRootPointer s) as [[pointer s1]|]; [|discriminate].
  destruct (get_stable_version env fuel (resolve_offset (volatile_pointer_ pointer)) s1)
    as [[version s2]|] eqn:Hstable; [|discriminate].
  destruct (get_stable_version_unlocked _ _ _ _ _ Hstable) as [Hunlocked (_ & Hx & _)].
  pose proof (get_stable_version_observed _ _ _ _ _ Hstable) as Hobserved.
  destruct (has_foster_child version) eqn:Hfoster.
  - destruct (grow_root env metadata_id_ kMaxKeys fuel context FirstRootPointer _ s2)
      as [[e s3]|] eqn:Hgrow; [|discriminate].
    destruct (decide (e = kErrorCodeOk)) as [->|Hne]; [apply IH|].
    unfold ret. intros [= <- <-]. split; [discriminate|].
    intros e' [= <-].
    destruct (grow_root_codes _ _ _ _ _ _ _ Hgrow) as [E|[E|E]];
      [contradiction|left; exact E|right; left; exact E].
  - unfold add_to_pointer_set, check.
    destruct (max_pointer_set_size_ (current_xct s2)
              <=? length (pointer_set_ (current_xct s2)))%nat.
    + destruct (decide (kErrorCodeXctPointerSetOverflow = kErrorCodeOk));
        [discriminate|].
      unfold ret. intros [= <- <-]. split; [discriminate|].
      intros e [= <-]. right. right. reflexivity.
    + destruct (decide (kErrorCodeOk = kErrorCodeOk)) as [_|Hne]; [|contradiction].
      unfold ret. intros [= <- <-]. split; [|discriminate].
      intros page v [= <- <-]. split; [exact Hobserved|].
      split; [exact Hfoster|]. split; [exact Hunlocked|].
      exists (volatile_pointer_ pointer), (pointer_set_ (current_xct s2)).
      split; reflexivity.
Qed.

End Root.

(** ** A tree of one border page, read while no other thread writes *)

Section SinglePage.

Variable env : nat -> Shared -> Shared.
Variable metadata_id_ : Z.
Variable kMaxKeys : Z.
Variable follow_page_pointer :
  Thread -> bool -> bool -> bool -> bool -> PointerAddr -> M (Res PageAddr).
Variable adopt_from_child :
  Thread -> PageAddr -> KeySlice -> Z -> Z -> Z -> Z -> PageAddr -> M ErrorCode.

Hypothesis env_quiet : forall n sh, env n sh = sh.

Lemma tick_quiet (s : State) :
  tick env s = Some (tt, exec (tick env) s)
  /\ shared (exec (tick env) s) = shared s
  /\ reads_only s (exec (tick env) s).
Proof.
  unfold exec, tick. simpl. rewrite env_quiet. repeat split.
Qed.

Lemma load_page_quiet (p : PageAddr) (pg : MasstreePage) (s : State) :
  masstree_pages (shared s) !! p = Some pg ->
  load_page env p s = Some (pg, exec (tick env) s).
Proof.
  intros Hpg. unfold load_page, bind.
  destruct (tick_quiet s) as (-> & Hsh & _).
  unfold get_page. rewrite Hsh, Hpg. reflexivity.
Qed.

Lemma load_slot_quiet (p : PageAddr) (pg : MasstreePage) (index : Z)
    (slot : BorderSlot) (s : State) :
  masstree_pages (shared s) !! p = Some pg ->
  get_slot pg index = Some slot ->
  load_slot env p index s = Some (slot, exec (tick env) s).
Proof.
  intros Hpg Hslot. unfold load_slot, bind.
  rewrite (load_page_quiet p pg s Hpg), Hslot. reflexivity.
Qed.

(** [locate_record] in a tree whose first root is a border page without
    foster child: the slot search of that page decides. *)
Lemma locate_record_single_page
    (fuel : nat) (context : Thread) (key : list byte) (key_length : Z)
    (for_writes : bool) (s : State) (root : PageAddr) (pg : MasstreePage) :
  resolve_offset (volatile_pointer_ (first_root_pointer_ (shared s))) = root ->
  masstree_pages (shared s) !! root = Some pg ->
  is_locked (page_version_ pg) = false ->
  has_foster_child (page_version_ pg) = false ->
  is_border (page_version_ pg) = true ->
  (length (pointer_set_ (current_xct s)) < max_pointer_set_size_ (current_xct s))%nat ->
  let index :=
    find_key kMaxKeys pg (get_key_count (page_version_ pg))
      (slice_layer key key_length 0) (drop (Z.to_nat ((0 + 1) * 8)) key)
      (to_uint8 (key_length - 0 * 8)) in
  exists (s' : State),
    shared s' = shared s
    /\ free_pages s' = free_pages s
    /\ thread_log_buffer s' = thread_log_buffer s
    /\ current_xct s'
       = set_pointer_set (current_xct s)
           (pointer_set_ (current_xct s)
            ++ [(FirstRootPointer, volatile_pointer_ (first_root_pointer_ (shared s)))])
    /\ (index = kMaxKeys ->
        locate_record env metadata_id_ kMaxKeys follow_page_pointer adopt_from_child
          (S (S fuel)) context key key_length for_writes s
        = Some (Err kErrorCodeStrKeyNotFound, s'))
    /\ (index <> kMaxKeys ->
        forall slot : BorderSlot,
          get_slot pg index = Some slot ->
          does_point_to_layer slot = false ->
          locate_record env metadata_id_ kMaxKeys follow_page_pointer adopt_from_child
            (S (S fuel)) context key key_length for_writes s
          = Some (Ok (root, index), exec (tick env) s')).
Proof.
  intros Hroot Hpg Hunlocked Hfoster Hborder Hroom index.
  set (t1 := exec (tick env) s).
  set (t2 := exec (tick env) t1).
  set (t3 := set_current_xct t2
               (set_pointer_set (current_xct t2)
                  (pointer_set_ (current_xct t2)
                   ++ [(FirstRootPointer,
                        volatile_pointer_ (first_root_pointer_ (shared s)))]))).
  set (t4 := exec (tick env) t3).
  set (t5 := exec (tick env) t4).
  set (t6 := exec (tick env) t5).
  assert (H1 : masstree_pages (shared t1) !! root = Some pg).
  { unfold t1. destruct (tick_quiet s) as (_ & -> & _). exact Hpg. }
  assert (H2 : masstree_pages (shared t2) !! root = Some pg).
  { unfold t2. destruct (tick_quiet t1) as (_ & -> & _). exact H1. }
  assert (H3 : masstree_pages (shared t3) !! root = Some pg) by exact H2.
  assert (H4 : masstree_pages (shared t4) !! root = Some pg).
  { unfold t4. destruct (tick_quiet t3) as (_ & -> & _). exact H3. }
  assert (H5 : masstree_pages (shared t5) !! root = Some pg).
  { unfold t5. destruct (tick_quiet t4) as (_ & -> & _). exact H4. }
  assert (H6 : masstree_pages (shared t6) !! root = Some pg).
  { unfold t6. destruct (tick_quiet t5) as (_ & -> & _). exact H5. }
  assert (Hfirst : get_first_root env metadata_id_ kMaxKeys (S (S fuel)) context s
                   = Some (Ok (root, page_version_ pg), t3)).
  { cbn [get_first_root]. unfold bind, load_pointer, bind.
    destruct (tick_quiet s) as (-> & Hsh & _).
    cbn [get_pointer]. rewrite Hsh, Hroot. fold t1.
    cbn [get_stable_version]. unfold bind.
    rewrite (load_page_quiet root pg t1 H1). fold t2.
    rewrite Hunlocked. unfold ret at 1. cbv beta iota. rewrite Hfoster.
    unfold add_to_pointer_set.
    change (current_xct t2) with (current_xct s).
    destruct (Nat.leb_spec (max_pointer_set_size_ (current_xct s))
                (length (pointer_set_ (current_xct s)))) as [Hfull|_]; [lia|].
    unfold check. destruct (decide (kErrorCodeOk = kErrorCodeOk)) as [_|Hne];
      [reflexivity|contradiction]. }
  assert (Hfind : find_border env follow_page_pointer adopt_from_child (S (S fuel))
                    context root 0 for_writes (slice_layer key key_length 0) t3
                  = Some (Ok (root, page_version_ pg), t5)).
  { unfold find_border, bind.
    rewrite (load_page_quiet root pg t3 H3). fold t4. rewrite Hborder.
    cbn [while_true]. unfold bind, find_border_body, bind.
    cbn [get_stable_version]. unfold bind.
    rewrite (load_page_quiet root pg t4 H4). fold t5.
    rewrite Hunlocked. unfold ret at 1. cbv beta iota.
    unfold find_border_leaf. cbn [while_true]. unfold bind, find_border_leaf_body, bind.
    unfold follows_foster. rewrite Hfoster. unfold ret at 1. cbn [negb].
    cbv beta iota. unfold ret at 1. cbv beta iota. unfold ret at 1. cbv beta iota.
    simpl code_of.
    destruct (decide (kErrorCodeOk = kErrorCodeStrMasstreeRetry)); [discriminate|].
    reflexivity. }
  exists t6.
  split.
  { unfold t6. rewrite (proj1 (proj2 (tick_quiet t5))).
    unfold t5. rewrite (proj1 (proj2 (tick_quiet t4))).
    unfold t4. rewrite (proj1 (proj2 (tick_quiet t3))).
    change (shared t3) with (shared t2).
    unfold t2. rewrite (proj1 (proj2 (tick_quiet t1))).
    unfold t1. apply tick_quiet. }
  split; [reflexivity|]. split; [reflexivity|]. split; [reflexivity|].
  split.
  - intros Hindex. unfold locate_record, bind. rewrite Hfirst.
    cbn [while_true]. unfold bind, locate_record_body, bind.
    rewrite Hfind. rewrite (load_page_quiet root pg t5 H5). fold t6.
    fold index. rewrite Hindex, Z.eqb_refl. reflexivity.
  - intros Hindex slot Hslot Hlayer. unfold locate_record, bind. rewrite Hfirst.
    cbn [while_true]. unfold bind, locate_record_body, bind.
    rewrite Hfind. rewrite (load_page_quiet root pg t5 H5). fold t6.
    fold index. destruct (Z.eqb_spec index kMaxKeys) as [E|_]; [contradiction|].
    rewrite (load_slot_quiet root pg index slot t6 H6 Hslot), Hlayer. reflexivity.
Qed.

(** [create] takes the first page of the pool, makes it an empty border
    root, and points the first-root pointer at it. *)
Lemma create_returns (context : Thread) (s : State) :
  let offset := hd 0 (free_pages s) in
  let pointer :=
    combine_volatile_page_pointer (get_numa_node context)
      kVolatilePointerFlagSwappable 0 offset in
  exists s1 : State,
    create metadata_id_ kMaxKeys context false s = Some (kErrorCodeOk, s1)
    /\ free_pages s1 = tl (free_pages s)
    /\ current_xct s1 = current_xct s
    /\ thread_log_buffer s1 = thread_log_buffer s
    /\ first_root_pointer_ (shared s1) = mkDualPagePointer 0 pointer
    /\ masstree_pages (shared s1)
       = <[local_resolve_offset context offset :=
             initialize_volatile_page kMaxKeys true metadata_id_ pointer 0 true
               kInfimumSlice kSupremumSlice true kInfimumSlice None false]>
           (masstree_pages (shared s)).
Proof.
  unfold create, bind, grab_free_volatile_page.
  destruct (free_pages s) as [|offset rest] eqn:Hpool; simpl;
    eexists; (split; [reflexivity|]); simpl; rewrite ?Hpool; repeat split.
Qed.

(** X14: in a storage just created, by whatever thread from whatever state,
    [get_record] of any key of any length returns the not-found code and
    leaves the caller's buffer and capacity as they were, when no other thread
    writes and the pointer set has room. *)
Theorem get_record_after_create_not_found
    (fuel : nat) (creator reader : Thread) (key : list byte) (key_length : Z)
    (payload : list byte) (payload_capacity : Z) (s : State) :
  (length (pointer_set_ (current_xct s)) < max_pointer_set_size_ (current_xct s))%nat ->
  exists (s1 s' : State),
    create metadata_id_ kMaxKeys creator false s = Some (kErrorCodeOk, s1)
    /\ get_record env metadata_id_ kMaxKeys follow_page_pointer adopt_from_child
         (S (S fuel)) reader key key_length payload payload_capacity s1
       = Some ((kErrorCodeStrKeyNotFound, (payload, payload_capacity)), s').
Proof.
  intros Hroom.
  destruct (create_returns creator s) as (s1 & Hcreate & _ & Hx & _ & Hpointer & Hpages).
  destruct (locate_record_single_page fuel reader key key_length false s1
              (local_resolve_offset creator (hd 0 (free_pages s)))
              (initialize_volatile_page kMaxKeys true metadata_id_
                 (combine_volatile_page_pointer (get_numa_node creator)
                    kVolatilePointerFlagSwappable 0 (hd 0 (free_pages s)))
                 0 true kInfimumSlice kSupremumSlice true kInfimumSlice None false))
    as (s' & _ & _ & _ & _ & Hnot_found & _).
  - rewrite Hpointer. reflexivity.
  - rewrite Hpages. apply lookup_insert_eq.
  - reflexivity.
  - reflexivity.
  - reflexivity.
  - rewrite Hx. exact Hroom.
  - exists s1, s'. split; [exact Hcreate|].
    unfold get_record, bind. rewrite Hnot_found; reflexivity.
Qed.

End SinglePage.

Lemma grow_root_failure_unlocks_witness :
  is_locked
    (unlock_version
       (page_version_
          (Scenario.page_at
             (exec (lock Scenario.quiet 1 Scenario.root) Scenario.fresh_tree)
             Scenario.root))) = false.
Proof.
  destruct (grow_root_failure_unlocks Scenario.quiet Scenario.metadata_id_
              Scenario.kMaxKeys 1 Scenario.context FirstRootPointer Scenario.root
              Scenario.fresh_tree
              (exec (grow_root Scenario.quiet Scenario.metadata_id_ Scenario.kMaxKeys
                       1 Scenario.context FirstRootPointer Scenario.root)
                 Scenario.fresh_tree)
              kErrorCodeStrMasstreeRetry
              ltac:(vm_compute; reflexivity) ltac:(discriminate))
    as (s1 & root_page & Hlock & Hroot & _ & _ & Hunlocked & _).
  assert (Hs1 : s1 = exec (lock Scenario.quiet 1 Scenario.root) Scenario.fresh_tree).
  { unfold exec. rewrite Hlock. reflexivity. }
  subst s1. unfold Scenario.page_at. rewrite Hroot. exact Hunlocked.
Defined.

Lemma get_first_root_returns_witness :
  exists root_page : MasstreePage,
    masstree_pages
      (shared (exec (get_first_root Scenario.quiet Scenario.metadata_id_
                       Scenario.kMaxKeys 2 Scenario.context) Scenario.fresh_tree))
    !! Scenario.root = Some root_page
    /\ page_version_ root_page
       = page_version_ (Scenario.page_at Scenario.fresh_tree Scenario.root).
Proof.
  exact (proj1 (proj1 (get_first_root_returns Scenario.quiet Scenario.metadata_id_
                         Scenario.kMaxKeys 2 Scenario.context Scenario.fresh_tree
                         (exec (get_first_root Scenario.quiet Scenario.metadata_id_
                                  Scenario.kMaxKeys 2 Scenario.context)
                            Scenario.fresh_tree)
                         (Ok (Scenario.root,
                              page_version_
                                (Scenario.page_at Scenario.fresh_tree Scenario.root)))
                         ltac:(vm_compute; reflexivity))
                  Scenario.root _ eq_refl)).
Defined.

Lemma get_record_after_create_not_found_witness :
  exists (s1 s' : State),
    create Scenario.metadata_id_ Scenario.kMaxKeys Scenario.context false
      (Scenario.empty_state [5; 6; 7]) = Some (kErrorCodeOk, s1)
    /\ get_record Scenario.quiet Scenario.metadata_id_ Scenario.kMaxKeys
         (Scenario.follow_volatile Scenario.quiet) Scenario.no_adopt 2
         Scenario.context (replicate 100 x00) 100 (replicate 16 x00) 16 s1
       = Some ((kErrorCodeStrKeyNotFound, (replicate 16 x00, 16)), s').
Proof.
  apply (get_record_after_create_not_found Scenario.quiet Scenario.metadata_id_
           Scenario.kMaxKeys (Scenario.follow_volatile Scenario.quiet)
           Scenario.no_adopt (fun n sh => eq_refl) 0 Scenario.context
           Scenario.context (replicate 100 x00) 100 (replicate 16 x00) 16
           (Scenario.empty_state [5; 6; 7])).
  vm_compute. lia.
Defined.

End RootProofs.

(** * Reserving a record for an eight-byte key *)

Module ReserveNormalizedProofs.

Import PageVersion MasstreePageImpl Memory XctImpl MasstreeStoragePimpl.
Import PageVersionFacts MemoryFacts ReadProtocolFacts FrameFacts RootProofs.

(** The flags and counters the lock, the insertion marker and the unlock
    leave alone. *)
Lemma lock_version_flags (data : Z) :
  has_foster_child (lock_version data) = has_foster_child data
  /\ is_border (lock_version data) = is_border data
  /\ get_split_counter (lock_version data) = get_split_counter data
  /\ is_locked (lock_version data) = true.
Proof.
  unfold lock_version. unfold_flags.
  rewrite !has_bit_set_bit by lia.
  rewrite !bool_decide_eq_false_2 by lia.
  rewrite bool_decide_eq_true_2 by reflexivity.
  rewrite !orb_false_r, orb_true_r.
  repeat split. unfold get_split_counter. apply get_field_set_bit; layout.
Qed.

Lemma set_inserting_and_increment_key_count_flags (data : Z) :
  has_foster_child (set_inserting_and_increment_key_count data)
  = has_foster_child data
  /\ is_border (set_inserting_and_increment_key_count data) = is_border data.
Proof.
  unfold set_inserting_and_increment_key_count, set_key_count. unfold_flags.
  rewrite !has_bit_set_field by layout.
  rewrite !has_bit_set_bit by lia.
  rewrite !bool_decide_eq_false_2 by lia.
  rewrite !orb_false_r. split; reflexivity.
Qed.

Lemma unlock_version_is_border (data : Z) :
  is_border (unlock_version data) = is_border data.
Proof.
  unfold unlock_version. unfold_flags.
  rewrite !has_bit_clear_bit by lia.
  rewrite !bool_decide_eq_false_2 by lia. simpl. rewrite !andb_true_r.
  destruct (has_bit (Z.shiftl 1 1) data), (has_bit (Z.shiftl 1 2) _);
    rewrite ?has_bit_set_field by layout; reflexivity.
Qed.

(** With eight bytes of key left the suffix plays no part in a match. *)
Lemma slot_matches_normalized (slot : BorderSlot) (slice : KeySlice)
    (suffix suffix' : list byte) :
  slot_matches slot slice suffix 8 = slot_matches slot slice suffix' 8.
Proof. unfold slot_matches. simpl. reflexivity. Qed.

Lemma scan_slots_normalized (kMaxKeys : Z) (slice : KeySlice)
    (suffix suffix' : list byte) (count : nat) :
  forall (slots : list BorderSlot) (i : Z),
    scan_slots kMaxKeys count slots slice suffix 8 i
    = scan_slots kMaxKeys count slots slice suffix' 8 i.
Proof.
  induction count as [|count IH]; intros [|slot rest] i; simpl; try reflexivity.
  rewrite (slot_matches_normalized slot slice suffix suffix'), IH. reflexivity.
Qed.

(** A scan that found no match among the first [count] slots finds the slot
    written at index [count]. *)
Lemma scan_slots_after_append (kMaxKeys : Z) (slice : KeySlice) (suffix : list byte)
    (remaining : Z) (slot : BorderSlot) (count : nat) :
  forall (slots : list BorderSlot) (i : Z),
    (count < length slots)%nat ->
    i + Z.of_nat count < kMaxKeys ->
    scan_slots kMaxKeys count slots slice suffix remaining i = kMaxKeys ->
    slot_matches slot slice suffix remaining = true ->
    scan_slots kMaxKeys (S count) (<[count := slot]> slots) slice suffix remaining i
    = i + Z.of_nat count.
Proof.
  induction count as [|count IH]; intros [|x rest] i Hlen Hbound Hscan Hmatch;
    try (simpl in Hlen; lia).
  - simpl. rewrite Hmatch. lia.
  - simpl in Hscan.
    change (scan_slots kMaxKeys (S (S count)) (<[S count:=slot]> (x :: rest)) slice
              suffix remaining i)
      with (if slot_matches x slice suffix remaining then i
            else scan_slots kMaxKeys (S count) (<[count:=slot]> rest) slice suffix
                   remaining (i + 1)).
    destruct (slot_matches x slice suffix remaining); [lia|].
    rewrite (IH rest (i + 1)); [lia|simpl in Hlen; lia|lia|exact Hscan|exact Hmatch].
Qed.

(** ** Locating the record of an eight-byte key *)

Section Normalized.

Variable env : nat -> Shared -> Shared.
Variable metadata_id_ : Z.
Variable kMaxKeys : Z.
Variable follow_page_pointer :
  Thread -> bool -> bool -> bool -> bool -> PointerAddr -> M (Res PageAddr).
Variable adopt_from_child :
  Thread -> PageAddr -> KeySlice -> Z -> Z -> Z -> Z -> PageAddr -> M ErrorCode.
Variable find_key_normalized : MasstreePage -> Z -> Z -> KeySlice -> Z.

Hypothesis follow_page_pointer_code :
  forall context tolerate_null will_modify take_snapshot take_volatile pointer
         s r s',
    follow_page_pointer context tolerate_null will_modify take_snapshot
      take_volatile pointer s = Some (r, s') ->
    code_of r <> kErrorCodeStrKeyNotFound.
Hypothesis adopt_from_child_code :
  forall context cur slice cur_stable minipage_index mini_stable pointer_index
         next s e s',
    adopt_from_child context cur slice cur_stable minipage_index mini_stable
      pointer_index next s = Some (e, s') ->
    e <> kErrorCodeStrKeyNotFound.

(** X19: [locate_record_normalized] never leaves the first layer.  What it
    returns is decided by [find_key_normalized] on the border page the descent
    ends at, searched up to the key count of the stable version: the not-found
    code exactly when the search yields [kMaxKeys], and otherwise that page
    with the index the search yields.  Another error is one of
    [get_first_root] or of the descent. *)
Theorem locate_record_normalized_returns
    (fuel : nat) (context : Thread) (key : KeySlice) (for_writes : bool)
    (s s' : State) (r : Res (PageAddr * Z)) :
  locate_record_normalized env metadata_id_ kMaxKeys follow_page_pointer
    adopt_from_child find_key_normalized fuel context key for_writes s
  = Some (r, s') ->
  (exists e : ErrorCode, r = Err e /\ e <> kErrorCodeStrKeyNotFound)
  \/ exists (layer_root border : PageAddr) (root_version border_version : Z)
            (s0 s1 : State) (border_page : MasstreePage),
      get_first_root env metadata_id_ kMaxKeys fuel context s
      = Some (Ok (layer_root, root_version), s0)
      /\ find_border env follow_page_pointer adopt_from_child fuel context layer_root
           0 for_writes key s0 = Some (Ok (border, border_version), s1)
      /\ load_page env border s1 = Some (border_page, s')
      /\ r = (if find_key_normalized border_page 0 (get_key_count border_version) key
                  =? kMaxKeys
              then Err kErrorCodeStrKeyNotFound
              else Ok (border,
                       find_key_normalized border_page 0
                         (get_key_count border_version) key)).
Proof.
  unfold locate_record_normalized, bind.
  destruct (get_first_root env metadata_id_ kMaxKeys fuel context s)
    as [[[[layer_root root_version]|e] s0]|] eqn:Hroot; [| |discriminate].
  2:{ unfold ret. intros [= <- <-]. left. exists e. split; [reflexivity|].
      exact (LookupProofs.get_first_root_code _ _ _ _ _ _ _ _ Hroot). }
  destruct (find_border env follow_page_pointer adopt_from_child fuel context
              layer_root 0 for_writes key s0)
    as [[[[border border_version]|e] s1]|] eqn:Hfind; [| |discriminate].
  2:{ unfold ret. intros [= <- <-]. left. exists e. split; [reflexivity|].
      exact (LookupProofs.find_border_code env follow_page_pointer adopt_from_child
               follow_page_pointer_code adopt_from_child_code _ _ _ _ _ _ _ _ _
               Hfind). }
  destruct (load_page env border s1) as [[border_page s2]|] eqn:Hpage; [|discriminate].
  intros Hrun. right.
  exists layer_root, border, root_version, border_version, s0, s1, border_page.
  destruct (find_key_normalized border_page 0 (get_key_count border_version) key
            =? kMaxKeys);
    unfold ret in Hrun; injection Hrun as <- <-; repeat split; assumption.
Qed.

End Normalized.

(** The key 12345 is not in the fresh tree. *)
Lemma locate_record_normalized_returns_witness :
  exists (layer_root border : PageAddr) (root_version border_version : Z)
         (s0 s1 : State) (border_page : MasstreePage),
    get_first_root Scenario.quiet Scenario.metadata_id_ Scenario.kMaxKeys 2
      Scenario.context Scenario.fresh_tree
    = Some (Ok (layer_root, root_version), s0)
    /\ find_border Scenario.quiet (Scenario.follow_volatile Scenario.quiet)
         Scenario.no_adopt 2 Scenario.context layer_root 0 false 12345 s0
       = Some (Ok (border, border_version), s1)
    /\ find_key Scenario.kMaxKeys border_page (get_key_count border_version) 12345
         [] 8 = Scenario.kMaxKeys.
Proof.
  destruct (locate_record_normalized_returns Scenario.quiet Scenario.metadata_id_
              Scenario.kMaxKeys (Scenario.follow_volatile Scenario.quiet)
              Scenario.no_adopt
              (fun page _ count slice =>
                 find_key Scenario.kMaxKeys page count slice [] 8)
              (LookupProofs.follow_volatile_code Scenario.quiet)
              LookupProofs.no_adopt_code
              2%nat Scenario.context 12345 false Scenario.fresh_tree
              (exec (locate_record_normalized Scenario.quiet Scenario.metadata_id_
                       Scenario.kMaxKeys (Scenario.follow_volatile Scenario.quiet)
                       Scenario.no_adopt
                       (fun page _ count slice =>
                          find_key Scenario.kMaxKeys page count slice [] 8)
                       2 Scenario.context 12345 false) Scenario.fresh_tree)
              (Err kErrorCodeStrKeyNotFound)
              ltac:(vm_compute; reflexivity))
    as [(e & He & Hne)|(layer_root & border & root_version & border_version & s0 & s1
                        & border_page & Hroot & Hfind & _ & Hr)].
  - injection He as <-. now destruct Hne.
  - exists layer_root, border, root_version, border_version, s0, s1, border_page.
    split; [exact Hroot|]. split; [exact Hfind|].
    destruct (find_key Scenario.kMaxKeys border_page (get_key_count border_version)
                12345 [] 8 =? Scenario.kMaxKeys) eqn:E; [|discriminate].
    apply Z.eqb_eq. exact E.
Defined.

Section SinglePage.

Variable env : nat -> Shared -> Shared.
Variable metadata_id_ : Z.
Variable kMaxKeys : Z.
Variable kEpochInitialCurrent : Z.
Variable follow_page_pointer :
  Thread -> bool -> bool -> bool -> bool -> PointerAddr -> M (Res PageAddr).
Variable adopt_from_child :
  Thread -> PageAddr -> KeySlice -> Z -> Z -> Z -> Z -> PageAddr -> M ErrorCode.
Variable can_accomodate : MasstreePage -> Z -> Z -> Z -> bool.
Variable split_foster : Thread -> PageAddr -> KeySlice -> M ErrorCode.
Variable find_key_normalized : MasstreePage -> Z -> Z -> KeySlice -> Z.

Hypothesis env_quiet : forall n sh, env n sh = sh.

(** [get_first_root] and [find_border] in a tree whose first root is a border
    page without foster child. *)
Lemma get_first_root_single_page
    (fuel : nat) (context : Thread) (s : State) (root : PageAddr) (pg : MasstreePage) :
  resolve_offset (volatile_pointer_ (first_root_pointer_ (shared s))) = root ->
  masstree_pages (shared s) !! root = Some pg ->
  is_locked (page_version_ pg) = false ->
  has_foster_child (page_version_ pg) = false ->
  (length (pointer_set_ (current_xct s)) < max_pointer_set_size_ (current_xct s))%nat ->
  exists t : State,
    get_first_root env metadata_id_ kMaxKeys (S (S fuel)) context s
    = Some (Ok (root, page_version_ pg), t)
    /\ shared t = shared s
    /\ free_pages t = free_pages s
    /\ thread_log_buffer t = thread_log_buffer s
    /\ current_xct t
       = set_pointer_set (current_xct s)
           (pointer_set_ (current_xct s)
            ++ [(FirstRootPointer, volatile_pointer_ (first_root_pointer_ (shared s)))]).
Proof.
  intros Hroot Hpg Hunlocked Hfoster Hroom.
  set (t1 := exec (tick env) s).
  assert (H1 : masstree_pages (shared t1) !! root = Some pg).
  { unfold t1. destruct (tick_quiet env env_quiet s) as (_ & -> & _). exact Hpg. }
  cbn [get_first_root]. unfold bind, load_pointer, bind.
  destruct (tick_quiet env env_quiet s) as (-> & Hsh & _).
  cbn [get_pointer]. rewrite Hsh, Hroot. fold t1.
  cbn [get_stable_version]. unfold bind.
  rewrite (load_page_quiet env env_quiet root pg t1 H1).
  rewrite Hunlocked. unfold ret at 1. cbv beta iota. rewrite Hfoster.
  unfold add_to_pointer_set.
  change (current_xct (exec (tick env) t1)) with (current_xct s).
  destruct (Nat.leb_spec (max_pointer_set_size_ (current_xct s))
              (length (pointer_set_ (current_xct s)))) as [Hfull|_]; [lia|].
  unfold check. destruct (decide (kErrorCodeOk = kErrorCodeOk)) as [_|Hne];
    [|contradiction].
  eexists. split; [reflexivity|].
  split; [|repeat split].
  change (shared (exec (tick env) t1) = shared s).
  rewrite (proj1 (proj2 (tick_quiet env env_quiet t1))). exact Hsh.
Qed.

Lemma find_border_single_page
    (fuel : nat) (context : Thread) (current_layer : Z) (for_writes : bool)
    (slice : KeySlice) (s : State) (root : PageAddr) (pg : MasstreePage) :
  masstree_pages (shared s) !! root = Some pg ->
  is_locked (page_version_ pg) = false ->
  has_foster_child (page_version_ pg) = false ->
  is_border (page_version_ pg) = true ->
  exists t : State,
    find_border env follow_page_pointer adopt_from_child (S fuel) context root
      current_layer for_writes slice s
    = Some (Ok (root, page_version_ pg), t)
    /\ shared t = shared s
    /\ reads_only s t.
Proof.
  intros Hpg Hunlocked Hfoster Hborder.
  set (t1 := exec (tick env) s).
  assert (H1 : masstree_pages (shared t1) !! root = Some pg).
  { unfold t1. destruct (tick_quiet env env_quiet s) as (_ & -> & _). exact Hpg. }
  unfold find_border, bind.
  rewrite (load_page_quiet env env_quiet root pg s Hpg). fold t1. rewrite Hborder.
  cbn [while_true]. unfold bind, find_border_body, bind.
  cbn [get_stable_version]. unfold bind.
  rewrite (load_page_quiet env env_quiet root pg t1 H1).
  rewrite Hunlocked. unfold ret at 1. cbv beta iota.
  unfold find_border_leaf. cbn [while_true]. unfold bind, find_border_leaf_body, bind.
  unfold follows_foster. rewrite Hfoster. unfold ret at 1. cbn [negb].
  cbv beta iota. unfold ret at 1. cbv beta iota. unfold ret at 1. cbv beta iota.
  simpl code_of.
  destruct (decide (kErrorCodeOk = kErrorCodeStrMasstreeRetry)); [discriminate|].
  eexists. split; [reflexivity|].
  destruct (tick_quiet env env_quiet t1) as (_ & Hsh2 & Hf2).
  destruct (tick_quiet env env_quiet s) as (_ & Hsh1 & Hf1).
  split; [rewrite Hsh2; exact Hsh1|].
  exact (reads_only_trans _ _ _ Hf1 Hf2).
Qed.

Hypothesis find_key_normalized_is_find_key :
  forall (page : MasstreePage) (count : Z) (slice : KeySlice),
    find_key_normalized page 0 count slice = find_key kMaxKeys page count slice [] 8.

(** One run of the loop body of [reserve_record_normalized] on an unlocked
    border page without foster child that has no slot for the key and can
    take one more. *)
Lemma reserve_record_normalized_body_new_key
    (fuel : nat) (context : Thread) (key : KeySlice) (payload_count : Z)
    (s : State) (root : PageAddr) (pg : MasstreePage) (slots : list BorderSlot) :
  masstree_pages (shared s) !! root = Some pg ->
  is_locked (page_version_ pg) = false ->
  has_foster_child (page_version_ pg) = false ->
  body_ pg = BorderBody slots ->
  (Z.to_nat (get_key_count (page_version_ pg)) < length slots)%nat ->
  get_key_count (page_version_ pg) + 1 < 2 ^ kPageVersionKeyCountBits ->
  find_key kMaxKeys pg (get_key_count (page_version_ pg)) key [] 8 = kMaxKeys ->
  can_accomodate (set_page_version pg (lock_version (page_version_ pg)))
    (get_key_count (page_version_ pg)) 8 payload_count = true ->
  exists (s1 : State) (pg1 : MasstreePage),
    reserve_record_normalized_body env kMaxKeys kEpochInitialCurrent can_accomodate
      split_foster find_key_normalized (S fuel) context key payload_count
      (root, page_version_ pg) s
    = Some (Return (Ok (root, get_key_count (page_version_ pg))), s1)
    /\ masstree_pages (shared s1) = <[root := pg1]> (masstree_pages (shared s))
    /\ first_root_pointer_ (shared s1) = first_root_pointer_ (shared s)
    /\ reads_only s s1
    /\ page_version_ pg1
       = unlock_version
           (set_inserting_and_increment_key_count (lock_version (page_version_ pg)))
    /\ body_ pg1
       = BorderBody
           (<[Z.to_nat (get_key_count (page_version_ pg)) :=
                mkBorderSlot key 8 payload_count
                  (XctId.set_deleted
                     (XctId.set_clean kEpochInitialCurrent 0 (get_thread_id context)))
                  [] (replicate (Z.to_nat payload_count) x00) None]> slots).
Proof.
  intros Hpg Hunlocked Hfoster Hbody Hcount Hroom Habsent Hfits.
  destruct (lock_version_flags (page_version_ pg)) as (HfL & _ & HsL & _).
  unfold reserve_record_normalized_body, bind.
  cbn [lock]. unfold bind.
  rewrite (load_page_quiet env env_quiet root pg s Hpg). rewrite Hunlocked.
  unfold put_page at 1. cbv beta iota.
  set (pgL := set_page_version pg (lock_version (page_version_ pg))).
  fold pgL in Hfits.
  set (u := set_shared (exec (tick env) s) _).
  assert (HpgL : masstree_pages (shared u) !! root = Some pgL)
    by (apply lookup_insert_eq).
  rewrite (get_page_lookup root pgL u HpgL).
  change (page_version_ pgL) with (lock_version (page_version_ pg)).
  rewrite HsL, Z.eqb_refl. cbn [negb]. cbv beta iota.
  rewrite HfL, Hfoster. cbn [andb]. cbv beta iota.
  rewrite lock_version_key_count.
  rewrite find_key_normalized_is_find_key.
  change (find_key kMaxKeys pgL) with (find_key kMaxKeys pg).
  rewrite Habsent, Z.eqb_refl. cbn [negb]. cbv beta iota.
  unfold reserve_record_new_record, bind.
  rewrite (get_page_lookup root pgL u HpgL).
  change (page_version_ pgL) with (lock_version (page_version_ pg)).
  rewrite lock_version_key_count, Hfits.
  unfold reserve_record_new_record_apply, bind.
  rewrite (get_page_lookup root pgL u HpgL).
  unfold put_page at 1. unfold ret at 1. cbv beta iota.
  match goal with
  | |- context [unlock root (set_shared u (set_masstree_pages _ (<[root:=?page]> _)))] =>
      set (pgA := page)
  end.
  match goal with
  | |- context [unlock root ?st] => set (u2 := st)
  end.
  assert (HpgA : masstree_pages (shared u2) !! root = Some pgA)
    by (apply lookup_insert_eq).
  rewrite (unlock_lookup root pgA u2 HpgA). unfold ret.
  assert (Hversion : page_version_ pgA
                     = set_inserting_and_increment_key_count
                         (lock_version (page_version_ pg))).
  { unfold pgA, reserve_record_space. rewrite page_version_set_slot. reflexivity. }
  eexists _, (set_page_version pgA (unlock_version (page_version_ pgA))).
  split; [reflexivity|].
  destruct (tick_quiet env env_quiet s) as (_ & Hsh & _).
  split.
  { cbn [shared set_shared masstree_pages set_masstree_pages u2 u].
    rewrite !insert_insert_eq, Hsh. reflexivity. }
  split.
  { cbn [shared set_shared first_root_pointer_ set_masstree_pages u2 u].
    rewrite Hsh. reflexivity. }
  split; [repeat split|].
  split; [cbn [page_version_ set_page_version]; rewrite Hversion; reflexivity|].
  unfold pgA, reserve_record_space, set_slot, pgL. cbn [body_ set_page_version].
  rewrite Hbody. reflexivity.
Qed.

(** X15: reserving a record and looking it up.  In a tree of one border
    page that has no slot for an eight-byte key and can take one more, with no
    other thread writing, [reserve_record_normalized] returns the page with
    the index of its first free slot; [locate_record] of the key then finds
    that slot; and [get_record] returns the not-found code, the record being
    born deleted. *)
Theorem reserve_record_normalized_then_lookup
    (fuel : nat) (context reader : Thread) (key : KeySlice) (payload_count : Z)
    (key_bytes payload : list byte) (payload_capacity : Z)
    (s : State) (root : PageAddr) (pg : MasstreePage) (slots : list BorderSlot) :
  resolve_offset (volatile_pointer_ (first_root_pointer_ (shared s))) = root ->
  masstree_pages (shared s) !! root = Some pg ->
  is_locked (page_version_ pg) = false ->
  has_foster_child (page_version_ pg) = false ->
  is_border (page_version_ pg) = true ->
  body_ pg = BorderBody slots ->
  (Z.to_nat (get_key_count (page_version_ pg)) < length slots)%nat ->
  get_key_count (page_version_ pg) + 1 < 2 ^ kPageVersionKeyCountBits ->
  get_key_count (page_version_ pg) < kMaxKeys ->
  find_key kMaxKeys pg (get_key_count (page_version_ pg)) key [] 8 = kMaxKeys ->
  can_accomodate (set_page_version pg (lock_version (page_version_ pg)))
    (get_key_count (page_version_ pg)) 8 payload_count = true ->
  (S (length (pointer_set_ (current_xct s)))
   < max_pointer_set_size_ (current_xct s))%nat ->
  slice_layer key_bytes 8 0 = key ->
  exists (s1 s2 s3 : State),
    reserve_record_normalized env metadata_id_ kMaxKeys kEpochInitialCurrent
      follow_page_pointer adopt_from_child can_accomodate split_foster
      find_key_normalized (S (S fuel)) context key payload_count s
    = Some (Ok (root, get_key_count (page_version_ pg)), s1)
    /\ locate_record env metadata_id_ kMaxKeys follow_page_pointer adopt_from_child
         (S (S fuel)) reader key_bytes 8 false s1
       = Some (Ok (root, get_key_count (page_version_ pg)), s2)
    /\ get_record env metadata_id_ kMaxKeys follow_page_pointer adopt_from_child
         (S (S fuel)) reader key_bytes 8 payload payload_capacity s1
       = Some ((kErrorCodeStrKeyNotFound, (payload, payload_capacity)), s3).
Proof.
  intros Hroot Hpg Hunlocked Hfoster Hborder Hbody Hcount Hroom Hmax Habsent Hfits
    Hset Hslice.
  set (count := get_key_count (page_version_ pg)) in *.
  pose proof (get_key_count_range (page_version_ pg)) as Hrange. fold count in Hrange.
  (* the reservation *)
  destruct (get_first_root_single_page fuel context s root pg Hroot Hpg Hunlocked
              Hfoster ltac:(lia)) as (t & Hfirst & Ht & _ & _ & Hxt).
  destruct (find_border_single_page (S fuel) context 0 true key t root pg
              ltac:(rewrite Ht; exact Hpg) Hunlocked Hfoster Hborder)
    as (t' & Hfind & Ht' & (_ & Hxt' & _)).
  destruct (reserve_record_normalized_body_new_key (S fuel) context key payload_count
              t' root pg slots ltac:(rewrite Ht', Ht; exact Hpg) Hunlocked Hfoster
              Hbody Hcount Hroom Habsent Hfits)
    as (s1 & pg1 & Hbody_run & Hpages & Hpointer & (_ & Hx1 & _) & Hversion & Hbody1).
  assert (Hreserve :
            reserve_record_normalized env metadata_id_ kMaxKeys kEpochInitialCurrent
              follow_page_pointer adopt_from_child can_accomodate split_foster
              find_key_normalized (S (S fuel)) context key payload_count s
            = Some (Ok (root, count), s1)).
  { unfold reserve_record_normalized, bind. rewrite Hfirst, Hfind.
    cbn [while_true]. unfold bind. fold count in Hbody_run. rewrite Hbody_run.
    reflexivity. }
  (* the page the reservation leaves *)
  set (slot := mkBorderSlot key 8 payload_count
                 (XctId.set_deleted
                    (XctId.set_clean kEpochInitialCurrent 0 (get_thread_id context)))
                 [] (replicate (Z.to_nat payload_count) x00) None) in *.
  destruct (lock_version_flags (page_version_ pg)) as (HfL & HbL & _ & _).
  destruct (set_inserting_and_increment_key_count_flags
              (lock_version (page_version_ pg))) as (HfI & HbI).
  assert (Hpg1 : masstree_pages (shared s1) !! root = Some pg1)
    by (rewrite Hpages; apply lookup_insert_eq).
  assert (Hunlocked1 : is_locked (page_version_ pg1) = false)
    by (rewrite Hversion; apply unlock_version_not_locked).
  assert (Hfoster1 : has_foster_child (page_version_ pg1) = false)
    by (rewrite Hversion, unlock_version_has_foster_child, HfI, HfL; exact Hfoster).
  assert (Hborder1 : is_border (page_version_ pg1) = true)
    by (rewrite Hversion, unlock_version_is_border, HbI, HbL; exact Hborder).
  assert (Hcount1 : get_key_count (page_version_ pg1) = count + 1).
  { rewrite Hversion, unlock_version_key_count.
    rewrite set_inserting_and_increment_key_count_key_count;
      rewrite lock_version_key_count; [reflexivity|exact Hroom]. }
  assert (Hslot1 : get_slot pg1 count = Some slot).
  { unfold get_slot. rewrite Hbody1. apply list_lookup_insert_eq. exact Hcount. }
  assert (Hindex :
            find_key kMaxKeys pg1 (get_key_count (page_version_ pg1))
              (slice_layer key_bytes 8 0) (drop (Z.to_nat ((0 + 1) * 8)) key_bytes)
              (to_uint8 (8 - 0 * 8)) = count).
  { rewrite Hcount1, Hslice. change (to_uint8 (8 - 0 * 8)) with 8.
    unfold find_key. rewrite Hbody1.
    replace (Z.to_nat (count + 1)) with (S (Z.to_nat count)) by lia.
    rewrite (scan_slots_normalized kMaxKeys key _ []). fold count.
    rewrite (scan_slots_after_append kMaxKeys key [] 8 slot (Z.to_nat count) slots 0
               Hcount).
    - lia.
    - lia.
    - unfold find_key in Habsent. rewrite Hbody in Habsent. exact Habsent.
    - unfold slot_matches, slot. simpl. rewrite Z.eqb_refl. reflexivity. }
  destruct (locate_record_single_page env metadata_id_ kMaxKeys follow_page_pointer
              adopt_from_child env_quiet fuel reader key_bytes 8 false s1 root pg1)
    as (s2 & Hs2 & _ & _ & _ & _ & Hfound).
  { rewrite Hpointer, Ht', Ht. exact Hroot. }
  { exact Hpg1. }
  { exact Hunlocked1. }
  { exact Hfoster1. }
  { exact Hborder1. }
  { rewrite Hx1, Hxt', Hxt. simpl. rewrite length_app. simpl. lia. }
  rewrite Hindex in Hfound.
  specialize (Hfound ltac:(lia) slot Hslot1 eq_refl).
  exists s1, (exec (tick env) s2). eexists.
  split; [exact Hreserve|]. split; [exact Hfound|].
  (* the read *)
  unfold get_record, bind. rewrite Hfound.
  set (r0 := exec (tick env) s2).
  assert (Hr0 : masstree_pages (shared r0) !! root = Some pg1).
  { unfold r0. rewrite (proj1 (proj2 (tick_quiet env env_quiet s2))), Hs2.
    exact Hpg1. }
  unfold retrieve_general, bind.
  rewrite (load_page_quiet env env_quiet root pg1 r0 Hr0).
  set (r1 := exec (tick env) r0).
  assert (Hr1 : masstree_pages (shared r1) !! root = Some pg1).
  { unfold r1. rewrite (proj1 (proj2 (tick_quiet env env_quiet r0))). exact Hr0. }
  cbn [optimistic_read_protocol load_owner_id]. unfold bind.
  rewrite (load_slot_quiet env env_quiet root pg1 count slot r1 Hr1 Hslot1).
  set (r2 := exec (tick env) r1).
  assert (Hr2 : masstree_pages (shared r2) !! root = Some pg1).
  { unfold r2. rewrite (proj1 (proj2 (tick_quiet env env_quiet r1))). exact Hr1. }
  unfold ret at 1. cbv beta iota.
  change (XctId.is_keylocked (owner_id_ slot)) with false.
  change (XctId.is_moved (owner_id_ slot)) with false. cbv beta iota.
  unfold retrieve_general_handler, bind.
  rewrite (load_slot_quiet env env_quiet root pg1 count slot r2 Hr2 Hslot1).
  change (does_point_to_layer slot) with false.
  change (XctId.is_deleted (owner_id_ slot)) with true. cbv beta iota.
  unfold ret at 1. cbv beta iota.
  destruct (decide (kErrorCodeStrKeyNotFound = kErrorCodeOk)); [discriminate|].
  reflexivity.
Qed.

(** X16: reserving a key that is there.  In a tree of one border page in
    which the page's slot search finds the key, with no other thread writing,
    [reserve_record_normalized] returns the slot found and adds none: the page
    is left unlocked with the same slots and the same key count, and the pool
    and the log buffer are untouched. *)
Theorem reserve_record_normalized_existing_key
    (fuel : nat) (context : Thread) (key : KeySlice) (payload_count : Z)
    (s : State) (root : PageAddr) (pg : MasstreePage) (index : Z) :
  resolve_offset (volatile_pointer_ (first_root_pointer_ (shared s))) = root ->
  masstree_pages (shared s) !! root = Some pg ->
  is_locked (page_version_ pg) = false ->
  has_foster_child (page_version_ pg) = false ->
  is_border (page_version_ pg) = true ->
  find_key kMaxKeys pg (get_key_count (page_version_ pg)) key [] 8 = index ->
  index <> kMaxKeys ->
  (length (pointer_set_ (current_xct s)) < max_pointer_set_size_ (current_xct s))%nat ->
  exists (s1 : State) (pg1 : MasstreePage),
    reserve_record_normalized env metadata_id_ kMaxKeys kEpochInitialCurrent
      follow_page_pointer adopt_from_child can_accomodate split_foster
      find_key_normalized (S (S fuel)) context key payload_count s
    = Some (Ok (root, index), s1)
    /\ masstree_pages (shared s1) = <[root := pg1]> (masstree_pages (shared s))
    /\ body_ pg1 = body_ pg
    /\ get_key_count (page_version_ pg1) = get_key_count (page_version_ pg)
    /\ is_locked (page_version_ pg1) = false
    /\ free_pages s1 = free_pages s
    /\ thread_log_buffer s1 = thread_log_buffer s
    /\ write_set_ (current_xct s1) = write_set_ (current_xct s).
Proof.
  intros Hroot Hpg Hunlocked Hfoster Hborder Hfound Hindex Hset.
  destruct (get_first_root_single_page fuel context s root pg Hroot Hpg Hunlocked
              Hfoster Hset) as (t & Hfirst & Ht & Hft & Hlt & Hxt).
  destruct (find_border_single_page (S fuel) context 0 true key t root pg
              ltac:(rewrite Ht; exact Hpg) Hunlocked Hfoster Hborder)
    as (t' & Hfind & Ht' & (Hft' & Hxt' & Hlt')).
  destruct (lock_version_flags (page_version_ pg)) as (HfL & _ & HsL & _).
  assert (Hpg' : masstree_pages (shared t') !! root = Some pg)
    by (rewrite Ht', Ht; exact Hpg).
  destruct (tick_quiet env env_quiet t') as (_ & Hsh & (Hf0 & Hx0 & Hl0)).
  unfold reserve_record_normalized, bind. rewrite Hfirst, Hfind.
  cbn [while_true]. unfold bind, reserve_record_normalized_body, bind.
  cbn [lock]. unfold bind.
  rewrite (load_page_quiet env env_quiet root pg t' Hpg'). rewrite Hunlocked.
  unfold put_page at 1. cbv beta iota.
  set (pgL := set_page_version pg (lock_version (page_version_ pg))).
  set (u := set_shared (exec (tick env) t') _).
  assert (HpgL : masstree_pages (shared u) !! root = Some pgL)
    by (apply lookup_insert_eq).
  rewrite (get_page_lookup root pgL u HpgL).
  change (page_version_ pgL) with (lock_version (page_version_ pg)).
  rewrite HsL, Z.eqb_refl. cbn [negb]. cbv beta iota.
  rewrite HfL, Hfoster. cbn [andb]. cbv beta iota.
  rewrite lock_version_key_count.
  rewrite find_key_normalized_is_find_key.
  change (find_key kMaxKeys pgL) with (find_key kMaxKeys pg).
  rewrite Hfound.
  destruct (Z.eqb_spec index kMaxKeys) as [E|_]; [contradiction|].
  cbn [negb]. cbv beta iota.
  rewrite (unlock_lookup root pgL u HpgL). unfold ret.
  eexists _, (set_page_version pgL (unlock_version (page_version_ pgL))).
  split; [reflexivity|].
  split.
  { cbn [shared set_shared masstree_pages set_masstree_pages u].
    rewrite !insert_insert_eq, Hsh, Ht', Ht. reflexivity. }
  split; [reflexivity|].
  split.
  { cbn [page_version_ set_page_version pgL].
    rewrite unlock_version_key_count. apply lock_version_key_count. }
  split; [apply unlock_version_not_locked|].
  cbn [free_pages thread_log_buffer current_xct set_shared u].
  rewrite Hf0, Hx0, Hl0, Hft', Hxt', Hlt', Hft, Hxt, Hlt. repeat split.
Qed.

End SinglePage.

(** A search for an eight-byte key that is [find_key] with no suffix. *)
Lemma reserve_record_normalized_then_lookup_witness :
  exists (s1 s2 s3 : State),
    reserve_record_normalized Scenario.quiet Scenario.metadata_id_ Scenario.kMaxKeys
      Scenario.kEpochInitialCurrent (Scenario.follow_volatile Scenario.quiet)
      Scenario.no_adopt (fun _ _ _ _ => true) (fun _ _ _ => ret kErrorCodeOk)
      (fun page _ count slice => find_key Scenario.kMaxKeys page count slice [] 8)
      2 Scenario.context 12345 8 Scenario.fresh_tree
    = Some (Ok (Scenario.root, 0), s1)
    /\ locate_record Scenario.quiet Scenario.metadata_id_ Scenario.kMaxKeys
         (Scenario.follow_volatile Scenario.quiet) Scenario.no_adopt 2
         Scenario.context [x00; x00; x00; x00; x00; x00; x30; x39] 8 false s1
       = Some (Ok (Scenario.root, 0), s2)
    /\ get_record Scenario.quiet Scenario.metadata_id_ Scenario.kMaxKeys
         (Scenario.follow_volatile Scenario.quiet) Scenario.no_adopt 2
         Scenario.context [x00; x00; x00; x00; x00; x00; x30; x39] 8
         (replicate 8 x00) 8 s1
       = Some ((kErrorCodeStrKeyNotFound, (replicate 8 x00, 8)), s3).
Proof.
  apply (reserve_record_normalized_then_lookup Scenario.quiet Scenario.metadata_id_
           Scenario.kMaxKeys Scenario.kEpochInitialCurrent
           (Scenario.follow_volatile Scenario.quiet) Scenario.no_adopt
           (fun _ _ _ _ => true) (fun _ _ _ => ret kErrorCodeOk)
           (fun page _ count slice => find_key Scenario.kMaxKeys page count slice [] 8)
           (fun n sh => eq_refl) (fun page count slice => eq_refl)
           0 Scenario.context Scenario.context 12345 8
           [x00; x00; x00; x00; x00; x00; x30; x39] (replicate 8 x00) 8
           Scenario.fresh_tree Scenario.root
           (Scenario.page_at Scenario.fresh_tree Scenario.root)
           (replicate 64 empty_slot)).
  all: try (vm_compute; reflexivity).
  - vm_compute. lia.
  - vm_compute. lia.
Defined.

Lemma reserve_record_normalized_existing_key_witness :
  exists (s1 : State) (pg1 : MasstreePage),
    reserve_record_normalized Scenario.quiet Scenario.metadata_id_ Scenario.kMaxKeys
      Scenario.kEpochInitialCurrent (Scenario.follow_volatile Scenario.quiet)
      Scenario.no_adopt (fun _ _ _ _ => true) (fun _ _ _ => ret kErrorCodeOk)
      (fun page _ count slice => find_key Scenario.kMaxKeys page count slice [] 8)
      2 Scenario.context 12345 8
      (exec (reserve_record_normalized Scenario.quiet Scenario.metadata_id_
               Scenario.kMaxKeys Scenario.kEpochInitialCurrent
               (Scenario.follow_volatile Scenario.quiet) Scenario.no_adopt
               (fun _ _ _ _ => true) (fun _ _ _ => ret kErrorCodeOk)
               (fun page _ count slice =>
                  find_key Scenario.kMaxKeys page count slice [] 8)
               2 Scenario.context 12345 8) Scenario.fresh_tree)
    = Some (Ok (Scenario.root, 0), s1)
    /\ get_key_count (page_version_ pg1) = 1.
Proof.
  pose (reserved :=
          exec (reserve_record_normalized Scenario.quiet Scenario.metadata_id_
                  Scenario.kMaxKeys Scenario.kEpochInitialCurrent
                  (Scenario.follow_volatile Scenario.quiet) Scenario.no_adopt
                  (fun _ _ _ _ => true) (fun _ _ _ => ret kErrorCodeOk)
                  (fun page _ count slice =>
                     find_key Scenario.kMaxKeys page count slice [] 8)
                  2 Scenario.context 12345 8) Scenario.fresh_tree).
  destruct (reserve_record_normalized_existing_key Scenario.quiet
              Scenario.metadata_id_ Scenario.kMaxKeys Scenario.kEpochInitialCurrent
              (Scenario.follow_volatile Scenario.quiet) Scenario.no_adopt
              (fun _ _ _ _ => true) (fun _ _ _ => ret kErrorCodeOk)
              (fun page _ count slice => find_key Scenario.kMaxKeys page count slice [] 8)
              (fun n sh => eq_refl) (fun page count slice => eq_refl)
              0 Scenario.context 12345 8 reserved Scenario.root
              (Scenario.page_at reserved Scenario.root) 0)
    as (s1 & pg1 & Hrun & _ & _ & Hcount & _).
  all: try (vm_compute; reflexivity).
  - discriminate.
  - vm_compute. lia.
  - exists s1, pg1. split; [exact Hrun|]. rewrite Hcount. vm_compute. reflexivity.
Defined.

End ReserveNormalizedProofs.

(** * Making room for a new record *)

Module ReserveNewRecordProofs.

Import PageVersion MasstreePageImpl Memory XctImpl MasstreeStoragePimpl.
Import PageVersionFacts MemoryFacts FrameFacts.

Section NewRecord.

Variable kEpochInitialCurrent : Z.
Variable can_accomodate : MasstreePage -> Z -> Z -> Z -> bool.
Variable split_foster : Thread -> PageAddr -> KeySlice -> M ErrorCode.

(** X17: [reserve_record_new_record] on a page that cannot take the record.
    The page is split; an error of the split is returned as it is.  After a
    split, which leaves the page with a foster child, the record goes to the
    foster child when the key is at or above the foster fence and stays in the
    page otherwise.  If that target cannot take
    the record either, the code is the too-long-payload code and nothing is
    reserved: only the foster child's version word changes, by its unlock.
    Otherwise the index returned is the target's key count after the split,
    the slot at that index holds the key with an owner-id that is deleted, the
    target's key count is one more, and the foster child is left unlocked.
    [s1] is the state the split leaves. *)
Theorem reserve_record_new_record_after_split
    (context : Thread) (border : PageAddr) (key : KeySlice) (remaining : Z)
    (suffix : list byte) (payload_count : Z) (s s1 : State) (e : ErrorCode)
    (border_page : MasstreePage) :
  masstree_pages (shared s) !! border = Some border_page ->
  can_accomodate border_page (get_key_count (page_version_ border_page)) remaining
    payload_count = false ->
  split_foster context border key s = Some (e, s1) ->
  (e <> kErrorCodeOk ->
   reserve_record_new_record kEpochInitialCurrent can_accomodate split_foster context
     border key remaining suffix payload_count s = Some (Err e, s1))
  /\ (e = kErrorCodeOk ->
      forall (split_page foster_page target_page : MasstreePage)
             (foster_child : PageAddr),
        masstree_pages (shared s1) !! border = Some split_page ->
        foster_child_ split_page = Some foster_child ->
        has_foster_child (page_version_ split_page) = true ->
        masstree_pages (shared s1) !! foster_child = Some foster_page ->
        let target :=
          if within_foster_child split_page key then foster_child else border in
        masstree_pages (shared s1) !! target = Some target_page ->
        let count := get_key_count (page_version_ target_page) in
        (can_accomodate target_page count remaining payload_count = false ->
         exists s' : State,
           reserve_record_new_record kEpochInitialCurrent can_accomodate split_foster
             context border key remaining suffix payload_count s
           = Some (Err kErrorCodeStrTooLongPayload, s')
           /\ reads_only s1 s'
           /\ masstree_pages (shared s')
              = <[foster_child :=
                    set_page_version foster_page
                      (unlock_version (page_version_ foster_page))]>
                  (masstree_pages (shared s1)))
        /\ (can_accomodate target_page count remaining payload_count = true ->
            forall slots : list BorderSlot,
              body_ target_page = BorderBody slots ->
              (Z.to_nat count < length slots)%nat ->
              count + 1 < 2 ^ kPageVersionKeyCountBits ->
              exists (s' : State) (target_page' foster_page' : MasstreePage)
                     (slot : BorderSlot),
                reserve_record_new_record kEpochInitialCurrent can_accomodate
                  split_foster context border key remaining suffix payload_count s
                = Some (Ok (target, count), s')
                /\ masstree_pages (shared s') !! target = Some target_page'
                /\ get_key_count (page_version_ target_page') = count + 1
                /\ get_slot target_page' count = Some slot
                /\ slice_ slot = key
                /\ remaining_key_length_ slot = remaining
                /\ XctId.is_deleted (owner_id_ slot) = true
                /\ masstree_pages (shared s') !! foster_child = Some foster_page'
                /\ is_locked (page_version_ foster_page') = false)).
Proof.
  intros Hborder Hfull Hsplit.
  unfold reserve_record_new_record, bind.
  rewrite (get_page_lookup border border_page s Hborder), Hfull, Hsplit.
  split.
  - intros Hne. destruct (decide (e = kErrorCodeOk)); [contradiction|reflexivity].
  - intros E. subst e.
    intros split_page foster_page target_page foster_child Hsplit_page Hfoster
      _ Hfoster_page.
    set (target := if within_foster_child split_page key then foster_child
                   else border).
    intros Htarget.
    set (count := get_key_count (page_version_ target_page)).
    destruct (decide (kErrorCodeOk = kErrorCodeOk)) as [_|Hne]; [|contradiction].
    rewrite (get_page_lookup border split_page s1 Hsplit_page), Hfoster.
    fold target. rewrite (get_page_lookup target target_page s1 Htarget).
    fold count. split.
    + intros Hfull'. rewrite Hfull'. cbn [negb].
      rewrite (unlock_lookup foster_child foster_page s1 Hfoster_page).
      unfold ret. eexists. split; [reflexivity|]. split; [repeat split|reflexivity].
    + intros Hfits slots Hbody Hcount Hroom. rewrite Hfits. cbn [negb].
      unfold reserve_record_new_record_apply, bind.
      rewrite (get_page_lookup target target_page s1 Htarget).
      unfold put_page at 1. cbv beta iota.
      match goal with
      | |- context [unlock foster_child
                      (set_shared s1 (set_masstree_pages _ (<[target:=?page]> _)))] =>
          set (reserved := page)
      end.
      match goal with
      | |- context [unlock foster_child ?st] => set (s2 := st)
      end.
      assert (Hreserved : masstree_pages (shared s2) !! target = Some reserved)
        by (apply lookup_insert_eq).
      assert (Hversion : get_key_count (page_version_ reserved) = count + 1).
      { unfold reserved, reserve_record_space. rewrite page_version_set_slot.
        cbn [page_version_ set_page_version].
        apply set_inserting_and_increment_key_count_key_count. exact Hroom. }
      assert (Hslot : exists slot,
                 get_slot reserved count = Some slot
                 /\ slice_ slot = key /\ remaining_key_length_ slot = remaining
                 /\ XctId.is_deleted (owner_id_ slot) = true).
      { eexists. split.
        - unfold reserved, reserve_record_space.
          apply (get_slot_set_slot _ slots); [exact Hbody|exact Hcount].
        - repeat split. }
      destruct Hslot as (slot & Hslot & Hkey & Hremaining & Hdeleted).
      destruct (decide (target = foster_child)) as [Heq|Hneq].
      * rewrite <- Heq.
        rewrite (unlock_lookup target reserved s2 Hreserved). unfold ret.
        eexists _, (set_page_version reserved (unlock_version (page_version_ reserved))),
          (set_page_version reserved (unlock_version (page_version_ reserved))), slot.
        split; [reflexivity|].
        split; [apply lookup_insert_eq|].
        split; [cbn [page_version_ set_page_version];
                rewrite unlock_version_key_count; exact Hversion|].
        split; [exact Hslot|]. split; [exact Hkey|]. split; [exact Hremaining|].
        split; [exact Hdeleted|]. split; [apply lookup_insert_eq|].
        apply unlock_version_not_locked.
      * assert (Hfoster2 : masstree_pages (shared s2) !! foster_child
                           = Some foster_page).
        { cbn [s2 shared set_shared masstree_pages set_masstree_pages].
          rewrite lookup_insert_ne by exact Hneq. exact Hfoster_page. }
        rewrite (unlock_lookup foster_child foster_page s2 Hfoster2). unfold ret.
        eexists _, reserved,
          (set_page_version foster_page (unlock_version (page_version_ foster_page))),
          slot.
        split; [reflexivity|].
        split.
        { cbn [shared set_shared masstree_pages set_masstree_pages].
          rewrite lookup_insert_ne by (intros E; apply Hneq; symmetry; exact E).
          exact Hreserved. }
        split; [exact Hversion|].
        split; [exact Hslot|]. split; [exact Hkey|]. split; [exact Hremaining|].
        split; [exact Hdeleted|]. split; [apply lookup_insert_eq|].
        apply unlock_version_not_locked.
Qed.

End NewRecord.

(** A root already split at slice 100, a page that takes a record only when
    it has no foster child, and the key 150: the record goes to the foster
    child. *)
Lemma reserve_record_new_record_after_split_witness :
  exists s' : State,
    reserve_record_new_record Scenario.kEpochInitialCurrent
      (fun page _ _ _ => negb (has_foster_child (page_version_ page)))
      (fun _ _ _ => ret kErrorCodeOk) Scenario.context Scenario.root 150 8 [] 8
      Scenario.split_root_tree
    = Some (Ok (Scenario.foster, 0), s').
Proof.
  destruct (proj2 (reserve_record_new_record_after_split
                     Scenario.kEpochInitialCurrent
                     (fun page _ _ _ => negb (has_foster_child (page_version_ page)))
                     (fun _ _ _ => ret kErrorCodeOk) Scenario.context Scenario.root
                     150 8 [] 8 Scenario.split_root_tree Scenario.split_root_tree
                     kErrorCodeOk
                     (Scenario.page_at Scenario.split_root_tree Scenario.root)
                     ltac:(vm_compute; reflexivity) ltac:(vm_compute; reflexivity)
                     eq_refl)
              eq_refl
              (Scenario.page_at Scenario.split_root_tree Scenario.root)
              (Scenario.page_at Scenario.split_root_tree Scenario.foster)
              (Scenario.page_at Scenario.split_root_tree Scenario.foster)
              Scenario.foster
              ltac:(vm_compute; reflexivity) ltac:(vm_compute; reflexivity)
              ltac:(vm_compute; reflexivity) ltac:(vm_compute; reflexivity)
              ltac:(vm_compute; reflexivity))
    as [_ Hfits].
  destruct (Hfits ltac:(vm_compute; reflexivity) (replicate 64 empty_slot)
              ltac:(vm_compute; reflexivity) ltac:(vm_compute; lia)
              ltac:(vm_compute; reflexivity))
    as (s' & _ & _ & _ & Hrun & _).
  exists s'. exact Hrun.
Defined.

End ReserveNewRecordProofs.

(** * The key search of a hash data page *)

Module HashSearchProofs.

Import HashPageImpl.

Lemma bytes_eqb_eq (a b : list byte) :
  MasstreePageImpl.bytes_eqb a b = true <-> a = b.
Proof.
  revert b. induction a as [|x a IH]; intros [|y b]; simpl;
    try (split; [discriminate|discriminate]); [split; reflexivity|].
  rewrite andb_true_iff, IH. split.
  - intros [Hxy ->]. apply Byte.byte_dec_bl in Hxy. subst. reflexivity.
  - intros [= -> ->]. split; [apply Byte.byte_dec_lb|]; reflexivity.
Qed.

Section SearchKey.

Variable BloomFilter Fingerprint : Type.
Variable contains : BloomFilter -> Fingerprint -> bool.
Variable record_from_offset : Z -> list byte.
Variable kSlotNotFound : Z.

(** The scan from [i] on: a slot returned is in range, is a slot of the key,
    and is the first such slot; the not-found value means no slot in range is
    a slot of the key. *)
Lemma search_key_from_returns (slots : list Slot) (hash : Z) (key : list byte)
    (key_length : Z) (n : nat) :
  forall (i r : Z),
    0 <= i ->
    search_key_from record_from_offset kSlotNotFound slots hash key key_length n i
    = Some r ->
    (i <= r < i + Z.of_nat n
     /\ slot_holds_key record_from_offset slots hash key key_length r
     /\ forall j, i <= j < r ->
                  ~ slot_holds_key record_from_offset slots hash key key_length j)
    \/ (r = kSlotNotFound
        /\ forall j, i <= j < i + Z.of_nat n ->
                     ~ slot_holds_key record_from_offset slots hash key key_length j).
Proof.
  induction n as [|n IH]; intros i r Hi; simpl.
  - intros [= <-]. right. split; [reflexivity|]. intros j Hj. lia.
  - destruct (slots !! Z.to_nat i) as [s|] eqn:Hs; [|discriminate].
    assert (Hskip :
              ~ (hash_ s = hash /\ key_length_ s = key_length
                 /\ XctId.is_moved (tid_ s) = false
                 /\ take (Z.to_nat key_length) (record_from_offset (offset_ s))
                    = take (Z.to_nat key_length) key) ->
              search_key_from record_from_offset kSlotNotFound slots hash key
                key_length n (i + 1) = Some r ->
              (i <= r < i + Z.of_nat (S n)
               /\ slot_holds_key record_from_offset slots hash key key_length r
               /\ forall j, i <= j < r ->
                            ~ slot_holds_key record_from_offset slots hash key
                                key_length j)
              \/ (r = kSlotNotFound
                  /\ forall j, i <= j < i + Z.of_nat (S n) ->
                               ~ slot_holds_key record_from_offset slots hash key
                                   key_length j)).
    { intros Hnot Hrun.
      assert (Hhere : ~ slot_holds_key record_from_offset slots hash key key_length i).
      { intros (s0 & Hs0 & Hrest). rewrite Hs in Hs0. injection Hs0 as <-.
        exact (Hnot Hrest). }
      destruct (IH (i + 1) r ltac:(lia) Hrun) as [(Hr & Hkey & Hfirst)|(-> & Hnone)].
      - left. split; [lia|]. split; [exact Hkey|].
        intros j Hj. destruct (Z.eq_dec j i) as [->|E]; [exact Hhere|].
        apply Hfirst. lia.
      - right. split; [reflexivity|].
        intros j Hj. destruct (Z.eq_dec j i) as [->|E]; [exact Hhere|].
        apply Hnone. lia. }
    destruct (Z.eqb_spec (hash_ s) hash) as [Hhash|Hhash]; cbn [negb orb].
    2:{ apply Hskip. intros (H1 & _). congruence. }
    destruct (Z.eqb_spec (key_length_ s) key_length) as [Hlen|Hlen]; cbn [negb orb].
    2:{ apply Hskip. intros (_ & H2 & _). congruence. }
    destruct (XctId.is_moved (tid_ s)) eqn:Hmoved.
    { apply Hskip. intros (_ & _ & H3 & _). congruence. }
    cbn [andb]. unfold memcmp_eq.
    destruct (MasstreePageImpl.bytes_eqb
                (take (Z.to_nat key_length) (record_from_offset (offset_ s)))
                (take (Z.to_nat key_length) key)) eqn:Hcmp.
    + apply bytes_eqb_eq in Hcmp.
      intros [= <-]. left. split; [lia|]. split.
      * exists s. repeat split; assumption.
      * intros j Hj. lia.
    + apply Hskip. intros (_ & _ & _ & H4). apply bytes_eqb_eq in H4. congruence.
Qed.

(** The scan reads no slot beyond the list when the count is within it. *)
Lemma search_key_from_total (slots : list Slot) (hash : Z) (key : list byte)
    (key_length : Z) (n : nat) :
  forall i : Z,
    0 <= i -> (Z.to_nat i + n <= length slots)%nat ->
    exists r : Z,
      search_key_from record_from_offset kSlotNotFound slots hash key key_length n i
      = Some r.
Proof.
  induction n as [|n IH]; intros i Hi Hlen; simpl.
  - eexists. reflexivity.
  - destruct (lookup_lt_is_Some_2 slots (Z.to_nat i) ltac:(lia)) as [s ->].
    destruct (IH (i + 1) ltac:(lia) ltac:(lia)) as [r Hr]. rewrite Hr.
    destruct (negb (hash_ s =? hash) || negb (key_length_ s =? key_length)
              || XctId.is_moved (tid_ s)); [eexists; reflexivity|].
    destruct (XctId.is_moved (tid_ s)); [eexists; reflexivity|].
    destruct ((key_length_ s =? key_length) && memcmp_eq _ key key_length);
      eexists; reflexivity.
Qed.

(** X18: [HashDataPage::search_key] with a record count within the slots of
    the page and below the not-found value.  It returns; when the bloom filter
    does not contain the fingerprint it returns the not-found value; an index
    it returns is below the record count and is the first slot that carries
    the hash and the key length, is not moved, and holds the key's bytes; and
    when the bloom filter contains the fingerprint the not-found value means
    that no slot below the record count is such a slot. *)
Theorem search_key_finds_first_slot
    (bloom_filter_ : BloomFilter) (slots : list Slot) (hash : Z)
    (fingerprint : Fingerprint) (key : list byte) (key_length record_count : Z) :
  0 <= record_count <= kSlotNotFound ->
  (Z.to_nat record_count <= length slots)%nat ->
  exists r : Z,
    search_key BloomFilter Fingerprint contains record_from_offset kSlotNotFound
      bloom_filter_ slots hash
      fingerprint key key_length record_count = Some r
    /\ (contains bloom_filter_ fingerprint = false -> r = kSlotNotFound)
    /\ (r <> kSlotNotFound ->
        0 <= r < record_count
        /\ slot_holds_key record_from_offset slots hash key key_length r
        /\ forall j, 0 <= j < r ->
                     ~ slot_holds_key record_from_offset slots hash key key_length j)
    /\ (contains bloom_filter_ fingerprint = true -> r = kSlotNotFound ->
        forall j, 0 <= j < record_count ->
                  ~ slot_holds_key record_from_offset slots hash key key_length j).
Proof.
  intros Hcount Hlen. unfold search_key.
  destruct (contains bloom_filter_ fingerprint); cbn [negb].
  - destruct (search_key_from_total slots hash key key_length (Z.to_nat record_count)
                0 ltac:(lia) ltac:(simpl; lia)) as [r Hr].
    exists r. split; [exact Hr|]. split; [discriminate|].
    destruct (search_key_from_returns slots hash key key_length _ 0 r ltac:(lia) Hr)
      as [(Hrange & Hkey & Hfirst)|(-> & Hnone)].
    + split; [intros _; split; [lia|split; assumption]|].
      intros _ ->. lia.
    + split; [intros Hne; contradiction|].
      intros _ _ j Hj. apply Hnone. lia.
  - exists kSlotNotFound. split; [reflexivity|]. split; [reflexivity|].
    split; [intros Hne; contradiction|discriminate].
Qed.

End SearchKey.

(** Two slots with the hash 9, the first one moved: the search returns the
    second. *)
Lemma search_key_finds_first_slot_witness :
  exists r : Z,
    search_key unit unit (fun _ _ => true)
      (fun offset => drop (Z.to_nat offset) [x61; x62; x63; x61; x62; x63])
      65535 tt
      [mkSlot 0 9 3 (XctId.mk 1 1 1 false false true);
       mkSlot 3 9 3 (XctId.mk 1 1 1 false false false)]
      9 tt [x61; x62; x63] 3 2 = Some r
    /\ (r <> 65535 -> 0 <= r < 2).
Proof.
  destruct (search_key_finds_first_slot unit unit (fun _ _ => true)
              (fun offset => drop (Z.to_nat offset) [x61; x62; x63; x61; x62; x63])
              65535 tt
              [mkSlot 0 9 3 (XctId.mk 1 1 1 false false true);
               mkSlot 3 9 3 (XctId.mk 1 1 1 false false false)]
              9 tt [x61; x62; x63] 3 2 ltac:(lia) ltac:(simpl; lia))
    as (r & Hrun & _ & Hfound & _).
  exists r. split; [exact Hrun|]. intros Hne. exact (proj1 (Hfound Hne)).
Defined.

End HashSearchProofs.

(** * Releasing the pages of an array storage *)

Module ArrayReleaseProofs.

Import ArrayStoragePimpl.

Lemma zeroed_refl (pointer : DualPagePointer) : zeroed pointer pointer.
Proof. left. reflexivity. Qed.

Lemma zeroed_trans (p1 p2 p3 : DualPagePointer) :
  zeroed p1 p2 -> zeroed p2 p3 -> zeroed p1 p3.
Proof.
  intros [->| ->] [->| ->]; simpl; [left|right|right|right]; reflexivity.
Qed.

Lemma zeroed_offset (pointer pointer' : DualPagePointer) :
  zeroed pointer pointer' ->
  offset (volatile_pointer_ pointer') <> 0 ->
  volatile_pointer_ pointer' = volatile_pointer_ pointer.
Proof. intros [->| ->]; simpl; [reflexivity|]. intros H. now destruct H. Qed.

Lemma zeroed_stays_null (pointer pointer' : DualPagePointer) :
  zeroed pointer pointer' ->
  offset (volatile_pointer_ pointer) = 0 ->
  offset (volatile_pointer_ pointer') = 0.
Proof. intros [->| ->]; simpl; auto. Qed.

Lemma cleared_page_refl (pg : ArrayPage) : cleared_page pg pg.
Proof.
  destruct pg as [records|interior]; simpl; [reflexivity|].
  apply Forall2_same_length_lookup. split; [reflexivity|].
  intros i x y Hx Hy. rewrite Hx in Hy. injection Hy as <-. apply zeroed_refl.
Qed.

Lemma cleared_page_trans (pg1 pg2 pg3 : ArrayPage) :
  cleared_page pg1 pg2 -> cleared_page pg2 pg3 -> cleared_page pg1 pg3.
Proof.
  destruct pg1, pg2, pg3; simpl; try tauto; [congruence|].
  intros H12 H23.
  apply Forall2_same_length_lookup.
  apply Forall2_same_length_lookup in H12 as [Hl12 H12].
  apply Forall2_same_length_lookup in H23 as [Hl23 H23].
  split; [congruence|].
  intros i x z Hx Hz.
  destruct (lookup_lt_is_Some_2 interior0 i) as [y Hy].
  { rewrite <- Hl12. eapply lookup_lt_Some; eassumption. }
  eapply zeroed_trans; eauto.
Qed.

Lemma cleared_refl (pages : gmap PageAddr ArrayPage) : cleared pages pages.
Proof.
  intros p. destruct (pages !! p); [apply cleared_page_refl|exact I].
Qed.

Lemma cleared_trans (m1 m2 m3 : gmap PageAddr ArrayPage) :
  cleared m1 m2 -> cleared m2 m3 -> cleared m1 m3.
Proof.
  intros H12 H23 p. specialize (H12 p). specialize (H23 p).
  destruct (m1 !! p), (m2 !! p), (m3 !! p); try tauto.
  eapply cleared_page_trans; eassumption.
Qed.

Lemma cleared_zero_pointer (pages : gmap PageAddr ArrayPage) (page : PageAddr)
    (interior : list DualPagePointer) (i : nat) (pointer : DualPagePointer) :
  pages !! page = Some (ArrayInterior interior) ->
  interior !! i = Some pointer ->
  cleared pages
    (<[page := ArrayInterior
                 (<[i := mkDualPagePointer (snapshot_pointer_ pointer)
                           null_volatile_pointer]> interior)]> pages).
Proof.
  intros Hpage Hi p.
  destruct (decide (p = page)) as [->|Hne].
  - rewrite Hpage, lookup_insert_eq. simpl.
    apply Forall2_same_length_lookup. split.
    { now rewrite length_insert. }
    intros j x y Hx Hy.
    destruct (decide (j = i)) as [->|Hji].
    + rewrite list_lookup_insert_eq in Hy by (eapply lookup_lt_Some; eassumption).
      injection Hy as <-. rewrite Hi in Hx. injection Hx as <-.
      right. reflexivity.
    + rewrite list_lookup_insert_ne in Hy by congruence.
      rewrite Hx in Hy. injection Hy as <-. apply zeroed_refl.
  - rewrite lookup_insert_ne by congruence.
    destruct (pages !! p); [apply cleared_page_refl|exact I].
Qed.

Lemma cleared_interior (pages pages' : gmap PageAddr ArrayPage) (page : PageAddr)
    (interior : list DualPagePointer) :
  cleared pages pages' ->
  pages !! page = Some (ArrayInterior interior) ->
  exists interior', pages' !! page = Some (ArrayInterior interior')
                    /\ Forall2 zeroed interior interior'.
Proof.
  intros Hc Hpage. specialize (Hc page). rewrite Hpage in Hc.
  destruct (pages' !! page) as [[records|interior']|]; simpl in Hc; try tauto.
  exists interior'. split; [reflexivity|assumption].
Qed.

Section Release.

Variable kInteriorFanout : Z.

Lemma well_formed_cleared (depth : nat) :
  forall (page : PageAddr) (pages pages' : gmap PageAddr ArrayPage),
    well_formed kInteriorFanout depth page pages ->
    cleared pages pages' ->
    well_formed kInteriorFanout depth page pages'.
Proof.
  induction depth as [|depth IH]; intros page pages pages' Hwf Hc; simpl in *.
  - destruct Hwf as [records Hpage]. specialize (Hc page). rewrite Hpage in Hc.
    destruct (pages' !! page) as [[records'|interior']|]; simpl in Hc; try tauto.
    subst. eauto.
  - destruct Hwf as (interior & Hpage & Hlen & Hchildren).
    destruct (cleared_interior _ _ _ _ Hc Hpage) as (interior' & Hpage' & Hz).
    apply Forall2_same_length_lookup in Hz as [Hl Hz].
    exists interior'. split; [assumption|]. split; [lia|].
    intros j pointer' Hj Hpointer' Hoff.
    destruct (lookup_lt_is_Some_2 interior j) as [pointer Hpointer].
    { rewrite Hl. eapply lookup_lt_Some; eassumption. }
    pose proof (zeroed_offset _ _ (Hz _ _ _ Hpointer Hpointer') Hoff) as Hsame.
    rewrite Hsame in Hoff |- *.
    eapply IH; [|eassumption].
    exact (Hchildren j pointer Hj Hpointer Hoff).
Qed.

(** The loop over the pointers of an interior page, given that the recursive
    call does its work on every tree one level lower. *)
Lemma release_children_returns
    (recurse : PageReleaseBatch -> PageAddr -> VolatilePagePointer ->
               gmap PageAddr ArrayPage ->
               option (PageReleaseBatch * gmap PageAddr ArrayPage))
    (depth : nat) (page : PageAddr)
    (Hrecurse : forall batch child child_id pages,
        well_formed kInteriorFanout depth child pages ->
        exists released pages',
          recurse batch child child_id pages = Some (batch ++ released, pages')
          /\ cleared pages pages') :
  forall (n i : nat) (batch : PageReleaseBatch) (pages : gmap PageAddr ArrayPage),
    well_formed kInteriorFanout (S depth) page pages ->
    (i + n <= Z.to_nat kInteriorFanout)%nat ->
    exists released pages',
      release_children recurse page n (Z.of_nat i) batch pages
      = Some (batch ++ released, pages')
      /\ cleared pages pages'
      /\ forall interior (j : nat) pointer,
           pages' !! page = Some (ArrayInterior interior) ->
           (i <= j < i + n)%nat ->
           interior !! j = Some pointer ->
           offset (volatile_pointer_ pointer) = 0.
Proof.
  induction n as [|n IH]; intros i batch pages Hwf Hin.
  - exists [], pages. simpl. rewrite app_nil_r.
    split; [reflexivity|]. split; [apply cleared_refl|]. intros; lia.
  - pose proof Hwf as (interior & Hpage & Hlen & Hchildren).
    destruct (lookup_lt_is_Some_2 interior i) as [child_pointer Hchild]; [lia|].
    cbn [release_children]. rewrite Hpage, Nat2Z.id, Hchild.
    replace (Z.of_nat i + 1) with (Z.of_nat (S i)) by lia.
    destruct (offset (volatile_pointer_ child_pointer) =? 0) eqn:Hnull; cbn [negb].
    + apply Z.eqb_eq in Hnull.
      destruct (IH (S i) batch pages Hwf ltac:(lia))
        as (released & pages' & Hrun & Hc & Hzero).
      exists released, pages'. split; [exact Hrun|]. split; [exact Hc|].
      intros interior' j pointer Hpage' Hj Hpointer.
      destruct (decide (j = i)) as [->|Hji].
      * destruct (cleared_interior _ _ _ _ Hc Hpage) as (interior'' & Hpage'' & Hz).
        rewrite Hpage' in Hpage''. injection Hpage'' as <-.
        apply Forall2_same_length_lookup in Hz as [_ Hz].
        exact (zeroed_stays_null _ _ (Hz _ _ _ Hchild Hpointer) Hnull).
      * eapply Hzero; [eassumption| |eassumption]. lia.
    + apply Z.eqb_neq in Hnull.
      destruct (Hrecurse batch (resolve_offset (volatile_pointer_ child_pointer))
                  (volatile_pointer_ child_pointer) pages)
        as (released1 & pages1 & Hrun1 & Hc1).
      { eapply Hchildren; [|eassumption|assumption]. lia. }
      rewrite Hrun1.
      destruct (cleared_interior _ _ _ _ Hc1 Hpage) as (interior1 & Hpage1 & Hz1).
      rewrite Hpage1.
      destruct (lookup_lt_is_Some_2 interior1 i) as [pointer1 Hpointer1].
      { apply Forall2_length in Hz1. lia. }
      rewrite Hpointer1.
      set (pages2 := <[page := _]> pages1).
      assert (Hc2 : cleared pages1 pages2)
        by (apply cleared_zero_pointer; assumption).
      assert (Hc12 : cleared pages pages2) by (eapply cleared_trans; eassumption).
      destruct (IH (S i) (batch ++ released1) pages2
                  (well_formed_cleared _ _ _ _ Hwf Hc12) ltac:(lia))
        as (released & pages' & Hrun & Hc & Hzero).
      exists (released1 ++ released), pages'.
      rewrite app_assoc. split; [exact Hrun|].
      split; [eapply cleared_trans; eassumption|].
      intros interior' j pointer Hpage' Hj Hpointer.
      destruct (decide (j = i)) as [->|Hji].
      * assert (Hpage2 : pages2 !! page
                         = Some (ArrayInterior
                                   (<[i := mkDualPagePointer
                                             (snapshot_pointer_ pointer1)
                                             null_volatile_pointer]> interior1)))
          by (unfold pages2; apply lookup_insert_eq).
        destruct (cleared_interior _ _ _ _ Hc Hpage2) as (interior'' & Hpage'' & Hz).
        rewrite Hpage' in Hpage''. injection Hpage'' as <-.
        apply Forall2_same_length_lookup in Hz as [_ Hz].
        refine (zeroed_stays_null _ _ (Hz i _ _ _ Hpointer) _).
        { apply list_lookup_insert_eq. eapply lookup_lt_Some; eassumption. }
        reflexivity.
      * eapply Hzero; [eassumption| |eassumption]. lia.
Qed.

(** What is released, relative to the memory [pages0] the release started
    from. *)
Section Coverage.

Variable pages0 : gmap PageAddr ArrayPage.

Lemma cleared_interior_before (pages : gmap PageAddr ArrayPage) (page : PageAddr)
    (interior : list DualPagePointer) :
  cleared pages0 pages ->
  pages !! page = Some (ArrayInterior interior) ->
  exists interior0, pages0 !! page = Some (ArrayInterior interior0)
                    /\ Forall2 zeroed interior0 interior.
Proof.
  intros Hc Hpage. specialize (Hc page). rewrite Hpage in Hc.
  destruct (pages0 !! page) as [[records|interior0]|]; simpl in Hc; try tauto.
  exists interior0. split; [reflexivity|assumption].
Qed.

Lemma released_all_more (acc more : list VolatilePagePointer)
    (pointer0 : DualPagePointer) :
  released_all kInteriorFanout pages0 acc pointer0 ->
  released_all kInteriorFanout pages0 (acc ++ more) pointer0.
Proof.
  intros [Hid Hbelow]. split.
  - apply in_or_app. left. exact Hid.
  - intros id Hb. apply in_or_app. left. exact (Hbelow id Hb).
Qed.

Lemma covered_more (pages : gmap PageAddr ArrayPage)
    (acc more : list VolatilePagePointer) :
  covered kInteriorFanout pages0 pages acc ->
  covered kInteriorFanout pages0 pages (acc ++ more).
Proof.
  intros Hcov p interior0 interior j pointer0 pointer H1 H2 H3 H4 H5 H6 H7.
  apply released_all_more. exact (Hcov p _ _ j _ _ H1 H2 H3 H4 H5 H6 H7).
Qed.

(** Zeroing a pointer whose pages have been released keeps the account. *)
Lemma covered_zero_pointer (pages : gmap PageAddr ArrayPage) (page : PageAddr)
    (interior0 interior : list DualPagePointer) (i : nat)
    (pointer0 pointer : DualPagePointer) (acc : list VolatilePagePointer) :
  covered kInteriorFanout pages0 pages acc ->
  pages0 !! page = Some (ArrayInterior interior0) ->
  pages !! page = Some (ArrayInterior interior) ->
  interior0 !! i = Some pointer0 ->
  interior !! i = Some pointer ->
  released_all kInteriorFanout pages0 acc pointer0 ->
  covered kInteriorFanout pages0
    (<[page := ArrayInterior
                 (<[i := mkDualPagePointer (snapshot_pointer_ pointer)
                           null_volatile_pointer]> interior)]> pages) acc.
Proof.
  intros Hcov Hpage0 Hpage Hi0 Hi Hall p int0 int j q0 q Hp0 Hp Hj Hq0 Hq Hne Hnull.
  destruct (decide (p = page)) as [->|Hother].
  - rewrite lookup_insert_eq in Hp. injection Hp as <-.
    rewrite Hpage0 in Hp0. injection Hp0 as <-.
    destruct (decide (j = i)) as [->|Hji].
    + rewrite Hi0 in Hq0. injection Hq0 as <-. exact Hall.
    + rewrite list_lookup_insert_ne in Hq by congruence.
      exact (Hcov page _ _ j _ _ Hpage0 Hpage Hj Hq0 Hq Hne Hnull).
  - rewrite lookup_insert_ne in Hp by congruence.
    exact (Hcov p _ _ j _ _ Hp0 Hp Hj Hq0 Hq Hne Hnull).
Qed.

(** What the loop over the pointers of an interior page releases, given what
    the recursive call releases on every tree one level lower. *)
Lemma release_children_covers
    (recurse : PageReleaseBatch -> PageAddr -> VolatilePagePointer ->
               gmap PageAddr ArrayPage ->
               option (PageReleaseBatch * gmap PageAddr ArrayPage))
    (page : PageAddr) (interior0 : list DualPagePointer)
    (Hpage0 : pages0 !! page = Some (ArrayInterior interior0))
    (Hrecurse : forall batch acc child child_id pages batch' pages',
        cleared pages0 pages ->
        covered kInteriorFanout pages0 pages acc ->
        recurse batch child child_id pages = Some (batch', pages') ->
        exists released,
          batch' = batch ++ released ++ [child_id]
          /\ cleared pages pages'
          /\ covered kInteriorFanout pages0 pages' (acc ++ released ++ [child_id])
          /\ (forall id, below kInteriorFanout pages0 child id ->
                         In id (acc ++ released))
          /\ (forall id, In id released -> below kInteriorFanout pages0 child id)) :
  forall (n i : nat) (batch : PageReleaseBatch) (acc : list VolatilePagePointer)
         (pages : gmap PageAddr ArrayPage) (batch' : PageReleaseBatch)
         (pages' : gmap PageAddr ArrayPage),
    cleared pages0 pages ->
    covered kInteriorFanout pages0 pages acc ->
    (i + n <= Z.to_nat kInteriorFanout)%nat ->
    release_children recurse page n (Z.of_nat i) batch pages = Some (batch', pages') ->
    exists released,
      batch' = batch ++ released
      /\ cleared pages pages'
      /\ covered kInteriorFanout pages0 pages' (acc ++ released)
      /\ (forall (j : nat) (pointer0 : DualPagePointer),
             (i <= j < i + n)%nat ->
             interior0 !! j = Some pointer0 ->
             offset (volatile_pointer_ pointer0) <> 0 ->
             released_all kInteriorFanout pages0 (acc ++ released) pointer0)
      /\ (forall id, In id released -> below kInteriorFanout pages0 page id).
Proof.
  induction n as [|n IH]; intros i batch acc pages batch' pages' Hc0 Hcov Hin.
  - simpl. intros [= <- <-]. exists []. rewrite !app_nil_r.
    split; [reflexivity|]. split; [apply cleared_refl|]. split; [exact Hcov|].
    split; [intros; lia|]. intros id [].
  - cbn [release_children].
    destruct (pages !! page) as [[records|interior]|] eqn:Hpage;
      [discriminate| |discriminate].
    rewrite Nat2Z.id.
    destruct (interior !! i) as [child_pointer|] eqn:Hchild; [|discriminate].
    replace (Z.of_nat i + 1) with (Z.of_nat (S i)) by lia.
    destruct (cleared_interior_before _ _ _ Hc0 Hpage)
      as (interior0' & Hpage0' & Hz0).
    rewrite Hpage0 in Hpage0'. injection Hpage0' as <-.
    apply Forall2_same_length_lookup in Hz0 as [Hlen0 Hz0].
    destruct (lookup_lt_is_Some_2 interior0 i) as [pointer0 Hpointer0].
    { rewrite Hlen0. eapply lookup_lt_Some; eassumption. }
    pose proof (Hz0 _ _ _ Hpointer0 Hchild) as Hzeroed.
    destruct (offset (volatile_pointer_ child_pointer) =? 0) eqn:Hnull; cbn [negb].
    + apply Z.eqb_eq in Hnull. intros Hrun.
      destruct (IH (S i) batch acc pages batch' pages' Hc0 Hcov ltac:(lia) Hrun)
        as (released & -> & Hc & Hcov' & Hrest & Hsound).
      exists released. split; [reflexivity|]. split; [exact Hc|].
      split; [exact Hcov'|]. split; [|exact Hsound].
      intros j q0 Hj Hq0 Hne.
      destruct (decide (j = i)) as [->|Hji]; [|apply (Hrest j); [lia|assumption..]].
      rewrite Hpointer0 in Hq0. injection Hq0 as <-.
      apply released_all_more.
      exact (Hcov page _ _ i _ _ Hpage0 Hpage ltac:(lia) Hpointer0 Hchild Hne Hnull).
    + apply Z.eqb_neq in Hnull.
      pose proof (zeroed_offset _ _ Hzeroed Hnull) as Hsame.
      assert (Hne0 : offset (volatile_pointer_ pointer0) <> 0)
        by (rewrite <- Hsame; exact Hnull).
      destruct (recurse batch (resolve_offset (volatile_pointer_ child_pointer))
                  (volatile_pointer_ child_pointer) pages)
        as [[batch1 pages1]|] eqn:Hrun1; [|discriminate].
      destruct (Hrecurse _ acc _ _ _ _ _ Hc0 Hcov Hrun1)
        as (released1 & -> & Hc1 & Hcov1 & Hcomplete1 & Hsound1).
      destruct (cleared_interior _ _ _ _ Hc1 Hpage) as (interior1 & Hpage1 & Hz1).
      rewrite Hpage1.
      destruct (interior1 !! i) as [pointer1|] eqn:Hpointer1; [|discriminate].
      set (pages2 := <[page := _]> pages1).
      assert (Hc2 : cleared pages1 pages2)
        by (apply cleared_zero_pointer; assumption).
      assert (Hc01 : cleared pages0 pages1) by (eapply cleared_trans; eassumption).
      assert (Hc02 : cleared pages0 pages2) by (eapply cleared_trans; eassumption).
      assert (Hall : released_all kInteriorFanout pages0
                       (acc ++ released1 ++ [volatile_pointer_ child_pointer])
                       pointer0).
      { unfold released_all. rewrite <- Hsame. split.
        - apply in_or_app. right. apply in_or_app. right. left. reflexivity.
        - intros id Hb. rewrite app_assoc. apply in_or_app. left.
          exact (Hcomplete1 id Hb). }
      assert (Hcov2 : covered kInteriorFanout pages0 pages2
                        (acc ++ released1 ++ [volatile_pointer_ child_pointer])).
      { unfold pages2.
        exact (covered_zero_pointer _ _ _ _ _ _ _ _ Hcov1 Hpage0 Hpage1 Hpointer0
                 Hpointer1 Hall). }
      intros Hrun.
      destruct (IH (S i) _ _ pages2 batch' pages' Hc02 Hcov2 ltac:(lia) Hrun)
        as (released & -> & Hc & Hcov' & Hrest & Hsound).
      exists (released1 ++ [volatile_pointer_ child_pointer] ++ released).
      rewrite <- ?app_assoc in Hcov', Hrest |- *.
      split; [reflexivity|].
      split.
      { eapply cleared_trans; [|exact Hc].
        eapply cleared_trans; eassumption. }
      split; [exact Hcov'|].
      split.
      * intros j q0 Hj Hq0 Hne.
        destruct (decide (j = i)) as [->|Hji].
        -- rewrite Hpointer0 in Hq0. injection Hq0 as <-.
           pose proof (released_all_more _ released _ Hall) as Hmore.
           rewrite <- ?app_assoc in Hmore. exact Hmore.
        -- apply (Hrest j); [lia|assumption..].
      * intros id Hid. apply in_app_or in Hid as [Hid|Hid];
          [|apply in_app_or in Hid as [[<-|[]]|Hid]; [|exact (Hsound id Hid)]].
        -- apply (below_deeper _ _ page interior0 i pointer0);
             [exact Hpage0|lia|exact Hpointer0|exact Hne0|].
           rewrite <- Hsame. exact (Hsound1 id Hid).
        -- rewrite Hsame.
           apply (below_child _ _ page interior0 i pointer0);
             [exact Hpage0|lia|exact Hpointer0|exact Hne0].
Qed.

Lemma release_pages_recursive_covers (fuel : nat) :
  forall (batch : PageReleaseBatch) (acc : list VolatilePagePointer)
         (page : PageAddr) (volatile_page_id : VolatilePagePointer)
         (pages : gmap PageAddr ArrayPage) (batch' : PageReleaseBatch)
         (pages' : gmap PageAddr ArrayPage),
    cleared pages0 pages ->
    covered kInteriorFanout pages0 pages acc ->
    release_pages_recursive kInteriorFanout fuel batch page volatile_page_id pages
    = Some (batch', pages') ->
    exists released,
      batch' = batch ++ released ++ [volatile_page_id]
      /\ cleared pages pages'
      /\ covered kInteriorFanout pages0 pages' (acc ++ released ++ [volatile_page_id])
      /\ (forall id, below kInteriorFanout pages0 page id -> In id (acc ++ released))
      /\ (forall id, In id released -> below kInteriorFanout pages0 page id).
Proof.
  induction fuel as [|fuel IH]; intros batch acc page id pages batch' pages' Hc0 Hcov;
    [discriminate|].
  cbn [release_pages_recursive].
  destruct (pages !! page) as [[records|interior]|] eqn:Hpage; [| |discriminate].
  - unfold release. intros [= <- <-]. exists []. simpl.
    split; [reflexivity|]. split; [apply cleared_refl|].
    split; [apply covered_more; exact Hcov|].
    split; [|intros x []].
    intros x Hb. specialize (Hc0 page). rewrite Hpage in Hc0.
    inversion Hb as [? ? ? ? Hp|? ? ? ? ? Hp]; subst; rewrite Hp in Hc0;
      simpl in Hc0; contradiction.
  - destruct (cleared_interior_before _ _ _ Hc0 Hpage) as (interior0 & Hpage0 & Hz0).
    destruct (release_children (release_pages_recursive kInteriorFanout fuel) page
                (Z.to_nat kInteriorFanout) 0 batch pages)
      as [[batch1 pages1]|] eqn:Hloop; [|discriminate].
    unfold release. intros [= <- <-].
    destruct (release_children_covers (release_pages_recursive kInteriorFanout fuel)
                page interior0 Hpage0 (fun b a c ci pg b' pg' => IH b a c ci pg b' pg')
                (Z.to_nat kInteriorFanout) 0%nat batch acc pages batch1 pages1
                Hc0 Hcov ltac:(lia) Hloop)
      as (released & -> & Hc & Hcov' & Hall & Hsound).
    exists released. split; [rewrite app_assoc; reflexivity|].
    split; [exact Hc|].
    split; [rewrite app_assoc; apply covered_more; exact Hcov'|].
    split; [|exact Hsound].
    intros x Hb.
    inversion Hb as [? int j q Hp Hj Hq Hne|? int j q ? Hp Hj Hq Hne Hdeep]; subst;
      rewrite Hpage0 in Hp; injection Hp as <-;
      destruct (Hall j q ltac:(lia) Hq Hne) as [Hid Hbelow].
    + exact Hid.
    + exact (Hbelow x Hdeep).
Qed.

Lemma covered_start (pages : gmap PageAddr ArrayPage) :
  pages = pages0 -> covered kInteriorFanout pages0 pages [].
Proof.
  intros -> p interior0 interior j pointer0 pointer H1 H2 _ H4 H5 Hne Hnull.
  rewrite H1 in H2. injection H2 as <-. rewrite H4 in H5. injection H5 as <-.
  contradiction.
Qed.

End Coverage.

(** The release returns on a tree. *)
Lemma release_pages_recursive_returns
    (depth fuel : nat) (batch : PageReleaseBatch) (page : PageAddr)
    (volatile_page_id : VolatilePagePointer) (pages : gmap PageAddr ArrayPage) :
  well_formed kInteriorFanout depth page pages ->
  (depth < fuel)%nat ->
  exists (released : list VolatilePagePointer) (pages' : gmap PageAddr ArrayPage),
    release_pages_recursive kInteriorFanout fuel batch page volatile_page_id pages
    = Some (batch ++ released ++ [volatile_page_id], pages')
    /\ cleared pages pages'
    /\ forall interior (j : nat) pointer,
         pages' !! page = Some (ArrayInterior interior) ->
         (j < Z.to_nat kInteriorFanout)%nat ->
         interior !! j = Some pointer ->
         offset (volatile_pointer_ pointer) = 0.
Proof.
  revert fuel batch page volatile_page_id pages.
  induction depth as [|depth IH]; intros fuel batch page id pages Hwf Hfuel;
    (destruct fuel as [|fuel]; [lia|]).
  - destruct Hwf as [records Hpage]. cbn [release_pages_recursive].
    rewrite Hpage. exists [], pages. split; [reflexivity|].
    split; [apply cleared_refl|].
    intros interior j pointer Hpage'. congruence.
  - pose proof Hwf as (interior & Hpage & _).
    cbn [release_pages_recursive]. rewrite Hpage.
    destruct (release_children_returns
                (release_pages_recursive kInteriorFanout fuel) depth page)
      with (n := Z.to_nat kInteriorFanout) (i := 0%nat) (batch := batch)
           (pages := pages)
      as (released & pages' & Hrun & Hc & Hzero); [|assumption|lia|].
    { intros batch1 child child_id pages1 Hwf1.
      destruct (IH fuel batch1 child child_id pages1 Hwf1 ltac:(lia))
        as (released & pages' & Hrun & Hc & _).
      exists (released ++ [child_id]), pages'. split; assumption. }
    change (Z.of_nat 0) with 0 in Hrun. rewrite Hrun.
    exists released, pages'. unfold release. rewrite app_assoc.
    split; [reflexivity|]. split; [assumption|].
    intros interior' j pointer Hpage' Hj Hpointer.
    eapply Hzero; [eassumption| |eassumption]. lia.
Qed.

(** X20: on an array tree of [depth] levels below [page],
    [release_pages_recursive] returns once its recursion may go deeper than
    [depth].  The batch grows by the ids of the pages below [page], those and
    no others, followed by the id it was given, last; memory differs only in
    volatile pointers of interior pages that it has zeroed; and no pointer of
    [page] leads to a volatile page any more. *)
Theorem release_pages_recursive_clears_tree
    (depth fuel : nat) (batch : PageReleaseBatch) (page : PageAddr)
    (volatile_page_id : VolatilePagePointer) (pages : gmap PageAddr ArrayPage) :
  well_formed kInteriorFanout depth page pages ->
  (depth < fuel)%nat ->
  exists (released : list VolatilePagePointer) (pages' : gmap PageAddr ArrayPage),
    release_pages_recursive kInteriorFanout fuel batch page volatile_page_id pages
    = Some (batch ++ released ++ [volatile_page_id], pages')
    /\ (forall id : VolatilePagePointer,
           In id released <-> below kInteriorFanout pages page id)
    /\ cleared pages pages'
    /\ forall interior (j : nat) pointer,
         pages' !! page = Some (ArrayInterior interior) ->
         (j < Z.to_nat kInteriorFanout)%nat ->
         interior !! j = Some pointer ->
         offset (volatile_pointer_ pointer) = 0.
Proof.
  intros Hwf Hfuel.
  destruct (release_pages_recursive_returns depth fuel batch page volatile_page_id
              pages Hwf Hfuel) as (released & pages' & Hrun & Hc & Hzero).
  exists released, pages'. split; [exact Hrun|]. split; [|split; assumption].
  destruct (release_pages_recursive_covers pages fuel batch [] page volatile_page_id
              pages _ _ (cleared_refl pages) (covered_start pages pages eq_refl) Hrun)
    as (released' & Heq & _ & _ & Hcomplete & Hsound).
  apply app_inv_head in Heq. apply app_inv_tail in Heq. subst released'.
  intros id. split; [apply Hsound|apply Hcomplete].
Qed.

End Release.

Lemma release_pages_recursive_clears_tree_witness :
  exists (released : list VolatilePagePointer) (pages' : gmap PageAddr ArrayPage),
    release_pages_recursive 2 2 [] Scenario.array_interior
      (combine_volatile_page_pointer 0 0 0 10)
      (array_pages (shared Scenario.array_tree_state))
    = Some ([] ++ released ++ [combine_volatile_page_pointer 0 0 0 10], pages')
    /\ (forall id : VolatilePagePointer,
           In id released
           <-> below 2 (array_pages (shared Scenario.array_tree_state))
                 Scenario.array_interior id)
    /\ cleared (array_pages (shared Scenario.array_tree_state)) pages'
    /\ forall interior (j : nat) pointer,
         pages' !! Scenario.array_interior = Some (ArrayInterior interior) ->
         (j < Z.to_nat 2)%nat ->
         interior !! j = Some pointer ->
         offset (volatile_pointer_ pointer) = 0.
Proof.
  apply (release_pages_recursive_clears_tree 2 1 2 [] Scenario.array_interior
           (combine_volatile_page_pointer 0 0 0 10)
           (array_pages (shared Scenario.array_tree_state))).
  - eexists. split; [vm_compute; reflexivity|]. split; [simpl; lia|].
    intros j pointer Hj Hpointer Hoff.
    destruct j as [|[|j]]; [| |simpl in Hj; lia].
    + injection Hpointer as <-. eexists. vm_compute. reflexivity.
    + injection Hpointer as <-. now destruct Hoff.
  - lia.
Defined.

End ArrayReleaseProofs.

(** * reserve_record: the search of the border page *)

Module ReserveSearchProofs.

Import Memory MasstreePageImpl MasstreeStoragePimpl.

Lemma while_true_ext {V R : Type} (body body' : V -> M (Loop V R)) :
  (forall v s, body v s = body' v s) ->
  forall (fuel : nat) (v : V) (s : State),
    while_true fuel body v s = while_true fuel body' v s.
Proof.
  intros Hbody fuel. induction fuel as [|fuel IH]; intros v s; [reflexivity|].
  cbn [while_true]. unfold bind. rewrite Hbody.
  destruct (body' v s) as [[[v'|r] s']|]; [apply IH|reflexivity|reflexivity].
Qed.

Section Search.

Variable env : nat -> Shared -> Shared.
Variable metadata_id_ : Z.
Variable kMaxKeys : Z.
Variable kEpochInitialCurrent : Z.
Variable one_more : XctId.Epoch -> XctId.Epoch.
Variable follow_page_pointer :
  Thread -> bool -> bool -> bool -> bool -> PointerAddr -> M (Res PageAddr).
Variable adopt_from_child :
  Thread -> PageAddr -> KeySlice -> Z -> Z -> Z -> Z -> PageAddr -> M ErrorCode.
Variable can_accomodate : MasstreePage -> Z -> Z -> Z -> bool.
Variable split_foster : Thread -> PageAddr -> KeySlice -> M ErrorCode.

(** Two searches that answer alike whenever they start at slot 0. *)
Variables find_key_for_reserve find_key_for_reserve' :
  MasstreePage -> Z -> Z -> KeySlice -> list byte -> Z -> FindKeyForReserveResult.
Hypothesis from_zero :
  forall page to_index slice suffix remaining,
    find_key_for_reserve page 0 to_index slice suffix remaining
    = find_key_for_reserve' page 0 to_index slice suffix remaining.

Lemma reserve_record_border_body_from_zero
    (fuel : nat) (context : Thread) (layer : Z) (slice : KeySlice)
    (suffix : list byte) (remaining payload_count : Z) (st : PageAddr * Z)
    (s : State) :
  reserve_record_border_body env metadata_id_ kMaxKeys kEpochInitialCurrent one_more
    follow_page_pointer can_accomodate split_foster find_key_for_reserve fuel
    context layer slice suffix remaining payload_count st s
  = reserve_record_border_body env metadata_id_ kMaxKeys kEpochInitialCurrent one_more
      follow_page_pointer can_accomodate split_foster find_key_for_reserve' fuel
      context layer slice suffix remaining payload_count st s.
Proof.
  destruct st as [border version].
  unfold reserve_record_border_body, bind.
  destruct (follows_foster env border version slice s) as [[[|] s1]|];
    [reflexivity| |reflexivity].
  destruct (load_page env border s1) as [[border_page s2]|]; [|reflexivity].
  rewrite Z.eqb_refl. cbn [negb].
  rewrite !from_zero. reflexivity.
Qed.

(** X21: [reserve_record] searches a border page once, from slot 0 up to the
    key count of the stable version it took before the lock.  The search of
    the slots added since, from that count on, never runs: its guard compares
    the count with the key count of the same captured version.  So what
    [reserve_record] does is the same for two searches that agree whenever
    they start at slot 0. *)
Theorem reserve_record_searches_from_zero_only
    (fuel : nat) (context : Thread) (key : list byte)
    (key_length payload_count : Z) (s : State) :
  reserve_record env metadata_id_ kMaxKeys kEpochInitialCurrent one_more
    follow_page_pointer adopt_from_child can_accomodate split_foster
    find_key_for_reserve fuel context key key_length payload_count s
  = reserve_record env metadata_id_ kMaxKeys kEpochInitialCurrent one_more
      follow_page_pointer adopt_from_child can_accomodate split_foster
      find_key_for_reserve' fuel context key key_length payload_count s.
Proof.
  unfold reserve_record, bind.
  destruct (get_first_root env metadata_id_ kMaxKeys fuel context s)
    as [[[[layer_root root_version]|e] s0]|]; [|reflexivity|reflexivity].
  apply while_true_ext.
  clear s s0 layer_root root_version.
  intros [layer layer_root] s.
  unfold reserve_record_body, bind.
  destruct (find_border env follow_page_pointer adopt_from_child fuel context
              layer_root layer true (slice_layer key key_length layer) s)
    as [[[[border version]|e] s1]|]; [|reflexivity|reflexivity].
  rewrite (while_true_ext _ _
             (fun st s => reserve_record_border_body_from_zero fuel context layer _ _ _
                            payload_count st s)).
  reflexivity.
Qed.

End Search.

Lemma reserve_record_searches_from_zero_only_witness :
  reserve_record Scenario.quiet Scenario.metadata_id_ Scenario.kMaxKeys
    Scenario.kEpochInitialCurrent Scenario.one_more
    (Scenario.follow_volatile Scenario.quiet) Scenario.no_adopt
    (fun _ _ _ _ => true) (fun _ _ _ => ret kErrorCodeOk)
    (fun _ _ _ _ _ _ => mkFindKeyForReserveResult 64 kNotFound)
    2 Scenario.context [x00; x00; x00; x00; x00; x00; x30; x39] 8 8
    Scenario.fresh_tree
  = reserve_record Scenario.quiet Scenario.metadata_id_ Scenario.kMaxKeys
      Scenario.kEpochInitialCurrent Scenario.one_more
      (Scenario.follow_volatile Scenario.quiet) Scenario.no_adopt
      (fun _ _ _ _ => true) (fun _ _ _ => ret kErrorCodeOk)
      (fun _ from_index _ _ _ _ =>
         if from_index =? 0 then mkFindKeyForReserveResult 64 kNotFound
         else mkFindKeyForReserveResult 0 kExactMatchLocalRecord)
      2 Scenario.context [x00; x00; x00; x00; x00; x00; x30; x39] 8 8
      Scenario.fresh_tree.
Proof.
  apply (reserve_record_searches_from_zero_only Scenario.quiet Scenario.metadata_id_
           Scenario.kMaxKeys Scenario.kEpochInitialCurrent Scenario.one_more
           (Scenario.follow_volatile Scenario.quiet) Scenario.no_adopt
           (fun _ _ _ _ => true) (fun _ _ _ => ret kErrorCodeOk)
           (fun _ _ _ _ _ _ => mkFindKeyForReserveResult 64 kNotFound)
           (fun _ from_index _ _ _ _ =>
              if from_index =? 0 then mkFindKeyForReserveResult 64 kNotFound
              else mkFindKeyForReserveResult 0 kExactMatchLocalRecord)).
  intros page to_index slice suffix remaining. reflexivity.
Defined.

End ReserveSearchProofs.

(** * Reserving a record for a key of any length *)

Module ReserveGeneralProofs.

Import PageVersion MasstreePageImpl Memory XctImpl MasstreeStoragePimpl.
Import PageVersionFacts MemoryFacts ReadProtocolFacts FrameFacts RootProofs.
Import ReserveNormalizedProofs.

Lemma lock_version_is_high_fence_supremum (data : Z) :
  is_high_fence_supremum (lock_version data) = is_high_fence_supremum data.
Proof.
  unfold lock_version. unfold_flags.
  rewrite has_bit_set_bit by lia.
  rewrite bool_decide_eq_false_2 by lia.
  apply orb_false_r.
Qed.

Section SinglePage.

Variable env : nat -> Shared -> Shared.
Variable metadata_id_ : Z.
Variable kMaxKeys : Z.
Variable kEpochInitialCurrent : Z.
Variable one_more : XctId.Epoch -> XctId.Epoch.
Variable follow_page_pointer :
  Thread -> bool -> bool -> bool -> bool -> PointerAddr -> M (Res PageAddr).
Variable adopt_from_child :
  Thread -> PageAddr -> KeySlice -> Z -> Z -> Z -> Z -> PageAddr -> M ErrorCode.
Variable can_accomodate : MasstreePage -> Z -> Z -> Z -> bool.
Variable split_foster : Thread -> PageAddr -> KeySlice -> M ErrorCode.
Variable find_key_for_reserve :
  MasstreePage -> Z -> Z -> KeySlice -> list byte -> Z -> FindKeyForReserveResult.

Hypothesis env_quiet : forall n sh, env n sh = sh.

(** One run of the loop body of [reserve_record] on an unlocked border page
    without foster child in which the search finds nothing for the key and
    which can take one more record. *)
Lemma reserve_record_border_body_new_key
    (fuel : nat) (context : Thread) (layer : Z) (slice : KeySlice)
    (suffix : list byte) (remaining payload_count : Z)
    (s : State) (root : PageAddr) (pg : MasstreePage) (slots : list BorderSlot) :
  masstree_pages (shared s) !! root = Some pg ->
  is_locked (page_version_ pg) = false ->
  has_foster_child (page_version_ pg) = false ->
  within_fences pg slice = true ->
  body_ pg = BorderBody slots ->
  (Z.to_nat (get_key_count (page_version_ pg)) < length slots)%nat ->
  get_key_count (page_version_ pg) + 1 < 2 ^ kPageVersionKeyCountBits ->
  match_type_ (find_key_for_reserve pg 0 (get_key_count (page_version_ pg)) slice
                 suffix remaining) = kNotFound ->
  can_accomodate (set_page_version pg (lock_version (page_version_ pg)))
    (get_key_count (page_version_ pg)) remaining payload_count = true ->
  exists (s1 : State) (pg1 : MasstreePage),
    reserve_record_border_body env metadata_id_ kMaxKeys kEpochInitialCurrent
      one_more follow_page_pointer can_accomodate split_foster find_key_for_reserve
      (S fuel) context layer slice suffix remaining payload_count
      (root, page_version_ pg) s
    = Some (Return (inl (Ok (root, get_key_count (page_version_ pg)))), s1)
    /\ masstree_pages (shared s1) = <[root := pg1]> (masstree_pages (shared s))
    /\ first_root_pointer_ (shared s1) = first_root_pointer_ (shared s)
    /\ reads_only s s1
    /\ page_version_ pg1
       = unlock_version
           (set_inserting_and_increment_key_count (lock_version (page_version_ pg)))
    /\ body_ pg1
       = BorderBody
           (<[Z.to_nat (get_key_count (page_version_ pg)) :=
                mkBorderSlot slice remaining payload_count
                  (XctId.set_deleted
                     (XctId.set_clean kEpochInitialCurrent 0 (get_thread_id context)))
                  (take (Z.to_nat (remaining - 8)) suffix)
                  (replicate (Z.to_nat payload_count) x00) None]> slots).
Proof.
  intros Hpg Hunlocked Hfoster Hfences Hbody Hcount Hroom Habsent Hfits.
  destruct (lock_version_flags (page_version_ pg)) as (HfL & _ & HsL & _).
  unfold reserve_record_border_body, bind.
  unfold follows_foster. rewrite Hfoster. unfold ret at 1. cbv beta iota.
  rewrite (load_page_quiet env env_quiet root pg s Hpg).
  rewrite Habsent.
  set (s0 := exec (tick env) s).
  assert (Hpg0 : masstree_pages (shared s0) !! root = Some pg).
  { unfold s0. rewrite (proj1 (proj2 (tick_quiet env env_quiet s))). exact Hpg. }
  cbn [lock]. unfold bind.
  rewrite (load_page_quiet env env_quiet root pg s0 Hpg0). rewrite Hunlocked.
  unfold put_page at 1. cbv beta iota.
  set (pgL := set_page_version pg (lock_version (page_version_ pg))).
  fold pgL in Hfits.
  set (u := set_shared (exec (tick env) s0) _).
  assert (HpgL : masstree_pages (shared u) !! root = Some pgL)
    by (apply lookup_insert_eq).
  rewrite (get_page_lookup root pgL u HpgL).
  change (page_version_ pgL) with (lock_version (page_version_ pg)).
  rewrite HsL, Z.eqb_refl.
  assert (HfencesL : within_fences pgL slice = true).
  { unfold within_fences in *. unfold pgL.
    cbn [low_fence_ high_fence_ page_version_ set_page_version].
    rewrite lock_version_is_high_fence_supremum. exact Hfences. }
  rewrite HfencesL, HfL, Hfoster. cbn [negb andb orb]. cbv beta iota.
  rewrite Z.eqb_refl. cbn [negb]. cbv beta iota.
  rewrite Habsent.
  unfold reserve_record_new_record, bind.
  rewrite (get_page_lookup root pgL u HpgL).
  change (page_version_ pgL) with (lock_version (page_version_ pg)).
  rewrite lock_version_key_count, Hfits.
  unfold reserve_record_new_record_apply, bind.
  rewrite (get_page_lookup root pgL u HpgL).
  unfold put_page at 1. unfold ret at 1. cbv beta iota.
  match goal with
  | |- context [unlock root (set_shared u (set_masstree_pages _ (<[root:=?page]> _)))] =>
      set (pgA := page)
  end.
  match goal with
  | |- context [unlock root ?st] => set (u2 := st)
  end.
  assert (HpgA : masstree_pages (shared u2) !! root = Some pgA)
    by (apply lookup_insert_eq).
  rewrite (unlock_lookup root pgA u2 HpgA). unfold ret.
  assert (Hversion : page_version_ pgA
                     = set_inserting_and_increment_key_count
                         (lock_version (page_version_ pg))).
  { unfold pgA, reserve_record_space. rewrite page_version_set_slot. reflexivity. }
  eexists _, (set_page_version pgA (unlock_version (page_version_ pgA))).
  split; [reflexivity|].
  destruct (tick_quiet env env_quiet s) as (_ & Hsh & _).
  destruct (tick_quiet env env_quiet s0) as (_ & Hsh0 & _).
  fold s0 in Hsh.
  split.
  { cbn [shared set_shared masstree_pages set_masstree_pages u2 u].
    rewrite !insert_insert_eq, Hsh0, Hsh. reflexivity. }
  split.
  { cbn [shared set_shared first_root_pointer_ set_masstree_pages u2 u].
    rewrite Hsh0, Hsh. reflexivity. }
  split; [repeat split|].
  split; [cbn [page_version_ set_page_version]; rewrite Hversion; reflexivity|].
  unfold pgA, reserve_record_space, set_slot, pgL. cbn [body_ set_page_version].
  rewrite Hbody. reflexivity.
Qed.

(** X22: reserving a record for a key of any length and looking it up.  In
    a tree of one border page in which neither search finds the key and which
    can take one more record, with no other thread writing, [reserve_record]
    returns the page with the index of its first free slot; [locate_record]
    of the key then finds that slot; and [get_record] returns the not-found
    code, the record being born deleted. *)
Theorem reserve_record_then_lookup
    (fuel : nat) (context reader : Thread) (key : list byte)
    (key_length payload_count : Z) (payload : list byte) (payload_capacity : Z)
    (s : State) (root : PageAddr) (pg : MasstreePage) (slots : list BorderSlot) :
  let remaining := to_uint8 (key_length - 0 * 8) in
  let slice := slice_layer key key_length 0 in
  let suffix := drop (Z.to_nat ((0 + 1) * 8)) key in
  resolve_offset (volatile_pointer_ (first_root_pointer_ (shared s))) = root ->
  masstree_pages (shared s) !! root = Some pg ->
  is_locked (page_version_ pg) = false ->
  has_foster_child (page_version_ pg) = false ->
  is_border (page_version_ pg) = true ->
  within_fences pg slice = true ->
  body_ pg = BorderBody slots ->
  (Z.to_nat (get_key_count (page_version_ pg)) < length slots)%nat ->
  get_key_count (page_version_ pg) + 1 < 2 ^ kPageVersionKeyCountBits ->
  get_key_count (page_version_ pg) < kMaxKeys ->
  match_type_ (find_key_for_reserve pg 0 (get_key_count (page_version_ pg)) slice
                 suffix remaining) = kNotFound ->
  find_key kMaxKeys pg (get_key_count (page_version_ pg)) slice suffix remaining
  = kMaxKeys ->
  can_accomodate (set_page_version pg (lock_version (page_version_ pg)))
    (get_key_count (page_version_ pg)) remaining payload_count = true ->
  (S (length (pointer_set_ (current_xct s)))
   < max_pointer_set_size_ (current_xct s))%nat ->
  exists (s1 s2 s3 : State),
    reserve_record env metadata_id_ kMaxKeys kEpochInitialCurrent one_more
      follow_page_pointer adopt_from_child can_accomodate split_foster
      find_key_for_reserve (S (S fuel)) context key key_length payload_count s
    = Some (Ok (root, get_key_count (page_version_ pg)), s1)
    /\ locate_record env metadata_id_ kMaxKeys follow_page_pointer adopt_from_child
         (S (S fuel)) reader key key_length false s1
       = Some (Ok (root, get_key_count (page_version_ pg)), s2)
    /\ get_record env metadata_id_ kMaxKeys follow_page_pointer adopt_from_child
         (S (S fuel)) reader key key_length payload payload_capacity s1
       = Some ((kErrorCodeStrKeyNotFound, (payload, payload_capacity)), s3).
Proof.
  intros remaining slice suffix Hroot Hpg Hunlocked Hfoster Hborder Hfences Hbody
    Hcount Hroom Hmax Hnone Habsent Hfits Hset.
  set (count := get_key_count (page_version_ pg)) in *.
  pose proof (get_key_count_range (page_version_ pg)) as Hrange. fold count in Hrange.
  (* the reservation *)
  destruct (get_first_root_single_page env metadata_id_ kMaxKeys env_quiet fuel
              context s root pg Hroot Hpg Hunlocked Hfoster ltac:(lia))
    as (t & Hfirst & Ht & _ & _ & Hxt).
  destruct (find_border_single_page env follow_page_pointer adopt_from_child
              env_quiet (S fuel) context 0 true slice t root pg
              ltac:(rewrite Ht; exact Hpg) Hunlocked Hfoster Hborder)
    as (t' & Hfind & Ht' & (_ & Hxt' & _)).
  destruct (reserve_record_border_body_new_key (S fuel) context 0 slice suffix
              remaining payload_count t' root pg slots
              ltac:(rewrite Ht', Ht; exact Hpg) Hunlocked Hfoster Hfences Hbody
              Hcount Hroom Hnone Hfits)
    as (s1 & pg1 & Hbody_run & Hpages & Hpointer & (_ & Hx1 & _) & Hversion & Hbody1).
  assert (Hreserve :
            reserve_record env metadata_id_ kMaxKeys kEpochInitialCurrent one_more
              follow_page_pointer adopt_from_child can_accomodate split_foster
              find_key_for_reserve (S (S fuel)) context key key_length payload_count s
            = Some (Ok (root, count), s1)).
  { unfold reserve_record, bind. rewrite Hfirst.
    cbn [while_true]. unfold bind. unfold reserve_record_body at 1. unfold bind.
    fold slice. fold suffix. fold remaining. rewrite Hfind.
    cbn [while_true]. unfold bind. fold count in Hbody_run. rewrite Hbody_run.
    reflexivity. }
  (* the page the reservation leaves *)
  set (slot := mkBorderSlot slice remaining payload_count
                 (XctId.set_deleted
                    (XctId.set_clean kEpochInitialCurrent 0 (get_thread_id context)))
                 (take (Z.to_nat (remaining - 8)) suffix)
                 (replicate (Z.to_nat payload_count) x00) None) in *.
  destruct (lock_version_flags (page_version_ pg)) as (HfL & HbL & _ & _).
  destruct (set_inserting_and_increment_key_count_flags
              (lock_version (page_version_ pg))) as (HfI & HbI).
  assert (Hpg1 : masstree_pages (shared s1) !! root = Some pg1)
    by (rewrite Hpages; apply lookup_insert_eq).
  assert (Hunlocked1 : is_locked (page_version_ pg1) = false)
    by (rewrite Hversion; apply unlock_version_not_locked).
  assert (Hfoster1 : has_foster_child (page_version_ pg1) = false)
    by (rewrite Hversion, unlock_version_has_foster_child, HfI, HfL; exact Hfoster).
  assert (Hborder1 : is_border (page_version_ pg1) = true)
    by (rewrite Hversion, unlock_version_is_border, HbI, HbL; exact Hborder).
  assert (Hcount1 : get_key_count (page_version_ pg1) = count + 1).
  { rewrite Hversion, unlock_version_key_count.
    rewrite set_inserting_and_increment_key_count_key_count;
      rewrite lock_version_key_count; [reflexivity|exact Hroom]. }
  assert (Hslot1 : get_slot pg1 count = Some slot).
  { unfold get_slot. rewrite Hbody1. apply list_lookup_insert_eq. exact Hcount. }
  assert (Hindex :
            find_key kMaxKeys pg1 (get_key_count (page_version_ pg1)) slice suffix
              remaining = count).
  { rewrite Hcount1. unfold find_key. rewrite Hbody1.
    replace (Z.to_nat (count + 1)) with (S (Z.to_nat count)) by lia.
    fold count.
    rewrite (scan_slots_after_append kMaxKeys slice suffix remaining slot
               (Z.to_nat count) slots 0 Hcount).
    - lia.
    - lia.
    - unfold find_key in Habsent. rewrite Hbody in Habsent. exact Habsent.
    - unfold slot_matches, slot. simpl. rewrite !Z.eqb_refl.
      rewrite (proj2 (HashSearchProofs.bytes_eqb_eq _ _) eq_refl).
      rewrite orb_true_r. reflexivity. }
  destruct (locate_record_single_page env metadata_id_ kMaxKeys follow_page_pointer
              adopt_from_child env_quiet fuel reader key key_length false s1 root pg1)
    as (s2 & Hs2 & _ & _ & _ & _ & Hfound).
  { rewrite Hpointer, Ht', Ht. exact Hroot. }
  { exact Hpg1. }
  { exact Hunlocked1. }
  { exact Hfoster1. }
  { exact Hborder1. }
  { rewrite Hx1, Hxt', Hxt. simpl. rewrite length_app. simpl. lia. }
  fold slice suffix remaining in Hfound.
  rewrite Hindex in Hfound.
  specialize (Hfound ltac:(lia) slot Hslot1 eq_refl).
  exists s1, (exec (tick env) s2). eexists.
  split; [exact Hreserve|]. split; [exact Hfound|].
  (* the read *)
  unfold get_record, bind. rewrite Hfound.
  set (r0 := exec (tick env) s2).
  assert (Hr0 : masstree_pages (shared r0) !! root = Some pg1).
  { unfold r0. rewrite (proj1 (proj2 (tick_quiet env env_quiet s2))), Hs2.
    exact Hpg1. }
  unfold retrieve_general, bind.
  rewrite (load_page_quiet env env_quiet root pg1 r0 Hr0).
  set (r1 := exec (tick env) r0).
  assert (Hr1 : masstree_pages (shared r1) !! root = Some pg1).
  { unfold r1. rewrite (proj1 (proj2 (tick_quiet env env_quiet r0))). exact Hr0. }
  cbn [optimistic_read_protocol load_owner_id]. unfold bind.
  rewrite (load_slot_quiet env env_quiet root pg1 count slot r1 Hr1 Hslot1).
  set (r2 := exec (tick env) r1).
  assert (Hr2 : masstree_pages (shared r2) !! root = Some pg1).
  { unfold r2. rewrite (proj1 (proj2 (tick_quiet env env_quiet r1))). exact Hr1. }
  unfold ret at 1. cbv beta iota.
  change (XctId.is_keylocked (owner_id_ slot)) with false.
  change (XctId.is_moved (owner_id_ slot)) with false. cbv beta iota.
  unfold retrieve_general_handler, bind.
  rewrite (load_slot_quiet env env_quiet root pg1 count slot r2 Hr2 Hslot1).
  change (does_point_to_layer slot) with false.
  change (XctId.is_deleted (owner_id_ slot)) with true. cbv beta iota.
  unfold ret at 1. cbv beta iota.
  destruct (decide (kErrorCodeStrKeyNotFound = kErrorCodeOk)); [discriminate|].
  reflexivity.
Qed.

End SinglePage.

(** A key of twelve bytes reserved in the fresh tree. *)
Lemma reserve_record_then_lookup_witness :
  exists (s1 s2 s3 : State),
    reserve_record Scenario.quiet Scenario.metadata_id_ Scenario.kMaxKeys
      Scenario.kEpochInitialCurrent Scenario.one_more
      (Scenario.follow_volatile Scenario.quiet) Scenario.no_adopt
      (fun _ _ _ _ => true) (fun _ _ _ => ret kErrorCodeOk)
      (fun page _ count slice suffix remaining =>
         let index := find_key Scenario.kMaxKeys page count slice suffix remaining in
         mkFindKeyForReserveResult index
           (if index =? Scenario.kMaxKeys then kNotFound else kExactMatchLocalRecord))
      2 Scenario.context
      [x00; x00; x00; x00; x00; x00; x30; x39; x61; x62; x63; x64] 12 8
      Scenario.fresh_tree
    = Some (Ok (Scenario.root, 0), s1)
    /\ locate_record Scenario.quiet Scenario.metadata_id_ Scenario.kMaxKeys
         (Scenario.follow_volatile Scenario.quiet) Scenario.no_adopt 2
         Scenario.context
         [x00; x00; x00; x00; x00; x00; x30; x39; x61; x62; x63; x64] 12 false s1
       = Some (Ok (Scenario.root, 0), s2)
    /\ get_record Scenario.quiet Scenario.metadata_id_ Scenario.kMaxKeys
         (Scenario.follow_volatile Scenario.quiet) Scenario.no_adopt 2
         Scenario.context
         [x00; x00; x00; x00; x00; x00; x30; x39; x61; x62; x63; x64] 12
         (replicate 8 x00) 8 s1
       = Some ((kErrorCodeStrKeyNotFound, (replicate 8 x00, 8)), s3).
Proof.
  apply (reserve_record_then_lookup Scenario.quiet Scenario.metadata_id_
           Scenario.kMaxKeys Scenario.kEpochInitialCurrent Scenario.one_more
           (Scenario.follow_volatile Scenario.quiet) Scenario.no_adopt
           (fun _ _ _ _ => true) (fun _ _ _ => ret kErrorCodeOk)
           (fun page _ count slice suffix remaining =>
              let index :=
                find_key Scenario.kMaxKeys page count slice suffix remaining in
              mkFindKeyForReserveResult index
                (if index =? Scenario.kMaxKeys then kNotFound
                 else kExactMatchLocalRecord))
           (fun n sh => eq_refl)
           0 Scenario.context Scenario.context
           [x00; x00; x00; x00; x00; x00; x30; x39; x61; x62; x63; x64] 12 8
           (replicate 8 x00) 8
           Scenario.fresh_tree Scenario.root
           (Scenario.page_at Scenario.fresh_tree Scenario.root)
           (replicate 64 empty_slot)).
  all: try (vm_compute; reflexivity).
  - vm_compute. lia.
  - vm_compute. lia.
Defined.

End ReserveGeneralProofs.
